(** * ClutchGear backend: job lifecycle, billing, payments and stock ledger

    A shallow embedding of the job-card engine
    ([src/models/jobcard.model.js], [src/controllers/jobcard.controller.js]),
    the payment ledger ([src/models/payment.model.js],
    [src/controllers/payment.controller.js]) and the stock engine (the
    inventory controller, the inventory model and the inventory-transaction
    model), followed by the properties proved about them.

    Conventions of the embedding.
    - A stored amount of money is the rational ([Q]) that its double
      denotes, and the job-card and payment engines add, subtract and
      compare amounts exactly.  The two places where the program rounds or
      tests a difference of doubles are embedded on binary64: the figures
      that [calculateBilling] stores ([Binary64.calculateBilling], on which
      the properties of those figures are stated) and the balance test of
      [createPayment] ([PaymentLedger.exceedsBalance]).
    - Stock levels are integers ([Z]).  A quantity of a request passes an
      [isInt] rule of [inventory.validator.js], which accepts a number
      and a numeric string alike and converts neither.  Where the handler
      subtracts, multiplies or compares, the quantity is the integer it
      denotes; where the handler adds ([addStock], [returnFromInvoice]),
      it is kept as the number or the string it came as ([Js.Value]).
    - A MongoDB collection looked up by [_id] is a [gmap]; a collection that
      is queried or appended to in order (payments, ledger entries) is a list.
    - [new Date()] is a clock value passed to the handler.
    - Push and SMS notifications and the low-stock alerts are wrapped in
      [try]/[catch] by the source, touch no collection and are left out.
    - The date-scoped number of a ledger entry is kept, with its unique
      index.  The document numbers of job cards, uploads, populated
      references and the descriptive fields of a spare part play no part
      in the properties below and are not modelled.
    - A session follows the MongoDB Node driver: [abortTransaction()] on a
      transaction that was already aborted is rejected with a
      [MongoTransactionError]; a query issued without the session reads
      the committed data. *)

From Stdlib Require Import ZArith QArith Qround Qminmax Lia Lqa List Bool String.
From Stdlib Require PrimFloat SpecFloat FloatOps Ascii DecimalString.
From stdpp Require Import base option list gmap fin_maps strings pretty sorting.

Local Open Scope Z_scope.

(* ===================================================================== *)
(** * JavaScript numbers and rounding *)
(* ===================================================================== *)

(** The exact reading of the numeric helpers, on rationals; the
    evaluation on doubles follows in [Binary64]. *)

Module Num.

(** [Number.EPSILON], the gap between 1 and the next double: 2^-52. *)
Definition EPSILON : Q := 1 # 4503599627370496.

(** [Math.max(a, b)]. *)
Definition Math_max (a b : Q) : Q := if Qle_bool a b then b else a.

(** [Math.min(a, b)]. *)
Definition Math_min (a b : Q) : Q := if Qle_bool a b then a else b.

(** [Math.round(x)]: the nearest integer, ties towards plus infinity. *)
Definition Math_round (x : Q) : Z := Qfloor (x + (1 # 2)).

(** [const round2 = (n) => Math.round((n + Number.EPSILON) * 100) / 100]. *)
Definition round2 (n : Q) : Q :=
  inject_Z (Math_round ((n + EPSILON) * 100)) / 100.

(** [a > b] on numbers, as a boolean. *)
Definition gtb (a b : Q) : bool := negb (Qle_bool a b).

(** JavaScript truthiness of a number: zero is falsy. *)
Definition truthy (a : Q) : bool := negb (Qeq_bool a 0).

End Num.

(** ** The arithmetic of the program: binary64

    A JavaScript [Number] is an IEEE 754 double.  The figures that
    [calculateBilling] stores and the balance test of [createPayment] are
    evaluated here on binary64, operation by operation as the source
    writes them. *)

Module Binary64.
Import PrimFloat SpecFloat FloatOps.
Local Open Scope float_scope.

(** [Number.EPSILON]. *)
Definition EPSILON : float := 0x1p-52.

Definition isNaN (x : float) : bool := negb (x =? x).

(** [Number.isFinite(x)] on a number. *)
Definition isFinite (x : float) : bool := abs x <? infinity.

(** [x || 0] on a number: 0, -0 and NaN are falsy. *)
Definition orZero (x : float) : float :=
  if (x =? 0) || isNaN x then 0 else x.

(** [Math.max(a, b)]: NaN when either argument is NaN, and +0 is larger
    than -0. *)
Definition Math_max (a b : float) : float :=
  if isNaN a || isNaN b then nan
  else if a <? b then b
  else if b <? a then a
  else if (a =? 0) && (1 / a <? 0) then b else a.

(** The integer that [Math.round] picks for a finite double: the nearest
    one, a tie going up, that is floor(x + 1/2) computed exactly on the
    mantissa and the exponent; with it, the sign of the argument. *)
Definition nearestInteger (x : float) : option (bool * Z) :=
  match Prim2SF x with
  | S754_zero s => Some (s, 0%Z)
  | S754_finite s m e =>
      let v := if s then Z.neg m else Z.pos m in
      Some (s, if (0 <=? e)%Z then (v * 2 ^ e)%Z
               else ((2 * v + 2 ^ (- e)) / 2 ^ (1 - e))%Z)
  | _ => None
  end.

(** The double nearest to the integer [k]; zero takes the given sign. *)
Definition ofInteger (negativeZero : bool) (k : Z) : float :=
  SF2Prim (binary_normalize prec emax k 0 negativeZero).

(** [Math.round(x)]; NaN and the infinities are returned as they are. *)
Definition Math_round (x : float) : float :=
  match nearestInteger x with
  | Some (s, k) => ofInteger s k
  | None => x
  end.

(** [const round2 = (n) => Math.round((n + Number.EPSILON) * 100) / 100]. *)
Definition round2 (n : float) : float :=
  Math_round ((n + EPSILON) * 100) / 100.

(** What [calculateBilling] reads of a job item. *)
Record Item := mkItem {
  total : float;
  isApproved : bool
}.

(** The three figures that [calculateBilling] stores. *)
Record Figures := mkFigures {
  subtotal : float;
  taxAmount : float;
  grandTotal : float
}.

(** [jobCardSchema.methods.calculateBilling] on what it reads: the job
    items, [billing.discount] and [billing.taxRate]. *)
Definition calculateBilling (onlyApproved : bool) (items : list Item)
    (discount taxRate : float) : Figures :=
  let usedItems :=
    if onlyApproved then List.filter isApproved items else items in
  let subtotal' :=
    fold_left (fun sum item => sum + orZero (total item)) usedItems 0 in
  let discount' := Math_max 0 (orZero discount) in
  let afterDiscount := Math_max 0 (subtotal' - discount') in
  let taxRate' := if isFinite taxRate then taxRate else 0 in
  let taxAmount' := (afterDiscount * taxRate') / 100 in
  let grandTotal' := afterDiscount + taxAmount' in
  mkFigures (round2 subtotal')
            (round2 (Math_max 0 taxAmount'))
            (round2 (Math_max 0 grandTotal')).

(** The exact value of a finite double. *)
Definition valueOf (x : float) : option Q :=
  match Prim2SF x with
  | S754_zero _ => Some 0%Q
  | S754_finite s m e =>
      let v := if s then Z.neg m else Z.pos m in
      Some (if (0 <=? e)%Z then inject_Z (v * 2 ^ e)
            else (v # Z.to_pos (2 ^ (- e)))%Q)
  | _ => None
  end.

(** The double that a decimal literal or a stored amount [q] denotes: the
    one nearest to [q] (numerator and denominator below 2^53). *)
Definition ofQ (q : Q) : float :=
  ofInteger false (Qnum q) / ofInteger false (Zpos (Qden q)).

End Binary64.

(* ===================================================================== *)
(** * Data model *)
(* ===================================================================== *)

(** Document ids, user ids and clock values. *)
Definition Id := positive.
Definition UserId := positive.
Definition Date := nat.

(** ** Job cards ([jobcard.model.js]) *)

Inductive ItemType := labour | part | consumable | external.

Inductive JobStatus :=
| created | inspection | awaiting_approval | approved | in_progress
| quality_check | ready | delivered | cancelled.

#[global] Instance JobStatus_eq_dec : EqDecision JobStatus.
Proof. solve_decision. Defined.

Record JobItem := mkJobItem {
  item_id : Id;
  item_type : ItemType;
  item_description : string;
  item_quantity : Q;
  item_unitPrice : Q;
  item_discount : Q;
  item_total : Q;
  item_isApproved : bool;
  item_approvedAt : option Date
}.

Record StatusEntry := mkStatusEntry {
  se_status : JobStatus;
  se_changedAt : Date;
  se_changedBy : UserId;
  se_notes : string
}.

Record Billing := mkBilling {
  subtotal : Q;
  discount : Q;
  discountReason : option string;
  taxRate : Q;
  taxAmount : Q;
  grandTotal : Q
}.

Record JobCard := mkJobCard {
  jobNumber : string;
  customer : UserId;
  odometerReading : option Q;
  fuelLevel : option string;
  diagnostics : option string;
  assignedMechanics : list string;
  assignedMechanicUserIds : list UserId;
  jobItems : list JobItem;
  status : JobStatus;
  statusHistory : list StatusEntry;
  estimatedCompletion : option Date;
  actualCompletion : option Date;
  deliveredAt : option Date;
  billing : Billing;
  notes : option string
}.

Definition set_billing (b : Billing) (jc : JobCard) : JobCard :=
  mkJobCard (jobNumber jc) (customer jc) (odometerReading jc) (fuelLevel jc)
    (diagnostics jc) (assignedMechanics jc) (assignedMechanicUserIds jc)
    (jobItems jc) (status jc) (statusHistory jc) (estimatedCompletion jc)
    (actualCompletion jc) (deliveredAt jc) b (notes jc).

Definition set_jobItems (items : list JobItem) (jc : JobCard) : JobCard :=
  mkJobCard (jobNumber jc) (customer jc) (odometerReading jc) (fuelLevel jc)
    (diagnostics jc) (assignedMechanics jc) (assignedMechanicUserIds jc)
    items (status jc) (statusHistory jc) (estimatedCompletion jc)
    (actualCompletion jc) (deliveredAt jc) (billing jc) (notes jc).

Module JobCardModel.
Import Num.

(** [jobCardSchema.methods.calculateBilling] on the document: the method
    reads [this.jobItems] and [this.billing.{discount,taxRate}] and
    overwrites the three derived fields.  This is its exact reading, used
    where a property depends on which fields are read and written;
    [Number(x || 0)] and the [Number.isFinite] test are the identity on
    the rationals.  The program evaluates the same expressions on doubles:
    [Binary64.calculateBilling] is that evaluation, and the two differ
    when an unrounded figure lies within the rounding error of half a
    hundredth. *)
Definition calculateBilling (onlyApproved : bool) (jc : JobCard) : JobCard :=
  let items := jobItems jc in
  let usedItems :=
    if onlyApproved then List.filter item_isApproved items else items in
  let subtotal' :=
    fold_left (fun sum item => (sum + item_total item)%Q) usedItems 0%Q in
  let discount' := Math_max 0 (discount (billing jc)) in
  let afterDiscount := Math_max 0 (subtotal' - discount')%Q in
  let taxRate' := taxRate (billing jc) in
  let taxAmount' := ((afterDiscount * taxRate') / 100)%Q in
  let grandTotal' := (afterDiscount + taxAmount')%Q in
  set_billing
    (mkBilling (round2 subtotal')
               (discount (billing jc))
               (discountReason (billing jc))
               (taxRate (billing jc))
               (round2 (Math_max 0 taxAmount'))
               (round2 (Math_max 0 grandTotal')))
    jc.

(** [jobCardSchema.methods.updateStatus], without its final [save()]
    (the caller persists the document). *)
Definition updateStatus (newStatus : JobStatus) (userId : UserId)
    (note : string) (now : Date) (jc : JobCard) : JobCard :=
  let completion1 :=
    if decide (newStatus = ready) then
      match actualCompletion jc with None => Some now | c => c end
    else actualCompletion jc in
  let deliveredAt' :=
    if decide (newStatus = delivered) then
      match deliveredAt jc with None => Some now | d => d end
    else deliveredAt jc in
  let completion2 :=
    if decide (newStatus = delivered) then
      match completion1 with None => Some now | c => c end
    else completion1 in
  mkJobCard (jobNumber jc) (customer jc) (odometerReading jc) (fuelLevel jc)
    (diagnostics jc) (assignedMechanics jc) (assignedMechanicUserIds jc)
    (jobItems jc) newStatus
    (statusHistory jc ++ [mkStatusEntry newStatus now userId note])
    (estimatedCompletion jc) completion2 deliveredAt' (billing jc)
    (notes jc).

End JobCardModel.

(** ** Payments ([payment.model.js]) *)

Inductive PaymentType := advance | partial | full | refund.
Inductive PaymentMethod := cash | card | upi | netbanking | wallet | cheque | other.
Inductive PaymentStatus := pending | completed | failed | refunded.

#[global] Instance PaymentType_eq_dec : EqDecision PaymentType.
Proof. solve_decision. Defined.
#[global] Instance PaymentStatus_eq_dec : EqDecision PaymentStatus.
Proof. solve_decision. Defined.

Record TransactionDetails := mkTransactionDetails {
  gateway : option string;
  orderId : option string;
  signature : option string;
  bankReference : option string
}.

(** [checkout: { token, expiresAt }]: the hosted-checkout token and its expiry. *)
Record Checkout := mkCheckout {
  token : option string;
  expiresAt : option Date
}.

Record RefundDetails := mkRefundDetails {
  refundedAmount : Q;
  refundedAt : Date;
  reason : string;
  refundedBy : UserId
}.

Record Payment := mkPayment {
  pay_id : Id;
  paymentNumber : string;
  pay_jobCard : Id;
  pay_customer : UserId;
  amount : Q;
  paymentType : PaymentType;
  paymentMethod : PaymentMethod;
  pay_status : PaymentStatus;
  transactionId : option string;
  transactionDetails : option TransactionDetails;
  checkout : option Checkout;
  receivedBy : option UserId;
  pay_notes : option string;
  refundDetails : option RefundDetails;
  pay_createdAt : Date
}.

(** ** Inventory ([inventory.model.js]) and its ledger (the
    inventory-transaction model) *)

Record Inventory := mkInventory {
  name : string;
  currentStock : Z;
  minStock : Z;
  maxStock : Z;
  costPrice : Q;
  sellingPrice : Q;
  isActive : bool;
  lastRestocked : option Date;
  lastUsed : option Date
}.

Inductive TransactionType :=
| purchase | sale | return_ | adjustment | damage | transfer.

Inductive ReferenceType := ref_jobcard | ref_purchase | ref_manual.

(** [reference: { type, id, number }]. *)
Record Reference := mkReference {
  ref_type : ReferenceType;
  ref_id : option Id;
  ref_number : option string
}.

(** The object literal handed to [InventoryTransaction.create], its
    [Number] paths already cast. *)
Record NewTransaction := mkNewTransaction {
  nt_inventory : Id;
  nt_type : TransactionType;
  nt_quantity : Z;
  nt_previousStock : Z;
  nt_newStock : Z;
  nt_unitPrice : option Q;
  nt_totalAmount : option Q;
  nt_reference : option Reference;
  nt_performedBy : UserId;
  nt_notes : option string
}.

(** [transactionNumber], which the schema declares [unique]: the text
    [INV<yyyymmdd><nnnn>] that the [pre("save")] hook writes, kept as
    the day and the number. *)
Definition TransactionNumber : Type := nat * nat.

(** A stored ledger entry: the literal, the number given by the hook and
    the [createdAt] of [timestamps: true]. *)
Record InventoryTransaction := mkInventoryTransaction {
  tx_transactionNumber : TransactionNumber;
  tx_inventory : Id;
  tx_type : TransactionType;
  tx_quantity : Z;
  tx_previousStock : Z;
  tx_newStock : Z;
  tx_unitPrice : option Q;
  tx_totalAmount : option Q;
  tx_reference : option Reference;
  tx_performedBy : UserId;
  tx_notes : option string;
  tx_createdAt : Date
}.

(** ** The database: the four collections the engine reads and writes. *)

Record DB := mkDB {
  jobCards : gmap Id JobCard;
  payments : list Payment;
  inventory : gmap Id Inventory;
  transactions : list InventoryTransaction
}.

Definition emptyDB : DB := mkDB ∅ [] ∅ [].

Definition set_jobCards (m : gmap Id JobCard) (db : DB) : DB :=
  mkDB m (payments db) (inventory db) (transactions db).

Definition set_payments (l : list Payment) (db : DB) : DB :=
  mkDB (jobCards db) l (inventory db) (transactions db).

Definition set_inventory (m : gmap Id Inventory) (db : DB) : DB :=
  mkDB (jobCards db) (payments db) m (transactions db).

Definition set_transactions (l : list InventoryTransaction) (db : DB) : DB :=
  mkDB (jobCards db) (payments db) (inventory db) l.

(* ===================================================================== *)
(** * Errors and responses ([utils/apiError.js], the response helper) *)
(* ===================================================================== *)

(** One entry of the [errors] array that [deductForInvoice] collects.  The
    interpolated message [Insufficient stock. Available: a, Required: r]
    is kept as its two numbers. *)
Inductive LineErrorKind :=
| Part_not_found
| Insufficient_stock (available required : Z).

Record LineError := mkLineError {
  le_partId : Id;
  le_partName : option string;
  le_error : LineErrorKind
}.

(** [ApiError.notFound], [ApiError.badRequest(message, errors)],
    [ApiError.forbidden]; [ApiError.conflict], which the error middleware
    answers for the duplicate-key error (code 11000) of a unique index; a
    Mongoose [ValidationError] raised by a schema rule or a failed cast on
    [save]/[create]; a [MongoTransactionError] raised by the driver's
    session; and a write the database did not acknowledge. *)
Inductive ApiError :=
| notFound (message : string)
| badRequest (message : string) (errors : list LineError)
| forbidden (message : string)
| conflict (message : string)
| ValidationError (path : string)
| MongoTransactionError (message : string)
| StoreError.

Inductive Response (A : Type) :=
| Success (message : string) (data : A)
| Failure (e : ApiError).

Arguments Success {A} message data.
Arguments Failure {A} e.

Definition isSuccess {A} (r : Response A) : bool :=
  match r with Success _ _ => true | Failure _ => false end.

Definition isFailure {A} (r : Response A) : bool := negb (isSuccess r).

(** A request handler: the database before, the database after and the
    response sent. *)
Definition Handler (A : Type) := DB -> DB * Response A.

(* ===================================================================== *)
(** * Payment model statics ([payment.model.js]) *)
(* ===================================================================== *)

Module PaymentModel.

(** [Payment.find({ jobCard: jobCardId, status: "completed" })]. *)
Definition findCompleted (jobCardId : Id) (ps : list Payment) : list Payment :=
  List.filter
    (fun p => bool_decide (pay_jobCard p = jobCardId)
              && bool_decide (pay_status p = completed))
    ps.

(** [paymentSchema.statics.getJobCardPayments]: the completed payments of
    the job card, their signed total (refunds subtract) and their count. *)
Definition getJobCardPayments (jobCardId : Id) (ps : list Payment)
  : list Payment * Q * nat :=
  let found := findCompleted jobCardId ps in
  let totalPaid :=
    fold_left
      (fun sum p =>
         if decide (paymentType p = refund) then (sum - amount p)%Q
         else (sum + amount p)%Q)
      found 0%Q in
  (found, totalPaid, length found).

Definition totalPaid (jobCardId : Id) (ps : list Payment) : Q :=
  snd (fst (getJobCardPayments jobCardId ps)).

End PaymentModel.

(* ===================================================================== *)
(** * Job card controller ([jobcard.controller.js]) *)
(* ===================================================================== *)

Module JobCardController.
Import Num JobCardModel PaymentModel.

(** The status strings of the schema's [enum]. *)
Definition statusName (s : JobStatus) : string :=
  match s with
  | created => "created" | inspection => "inspection"
  | awaiting_approval => "awaiting-approval" | approved => "approved"
  | in_progress => "in-progress" | quality_check => "quality-check"
  | ready => "ready" | delivered => "delivered" | cancelled => "cancelled"
  end.

(** Body of [PUT /admin/jobcards/:id]. *)
Record UpdateJobCardBody := mkUpdateJobCardBody {
  ub_status : option JobStatus;
  ub_odometerReading : option Q;
  ub_fuelLevel : option string;
  ub_diagnostics : option string;
  ub_assignedMechanics : option (list string);
  ub_estimatedCompletion : option Date;
  ub_notes : option string
}.

(** Body of [PATCH /mechanic/jobcards/:id/status]. *)
Record MechanicStatusBody := mkMechanicStatusBody {
  mb_status : JobStatus;
  mb_notes : option string
}.

(** Body of [POST /admin/jobcards/:id/items]. *)
Record AddJobItemBody := mkAddJobItemBody {
  ab_type : ItemType;
  ab_description : string;
  ab_quantity : option Q;
  ab_unitPrice : Q;
  ab_discount : option Q
}.

Definition truthyNumber (o : option Q) : option Q :=
  match o with Some q => if truthy q then Some q else None | None => None end.

Definition truthyString (o : option string) : option string :=
  match o with Some s => if String.eqb s "" then None else Some s | None => None end.

(** The block of [if (field) jobCard.field = field] assignments. *)
Definition applyFields (b : UpdateJobCardBody) (jc : JobCard) : JobCard :=
  mkJobCard (jobNumber jc) (customer jc)
    (match truthyNumber (ub_odometerReading b) with
     | Some q => Some q | None => odometerReading jc end)
    (match truthyString (ub_fuelLevel b) with
     | Some s => Some s | None => fuelLevel jc end)
    (match ub_diagnostics b with Some d => Some d | None => diagnostics jc end)
    (match ub_assignedMechanics b with
     | Some l => l | None => assignedMechanics jc end)
    (assignedMechanicUserIds jc) (jobItems jc) (status jc) (statusHistory jc)
    (match ub_estimatedCompletion b with
     | Some d => Some d | None => estimatedCompletion jc end)
    (actualCompletion jc) (deliveredAt jc) (billing jc)
    (match truthyString (ub_notes b) with
     | Some s => Some s | None => notes jc end).

(** The schema rule [odometerReading: { min: 0 }], checked by
    [jobCard.save()] when the path was modified. *)
Definition validateModified (modifiedOdometer : option Q) : option ApiError :=
  match modifiedOdometer with
  | Some q =>
      if Qle_bool 0 q then None else Some (ValidationError "odometerReading")
  | None => None
  end.

Definition store (id : Id) (jc : JobCard) (db : DB) : DB :=
  set_jobCards (<[id := jc]> (jobCards db)) db.

(** The delivery gate shared by the admin and the mechanic handler:
    [None] when the change to [delivered] may proceed, the error otherwise.
    The balance is compared on the exact amounts. *)
Definition deliveryGate (id : Id) (jc : JobCard) (db : DB) : option ApiError :=
  if decide (status jc <> ready) then
    Some (badRequest
            "Job card must be marked ready before it can be delivered" [])
  else
    let totalPaid := totalPaid id (payments db) in
    let grandTotal := grandTotal (billing jc) in
    let balanceDue := Math_max 0 (grandTotal - totalPaid)%Q in
    if gtb balanceDue (1 # 100) then
      Some (badRequest
              "Cannot mark delivered until payment is completed" [])
    else None.

(** [updateJobCard] (admin). *)
Definition updateJobCard (id : Id) (body : UpdateJobCardBody)
    (userId : UserId) (now : Date) : Handler JobCard :=
  fun db =>
    match jobCards db !! id with
    | None => (db, Failure (notFound "Job card not found"))
    | Some found =>
        let jobCard := applyFields body found in
        let persist (jc : JobCard) :=
          match validateModified (truthyNumber (ub_odometerReading body)) with
          | Some e => (db, Failure e)
          | None => (store id jc db, Success "Job card updated successfully" jc)
          end in
        match ub_status body with
        | Some status' =>
            if decide (status' <> status jobCard) then
              let changed :=
                updateStatus status' userId
                  ("Status changed to " +:+ statusName status') now jobCard in
              if decide (status' = delivered) then
                match deliveryGate id jobCard db with
                | Some e => (db, Failure e)
                | None => persist changed
                end
              else persist changed
            else persist jobCard
        | None => persist jobCard
        end
    end.

(** [ensureMechanicAssigned]. *)
Definition ensureMechanicAssigned (jc : JobCard) (mechanicUserId : UserId)
  : option ApiError :=
  if bool_decide (mechanicUserId ∈ assignedMechanicUserIds jc) then None
  else Some (forbidden "You are not assigned to this job card").

(** [updateAssignedJobCardStatus] (mechanic). *)
Definition updateAssignedJobCardStatus (id : Id) (body : MechanicStatusBody)
    (userId : UserId) (now : Date) : Handler JobCard :=
  fun db =>
    match jobCards db !! id with
    | None => (db, Failure (notFound "Job card not found"))
    | Some jobCard =>
        match ensureMechanicAssigned jobCard userId with
        | Some e => (db, Failure e)
        | None =>
            let status' := mb_status body in
            if decide (status' <> status jobCard) then
              let changed :=
                updateStatus status' userId
                  (default "" (truthyString (mb_notes body))) now jobCard in
              if decide (status' = delivered) then
                match deliveryGate id jobCard db with
                | Some e => (db, Failure e)
                | None =>
                    (store id changed db,
                     Success "Job card status updated successfully" changed)
                end
              else
                (store id changed db,
                 Success "Job card status updated successfully" changed)
            else
              (db, Success "Job card status updated successfully" jobCard)
        end
    end.

(** The [_id] Mongoose gives a pushed sub-document: any id not yet used in
    the array. *)
Definition freshItemId (items : list JobItem) : Id :=
  fresh (list_to_set (item_id <$> items) : gset Id).

(** The schema rules of [jobItemSchema] checked on the pushed item:
    [description: { required: true }] (an empty string does not count),
    [quantity: { min: 1 }], [unitPrice: { min: 0 }], [discount: { min: 0 }]. *)
Definition validItem (it : JobItem) : bool :=
  negb (String.eqb (item_description it) "")
  && Qle_bool 1 (item_quantity it) && Qle_bool 0 (item_unitPrice it)
  && Qle_bool 0 (item_discount it).

(** [addJobItem] (admin).  A missing [quantity] makes [Number(quantity)]
    [NaN], so [total] is [NaN] and the save fails on the required number. *)
Definition addJobItem (id : Id) (body : AddJobItemBody) (userId : UserId)
    (now : Date) : Handler JobCard :=
  fun db =>
    match jobCards db !! id with
    | None => (db, Failure (notFound "Job card not found"))
    | Some jobCard =>
        match ab_quantity body with
        | None => (db, Failure (ValidationError "jobItems.total"))
        | Some quantity =>
            let unitPrice := ab_unitPrice body in
            let lineTotal := (quantity * unitPrice)%Q in
            let safeDiscount :=
              Math_min (Math_max (default 0%Q (ab_discount body)) 0) lineTotal in
            let total := Math_max 0 (lineTotal - safeDiscount)%Q in
            let item :=
              mkJobItem (freshItemId (jobItems jobCard)) (ab_type body)
                (ab_description body) quantity unitPrice safeDiscount total
                false None in
            let pushed := set_jobItems (jobItems jobCard ++ [item]) jobCard in
            if negb (validItem item) then
              (db, Failure (ValidationError "jobItems"))
            else if bool_decide (status pushed = inspection)
                    || bool_decide (status pushed = in_progress) then
              let changed :=
                updateStatus awaiting_approval userId
                  "New items added for approval" now pushed in
              (store id changed db,
               Success "Job item added successfully" changed)
            else
              (store id pushed db,
               Success "Job item added successfully" pushed)
        end
    end.

(** [jobItems.findIndex(item => item._id.toString() === itemId)]. *)
Fixpoint findIndex (itemId : Id) (items : list JobItem) : option nat :=
  match items with
  | [] => None
  | it :: rest =>
      if decide (item_id it = itemId) then Some O
      else S <$> findIndex itemId rest
  end.

(** [removeJobItem] (admin): [splice(itemIndex, 1)], recompute, save. *)
Definition removeJobItem (id : Id) (itemId : Id) : Handler JobCard :=
  fun db =>
    match jobCards db !! id with
    | None => (db, Failure (notFound "Job card not found"))
    | Some jobCard =>
        match findIndex itemId (jobItems jobCard) with
        | None => (db, Failure (notFound "Job item not found"))
        | Some itemIndex =>
            let spliced :=
              set_jobItems (delete itemIndex (jobItems jobCard)) jobCard in
            let recomputed := calculateBilling false spliced in
            (store id recomputed db,
             Success "Job item removed successfully" recomputed)
        end
    end.

(** Body of [PUT /admin/jobcards/:id/billing]. *)
Record UpdateBillingBody := mkUpdateBillingBody {
  bb_discount : option Q;
  bb_discountReason : option string;
  bb_taxRate : option Q
}.

(** [updateBilling] (admin): overwrite the authored fields, recompute, save. *)
Definition updateBilling (id : Id) (body : UpdateBillingBody) : Handler Billing :=
  fun db =>
    match jobCards db !! id with
    | None => (db, Failure (notFound "Job card not found"))
    | Some jobCard =>
        let b := billing jobCard in
        let authored :=
          mkBilling (subtotal b)
            (default (discount b) (bb_discount body))
            (match truthyString (bb_discountReason body) with
             | Some r => Some r | None => discountReason b end)
            (default (taxRate b) (bb_taxRate body))
            (taxAmount b) (grandTotal b) in
        let recomputed := calculateBilling false (set_billing authored jobCard) in
        (store id recomputed db,
         Success "Billing updated successfully" (billing recomputed))
    end.

End JobCardController.

(* ===================================================================== *)
(** * Payment serialization and payment controller
      ([payment.model.js], [payment.controller.js]) *)
(* ===================================================================== *)

(** Plain JavaScript values, as [res.json] sends them. *)
#[local] Set Warnings "-register-all".
Inductive Json :=
| JNull
| JBool (b : bool)
| JNumber (q : Q)
| JString (s : string)
| JId (i : Id)
| JDate (d : Date)
| JArray (l : list Json)
| JObject (fields : list (string * Json)).

Module PaymentJson.

Definition typeName (t : PaymentType) : string :=
  match t with
  | advance => "advance" | partial => "partial"
  | full => "full" | refund => "refund"
  end.

Definition methodName (m : PaymentMethod) : string :=
  match m with
  | cash => "cash" | card => "card" | upi => "upi"
  | netbanking => "netbanking" | wallet => "wallet"
  | cheque => "cheque" | other => "other"
  end.

Definition paymentStatusName (s : PaymentStatus) : string :=
  match s with
  | pending => "pending" | completed => "completed"
  | failed => "failed" | refunded => "refunded"
  end.

(** A field that is [undefined] is not a key of the object. *)
Definition field {A} (key : string) (f : A -> Json) (o : option A)
  : list (string * Json) :=
  match o with Some a => [(key, f a)] | None => [] end.

Definition checkoutObject (c : Checkout) : Json :=
  JObject (field "token" JString (token c)
           ++ field "expiresAt" JDate (expiresAt c)).

Definition transactionDetailsObject (d : TransactionDetails) : Json :=
  JObject (field "gateway" JString (gateway d)
           ++ field "orderId" JString (orderId d)
           ++ field "signature" JString (signature d)
           ++ field "bankReference" JString (bankReference d)).

Definition refundDetailsObject (r : RefundDetails) : Json :=
  JObject [("refundedAmount", JNumber (refundedAmount r));
           ("refundedAt", JDate (refundedAt r));
           ("reason", JString (reason r));
           ("refundedBy", JId (refundedBy r))].

(** The stored document as a plain object: what [toObject()] hands to the
    transform, and what a [.lean()] query returns. *)
Definition toObject (p : Payment) : list (string * Json) :=
  [("_id", JId (pay_id p));
   ("paymentNumber", JString (paymentNumber p));
   ("jobCard", JId (pay_jobCard p));
   ("customer", JId (pay_customer p));
   ("amount", JNumber (amount p));
   ("paymentType", JString (typeName (paymentType p)));
   ("paymentMethod", JString (methodName (paymentMethod p)));
   ("status", JString (paymentStatusName (pay_status p)))]
  ++ field "transactionId" JString (transactionId p)
  ++ field "transactionDetails" transactionDetailsObject (transactionDetails p)
  ++ field "checkout" checkoutObject (checkout p)
  ++ field "receivedBy" JId (receivedBy p)
  ++ field "notes" JString (pay_notes p)
  ++ field "refundDetails" refundDetailsObject (refundDetails p)
  ++ [("createdAt", JDate (pay_createdAt p)); ("__v", JNumber 0)].

(** [obj[key]]. *)
Fixpoint get (key : string) (fields : list (string * Json)) : option Json :=
  match fields with
  | [] => None
  | (k, v) :: rest => if String.eqb k key then Some v else get key rest
  end.

(** [delete obj[key]]. *)
Definition deleteKey (key : string) (fields : list (string * Json))
  : list (string * Json) :=
  List.filter (fun kv => negb (String.eqb (fst kv) key)) fields.

(** JavaScript truthiness of a value. *)
Definition truthyJson (v : Json) : bool :=
  match v with
  | JNull => false
  | JBool b => b
  | JNumber q => Num.truthy q
  | JString s => negb (String.eqb s "")
  | _ => true
  end.

(** The [toJSON.transform] of the payment schema:
    [delete ret.__v; if (ret.checkout && ret.checkout.token)
       delete ret.checkout.token; return ret]. *)
Definition transform (ret : list (string * Json)) : list (string * Json) :=
  let ret1 := deleteKey "__v" ret in
  match get "checkout" ret1 with
  | Some (JObject c) =>
      match get "token" c with
      | Some t =>
          if truthyJson t then
            List.map
              (fun kv =>
                 if String.eqb (fst kv) "checkout"
                 then (fst kv, JObject (deleteKey "token" c)) else kv)
              ret1
          else ret1
      | None => ret1
      end
  | _ => ret1
  end.

(** [JSON.stringify] of a hydrated payment document. *)
Definition toJSON (p : Payment) : Json := JObject (transform (toObject p)).

(** A document read with [.lean()]: the plain stored object, no transform. *)
Definition lean (p : Payment) : Json := JObject (toObject p).

(** Does the hosted-checkout token occur in a serialized payment? *)
Definition exposesToken (v : Json) : bool :=
  match v with
  | JObject fields =>
      match get "checkout" fields with
      | Some (JObject c) =>
          match get "token" c with Some _ => true | None => false end
      | _ => false
      end
  | _ => false
  end.

End PaymentJson.

Module PaymentController.
Import Num PaymentJson.

Definition findById (id : Id) (ps : list Payment) : option Payment :=
  List.find (fun p => bool_decide (pay_id p = id)) ps.

(** [getPayment] (user): [Payment.findOne({ _id, customer })], sent through
    [res.json], which applies the schema's [toJSON]. *)
Definition getPayment (id : Id) (userId : UserId) : Handler Json :=
  fun db =>
    match List.find
            (fun p => bool_decide (pay_id p = id)
                      && bool_decide (pay_customer p = userId))
            (payments db) with
    | None => (db, Failure (notFound "Payment not found"))
    | Some payment => (db, Success "Payment fetched successfully" (toJSON payment))
    end.

(** Query string of [GET /payments], after [parsePagination]. *)
Record PaymentsQuery := mkPaymentsQuery {
  q_status : option PaymentStatus;
  q_jobCardId : option Id;
  q_page : nat;
  q_limit : nat
}.

(** [.sort({ createdAt: -1 })]. *)
Definition newerFirst (a b : Payment) : Prop :=
  (pay_createdAt b <= pay_createdAt a)%nat.

#[global] Instance newerFirst_dec : RelDecision newerFirst.
Proof. intros a b. unfold newerFirst. apply _. Defined.

(** [getPayments] (user): the caller's payments, newest first, one page,
    read with [.lean()]. *)
Definition getPayments (userId : UserId) (query : PaymentsQuery)
  : Handler (list Json) :=
  fun db =>
    let matching :=
      List.filter
        (fun p =>
           bool_decide (pay_customer p = userId)
           && match q_status query with
              | Some s => bool_decide (pay_status p = s) | None => true end
           && match q_jobCardId query with
              | Some j => bool_decide (pay_jobCard p = j) | None => true end)
        (payments db) in
    let sorted :=
      merge_sort newerFirst matching in
    let skip := ((q_page query - 1) * q_limit query)%nat in
    let page := take (q_limit query) (drop skip sorted) in
    (db, Success "Payments fetched successfully" (lean <$> page)).

(** Body of [POST /admin/payments/:id/refund]. *)
Record RefundBody := mkRefundBody {
  rb_amount : Q;
  rb_reason : string
}.

(** Whether the database acknowledges each of the two writes of
    [processRefund], which are issued one after the other outside any
    session. *)
Record WriteAcks := mkWriteAcks {
  createAck : bool;
  saveAck : bool
}.

(** The day of a clock value, for the date-scoped document numbers. *)
Definition dayOf (d : Date) : nat := N.to_nat (N.of_nat d / 86400)%N.

(** The [pre("save")] hook: [PAY<date><count of the day + 1>]. *)
Definition genPaymentNumber (now : Date) (ps : list Payment) : string :=
  let count :=
    length (List.filter
              (fun p => bool_decide (dayOf (pay_createdAt p) = dayOf now)) ps) in
  "PAY" +:+ pretty (dayOf now) +:+ "-" +:+ pretty (S count).

Definition freshPaymentId (ps : list Payment) : Id :=
  fresh (list_to_set (pay_id <$> ps) : gset Id).

(** [processRefund] (admin). *)
Definition processRefund (id : Id) (body : RefundBody) (userId : UserId)
    (now : Date) (acks : WriteAcks) : Handler Payment :=
  fun db =>
    let amount' := rb_amount body in
    match findById id (payments db) with
    | None => (db, Failure (notFound "Payment not found"))
    | Some originalPayment =>
        if negb (bool_decide (pay_status originalPayment = completed)) then
          (db, Failure (badRequest "Can only refund completed payments" []))
        else if gtb amount' (amount originalPayment) then
          (db, Failure
                 (badRequest "Refund amount cannot exceed original payment" []))
        else
          let details := mkRefundDetails amount' now (rb_reason body) userId in
          let refund' :=
            mkPayment (freshPaymentId (payments db))
              (genPaymentNumber now (payments db))
              (pay_jobCard originalPayment) (pay_customer originalPayment)
              amount' refund (paymentMethod originalPayment) completed
              None None None (Some userId)
              (Some ("Refund for payment " +:+ paymentNumber originalPayment))
              (Some details) now in
          (* Payment.create: schema rule amount >= 0, then the write *)
          if negb (Qle_bool 0 amount') then
            (db, Failure (ValidationError "amount"))
          else if negb (createAck acks) then (db, Failure StoreError)
          else
            let db1 := set_payments (payments db ++ [refund']) db in
            (* originalPayment.save() *)
            let updated :=
              mkPayment (pay_id originalPayment) (paymentNumber originalPayment)
                (pay_jobCard originalPayment) (pay_customer originalPayment)
                (amount originalPayment) (paymentType originalPayment)
                (paymentMethod originalPayment) refunded
                (transactionId originalPayment)
                (transactionDetails originalPayment) (checkout originalPayment)
                (receivedBy originalPayment) (pay_notes originalPayment)
                (Some details) (pay_createdAt originalPayment) in
            if negb (saveAck acks) then (db1, Failure StoreError)
            else
              let db2 :=
                set_payments
                  (List.map
                     (fun p => if decide (pay_id p = id) then updated else p)
                     (payments db1))
                  db1 in
              (db2, Success "Refund processed successfully" refund')
    end.

End PaymentController.

(* ===================================================================== *)
(** * Stock engine (the inventory controller) *)
(* ===================================================================== *)

(** ** Work done inside a MongoDB session

    Between [session.startTransaction()] and [commitTransaction()] the
    handler reads and writes its own view of the database (a transaction
    sees its own writes); a thrown error reaches the [catch] block, which
    calls [abortTransaction()] and rethrows.  A query issued without the
    session reads the committed data, which the writes of the transaction
    do not reach before the commit. *)

(** The states of the driver's transaction a handler can be in once its
    first read has been issued. *)
Inductive TxnState :=
| TRANSACTION_IN_PROGRESS
| TRANSACTION_COMMITTED
| TRANSACTION_ABORTED.

(** [session.abortTransaction()] of the MongoDB Node driver: it drops the
    writes of a transaction in progress and rejects with a
    [MongoTransactionError] when the transaction was already aborted or
    committed.  [None] is a successful abort. *)
Definition abortTransaction (txn : TxnState) : option ApiError :=
  match txn with
  | TRANSACTION_IN_PROGRESS => None
  | TRANSACTION_ABORTED =>
      Some (MongoTransactionError "Cannot call abortTransaction twice")
  | TRANSACTION_COMMITTED =>
      Some (MongoTransactionError
              "Cannot call abortTransaction after calling commitTransaction")
  end.

(** How the [try] block ends: with a value on the view it has built, or
    with a thrown error and the state the transaction was in. *)
Inductive Outcome (A : Type) :=
| Done (a : A) (db : DB)
| Thrown (e : ApiError) (txn : TxnState).

Arguments Done {A} a db.
Arguments Thrown {A} e txn.

(** A step of the [try] block: from the committed database and the view
    of the session to an outcome. *)
Definition Tx (A : Type) : Type := DB -> DB -> Outcome A.

#[global] Instance Tx_ret : MRet Tx := fun A a _ db => Done a db.

#[global] Instance Tx_bind : MBind Tx :=
  fun A B f m committed db =>
    match m committed db with
    | Done a db' => f a committed db'
    | Thrown e txn => Thrown e txn
    end.

(** [throw e] while the transaction is in progress. *)
Definition throw {A} (e : ApiError) : Tx A :=
  fun _ _ => Thrown e TRANSACTION_IN_PROGRESS.

(** [await session.abortTransaction(); throw e] inside the [try] block. *)
Definition abortAndThrow {A} (e : ApiError) : Tx A :=
  fun _ _ => Thrown e TRANSACTION_ABORTED.

(** [try { body; commitTransaction(); respond } catch (error) {
    abortTransaction(); throw error }]: the session starts on the
    committed database; the writes of [body] are kept on commit; on a
    throw they are dropped, and the error sent is the one thrown, or the
    driver's when the abort of the [catch] block is rejected. *)
Definition inSession {A} (body : Tx A) (message : string) : Handler A :=
  fun db =>
    match body db db with
    | Done a db' => (db', Success message a)
    | Thrown e txn =>
        match abortTransaction txn with
        | None => (db, Failure e)
        | Some e' => (db, Failure e')
        end
    end.

(** ** Numbers that arrive as JSON strings

    The inventory validators test [quantity] with [isInt()] and the prices
    with [isFloat()], and convert neither ([toInt()] and [toFloat()] are
    not called): a value that came as a JSON string reaches the handler as
    a string.  Where the handler subtracts, multiplies or compares, the
    string acts as the number it denotes and the embedding keeps the
    number; where the handler adds ([previousStock + quantity]) or tests
    truthiness ([x || d]), the value is kept as it came. *)

Module Js.
Import Stdlib.Strings.Ascii.

(** A value of a request body where an integer is expected. *)
Inductive Value :=
| JNumber (n : Z)
| JString (s : string).

(** [String(n)] of an integer. *)
Definition ToString (n : Z) : string :=
  DecimalString.NilEmpty.string_of_int (Z.to_int n).

(** The number that a non-empty string of decimal digits denotes. *)
Definition digits (s : string) : option Z :=
  match s with
  | EmptyString => None
  | _ => Z.of_uint <$> DecimalString.NilEmpty.uint_of_string s
  end.

(** [Number(s)]: the empty string is 0, decimal digits after an optional
    sign denote an integer, and [None] is NaN.  These are the strings that
    [isInt()] lets through; the other spellings of a number (blanks, a
    fraction, an exponent, a radix prefix) are not read. *)
Definition Number_ (s : string) : option Z :=
  match s with
  | EmptyString => Some 0
  | String "+"%char rest => digits rest
  | String "-"%char rest => Z.opp <$> digits rest
  | _ => digits s
  end.

Definition toNumber (v : Value) : option Z :=
  match v with
  | JNumber n => Some n
  | JString s => Number_ s
  end.

(** Truthiness: 0 and the empty string are falsy. *)
Definition truthy (v : Value) : bool :=
  match v with
  | JNumber n => negb (n =? 0)
  | JString s => negb (bool_decide (s = EmptyString))
  end.

(** [v <= 0]; a comparison with NaN is false. *)
Definition lez (v : Value) : bool :=
  match toNumber v with
  | Some n => n <=? 0
  | None => false
  end.

(** [a + v] for a number [a]: the sum when [v] is a number, the
    concatenation of [String(a)] and [v] when [v] is a string. *)
Definition plus (a : Z) (v : Value) : Value :=
  match v with
  | JNumber n => JNumber (a + n)
  | JString s => JString (ToString a +:+ s)
  end.

(** Mongoose's cast of a value assigned to a [Number] path: a number stays,
    the empty string becomes null and any other string is read by
    [Number].  [None] is a null or a failed cast, which the validation of
    [save] or [create] rejects on a required path. *)
Definition castNumber (v : Value) : option Z :=
  match v with
  | JNumber n => Some n
  | JString EmptyString => None
  | JString s => Number_ s
  end.

(** A value where a decimal number is expected: the number it denotes,
    and whether it came as a JSON number or as a string.  A string that
    passes [isFloat()] is not empty, hence truthy even when it denotes
    0. *)
Inductive Amount :=
| ANumber (q : Q)
| AString (q : Q).

Definition amountOf (a : Amount) : Q :=
  match a with ANumber q | AString q => q end.

Definition truthyAmount (a : Amount) : bool :=
  match a with
  | ANumber q => Num.truthy q
  | AString _ => true
  end.

End Js.

Module InventoryController.
Import Num.

(** [Inventory.findById(id).session(session)]. *)
Definition findById (id : Id) : Tx (option Inventory) :=
  fun _ db => Done (inventory db !! id) db.

(** [sparePart.save({ session })]: the schema rule
    [currentStock: { min: [0, "Stock cannot be negative"] }] is checked on
    the modified path, then the document is written. *)
Definition save (id : Id) (sparePart : Inventory) : Tx unit :=
  fun _ db =>
    if currentStock sparePart <? 0 then
      Thrown (ValidationError "currentStock") TRANSACTION_IN_PROGRESS
    else Done tt (set_inventory (<[id := sparePart]> (inventory db)) db).

Definition nonNegative (o : option Q) : bool :=
  match o with Some q => Qle_bool 0 q | None => true end.

(** The filter of the hook's count: [createdAt] within the day of [now]. *)
Definition sameDay (now : Date) (t : InventoryTransaction) : bool :=
  bool_decide (PaymentController.dayOf (tx_createdAt t)
               = PaymentController.dayOf now).

(** The [pre("save")] hook of the ledger model:
    [count = await mongoose.model("InventoryTransaction").countDocuments({
    createdAt: { $gte: startOfDay, $lt: endOfDay } })] and
    [transactionNumber = INV<date><count + 1>].  The count is issued
    without the session, so it is taken on the committed entries. *)
Definition nextNumber (now : Date) (committed : list InventoryTransaction)
  : TransactionNumber :=
  (PaymentController.dayOf now, S (length (List.filter (sameDay now) committed))).

Definition stored (number : TransactionNumber) (now : Date)
    (entry : NewTransaction) : InventoryTransaction :=
  mkInventoryTransaction number (nt_inventory entry) (nt_type entry)
    (nt_quantity entry) (nt_previousStock entry) (nt_newStock entry)
    (nt_unitPrice entry) (nt_totalAmount entry) (nt_reference entry)
    (nt_performedBy entry) (nt_notes entry) now.

(** [InventoryTransaction.create([entry], { session })]: the schema rules
    [unitPrice: { min: 0 }] and [totalAmount: { min: 0 }] are checked, the
    hook gives the entry its number, and the insert is refused with a
    duplicate-key error when an entry that the session sees carries that
    number already; otherwise the entry is appended to the ledger. *)
Definition create (now : Date) (entry : NewTransaction) : Tx unit :=
  fun committed db =>
    if negb (nonNegative (nt_unitPrice entry)) then
      Thrown (ValidationError "unitPrice") TRANSACTION_IN_PROGRESS
    else if negb (nonNegative (nt_totalAmount entry)) then
      Thrown (ValidationError "totalAmount") TRANSACTION_IN_PROGRESS
    else
      let number := nextNumber now (transactions committed) in
      if bool_decide (number ∈ tx_transactionNumber <$> transactions db) then
        Thrown (conflict "transactionNumber already exists")
          TRANSACTION_IN_PROGRESS
      else
        Done tt
          (set_transactions (transactions db ++ [stored number now entry]) db).

Definition set_stock (newStock : Z) (restocked used : option Date)
    (sp : Inventory) : Inventory :=
  mkInventory (name sp) newStock (minStock sp) (maxStock sp) (costPrice sp)
    (sellingPrice sp) (isActive sp)
    (match restocked with Some d => Some d | None => lastRestocked sp end)
    (match used with Some d => Some d | None => lastUsed sp end).

(** [sparePart.currentStock = value; ...; await sparePart.save({ session })]
    for a value that may be a string: the assignment casts it, and [save]
    rejects the document when the cast failed. *)
Definition saveStock (id : Id) (value : Js.Value) (restocked : option Date)
    (sparePart : Inventory) : Tx (Z * Inventory) :=
  match Js.castNumber value with
  | None => throw (ValidationError "currentStock")
  | Some newStock =>
      let sparePart' := set_stock newStock restocked None sparePart in
      _ ← save id sparePart';
      mret (newStock, sparePart')
  end.

(** What a single-item stock handler reports, as numbers. *)
Record StockResult := mkStockResult {
  sr_partId : Id;
  sr_partName : string;
  sr_previousStock : Z;
  sr_quantity : Z;
  sr_newStock : Z
}.

(** Body of [POST /admin/inventory/:id/stock/add]. *)
Record AddStockBody := mkAddStockBody {
  as_quantity : Js.Value;
  as_unitPrice : option Js.Amount;
  as_notes : option string
}.

(** [unitPrice || sparePart.costPrice]. *)
Definition orCostPrice (unitPrice : option Js.Amount) (sp : Inventory) : Q :=
  match unitPrice with
  | Some a => if Js.truthyAmount a then Js.amountOf a else costPrice sp
  | None => costPrice sp
  end.

(** [addStock].  [newStock = previousStock + quantity] is a sum for a
    number and a concatenation for a string; the [quantity] of the ledger
    entry is cast by [create]. *)
Definition addStock (id : Id) (body : AddStockBody) (userId : UserId)
    (now : Date) : Handler StockResult :=
  fun db =>
    let quantity := as_quantity body in
    if negb (Js.truthy quantity) || Js.lez quantity then
      (db, Failure (badRequest "Quantity must be greater than 0" []))
    else
      inSession
        (found ← findById id;
         match found with
         | None => throw (notFound "Spare part not found")
         | Some sparePart =>
             let previousStock := currentStock sparePart in
             let newStock := Js.plus previousStock quantity in
             '(newStock', sparePart') ←
               saveStock id newStock (Some now) sparePart;
             match Js.castNumber quantity with
             | None => throw (ValidationError "quantity")
             | Some quantity' =>
                 _ ← create now
                       (mkNewTransaction id purchase quantity' previousStock
                          newStock'
                          (Some (orCostPrice (as_unitPrice body) sparePart'))
                          (Some (inject_Z quantity'
                                 * orCostPrice (as_unitPrice body) sparePart')%Q)
                          None userId (as_notes body));
                 mret (mkStockResult id (name sparePart') previousStock
                         quantity' newStock')
             end
         end)
        "Stock added successfully" db.

Inductive DeductReason := reason_adjustment | reason_damage | reason_other.

Definition reasonName (r : DeductReason) : string :=
  match r with
  | reason_adjustment => "adjustment" | reason_damage => "damage"
  | reason_other => "other"
  end.

(** Body of [POST /admin/inventory/:id/stock/deduct]. *)
Record DeductStockBody := mkDeductStockBody {
  ds_quantity : Z;
  ds_reason : option DeductReason;
  ds_notes : option string
}.

(** [deductStock]. *)
Definition deductStock (id : Id) (body : DeductStockBody) (userId : UserId)
    (now : Date) : Handler StockResult :=
  fun db =>
    let quantity := ds_quantity body in
    if (quantity =? 0) || (quantity <=? 0) then
      (db, Failure (badRequest "Quantity must be greater than 0" []))
    else
      inSession
        (found ← findById id;
         match found with
         | None => throw (notFound "Spare part not found")
         | Some sparePart =>
             if currentStock sparePart <? quantity then
               throw (badRequest "Insufficient stock" [])
             else
               let previousStock := currentStock sparePart in
               let newStock := previousStock - quantity in
               let sparePart' := set_stock newStock None (Some now) sparePart in
               _ ← save id sparePart';
               _ ← create now
                     (mkNewTransaction id
                        (match ds_reason body with
                         | Some reason_damage => damage
                         | _ => adjustment
                         end)
                        (- quantity) previousStock newStock None None None
                        userId
                        (match JobCardController.truthyString (ds_notes body) with
                         | Some n => Some n
                         | None => reasonName <$> ds_reason body
                         end));
               mret (mkStockResult id (name sparePart') previousStock quantity
                       newStock)
         end)
        "Stock deducted successfully" db.

(** Body of [POST /admin/inventory/:id/stock/adjust]. *)
Record AdjustStockBody := mkAdjustStockBody {
  aj_newQuantity : option Z;
  aj_notes : option string
}.

(** [adjustStock]; the reported quantity is the signed difference. *)
Definition adjustStock (id : Id) (body : AdjustStockBody) (userId : UserId)
    (now : Date) : Handler StockResult :=
  fun db =>
    match aj_newQuantity body with
    | None => (db, Failure (badRequest "New quantity must be 0 or greater" []))
    | Some newQuantity =>
        if newQuantity <? 0 then
          (db, Failure (badRequest "New quantity must be 0 or greater" []))
        else
          inSession
            (found ← findById id;
             match found with
             | None => throw (notFound "Spare part not found")
             | Some sparePart =>
                 let previousStock := currentStock sparePart in
                 let difference := newQuantity - previousStock in
                 let sparePart' :=
                   set_stock newQuantity
                     (if 0 <? difference then Some now else None)
                     (if (0 <? difference) then None
                      else if difference <? 0 then Some now else None)
                     sparePart in
                 _ ← save id sparePart';
                 _ ← create now
                       (mkNewTransaction id adjustment difference
                          previousStock newQuantity None None None userId
                          (Some (default "Manual stock adjustment"
                                   (JobCardController.truthyString
                                      (aj_notes body)))));
                 mret (mkStockResult id (name sparePart') previousStock
                         difference newQuantity)
             end)
            "Stock adjusted successfully" db
    end.

(** One element of the [parts] array of [deductForInvoice]. *)
Record PartLine := mkPartLine {
  partId : Id;
  quantity : Z
}.

(** Body of [POST /admin/inventory/deduct-for-invoice]. *)
Record InvoiceBody := mkInvoiceBody {
  parts : list PartLine;
  jobCardId : option Id;
  invoiceNumber : option string
}.

(** A template literal prints a missing value as [undefined]. *)
Definition interpolate (o : option string) : string := default "undefined" o.

(** The body of [for (const part of parts)] in [deductForInvoice], run on
    the accumulated [results] and [errors]. *)
Definition deductLine (body : InvoiceBody) (userId : UserId) (now : Date)
    (acc : list StockResult * list LineError) (line : PartLine)
  : Tx (list StockResult * list LineError) :=
  let '(results, errors) := acc in
  found ← findById (partId line);
  match found with
  | None =>
      mret (results, errors ++ [mkLineError (partId line) None Part_not_found])
  | Some sparePart =>
      if currentStock sparePart <? quantity line then
        mret (results,
              errors ++ [mkLineError (partId line) (Some (name sparePart))
                           (Insufficient_stock (currentStock sparePart)
                              (quantity line))])
      else
        let previousStock := currentStock sparePart in
        let newStock := previousStock - quantity line in
        let sparePart' := set_stock newStock None (Some now) sparePart in
        _ ← save (partId line) sparePart';
        _ ← create now
              (mkNewTransaction (partId line) sale (- quantity line)
                 previousStock newStock (Some (sellingPrice sparePart'))
                 (Some (inject_Z (quantity line) * sellingPrice sparePart')%Q)
                 (Some (mkReference ref_jobcard (jobCardId body)
                          (invoiceNumber body)))
                 userId
                 (Some ("Used in invoice "
                        +:+ interpolate (invoiceNumber body))));
        mret (results
                ++ [mkStockResult (partId line) (name sparePart') previousStock
                      (quantity line) newStock],
              errors)
  end.

(** The [for ... of] loop: the lines in order, each on the state the
    previous ones left. *)
Fixpoint forEach {A B} (f : B -> A -> Tx B) (acc : B) (l : list A) : Tx B :=
  match l with
  | [] => mret acc
  | x :: rest => acc' ← f acc x; forEach f acc' rest
  end.

(** [deductForInvoice].  When the loop has left errors the [try] block
    itself calls [session.abortTransaction()] before it throws the 400
    carrying them. *)
Definition deductForInvoice (body : InvoiceBody) (userId : UserId)
    (now : Date) : Handler (list StockResult) :=
  fun db =>
    match parts body with
    | [] => (db, Failure (badRequest "Parts array is required" []))
    | _ =>
        inSession
          ('(results, errors) ← forEach (deductLine body userId now) ([], [])
                                  (parts body);
           match errors with
           | [] => mret results
           | _ => abortAndThrow (badRequest "Stock deduction failed" errors)
           end)
          "Stock deducted for invoice successfully" db
    end.

(** One element of the [parts] array of [returnFromInvoice]. *)
Record ReturnLine := mkReturnLine {
  rl_partId : Id;
  rl_quantity : Js.Value
}.

(** Body of [POST /admin/inventory/return-from-invoice]. *)
Record ReturnBody := mkReturnBody {
  rb_parts : list ReturnLine;
  rb_jobCardId : option Id;
  rb_invoiceNumber : option string;
  rb_reason : option string
}.

(** The body of [for (const part of parts)] in [returnFromInvoice];
    [newStock = previousStock + quantity] as in [addStock]. *)
Definition returnLine (body : ReturnBody) (userId : UserId) (now : Date)
    (results : list StockResult) (line : ReturnLine)
  : Tx (list StockResult) :=
  found ← findById (rl_partId line);
  match found with
  | None => mret results
  | Some sparePart =>
      let previousStock := currentStock sparePart in
      let newStock := Js.plus previousStock (rl_quantity line) in
      '(newStock', sparePart') ←
        saveStock (rl_partId line) newStock None sparePart;
      match Js.castNumber (rl_quantity line) with
      | None => throw (ValidationError "quantity")
      | Some quantity' =>
          _ ← create now
                (mkNewTransaction (rl_partId line) return_ quantity'
                   previousStock newStock' (Some (sellingPrice sparePart'))
                   (Some (inject_Z quantity' * sellingPrice sparePart')%Q)
                   (Some (mkReference ref_jobcard (rb_jobCardId body)
                            (rb_invoiceNumber body)))
                   userId
                   (Some (default ("Returned from invoice "
                                   +:+ interpolate (rb_invoiceNumber body))
                            (JobCardController.truthyString (rb_reason body)))));
          mret (results
                  ++ [mkStockResult (rl_partId line) (name sparePart')
                        previousStock quantity' newStock'])
      end
  end.

(** [returnFromInvoice]. *)
Definition returnFromInvoice (body : ReturnBody) (userId : UserId)
    (now : Date) : Handler (list StockResult) :=
  fun db =>
    match rb_parts body with
    | [] => (db, Failure (badRequest "Parts array is required" []))
    | _ =>
        inSession (forEach (returnLine body userId now) [] (rb_parts body))
          "Stock returned successfully" db
    end.

(** Body of [POST /admin/inventory]. *)
Record CreateSparePartBody := mkCreateSparePartBody {
  cb_name : string;
  cb_currentStock : option Z;
  cb_minStock : option Js.Value;
  cb_maxStock : option Js.Value;
  cb_costPrice : Q;
  cb_sellingPrice : Q
}.

(** [x || d] on an optional integer: a missing value and zero give [d]. *)
Definition orDefault (o : option Z) (d : Z) : Z :=
  match o with Some z => if z =? 0 then d else z | None => d end.

(** [x || d] on a value that may be a string, cast on [create]: a missing
    value, 0 and the empty string give [d]; the string ["0"] is truthy and
    gives 0. *)
Definition orDefaultValue (o : option Js.Value) (d : Z) : option Z :=
  match o with
  | Some v => if Js.truthy v then Js.castNumber v else Some d
  | None => Some d
  end.

(** The schema rules checked by [Inventory.create]. *)
Definition validInventory (sp : Inventory) : bool :=
  (0 <=? currentStock sp) && (0 <=? minStock sp)
  && Qle_bool 0 (costPrice sp) && Qle_bool 0 (sellingPrice sp).

(** [createSparePart]: the item, then (outside any session) the ledger
    entry of its initial stock.  Barcode, SKU and the descriptive fields
    play no part in stock keeping and are not modelled. *)
Definition createSparePart (body : CreateSparePartBody) (userId : UserId)
    (now : Date) : Handler Id :=
  fun db =>
    let stock := orDefault (cb_currentStock body) 0 in
    let initial := default 0 (cb_currentStock body) in
    match orDefaultValue (cb_minStock body) 5,
          orDefaultValue (cb_maxStock body) 100 with
    | Some minStock', Some maxStock' =>
        let sparePart :=
          mkInventory (cb_name body) stock minStock' maxStock'
            (cb_costPrice body) (cb_sellingPrice body) true
            (if 0 <? initial then Some now else None) None in
        if negb (validInventory sparePart) then
          (db, Failure (ValidationError "inventory"))
        else
          let id := fresh (dom (inventory db)) in
          let db1 := set_inventory (<[id := sparePart]> (inventory db)) db in
          if 0 <? initial then
            match create now
                    (mkNewTransaction id purchase initial 0 initial
                       (Some (cb_costPrice body))
                       (Some (inject_Z initial * cb_costPrice body)%Q)
                       None userId (Some "Initial stock entry")) db1 db1 with
            | Done _ db2 => (db2, Success "Spare part created successfully" id)
            | Thrown e _ => (db1, Failure e)
            end
          else (db1, Success "Spare part created successfully" id)
    | _, _ => (db, Failure (ValidationError "inventory"))
    end.

End InventoryController.

(* ===================================================================== *)
(** * Sequences of stock operations *)
(* ===================================================================== *)

Module StockOps.
Import InventoryController.

(** A request to the stock engine. *)
Inductive StockOp :=
| CreateSparePart (body : CreateSparePartBody) (userId : UserId) (now : Date)
| AddStock (id : Id) (body : AddStockBody) (userId : UserId) (now : Date)
| DeductStock (id : Id) (body : DeductStockBody) (userId : UserId) (now : Date)
| AdjustStock (id : Id) (body : AdjustStockBody) (userId : UserId) (now : Date)
| DeductForInvoice (body : InvoiceBody) (userId : UserId) (now : Date)
| ReturnFromInvoice (body : ReturnBody) (userId : UserId) (now : Date).

(** The database after the request, and whether it was rejected. *)
Definition runOp (op : StockOp) (db : DB) : DB * bool :=
  match op with
  | CreateSparePart b u n =>
      let r := createSparePart b u n db in (fst r, isFailure (snd r))
  | AddStock i b u n => let r := addStock i b u n db in (fst r, isFailure (snd r))
  | DeductStock i b u n =>
      let r := deductStock i b u n db in (fst r, isFailure (snd r))
  | AdjustStock i b u n =>
      let r := adjustStock i b u n db in (fst r, isFailure (snd r))
  | DeductForInvoice b u n =>
      let r := deductForInvoice b u n db in (fst r, isFailure (snd r))
  | ReturnFromInvoice b u n =>
      let r := returnFromInvoice b u n db in (fst r, isFailure (snd r))
  end.

(** The database after a sequence of requests, served one at a time. *)
Definition runOps (ops : list StockOp) (db : DB) : DB :=
  fold_left (fun d op => fst (runOp op d)) ops db.

(** The ledger entries of one inventory item, oldest first. *)
Definition entriesOf (id : Id) (ledger : list InventoryTransaction)
  : list InventoryTransaction :=
  List.filter (fun t => bool_decide (tx_inventory t = id)) ledger.

(** The sum of the signed quantities of a list of ledger entries. *)
Definition sumQuantity (l : list InventoryTransaction) : Z :=
  fold_right (fun t acc => tx_quantity t + acc) 0 l.

(** The total quantity a batch asks of one part, over all its lines. *)
Definition demand (id : Id) (ls : list PartLine) : Z :=
  fold_right
    (fun l acc => if decide (partId l = id) then quantity l + acc else acc) 0 ls.

(** [parts.*.quantity isInt({ min: 1 })] of the invoice validators. *)
Definition validLines (ls : list PartLine) : Prop :=
  Forall (fun l => 1 <= quantity l) ls.

(** [isInt({ min: 1 })] on a value that is kept as it came: a number, or
    a string of digits with an optional sign, that denotes 1 or more. *)
Definition isIntMin1 (v : Js.Value) : Prop :=
  match Js.toNumber v with
  | Some n => 1 <= n
  | None => False
  end.

(** Stock of a part, zero when the part does not exist. *)
Definition stockOf (id : Id) (db : DB) : Z :=
  match inventory db !! id with Some sp => currentStock sp | None => 0 end.

(** Every stored item satisfies the non-negativity rules of the schema. *)
Definition wellFormed (db : DB) : Prop :=
  forall id sp, inventory db !! id = Some sp ->
    0 <= currentStock sp /\ (0 <= sellingPrice sp)%Q /\ (0 <= costPrice sp)%Q.

(** The numbers of the ledger are those the hook has given: every entry
    carries the day of its creation and a number between 1 and the count
    of the entries of that day.  The next number of any day is then
    free. *)
Definition numbered (ledger : list InventoryTransaction) : Prop :=
  Forall
    (fun t =>
       fst (tx_transactionNumber t) = PaymentController.dayOf (tx_createdAt t)
       /\ (snd (tx_transactionNumber t)
           <= length (List.filter (sameDay (tx_createdAt t)) ledger))%nat)
    ledger.

(** The ledger invariants: every entry satisfies [newStock = previousStock
    + quantity], and the stock of every item with entries is the
    [previousStock] of its first entry plus the sum of the quantities of
    all its entries. *)
Definition entriesBalanced (db : DB) : Prop :=
  forall t, t ∈ transactions db ->
    tx_newStock t = tx_previousStock t + tx_quantity t.

Definition ledgerConsistent (db : DB) : Prop :=
  forall id sp first rest,
    inventory db !! id = Some sp ->
    entriesOf id (transactions db) = first :: rest ->
    currentStock sp = tx_previousStock first + sumQuantity (first :: rest).

(** Every entry belongs to a stored item. *)
Definition entriesOwned (db : DB) : Prop :=
  forall t, t ∈ transactions db -> is_Some (inventory db !! tx_inventory t).

(** The invariant of the stock engine. *)
Definition Inv (db : DB) : Prop :=
  wellFormed db /\ entriesBalanced db /\ entriesOwned db /\ ledgerConsistent db.

(** A request whose quantities came as JSON numbers. *)
Definition numeric (op : StockOp) : Prop :=
  match op with
  | AddStock _ b _ _ => exists n, as_quantity b = Js.JNumber n
  | ReturnFromInvoice b _ _ =>
      Forall (fun l => exists n, rl_quantity l = Js.JNumber n) (rb_parts b)
  | _ => True
  end.

(** The ledger entry an invoice line leaves: of the given type, for the
    given part, with the given signed quantity, balanced, and referencing
    the job card of the request. *)
Definition entryOfLine (ty : TransactionType) (part : Id) (signed : Z)
    (jobCard : option Id) (number : option string)
    (t : InventoryTransaction) : Prop :=
  tx_inventory t = part
  /\ tx_type t = ty
  /\ tx_quantity t = signed
  /\ tx_newStock t = tx_previousStock t + tx_quantity t
  /\ tx_reference t = Some (mkReference ref_jobcard jobCard number).

(** The return of the lines of an invoice against the same job card, the
    quantities being JSON numbers. *)
Definition returnOf (body : InvoiceBody) : ReturnBody :=
  mkReturnBody
    ((fun l => mkReturnLine (partId l) (Js.JNumber (quantity l)))
       <$> parts body)
    (jobCardId body) (invoiceNumber body) None.

(** A line the database cannot serve as it stands: its part is missing,
    or it asks for more than the part's current stock. *)
Definition lineFails (db : DB) (l : PartLine) : Prop :=
  inventory db !! partId l = None \/ stockOf (partId l) db < quantity l.

(** The returned lines whose part exists. *)
Definition existing (db : DB) (ls : list ReturnLine) : list ReturnLine :=
  List.filter (fun l => bool_decide (is_Some (inventory db !! rl_partId l))) ls.

(** A computation inside a session keeps a property that relates the
    view to the committed database. *)
Definition keepsOn {A} (J : DB -> DB -> Prop) (m : Tx A) : Prop :=
  forall committed db, J committed db ->
    match m committed db with
    | Done _ db' => J committed db'
    | Thrown _ _ => True
    end.

(** A computation inside a session keeps a property of the view. *)
Definition keeps {A} (J : DB -> Prop) (m : Tx A) : Prop :=
  keepsOn (fun _ db => J db) m.

(** The ledger that a session sees continues the committed one, and its
    numbers are those the hook has given. *)
Definition sessionLedger (committed db : DB) : Prop :=
  numbered (transactions db)
  /\ exists extra, transactions db = transactions committed ++ extra.

(** The prices of an item are not negative. *)
Definition pricesOk (sp : Inventory) : Prop :=
  (0 <= sellingPrice sp)%Q /\ (0 <= costPrice sp)%Q.

(** One stock movement: the item is rewritten and one entry is appended. *)
Definition moved (id : Id) (sp' : Inventory) (e : InventoryTransaction)
    (db : DB) : DB :=
  set_transactions (transactions db ++ [e])
    (set_inventory (<[id := sp']> (inventory db)) db).

End StockOps.

(* ===================================================================== *)
(** * The billing formulas as the specification writes them *)
(* ===================================================================== *)

Module BillingSpec.

(** The sum of the item totals. *)
Fixpoint sumTotals (items : list JobItem) : Q :=
  match items with
  | [] => 0%Q
  | it :: rest => (item_total it + sumTotals rest)%Q
  end.

(** The items a computation counts: all of them, or the approved ones. *)
Definition usedItems (onlyApproved : bool) (jc : JobCard) : list JobItem :=
  if onlyApproved then List.filter item_isApproved (jobItems jc)
  else jobItems jc.

(** [afterDiscount = max(0, subtotal - max(0, discount))], unrounded. *)
Definition afterDiscount (onlyApproved : bool) (jc : JobCard) : Q :=
  Qmax 0 (sumTotals (usedItems onlyApproved jc)
          - Qmax 0 (discount (billing jc)))%Q.

(** [taxAmount = afterDiscount * taxRate / 100], unrounded. *)
Definition unroundedTax (onlyApproved : bool) (jc : JobCard) : Q :=
  (afterDiscount onlyApproved jc * taxRate (billing jc) / 100)%Q.

(** The job card with its billing discount replaced by [d]. *)
Definition withDiscount (d : Q) (jc : JobCard) : JobCard :=
  set_billing
    (mkBilling (subtotal (billing jc)) d (discountReason (billing jc))
       (taxRate (billing jc)) (taxAmount (billing jc))
       (grandTotal (billing jc)))
    jc.

(** A job card as [JobCard.create] leaves it: status [created], no items,
    the schema defaults for billing ([taxRate] 18, everything else 0). *)
Definition newJobCard (customerId : UserId) (now : Date) : JobCard :=
  mkJobCard "JOB" customerId None None None [] [] [] created
    [mkStatusEntry created now customerId "Job card created"]
    None None None (mkBilling 0 0 None 18 0 0) None.

(** The amounts of the completed payments of a job card, of refund type or
    not. *)
Definition completedAmounts (isRefund : bool) (jobCardId : Id)
    (ps : list Payment) : list Q :=
  List.map amount
    (List.filter
       (fun p => bool_decide (pay_jobCard p = jobCardId)
                 && bool_decide (pay_status p = completed)
                 && Bool.eqb (bool_decide (paymentType p = refund)) isRefund)
       ps).

Definition sumQ (l : list Q) : Q := fold_right Qplus 0%Q l.

(** Balance due: the grand total minus the completed payments net of the
    completed refunds. *)
Definition balanceDue (jobCardId : Id) (db : DB) (jc : JobCard) : Q :=
  (grandTotal (billing jc)
   - (sumQ (completedAmounts false jobCardId (payments db))
      - sumQ (completedAmounts true jobCardId (payments db))))%Q.

(** The delivery rule, for a request on job card [jc] (stored under [id]
    in [db]) that asks for status [requested] and ends as [r]: the stored
    status becomes [delivered] only on a request for it, from [ready], with
    balance due at most 0.01; and a request for [delivered] from another
    status, or with a larger balance, is answered by an error and changes
    nothing. *)
Definition deliveryRule (id : Id) (db : DB) (jc : JobCard)
    (requested : option JobStatus) (r : DB * Response JobCard) : Prop :=
  (forall jc', jobCards (fst r) !! id = Some jc' ->
     status jc' = delivered -> status jc <> delivered ->
     requested = Some delivered /\ status jc = ready
     /\ (balanceDue id db jc <= 1 # 100)%Q)
  /\ (requested = Some delivered -> status jc <> delivered ->
      status jc <> ready \/ (1 # 100 < balanceDue id db jc)%Q ->
      (exists e, snd r = Failure e) /\ fst r = db).

End BillingSpec.

(** ** The billing formulas of the specification, on binary64 *)

Module Binary64Spec.
Import PrimFloat Binary64.
Local Open Scope float_scope.

(** The sum of the item totals, taken from the left; a missing total
    counts 0. *)
Fixpoint sumFrom (acc : float) (items : list Item) : float :=
  match items with
  | [] => acc
  | item :: rest => sumFrom (acc + orZero (total item)) rest
  end.

Definition sumTotals (items : list Item) : float := sumFrom 0 items.

(** The items that enter the billing. *)
Definition usedItems (onlyApproved : bool) (items : list Item) : list Item :=
  if onlyApproved then List.filter isApproved items else items.

(** afterDiscount = max (0, subtotal - max (0, discount)). *)
Definition afterDiscount (subtotal discount : float) : float :=
  Math_max 0 (subtotal - Math_max 0 discount).

(** taxAmount = afterDiscount * taxRate / 100, before any rounding. *)
Definition unroundedTax (afterDiscount taxRate : float) : float :=
  afterDiscount * taxRate / 100.


End Binary64Spec.

(* ===================================================================== *)
(** * Scenarios: requests replayed on a small database *)
(* ===================================================================== *)

Module Scenarios.
Import JobCardController BillingSpec InventoryController.
Local Open Scope Q_scope.

(** A database holding one fresh job card, number 1. *)
Definition oneJob : DB :=
  mkDB {[ 1%positive := newJobCard 7%positive 0%nat ]} [] ∅ [].

(** A job card with one approved item of total 200, billed 212.40, in the
    given status. *)
Definition billedJob (st : JobStatus) : JobCard :=
  mkJobCard "JOB" 7%positive None None None [] [5%positive]
    [mkJobItem 1%positive labour "Brake service" 2 100 0 200 true None]
    st [] None None None (mkBilling 200 20 None 18 (162 # 5) (1062 # 5)) None.

(** A payment of the given amount, type and status against job card 1. *)
Definition paymentOf (id : Id) (a : Q) (t : PaymentType) (st : PaymentStatus)
  : Payment :=
  mkPayment id "PAY" 1%positive 7%positive a t upi st None None None None None
    None 0%nat.

(** Job card 1 in the given status, with the given payments. *)
Definition jobWith (st : JobStatus) (ps : list Payment) : DB :=
  mkDB {[ 1%positive := billedJob st ]} ps ∅ [].

(** A pending payment of customer 7 for which a Razorpay order was
    created: it carries a hosted-checkout token and its expiry. *)
Definition awaitingCheckout (tok : string) : Payment :=
  mkPayment 3%positive "PAY" 1%positive 7%positive (1062 # 5) full upi pending
    None (Some (mkTransactionDetails (Some "razorpay") (Some "order_1") None None))
    (Some (mkCheckout (Some tok) (Some 1800%nat))) None None None 0%nat.

(** Customer 7 lists their payments: first page, ten per page. *)
Definition listMine : PaymentController.PaymentsQuery :=
  PaymentController.mkPaymentsQuery None None 1 10.

Definition statusOnly (st : JobStatus) : UpdateJobCardBody :=
  mkUpdateJobCardBody (Some st) None None None None None None.

(** A day at the parts counter: an oil filter is created with 5 in stock,
    3 more are bought, 2 are sold on an invoice of job card 1, a recount
    sets the stock to 4 and 1 is written off as damaged. *)
Definition stockDay : list StockOps.StockOp :=
  [StockOps.CreateSparePart
     (InventoryController.mkCreateSparePartBody "Oil filter" (Some 5%Z) None
        None 100 150) 9%positive 1%nat;
   StockOps.AddStock 1%positive
     (InventoryController.mkAddStockBody (Js.JNumber 3) None None) 9%positive
     2%nat;
   StockOps.DeductForInvoice
     (InventoryController.mkInvoiceBody
        [InventoryController.mkPartLine 1%positive 2%Z] (Some 1%positive)
        (Some "INV-1")) 9%positive 3%nat;
   StockOps.AdjustStock 1%positive
     (InventoryController.mkAdjustStockBody (Some 4%Z) None) 9%positive 4%nat;
   StockOps.DeductStock 1%positive
     (InventoryController.mkDeductStockBody 1%Z
        (Some InventoryController.reason_damage) None) 9%positive 5%nat].

(** Two parts: part 1 with 5 in stock, part 2 with 10. *)
Definition twoParts : DB :=
  mkDB ∅ []
    {[ 1%positive := mkInventory "Oil filter" 5 5 100 100 150 true None None;
       2%positive := mkInventory "Brake pad" 10 5 100 400 550 true None None ]}
    [].

Definition invoice (ls : list InventoryController.PartLine)
  : InventoryController.InvoiceBody :=
  InventoryController.mkInvoiceBody ls (Some 1%positive) (Some "INV-1").

(** The return of lines against the same invoice. *)
Definition creditNote (ls : list InventoryController.ReturnLine)
  : InventoryController.ReturnBody :=
  InventoryController.mkReturnBody ls (Some 1%positive) (Some "INV-1") None.

(** The oil filter with 5 in stock, as [createSparePart] leaves it: the
    item and the ledger entry of its initial stock. *)
Definition oilFilter : DB :=
  StockOps.runOps
    [StockOps.CreateSparePart
       (InventoryController.mkCreateSparePartBody "Oil filter" (Some 5%Z) None
          None 100 150) 9%positive 1%nat]
    emptyDB.

End Scenarios.

(* ===================================================================== *)
(** * Pagination helpers ([utils/helpers.js], [config/index.js]) *)
(* ===================================================================== *)

Module Helpers.
Import InventoryController.

(** [config.pagination]. *)
Record PaginationConfig := mkPaginationConfig {
  defaultPageSize : Z;
  maxPageSize : Z
}.

(** What [parsePagination] returns. *)
Record Pagination := mkPagination {
  pg_page : Z;
  pg_limit : Z;
  pg_skip : Z
}.

(** [parsePagination(query)].  Each argument is the value of
    [parseInt(query.x, 10)], [None] standing for [NaN]; [n || d] is
    [orDefault n d].  Integers are within the exact range of a double. *)
Definition parsePagination (config : PaginationConfig)
    (page limit : option Z) : Pagination :=
  let page' := Z.max 1 (orDefault page 1) in
  let limit' :=
    Z.min (maxPageSize config)
      (Z.max 1 (orDefault limit (defaultPageSize config))) in
  mkPagination page' limit' ((page' - 1) * limit').

(** The value of [Math.ceil(total / limit)] for a count [total]: a
    division by zero gives [Infinity], or [NaN] when [total] is zero too. *)
Inductive PageCount :=
| Pages (n : Z)
| Infinity
| NaN.

Definition Math_ceil_div (total : nat) (limit : Z) : PageCount :=
  if limit =? 0 then match total with O => NaN | S _ => Infinity end
  else Pages (Qceiling (inject_Z (Z.of_nat total) / inject_Z limit)).

(** [page < totalPages]; a comparison with [NaN] is false. *)
Definition ltPages (page : Z) (n : PageCount) : bool :=
  match n with
  | Pages n => page <? n
  | Infinity => true
  | NaN => false
  end.

Record PaginationMeta := mkPaginationMeta {
  pm_total : nat;
  pm_page : Z;
  pm_limit : Z;
  totalPages : PageCount;
  hasNextPage : bool;
  hasPrevPage : bool
}.

(** [createPaginationMeta(total, page, limit)]. *)
Definition createPaginationMeta (total : nat) (page limit : Z)
  : PaginationMeta :=
  let totalPages := Math_ceil_div total limit in
  mkPaginationMeta total page limit totalPages (ltPages page totalPages)
    (1 <? page).

(** [cursor.skip(skip).limit(limit)] on the sorted matches: a negative
    [skip] is refused by the server ([None]), [limit(0)] is no limit and a
    negative limit counts as its absolute value. *)
Definition skipLimit {A} (skip limit : Z) (l : list A) : option (list A) :=
  if skip <? 0 then None
  else
    let rest := drop (Z.to_nat skip) l in
    Some (if limit =? 0 then rest else take (Z.to_nat (Z.abs limit)) rest).

(** A paginated listing: the page of [parsePagination] cut out of the
    matches, with the metadata of [createPaginationMeta]. *)
Definition paginated {A} (config : PaginationConfig) (page limit : option Z)
    (matches : list A) : option (list A) * PaginationMeta :=
  let pg := parsePagination config page limit in
  (skipLimit (pg_skip pg) (pg_limit pg) matches,
   createPaginationMeta (length matches) (pg_page pg) (pg_limit pg)).

End Helpers.


(* ===================================================================== *)
(** * Job card controller, continued: approval, assignment, reads
      ([jobcard.controller.js], [jobcard.model.js], the user model) *)
(* ===================================================================== *)

Module JobCardReads.
Import Num JobCardModel PaymentModel JobCardController.

(** The virtual [pendingApprovalItems]. *)
Definition pendingApprovalItems (jc : JobCard) : list JobItem :=
  List.filter (fun item => negb (item_isApproved item)) (jobItems jc).

(** The virtual [approvedTotal]. *)
Definition approvedTotal (jc : JobCard) : Q :=
  fold_left (fun sum item => (sum + item_total item)%Q)
    (List.filter item_isApproved (jobItems jc)) 0%Q.

(** The [paymentSummary] that the three single-card reads attach to the
    job card. *)
Record PaymentSummary := mkPaymentSummary {
  ps_grandTotal : Q;
  ps_totalPaid : Q;
  ps_balanceDue : Q;
  completedPaymentsCount : nat
}.

Definition paymentSummary (id : Id) (jobCard : JobCard) (db : DB)
  : PaymentSummary :=
  let '(_, totalPaid, count) := getJobCardPayments id (payments db) in
  let grandTotal := grandTotal (billing jobCard) in
  let balanceDue :=
    Math_max 0
      (inject_Z (Math_round ((grandTotal - totalPaid + EPSILON) * 100)) / 100)%Q in
  mkPaymentSummary grandTotal totalPaid balanceDue count.

(** [getJobCard] (customer): [JobCard.findOne({ _id, customer })]. *)
Definition getJobCard (id : Id) (userId : UserId)
  : Handler (JobCard * PaymentSummary) :=
  fun db =>
    match jobCards db !! id with
    | Some jobCard =>
        if bool_decide (customer jobCard = userId) then
          (db, Success "Job card fetched successfully"
                 (jobCard, paymentSummary id jobCard db))
        else (db, Failure (notFound "Job card not found"))
    | None => (db, Failure (notFound "Job card not found"))
    end.

(** [getJobCardById] (admin). *)
Definition getJobCardById (id : Id) : Handler (JobCard * PaymentSummary) :=
  fun db =>
    match jobCards db !! id with
    | Some jobCard =>
        (db, Success "Job card fetched successfully"
               (jobCard, paymentSummary id jobCard db))
    | None => (db, Failure (notFound "Job card not found"))
    end.

(** [getAssignedJobCard] (mechanic). *)
Definition getAssignedJobCard (id : Id) (userId : UserId)
  : Handler (JobCard * PaymentSummary) :=
  fun db =>
    match jobCards db !! id with
    | Some jobCard =>
        match ensureMechanicAssigned jobCard userId with
        | Some e => (db, Failure e)
        | None =>
            (db, Success "Job card fetched successfully"
                   (jobCard, paymentSummary id jobCard db))
        end
    | None => (db, Failure (notFound "Job card not found"))
    end.

(** [getJobCardHistory] (customer): the job number and the status history. *)
Definition getJobCardHistory (id : Id) (userId : UserId)
  : Handler (string * list StatusEntry) :=
  fun db =>
    match jobCards db !! id with
    | Some jobCard =>
        if bool_decide (customer jobCard = userId) then
          (db, Success "Status history fetched successfully"
                 (jobNumber jobCard, statusHistory jobCard))
        else (db, Failure (notFound "Job card not found"))
    | None => (db, Failure (notFound "Job card not found"))
    end.

End JobCardReads.

Module JobCardApproval.
Import Num JobCardModel JobCardController.

(** The assignment inside [jobItems.forEach]: a listed item is approved
    and stamped, whether or not it was approved before. *)
Definition approveItem (itemIds : list Id) (now : Date) (item : JobItem)
  : JobItem :=
  if bool_decide (item_id item ∈ itemIds) then
    mkJobItem (item_id item) (item_type item) (item_description item)
      (item_quantity item) (item_unitPrice item) (item_discount item)
      (item_total item) true (Some now)
  else item.

(** [approveJobItems] (customer): the job card must be the caller's and
    await approval. *)
Definition approveJobItems (id : Id) (itemIds : list Id) (userId : UserId)
    (now : Date) : Handler JobCard :=
  fun db =>
    let missing :=
      (db, Failure (notFound "Job card not found or not awaiting approval")) in
    match jobCards db !! id with
    | Some jobCard =>
        if bool_decide (customer jobCard = userId)
           && bool_decide (status jobCard = awaiting_approval) then
          let stamped :=
            set_jobItems (approveItem itemIds now <$> jobItems jobCard)
              jobCard in
          let billed := calculateBilling false stamped in
          let pendingItems :=
            List.filter (fun item => negb (item_isApproved item))
              (jobItems billed) in
          let final :=
            match pendingItems with
            | [] =>
                updateStatus approved userId "All items approved by customer"
                  now billed
            | _ => billed
            end in
          (store id final db, Success "Items approved successfully" final)
        else missing
    | None => missing
    end.

(** Users, as far as [assignMechanics] reads them. *)
Inductive Role := role_user | role_admin | role_superadmin | role_mechanic.

#[global] Instance Role_eq_dec : EqDecision Role.
Proof. solve_decision. Defined.

Record User := mkUser {
  user_name : string;
  user_mobile : string;
  user_role : Role;
  user_isActive : bool
}.

(** [toUniqueStringIds]: the ids through a [Set], in insertion order. *)
Definition toUniqueStringIds (ids : list UserId) : list UserId :=
  fold_left
    (fun set id => if bool_decide (id ∈ set) then set else set ++ [id])
    ids [].

(** [User.find({ _id: { $in: uniqueIds }, role: "mechanic",
    isActive: true })]. *)
Definition findMechanics (users : gmap UserId User) (uniqueIds : list UserId)
  : list (UserId * User) :=
  List.filter
    (fun entry =>
       bool_decide (fst entry ∈ uniqueIds)
       && bool_decide (user_role (snd entry) = role_mechanic)
       && user_isActive (snd entry))
    (map_to_list users).

(** [assignMechanics] (admin).  Each [{ name, mobile, specialization }]
    entry of [assignedMechanics] is kept as its name. *)
Definition assignMechanics (users : gmap UserId User) (id : Id)
    (mechanicUserIds : list UserId) : Handler (list UserId * list string) :=
  fun db =>
    let uniqueIds := toUniqueStringIds mechanicUserIds in
    match jobCards db !! id with
    | None => (db, Failure (notFound "Job card not found"))
    | Some jobCard =>
        let mechanics := findMechanics users uniqueIds in
        if negb (length mechanics =? length uniqueIds)%nat then
          (db, Failure
                 (badRequest
                    "One or more mechanicUserIds are invalid or not mechanics"
                    []))
        else
          let names := (fun m => user_name (snd m)) <$> mechanics in
          let assigned :=
            mkJobCard (jobNumber jobCard) (customer jobCard)
              (odometerReading jobCard) (fuelLevel jobCard)
              (diagnostics jobCard) names uniqueIds (jobItems jobCard)
              (status jobCard) (statusHistory jobCard)
              (estimatedCompletion jobCard) (actualCompletion jobCard)
              (deliveredAt jobCard) (billing jobCard) (notes jobCard) in
          (store id assigned db,
           Success "Mechanics assigned successfully" (uniqueIds, names))
    end.

(** A request to the job-card engine. *)
Inductive JobOp :=
| UpdateJobCard (id : Id) (body : UpdateJobCardBody) (userId : UserId)
    (now : Date)
| UpdateAssignedJobCardStatus (id : Id) (body : MechanicStatusBody)
    (userId : UserId) (now : Date)
| AddJobItem (id : Id) (body : AddJobItemBody) (userId : UserId) (now : Date)
| RemoveJobItem (id itemId : Id)
| UpdateBilling (id : Id) (body : UpdateBillingBody)
| ApproveJobItems (id : Id) (itemIds : list Id) (userId : UserId) (now : Date)
| AssignMechanics (id : Id) (mechanicUserIds : list UserId).

(** The database after the request. *)
Definition runJobOp (users : gmap UserId User) (op : JobOp) (db : DB) : DB :=
  match op with
  | UpdateJobCard i b u n => fst (updateJobCard i b u n db)
  | UpdateAssignedJobCardStatus i b u n =>
      fst (updateAssignedJobCardStatus i b u n db)
  | AddJobItem i b u n => fst (addJobItem i b u n db)
  | RemoveJobItem i it => fst (removeJobItem i it db)
  | UpdateBilling i b => fst (updateBilling i b db)
  | ApproveJobItems i its u n => fst (approveJobItems i its u n db)
  | AssignMechanics i ms => fst (assignMechanics users i ms db)
  end.

Definition runJobOps (users : gmap UserId User) (ops : list JobOp) (db : DB)
  : DB :=
  fold_left (fun d op => runJobOp users op d) ops db.

(** The status a job card shows agrees with its history, and the
    lifecycle timestamps are set once the status calls for them. *)
Definition lifecycleOk (jc : JobCard) : Prop :=
  last (se_status <$> statusHistory jc) = Some (status jc)
  /\ (status jc = ready -> is_Some (actualCompletion jc))
  /\ (status jc = delivered ->
      is_Some (deliveredAt jc) /\ is_Some (actualCompletion jc)).

(** A job card after requests were served. *)
Definition evolved (before after : JobCard) : Prop :=
  jobNumber after = jobNumber before
  /\ customer after = customer before
  /\ statusHistory before `prefix_of` statusHistory after
  /\ (is_Some (actualCompletion before) ->
      actualCompletion after = actualCompletion before)
  /\ (is_Some (deliveredAt before) -> deliveredAt after = deliveredAt before).

(** One request on one job card: the card evolves, and a card whose
    lifecycle was in order is left in order. *)
Definition step (before after : JobCard) : Prop :=
  evolved before after /\ (lifecycleOk before -> lifecycleOk after).

(** What a handler does to the collection of job cards: nothing, or one
    stored card replaced by a later stage of itself. *)
Definition cardStep (db db' : DB) : Prop :=
  db' = db
  \/ exists id jc jc', jobCards db !! id = Some jc /\ step jc jc'
                       /\ db' = store id jc' db.

(** What approval does to one item: everything but the approval flag and
    its time is kept, and the flag is never cleared. *)
Definition approvedFrom (itemIds : list Id) (old new : JobItem) : Prop :=
  item_id new = item_id old /\ item_type new = item_type old
  /\ item_description new = item_description old
  /\ item_quantity new = item_quantity old
  /\ item_unitPrice new = item_unitPrice old
  /\ item_discount new = item_discount old
  /\ item_total new = item_total old
  /\ item_isApproved new
     = item_isApproved old || bool_decide (item_id old ∈ itemIds).

(** An id that [findMechanics] accepts: an active user in the mechanic
    role. *)
Definition activeMechanic (users : gmap UserId User) (uid : UserId) : Prop :=
  exists u, users !! uid = Some u /\ user_role u = role_mechanic
            /\ user_isActive u = true.

End JobCardApproval.


(* ===================================================================== *)
(** * Payment controller, continued ([payment.controller.js]) *)
(* ===================================================================== *)

Module PaymentLedger.
Import Num PaymentModel PaymentJson PaymentController JobCardController Helpers.

(** What a payment adds to the paid total of a job card: its amount when
    it is a completed payment of that card, negated for a refund. *)
Definition contribution (jobCardId : Id) (p : Payment) : Q :=
  if bool_decide (pay_jobCard p = jobCardId)
     && bool_decide (pay_status p = completed)
  then if decide (paymentType p = refund) then (- amount p)%Q else amount p
  else 0%Q.

(** [getJobCardPayments] (customer): the completed payments of the
    caller's job card with the totals; [balanceDue] is not clamped. *)
Record JobCardPaymentsData := mkJobCardPaymentsData {
  jp_payments : list Json;
  jp_totalPaid : Q;
  jp_count : nat;
  jp_grandTotal : Q;
  jp_balanceDue : Q
}.

Definition getJobCardPayments (jobCardId : Id) (userId : UserId)
  : Handler JobCardPaymentsData :=
  fun db =>
    match jobCards db !! jobCardId with
    | Some jobCard =>
        if bool_decide (customer jobCard = userId) then
          let '(found, totalPaid, count) :=
            PaymentModel.getJobCardPayments jobCardId (payments db) in
          (db, Success "Job card payments fetched successfully"
                 (mkJobCardPaymentsData (toJSON <$> found) totalPaid count
                    (grandTotal (billing jobCard))
                    (grandTotal (billing jobCard) - totalPaid)%Q))
        else (db, Failure (notFound "Job card not found"))
    | None => (db, Failure (notFound "Job card not found"))
    end.

(** Body of [POST /admin/payments]. *)
Record CreatePaymentBody := mkCreatePaymentBody {
  cp_jobCardId : Id;
  cp_amount : Q;
  cp_paymentType : PaymentType;
  cp_paymentMethod : PaymentMethod;
  cp_status : option PaymentStatus;
  cp_transactionId : option string;
  cp_transactionDetails : option TransactionDetails;
  cp_notes : option string
}.

(** [existingPayments.totalPaid] as [getJobCardPayments] computes it: the
    [reduce] over the completed payments of the job card, on doubles and
    from the left. *)
Definition totalPaid64 (jobCardId : Id) (ps : list Payment)
  : PrimFloat.float :=
  fold_left
    (fun sum p =>
       if decide (paymentType p = refund)
       then PrimFloat.sub sum (Binary64.ofQ (amount p))
       else PrimFloat.add sum (Binary64.ofQ (amount p)))
    (findCompleted jobCardId ps) PrimFloat.zero.

(** [amount > balanceDue], where [balanceDue = jobCard.billing.grandTotal
    - existingPayments.totalPaid]: a subtraction and a comparison of
    doubles. *)
Definition exceedsBalance (amount' : Q) (jobCard : JobCard) (jobCardId : Id)
    (ps : list Payment) : bool :=
  let balanceDue :=
    PrimFloat.sub (Binary64.ofQ (grandTotal (billing jobCard)))
      (totalPaid64 jobCardId ps) in
  PrimFloat.ltb balanceDue (Binary64.ofQ amount').

(** [createPayment] (admin).  The balance test is the program's, on
    doubles.  [Payment.create] checks the schema rule [amount: { min: 0 }].
    The message of the 400 ends with the balance due in parentheses; it
    is kept as its fixed part. *)
Definition createPayment (body : CreatePaymentBody) (userId : UserId)
    (now : Date) : Handler Payment :=
  fun db =>
    let jobCardId := cp_jobCardId body in
    let amount' := cp_amount body in
    let paymentType' := cp_paymentType body in
    match jobCards db !! jobCardId with
    | None => (db, Failure (notFound "Job card not found"))
    | Some jobCard =>
        if negb (bool_decide (paymentType' = refund))
           && exceedsBalance amount' jobCard jobCardId (payments db)
        then (db, Failure (badRequest "Amount exceeds balance due" []))
        else
          let status' :=
            if bool_decide (cp_status body = Some pending)
               && negb (bool_decide (paymentType' = refund))
            then pending else completed in
          if negb (Qle_bool 0 amount') then
            (db, Failure (ValidationError "amount"))
          else
            let payment :=
              mkPayment (freshPaymentId (payments db))
                (genPaymentNumber now (payments db)) jobCardId
                (customer jobCard) amount' paymentType'
                (cp_paymentMethod body) status' (cp_transactionId body)
                (cp_transactionDetails body) None (Some userId)
                (cp_notes body) None now in
            (set_payments (payments db ++ [payment]) db,
             Success
               (if bool_decide (status' = pending)
                then "Payment request created successfully"
                else "Payment recorded successfully")
               payment)
    end.

(** [doc.save()] of a loaded payment: the stored document with that
    [_id] is replaced. *)
Definition savePayment (updated : Payment) (db : DB) : DB :=
  set_payments
    (List.map
       (fun p => if decide (pay_id p = pay_id updated) then updated else p)
       (payments db))
    db.

(** Body of [PUT /admin/payments/:id]. *)
Record UpdatePaymentBody := mkUpdatePaymentBody {
  up_status : option PaymentStatus;
  up_transactionId : option string;
  up_notes : option string
}.

(** [updatePayment] (admin): the three fields, each when truthy. *)
Definition updatePayment (id : Id) (body : UpdatePaymentBody)
  : Handler Payment :=
  fun db =>
    match findById id (payments db) with
    | None => (db, Failure (notFound "Payment not found"))
    | Some payment =>
        let updated :=
          mkPayment (pay_id payment) (paymentNumber payment)
            (pay_jobCard payment) (pay_customer payment) (amount payment)
            (paymentType payment) (paymentMethod payment)
            (default (pay_status payment) (up_status body))
            (match truthyString (up_transactionId body) with
             | Some t => Some t | None => transactionId payment end)
            (transactionDetails payment) (checkout payment)
            (receivedBy payment)
            (match truthyString (up_notes body) with
             | Some n => Some n | None => pay_notes payment end)
            (refundDetails payment) (pay_createdAt payment) in
        (savePayment updated db,
         Success "Payment updated successfully" updated)
    end.

(** One group of the [$group] stage of [getPaymentSummary]. *)
Record MethodTotal := mkMethodTotal {
  mt_method : PaymentMethod;
  mt_total : Q;
  mt_count : nat
}.

#[global] Instance PaymentMethod_eq_dec : EqDecision PaymentMethod.
Proof. solve_decision. Defined.

(** [$cond: [{ $eq: ["$paymentType", "refund"] },
             { $multiply: ["$amount", -1] }, "$amount"]]. *)
Definition signedAmount (p : Payment) : Q :=
  if decide (paymentType p = refund) then (amount p * -1)%Q else amount p.

(** One document through the [$group] stage; the accumulators start
    at 0. *)
Fixpoint addToGroup (p : Payment) (groups : list MethodTotal)
  : list MethodTotal :=
  match groups with
  | [] => [mkMethodTotal (paymentMethod p) (0 + signedAmount p)%Q 1]
  | g :: rest =>
      if decide (mt_method g = paymentMethod p) then
        mkMethodTotal (mt_method g) (mt_total g + signedAmount p)%Q
          (S (mt_count g)) :: rest
      else g :: addToGroup p rest
  end.

Definition groupByMethod (ps : list Payment) : list MethodTotal :=
  fold_left (fun groups p => addToGroup p groups) ps [].

(** [createdAt: { $gte: dateFrom, $lte: dateTo }], each bound when given. *)
Definition inRange (dateFrom dateTo : option Date) (p : Payment) : bool :=
  match dateFrom with
  | Some d => bool_decide (d <= pay_createdAt p)%nat | None => true end
  && match dateTo with
     | Some d => bool_decide (pay_createdAt p <= d)%nat | None => true end.

Record PaymentSummaryData := mkPaymentSummaryData {
  byMethod : list MethodTotal;
  sd_totalCollection : Q;
  totalTransactions : nat
}.

(** [getPaymentSummary] (admin). *)
Definition getPaymentSummary (dateFrom dateTo : option Date)
  : Handler PaymentSummaryData :=
  fun db =>
    let matched :=
      List.filter
        (fun p => bool_decide (pay_status p = completed)
                  && inRange dateFrom dateTo p)
        (payments db) in
    let summary := groupByMethod matched in
    (db, Success "Payment summary fetched successfully"
           (mkPaymentSummaryData summary
              (fold_left (fun sum s => (sum + mt_total s)%Q) summary 0%Q)
              (fold_left (fun sum s => (sum + mt_count s)%nat) summary O))).

Record TodayCollection := mkTodayCollection {
  tc_payments : list Json;
  tc_totalCollection : Q;
  tc_count : nat
}.

(** [getTodayCollection] (admin): the completed payments created between
    the first and the last instant of the day of the clock (that is, on
    the day of the clock), newest first, read with [.lean()]. *)
Definition getTodayCollection (now : Date) : Handler TodayCollection :=
  fun db =>
    let found :=
      merge_sort newerFirst
        (List.filter
           (fun p => bool_decide (dayOf (pay_createdAt p) = dayOf now)
                     && bool_decide (pay_status p = completed))
           (payments db)) in
    let totalCollection :=
      fold_left
        (fun sum p =>
           if decide (paymentType p = refund) then (sum - amount p)%Q
           else (sum + amount p)%Q)
        found 0%Q in
    (db, Success "Today's collection fetched successfully"
           (mkTodayCollection (lean <$> found) totalCollection (length found))).

(** Query string of [GET /admin/payments]. *)
Record AllPaymentsQuery := mkAllPaymentsQuery {
  aq_page : option Z;
  aq_limit : option Z;
  aq_status : option PaymentStatus;
  aq_paymentMethod : option PaymentMethod;
  aq_customerId : option UserId;
  aq_dateFrom : option Date;
  aq_dateTo : option Date
}.

Definition matchesAll (query : AllPaymentsQuery) (p : Payment) : bool :=
  match aq_status query with
  | Some s => bool_decide (pay_status p = s) | None => true end
  && match aq_paymentMethod query with
     | Some m => bool_decide (paymentMethod p = m) | None => true end
  && match aq_customerId query with
     | Some c => bool_decide (pay_customer p = c) | None => true end
  && inRange (aq_dateFrom query) (aq_dateTo query) p.

(** [getAllPayments] (admin): the matching payments newest first, one
    page of them read with [.lean()], and the pagination metadata.  A
    query the server refuses (a negative skip) fails the request. *)
Definition getAllPayments (config : PaginationConfig)
    (query : AllPaymentsQuery) : Handler (list Json * PaginationMeta) :=
  fun db =>
    let sorted :=
      merge_sort newerFirst (List.filter (matchesAll query) (payments db)) in
    match paginated config (aq_page query) (aq_limit query) sorted with
    | (Some page, meta) =>
        (db, Success "Payments fetched successfully" (lean <$> page, meta))
    | (None, _) => (db, Failure StoreError)
    end.

(** The payments a summary counts. *)
Definition summarised (dateFrom dateTo : option Date) (db : DB)
  : list Payment :=
  List.filter
    (fun p => bool_decide (pay_status p = completed)
              && inRange dateFrom dateTo p)
    (payments db).

(** The payments of one method among those counted. *)
Definition ofMethod (m : PaymentMethod) (ps : list Payment) : list Payment :=
  List.filter (fun p => bool_decide (paymentMethod p = m)) ps.

(** The groups account for the payments seen: one group per method that
    occurs, holding the signed total and the number of its payments. *)
Definition summarises (groups : list MethodTotal) (seen : list Payment)
  : Prop :=
  NoDup (mt_method <$> groups)
  /\ (forall g, g ∈ groups ->
        ofMethod (mt_method g) seen <> []
        /\ (mt_total g
            == BillingSpec.sumQ (signedAmount <$> ofMethod (mt_method g) seen))%Q
        /\ mt_count g = length (ofMethod (mt_method g) seen))
  /\ (forall p, p ∈ seen -> paymentMethod p ∈ mt_method <$> groups).

(** The same query for another page. *)
Definition withPage (page : Z) (query : AllPaymentsQuery) : AllPaymentsQuery :=
  mkAllPaymentsQuery (Some page) (aq_limit query) (aq_status query)
    (aq_paymentMethod query) (aq_customerId query) (aq_dateFrom query)
    (aq_dateTo query).

(** The payments a response of [getAllPayments] lists (none on an error). *)
Definition listed (r : DB * Response (list Json * PaginationMeta))
  : list Json :=
  match snd r with
  | Success _ data => fst data
  | Failure _ => []
  end.

End PaymentLedger.


(* ===================================================================== *)
(** * Hosted checkout ([payment.controller.js]) *)
(* ===================================================================== *)

Module Checkout.
Import Stdlib.Strings.Ascii.
Import Num PaymentModel PaymentController JobCardController PaymentLedger.

(** [str.replace(/c/g, replacement)] for a one-character pattern. *)
Fixpoint replaceAll (c : Ascii.ascii) (replacement : string) (s : string)
  : string :=
  match s with
  | EmptyString => EmptyString
  | String a rest =>
      if Ascii.eqb a c then replacement +:+ replaceAll c replacement rest
      else String a (replaceAll c replacement rest)
  end.

(** [escapeHtml]: the five replacements, the ampersand first.  The double
    quote is character 34. *)
Definition escapeHtml (value : string) : string :=
  replaceAll "'" "&#039;"
    (replaceAll "034" "&quot;"
       (replaceAll ">" "&gt;"
          (replaceAll "<" "&lt;" (replaceAll "&" "&amp;" value)))).

(** The reading of the five entities, one character at a time from the
    end of the text. *)
Definition decodeAt (c : Ascii.ascii) (decoded : string) : string :=
  if Ascii.eqb c "&" then
    match decoded with
    | String "a" (String "m" (String "p" (String ";" rest))) => String "&" rest
    | String "l" (String "t" (String ";" rest)) => String "<" rest
    | String "g" (String "t" (String ";" rest)) => String ">" rest
    | String "q" (String "u" (String "o" (String "t" (String ";" rest)))) =>
        String "034" rest
    | String "#" (String "0" (String "3" (String "9" (String ";" rest)))) =>
        String "'" rest
    | _ => String c decoded
    end
  else String c decoded.

Fixpoint unescapeHtml (s : string) : string :=
  match s with
  | EmptyString => EmptyString
  | String c rest => decodeAt c (unescapeHtml rest)
  end.

(** The errors of the checkout handlers: an [ApiError] of the kinds above,
    [ApiError.serviceUnavailable], or a rejection by the gateway. *)
Inductive GatewayError :=
| Api (e : ApiError)
| serviceUnavailable (message : string)
| gatewayRejected.

Definition Gateway (A : Type) := DB -> DB * (A + GatewayError).

Definition CHECKOUT_TOKEN_TTL : nat := 1800.

(** [Payment.findOne({ "checkout.token": token })]. *)
Definition findByToken (tok : string) (ps : list Payment) : option Payment :=
  List.find
    (fun p =>
       match checkout p with
       | Some c => bool_decide (token c = Some tok)
       | None => false
       end)
    ps.

(** What [createRazorpayOrderForPayment] answers. *)
Record OrderData := mkOrderData {
  od_orderId : string;
  od_amountPaise : Z;
  od_currency : string;
  od_checkoutUrl : string;
  od_keyId : option string;
  od_expiresAt : Date
}.

(** [createRazorpayOrderForPayment] (customer).  [client] is the Razorpay
    client when one is configured, as the function from the amount in
    paise and the receipt to the id and the currency of the created order
    ([None] when the gateway rejects the call); [tok] is the value of
    [createCheckoutToken()], [keyId] that of [getRazorpayKeyId()] and
    [origin] the [protocol://host] of the request.  The message of the
    balance error ends with the balance due in parentheses; it is kept as
    its fixed part. *)
Definition createRazorpayOrderForPayment
    (client : option (Z -> string -> option (string * string)))
    (keyId : option string)
    (origin tok : string) (id : Id) (userId : UserId) (now : Date)
  : Gateway OrderData :=
  fun db =>
    match List.find
            (fun p => bool_decide (pay_id p = id)
                      && bool_decide (pay_customer p = userId))
            (payments db) with
    | None => (db, inr (Api (notFound "Payment not found")))
    | Some payment =>
        if negb (bool_decide (pay_status payment = pending)) then
          (db, inr (Api (badRequest "Only pending payments can be paid online"
                           [])))
        else
          let jobCardId := pay_jobCard payment in
          match jobCards db !! jobCardId with
          | None => (db, inr (Api (notFound "Job card not found")))
          | Some jobCard =>
              let balanceDue :=
                (grandTotal (billing jobCard)
                 - totalPaid jobCardId (payments db))%Q in
              if gtb (amount payment) balanceDue then
                (db, inr (Api (badRequest "Payment amount exceeds balance due"
                                 [])))
              else
                match client with
                | None =>
                    (db, inr (serviceUnavailable
                                "Razorpay is not configured on the server"))
                | Some create =>
                    let amountPaise := Math_round (amount payment * 100)%Q in
                    if amountPaise <=? 0 then
                      (db, inr (Api (badRequest "Invalid payment amount" [])))
                    else
                      match create amountPaise (paymentNumber payment) with
                      | None => (db, inr gatewayRejected)
                      | Some (order, currency) =>
                          let expiry := (now + CHECKOUT_TOKEN_TTL)%nat in
                          let old :=
                            default (mkTransactionDetails None None None None)
                              (transactionDetails payment) in
                          let prepared :=
                            mkPayment (pay_id payment) (paymentNumber payment)
                              (pay_jobCard payment) (pay_customer payment)
                              (amount payment) (paymentType payment)
                              (paymentMethod payment) (pay_status payment)
                              (transactionId payment)
                              (Some (mkTransactionDetails (Some "razorpay")
                                       (Some order) (signature old)
                                       (bankReference old)))
                              (Some (mkCheckout (Some tok) (Some expiry)))
                              (receivedBy payment) (pay_notes payment)
                              (refundDetails payment)
                              (pay_createdAt payment) in
                          (savePayment prepared db,
                           inl (mkOrderData order amountPaise currency
                                  (origin
                                   +:+ "/api/v1/payments/razorpay/checkout/"
                                   +:+ tok)
                                  keyId expiry))
                      end
                end
          end
    end.

(** Body of [POST /payments/razorpay/verify]. *)
Record VerifyBody := mkVerifyBody {
  vb_token : option string;
  razorpay_payment_id : option string;
  razorpay_order_id : option string;
  razorpay_signature : option string
}.

(** [verifyRazorpayPayment] (public, by token).  [hmacSha256Hex secret
    message] is [crypto.createHmac("sha256", secret).update(message)
    .digest("hex")], and [secret] the value of [RAZORPAY_KEY_SECRET]. *)
Definition verifyRazorpayPayment (hmacSha256Hex : string -> string -> string)
    (secret : option string) (body : VerifyBody) (now : Date)
  : Gateway (Id * PaymentStatus) :=
  fun db =>
    match truthyString (vb_token body),
          truthyString (razorpay_payment_id body),
          truthyString (razorpay_order_id body),
          truthyString (razorpay_signature body) with
    | Some tok, Some paymentId, Some orderId', Some signature' =>
        let invalid :=
          (db, inr (Api (notFound "Invalid or expired checkout token"))) in
        match findByToken tok (payments db) with
        | None => invalid
        | Some payment =>
            if negb (bool_decide (pay_status payment = pending)) then invalid
            else if match checkout payment ≫= expiresAt with
                    | Some expiry => bool_decide (expiry < now)%nat
                    | None => false
                    end
            then (db, inr (Api (badRequest "Checkout token expired" [])))
            else
              let mismatch :=
                (db, inr (Api (badRequest "Order ID mismatch" []))) in
              match truthyString (transactionDetails payment ≫= orderId) with
              | None => mismatch
              | Some expectedOrderId =>
                  if negb (String.eqb expectedOrderId orderId') then mismatch
                  else
                    match truthyString secret with
                    | None =>
                        (db, inr (serviceUnavailable
                                    "Razorpay is not configured on the server"))
                    | Some key =>
                        let expectedSignature :=
                          hmacSha256Hex key (orderId' +:+ "|" +:+ paymentId) in
                        if negb (String.eqb expectedSignature signature') then
                          (db, inr (Api (badRequest "Invalid payment signature"
                                           [])))
                        else
                          let old :=
                            default (mkTransactionDetails None None None None)
                              (transactionDetails payment) in
                          let verified :=
                            mkPayment (pay_id payment) (paymentNumber payment)
                              (pay_jobCard payment) (pay_customer payment)
                              (amount payment) (paymentType payment)
                              (paymentMethod payment) completed
                              (Some paymentId)
                              (Some (mkTransactionDetails (Some "razorpay")
                                       (Some orderId') (Some signature')
                                       (bankReference old)))
                              None (receivedBy payment) (pay_notes payment)
                              (refundDetails payment)
                              (pay_createdAt payment) in
                          (savePayment verified db,
                           inl (pay_id verified, completed))
                    end
              end
        end
    | _, _, _, _ =>
        (db, inr (Api (badRequest "Missing Razorpay verification fields" [])))
    end.

(** The payment a successful verification leaves. *)
Definition verifiedFrom (p : Payment) (paymentId orderId' signature' : string)
  : Payment :=
  mkPayment (pay_id p) (paymentNumber p) (pay_jobCard p) (pay_customer p)
    (amount p) (paymentType p) (paymentMethod p) completed (Some paymentId)
    (Some (mkTransactionDetails (Some "razorpay") (Some orderId')
             (Some signature')
             (bankReference
                (default (mkTransactionDetails None None None None)
                   (transactionDetails p)))))
    None (receivedBy p) (pay_notes p) (refundDetails p) (pay_createdAt p).

(** The payment an issued order leaves. *)
Definition preparedFrom (p : Payment) (order tok : string) (expiry : Date)
  : Payment :=
  mkPayment (pay_id p) (paymentNumber p) (pay_jobCard p) (pay_customer p)
    (amount p) (paymentType p) (paymentMethod p) (pay_status p)
    (transactionId p)
    (Some (mkTransactionDetails (Some "razorpay") (Some order)
             (signature
                (default (mkTransactionDetails None None None None)
                   (transactionDetails p)))
             (bankReference
                (default (mkTransactionDetails None None None None)
                   (transactionDetails p)))))
    (Some (mkCheckout (Some tok) (Some expiry)))
    (receivedBy p) (pay_notes p) (refundDetails p) (pay_createdAt p).

End Checkout.


(* ===================================================================== *)
(** * Inventory model statics and catalogue handlers
      ([inventory.model.js], the inventory controller) *)
(* ===================================================================== *)

Module InventoryModel.
Import Num.

(** The stored items, in collection order. *)
Definition items (db : DB) : list (Id * Inventory) :=
  map_to_list (inventory db).

(** The static [getLowStockItems]. *)
Definition getLowStockItems (db : DB) : list (Id * Inventory) :=
  List.filter
    (fun entry => (currentStock (snd entry) <=? minStock (snd entry))
                  && isActive (snd entry))
    (items db).

(** What the static [getTotalStockValue] returns. *)
Record StockValue := mkStockValue {
  totalCostValue : Q;
  totalSellingValue : Q;
  totalItems : nat;
  totalStock : Z
}.

(** One step of the [$group] accumulators. *)
Definition addToValue (acc : StockValue) (sp : Inventory) : StockValue :=
  mkStockValue
    (totalCostValue acc + inject_Z (currentStock sp) * costPrice sp)%Q
    (totalSellingValue acc + inject_Z (currentStock sp) * sellingPrice sp)%Q
    (S (totalItems acc)) (totalStock acc + currentStock sp).

(** The static [getTotalStockValue]: the [$group] over the active items,
    or the zeros when there is none. *)
Definition getTotalStockValue (db : DB) : StockValue :=
  fold_left addToValue
    (snd <$> List.filter (fun entry => isActive (snd entry)) (items db))
    (mkStockValue 0 0 0 0).

End InventoryModel.

Module Catalogue.
Import Num InventoryController InventoryModel.

(** [.sort({ currentStock: 1 })]. *)
Definition lessStockFirst (a b : Id * Inventory) : Prop :=
  currentStock (snd a) <= currentStock (snd b).

#[global] Instance lessStockFirst_dec : RelDecision lessStockFirst.
Proof. intros a b. unfold lessStockFirst. apply _. Defined.

Record LowStockData := mkLowStockData {
  outOfStock : list (Id * Inventory);
  lowStock : list (Id * Inventory)
}.

(** [getLowStockItems] (admin): the active items at or below their
    minimum, least stock first, split by whether any stock is left. *)
Definition getLowStockItems : Handler LowStockData :=
  fun db =>
    let lowStockItems :=
      merge_sort lessStockFirst
        (List.filter
           (fun entry => isActive (snd entry)
                         && (currentStock (snd entry) <=? minStock (snd entry)))
           (items db)) in
    (db, Success "Low stock items fetched successfully"
           (mkLowStockData
              (List.filter (fun i => currentStock (snd i) =? 0) lowStockItems)
              (List.filter (fun i => 0 <? currentStock (snd i)) lowStockItems))).

(** [Inventory.countDocuments(filter)]. *)
Definition countDocuments (f : Inventory -> bool) (db : DB) : nat :=
  length (List.filter (fun entry => f (snd entry)) (items db)).

(** The [stats] of [getDashboard]. *)
Record DashboardStats := mkDashboardStats {
  totalParts : nat;
  lowStockCount : nat;
  outOfStockCount : nat;
  totalStockValue : Q;
  ds_totalSellingValue : Q;
  totalStockUnits : Z
}.

(** The [stats] object that [getDashboard] (admin) answers with. *)
Definition dashboardStats (db : DB) : DashboardStats :=
  let stockValue := getTotalStockValue db in
  mkDashboardStats
    (countDocuments isActive db)
    (countDocuments
       (fun sp => isActive sp && ((currentStock sp <=? minStock sp)
                                  && (0 <? currentStock sp))) db)
    (countDocuments (fun sp => isActive sp && (currentStock sp =? 0)) db)
    (totalCostValue stockValue) (totalSellingValue stockValue)
    (totalStock stockValue).

(** [deleteSparePart] (admin): a soft delete.  The only modified path is
    [isActive], which carries no schema rule. *)
Definition deleteSparePart (id : Id) : Handler unit :=
  fun db =>
    match inventory db !! id with
    | None => (db, Failure (notFound "Spare part not found"))
    | Some sparePart =>
        let sparePart' :=
          mkInventory (name sparePart) (currentStock sparePart)
            (minStock sparePart) (maxStock sparePart) (costPrice sparePart)
            (sellingPrice sparePart) false (lastRestocked sparePart)
            (lastUsed sparePart) in
        (set_inventory (<[id := sparePart']> (inventory db)) db,
         Success "Spare part deleted successfully" tt)
    end.

(** The [minStock: { min: 0 }] rule of the schema, on every stored item. *)
Definition minStockValid (db : DB) : Prop :=
  forall id sp, inventory db !! id = Some sp -> 0 <= minStock sp.

(** What an item adds to the stock value: nothing when it is inactive. *)
Definition valueOf (sp : Inventory) : StockValue :=
  if isActive sp then addToValue (mkStockValue 0 0 0 0) sp
  else mkStockValue 0 0 0 0.

End Catalogue.

(* ===================================================================== *)
(** * More scenarios: the workshop floor and the cash desk *)
(* ===================================================================== *)

Module Cases.
Import JobCardController JobCardApproval PaymentController PaymentLedger
  Checkout Scenarios.
Local Open Scope Q_scope.

(** The staff: mechanic 5 is active, mechanic 6 has left, 9 is the admin. *)
Definition staff : gmap UserId User :=
  {[ 5%positive := mkUser "Asif" "03001234567" role_mechanic true;
     6%positive := mkUser "Bilal" "03007654321" role_mechanic false;
     9%positive := mkUser "Sara" "03000000000" role_admin true ]}.

(** Job card 1 of customer 7 awaits approval of two items; the brake
    service was approved earlier, the brake pads were not. *)
Definition quotedJob : JobCard :=
  mkJobCard "JOB" 7%positive None None None [] [5%positive]
    [mkJobItem 1%positive labour "Brake service" 2 100 0 200 true None;
     mkJobItem 2%positive part "Brake pads" 1 400 0 400 false None]
    awaiting_approval [mkStatusEntry awaiting_approval 2%nat 9%positive ""]
    None None None (mkBilling 0 0 None 18 0 0) None.

Definition quoted : DB := mkDB {[ 1%positive := quotedJob ]} [] ∅ [].

(** A line of two hours of labour at 100 with a discount of 250, more
    than the line is worth. *)
Definition overDiscounted : AddJobItemBody :=
  mkAddJobItemBody labour "Wheel alignment" (Some 2) 100 (Some 250).

(** A job from inspection to the workshop floor: an item is added, the
    customer approves it, the mechanics are assigned, the mechanic starts
    and finishes the work and the admin marks the job ready. *)
Definition jobDay : list JobOp :=
  [UpdateJobCard 1%positive (statusOnly inspection) 9%positive 1%nat;
   AddJobItem 1%positive
     (mkAddJobItemBody labour "Brake service" (Some 2) 100 None) 9%positive
     2%nat;
   ApproveJobItems 1%positive [1%positive] 7%positive 3%nat;
   AssignMechanics 1%positive [5%positive];
   UpdateAssignedJobCardStatus 1%positive
     (mkMechanicStatusBody in_progress None) 5%positive 4%nat;
   UpdateJobCard 1%positive (statusOnly ready) 9%positive 5%nat].

(** A stand-in for the HMAC of the gateway: the key followed by the
    message. *)
Definition keyed (key message : string) : string := key +:+ message.

(** A Razorpay client that accepts every order. *)
Definition accepting : option (Z -> string -> option (string * string)) :=
  Some (fun _ _ => Some ("order_1", "INR")).

(** The cash desk of three days: two completed payments and a refund on
    the first day, a pending payment on the second. *)
Definition cashDesk : DB :=
  mkDB {[ 1%positive := billedJob ready ]}
    [mkPayment 1%positive "PAY" 1%positive 7%positive 100 partial cash
       completed None None None None None None 10%nat;
     mkPayment 2%positive "PAY" 1%positive 7%positive 50 partial upi
       completed None None None None None None 20%nat;
     mkPayment 3%positive "PAY" 1%positive 7%positive 30 refund cash
       completed None None None None None None 30%nat;
     mkPayment 4%positive "PAY" 1%positive 8%positive 60 advance card
       pending None None None None None None (N.to_nat 90000)]
    ∅ [].

(** The last clock value of the first day. *)
Definition endOfFirstDay : Date := N.to_nat 86399.

End Cases.

(* ===================================================================== *)
(** * Properties of rounding and billing *)
(* ===================================================================== *)

Module BillingFacts.
Import Num JobCardModel JobCardController BillingSpec Scenarios.

Local Open Scope Q_scope.

Lemma Math_max_spec a b : Math_max a b == Qmax a b.
Proof.
  unfold Math_max. destruct (Qle_bool a b) eqn:E.
  - apply Qle_bool_iff in E. symmetry. apply Q.max_r. exact E.
  - assert (H : ~ a <= b) by (intros H; apply Qle_bool_iff in H; congruence).
    apply Qnot_le_lt in H. symmetry. apply Q.max_l. apply Qlt_le_weak. exact H.
Qed.

Lemma Math_max_nonneg a : 0 <= Math_max 0 a.
Proof.
  unfold Math_max. destruct (Qle_bool 0 a) eqn:E.
  - apply Qle_bool_iff. exact E.
  - apply Qle_refl.
Qed.

#[global] Instance Math_max_proper : Proper (Qeq ==> Qeq ==> Qeq) Math_max.
Proof.
  intros a a' Ha b b' Hb. rewrite !Math_max_spec.
  rewrite Ha, Hb. reflexivity.
Qed.

#[global] Instance round2_proper : Proper (Qeq ==> Qeq) round2.
Proof.
  intros a b H. unfold round2, Math_round.
  assert (E : (a + EPSILON) * 100 + (1 # 2) == (b + EPSILON) * 100 + (1 # 2))
    by (rewrite H; reflexivity).
  rewrite (Qfloor_comp _ _ E). reflexivity.
Qed.

Lemma fold_left_totals (items : list JobItem) (acc : Q) :
  fold_left (fun sum item => sum + item_total item) items acc
  == acc + sumTotals items.
Proof.
  revert acc. induction items as [|it rest IH]; intros acc; simpl.
  - ring.
  - rewrite IH. ring.
Qed.

(** [round2] yields a whole number of hundredths. *)
Lemma round2_hundredths n : round2 n == Math_round ((n + EPSILON) * 100) # 100.
Proof.
  unfold round2. unfold Qdiv, Qmult, Qeq, inject_Z, Qinv; simpl. lia.
Qed.

Lemma round2_lower n : n - (1 # 200) < round2 n.
Proof.
  unfold round2, Math_round.
  pose proof (Qlt_floor ((n + EPSILON) * 100 + (1 # 2))) as H.
  rewrite inject_Z_plus in H.
  set (f := inject_Z (Qfloor ((n + EPSILON) * 100 + (1 # 2)))) in *.
  assert (He : 0 < EPSILON) by reflexivity.
  change (inject_Z 1) with 1 in H.
  apply Qlt_shift_div_l; [reflexivity|]. lra.
Qed.

Lemma round2_upper n : round2 n <= n + EPSILON + (1 # 200).
Proof.
  unfold round2, Math_round.
  pose proof (Qfloor_le ((n + EPSILON) * 100 + (1 # 2))) as H.
  set (f := inject_Z (Qfloor ((n + EPSILON) * 100 + (1 # 2)))) in *.
  apply Qle_shift_div_r; [reflexivity|]. lra.
Qed.

Lemma round2_mono a b : a <= b -> round2 a <= round2 b.
Proof.
  intros H. unfold round2, Math_round, Qdiv.
  apply Qmult_le_compat_r; [|discriminate].
  rewrite <- Zle_Qle. apply Qfloor_resp_le. lra.
Qed.

Lemma calculateBilling_fields (onlyApproved : bool) (jc : JobCard) :
  let b := billing (calculateBilling onlyApproved jc) in
  subtotal b == round2 (sumTotals (usedItems onlyApproved jc))
  /\ taxAmount b == round2 (Math_max 0 (unroundedTax onlyApproved jc))
  /\ grandTotal b
     == round2 (Math_max 0 (afterDiscount onlyApproved jc
                            + unroundedTax onlyApproved jc)).
Proof.
  assert (S : fold_left (fun sum item => sum + item_total item)
                (usedItems onlyApproved jc) 0
              == sumTotals (usedItems onlyApproved jc)).
  { rewrite fold_left_totals. ring. }
  assert (A : Math_max 0
                (fold_left (fun sum item => sum + item_total item)
                   (usedItems onlyApproved jc) 0
                 - Math_max 0 (discount (billing jc)))
              == afterDiscount onlyApproved jc).
  { unfold afterDiscount. rewrite S, !Math_max_spec. reflexivity. }
  unfold calculateBilling, unroundedTax, set_billing; cbn [billing subtotal taxAmount grandTotal].
  fold (usedItems onlyApproved jc).
  split; [|split].
  - rewrite S. reflexivity.
  - rewrite A. reflexivity.
  - rewrite A. reflexivity.
Qed.

End BillingFacts.

(** ** The stored figures, on binary64 *)

Module Binary64Facts.
Import PrimFloat SpecFloat FloatOps Binary64 Binary64Spec.
Local Open Scope float_scope.
#[local] Set Warnings "-inexact-float".








End Binary64Facts.

(* ===================================================================== *)
(** * Properties of the job card engine *)
(* ===================================================================== *)

Module JobCardFacts.
Import Num JobCardModel PaymentModel JobCardController BillingSpec Scenarios.

Local Open Scope Q_scope.

Lemma gtb_true a b : gtb a b = true <-> b < a.
Proof.
  unfold gtb. rewrite negb_true_iff. split.
  - intros H. apply Qnot_le_lt. intros L. apply Qle_bool_iff in L. congruence.
  - intros H. destruct (Qle_bool a b) eqn:E; [|reflexivity].
    apply Qle_bool_iff in E. exfalso. apply (Qlt_not_le _ _ H E).
Qed.

Lemma gtb_false a b : gtb a b = false <-> a <= b.
Proof.
  unfold gtb. rewrite negb_false_iff. apply Qle_bool_iff.
Qed.

(** The signed total of [getJobCardPayments] is payments minus refunds. *)
Lemma totalPaid_net (id : Id) (ps : list Payment) :
  totalPaid id ps
  == sumQ (completedAmounts false id ps) - sumQ (completedAmounts true id ps).
Proof.
  unfold totalPaid, getJobCardPayments, findCompleted; simpl.
  assert (G : forall acc,
    fold_left
      (fun sum p => if decide (paymentType p = refund) then sum - amount p
                    else sum + amount p)
      (List.filter
         (fun p => bool_decide (pay_jobCard p = id)
                   && bool_decide (pay_status p = completed)) ps) acc
    == acc + (sumQ (completedAmounts false id ps)
              - sumQ (completedAmounts true id ps))).
  { induction ps as [|p ps IH]; intros acc.
    - simpl. ring.
    - unfold completedAmounts in *. simpl.
      destruct (bool_decide (pay_jobCard p = id)
                && bool_decide (pay_status p = completed)) eqn:E; simpl.
      + rewrite IH. destruct (decide (paymentType p = refund)) as [R|R].
        * rewrite (bool_decide_eq_true_2 _ R). simpl. unfold sumQ. simpl. ring.
        * rewrite (bool_decide_eq_false_2 _ R). simpl. unfold sumQ. simpl. ring.
      + apply IH. }
  rewrite G. ring.
Qed.

Lemma Math_max_0_le a b : 0 <= b -> (Math_max 0 a <= b <-> a <= b).
Proof.
  intros Hb. unfold Math_max. destruct (Qle_bool 0 a) eqn:E.
  - reflexivity.
  - assert (H : ~ 0 <= a) by (intros H; apply Qle_bool_iff in H; congruence).
    apply Qnot_le_lt in H. split; intros _; [lra | exact Hb].
Qed.

(** The gate opens exactly for a ready job whose balance due is at most
    0.01. *)
Lemma deliveryGate_open (id : Id) (jc : JobCard) (db : DB) :
  deliveryGate id jc db = None
  <-> status jc = ready /\ balanceDue id db jc <= 1 # 100.
Proof.
  unfold deliveryGate, balanceDue.
  destruct (decide (status jc <> ready)) as [N|N].
  - split; [discriminate|]. intros [E _]. contradiction.
  - assert (E : status jc = ready) by (destruct (decide (status jc = ready)); tauto).
    assert (P : 0 <= 1 # 100) by discriminate.
    destruct (gtb _ _) eqn:G.
    + split; [discriminate|]. intros [_ L].
      apply gtb_true in G. exfalso.
      apply (Qlt_not_le _ _ G). apply (proj2 (Math_max_0_le _ _ P)).
      rewrite totalPaid_net. exact L.
    + split; [|reflexivity]. intros _. split; [exact E|].
      apply gtb_false in G. apply (proj1 (Math_max_0_le _ _ P)) in G.
      rewrite totalPaid_net in G. exact G.
Qed.

Lemma deliveryGate_applyFields id body jc db :
  deliveryGate id (applyFields body jc) db = deliveryGate id jc db.
Proof. reflexivity. Qed.

Lemma lookup_store id jc db : jobCards (store id jc db) !! id = Some jc.
Proof. unfold store, set_jobCards; simpl. apply lookup_insert_eq. Qed.

Lemma status_updateStatus s u n t jc : status (updateStatus s u n t jc) = s.
Proof. reflexivity. Qed.

Lemma deliveryGate_closed (id : Id) (jc : JobCard) (db : DB) :
  status jc <> ready \/ 1 # 100 < balanceDue id db jc ->
  exists e, deliveryGate id jc db = Some e.
Proof.
  intros H. destruct (deliveryGate id jc db) as [e|] eqn:G; [eauto|].
  apply deliveryGate_open in G. destruct G as [E L].
  destruct H as [H|H]; [contradiction|].
  exfalso. apply (Qlt_not_le _ _ H L).
Qed.

(** The rule on the admin handler. *)
Lemma updateJobCard_gated db id jc body userId now :
  jobCards db !! id = Some jc ->
  deliveryRule id db jc (ub_status body) (updateJobCard id body userId now db).
Proof.
  intros L. unfold deliveryRule, updateJobCard. rewrite L.
  destruct (ub_status body) as [s|] eqn:S.
  - destruct (decide (s <> status (applyFields body jc))) as [D|D].
    + destruct (decide (s = delivered)) as [->|Nd].
      * rewrite deliveryGate_applyFields.
        destruct (deliveryGate id jc db) as [e|] eqn:G.
        -- simpl. split.
           ++ intros jc' L' Hd Hn. rewrite L in L'. congruence.
           ++ intros _ _ _. split; [eauto|reflexivity].
        -- apply deliveryGate_open in G. destruct G as [Er Lb]. split.
           ++ intros jc' _ _ _. auto.
           ++ intros _ _ [H|H]; [contradiction|].
              exfalso. apply (Qlt_not_le _ _ H Lb).
      * split.
        -- intros jc' L' Hd Hn. exfalso.
           destruct (validateModified _); cbn [fst snd] in L'.
           ++ rewrite L in L'. congruence.
           ++ rewrite lookup_store in L'. inversion L'; subst jc'.
              rewrite status_updateStatus in Hd. contradiction.
        -- intros E. congruence.
    + split.
      * intros jc' L' Hd Hn. exfalso.
        destruct (validateModified _); cbn [fst snd] in L'.
        -- rewrite L in L'. congruence.
        -- rewrite lookup_store in L'. inversion L'; subst jc'.
           apply Hn. exact Hd.
      * intros E Hn _. exfalso. apply D. intros E'. apply Hn.
        change (status (applyFields body jc)) with (status jc) in E'.
        congruence.
  - split.
    + intros jc' L' Hd Hn. exfalso.
      destruct (validateModified _); cbn [fst snd] in L'.
      * rewrite L in L'. congruence.
      * rewrite lookup_store in L'. inversion L'; subst jc'.
        apply Hn. exact Hd.
    + discriminate.
Qed.

(** The rule on the mechanic handler. *)
Lemma updateAssignedJobCardStatus_gated db id jc body userId now :
  jobCards db !! id = Some jc ->
  deliveryRule id db jc (Some (mb_status body))
    (updateAssignedJobCardStatus id body userId now db).
Proof.
  intros L. unfold deliveryRule, updateAssignedJobCardStatus. rewrite L.
  destruct (ensureMechanicAssigned jc userId) as [e|].
  { simpl. split.
    - intros jc' L' Hd Hn. rewrite L in L'. congruence.
    - intros _ _ _. split; [eauto|reflexivity]. }
  destruct (decide (mb_status body <> status jc)) as [D|D].
  - destruct (decide (mb_status body = delivered)) as [E|Nd].
    + rewrite E.
      destruct (deliveryGate id jc db) as [e|] eqn:G.
      * simpl. split.
        -- intros jc' L' Hd Hn. rewrite L in L'. congruence.
        -- intros _ _ _. split; [eauto|reflexivity].
      * apply deliveryGate_open in G. destruct G as [Er Lb]. split.
        -- intros jc' _ _ _. auto.
        -- intros _ _ [H|H]; [contradiction|].
           exfalso. apply (Qlt_not_le _ _ H Lb).
    + split.
      * intros jc' L' Hd Hn. exfalso. cbn [fst snd] in L'.
        rewrite lookup_store in L'. inversion L'; subst jc'.
        rewrite status_updateStatus in Hd. contradiction.
      * intros E. congruence.
  - split.
    + intros jc' L' Hd Hn. exfalso. cbn [fst snd] in L'. rewrite L in L'. congruence.
    + intros E Hn _. exfalso. apply D. congruence.
Qed.

(** C1. For every job card and every explicit status-change request, by
    the admin handler or by the mechanic handler: the status becomes
    delivered only if the request asks for it while the current status is
    exactly ready and the balance due (grand total minus completed payments
    net of completed refunds) is at most 0.01; a request for delivered from
    another status, or with balance due above 0.01, is answered by an error
    and leaves the database, hence the status, unchanged. *)
Theorem delivery_gate (db : DB) (id : Id) (jc : JobCard) (userId : UserId)
    (now : Date) :
  jobCards db !! id = Some jc ->
  (forall body,
      deliveryRule id db jc (ub_status body)
        (updateJobCard id body userId now db))
  /\ (forall body,
        deliveryRule id db jc (Some (mb_status body))
          (updateAssignedJobCardStatus id body userId now db)).
Proof.
  intros L. split; intros body.
  - apply updateJobCard_gated. exact L.
  - apply updateAssignedJobCardStatus_gated. exact L.
Qed.

(** The theorem at a ready job billed 212.40 with 100 paid: the admin's
    request for delivered is rejected and nothing changes. *)
Lemma delivery_gate_witness :
  let db := jobWith ready [paymentOf 1%positive 100 partial completed] in
  jobCards db !! 1%positive = Some (billedJob ready)
  /\ (exists e,
        snd (updateJobCard 1%positive (statusOnly delivered) 9%positive 5%nat db)
        = Failure e)
  /\ fst (updateJobCard 1%positive (statusOnly delivered) 9%positive 5%nat db)
     = db.
Proof.
  intros db.
  assert (L : jobCards db !! 1%positive = Some (billedJob ready))
    by (vm_compute; reflexivity).
  split; [exact L|].
  apply (proj2 (proj1 (delivery_gate db 1%positive (billedJob ready)
                         9%positive 5%nat L) (statusOnly delivered))).
  - reflexivity.
  - discriminate.
  - right. vm_compute. reflexivity.
Defined.

(** The specification's scenario: with 212.40 paid and completed, the
    request for delivered on the ready job succeeds. *)
Example delivery_after_full_payment :
  let db := jobWith ready [paymentOf 1%positive (1062 # 5) full completed] in
  let r := updateJobCard 1%positive (statusOnly delivered) 9%positive 5%nat db in
  isSuccess (snd r) = true
  /\ status <$> jobCards (fst r) !! 1%positive = Some delivered.
Proof. split; vm_compute; reflexivity. Qed.

Lemma Qle_bool_true a b : a <= b -> Qle_bool a b = true.
Proof. apply Qle_bool_iff. Qed.

Lemma Math_min_nonneg a b : 0 <= a -> 0 <= b -> 0 <= Math_min a b.
Proof. intros Ha Hb. unfold Math_min. destruct (Qle_bool a b); assumption. Qed.

Lemma Math_max_r_nonneg a : 0 <= Math_max a 0.
Proof.
  unfold Math_max. destruct (Qle_bool a 0) eqn:E; [apply Qle_refl|].
  assert (H : ~ a <= 0) by (intros H; apply Qle_bool_iff in H; congruence).
  apply Qnot_le_lt in H. apply Qlt_le_weak. exact H.
Qed.

Lemma findIndex_Some itemId items :
  itemId ∈ item_id <$> items ->
  exists i, findIndex itemId items = Some i /\ (i < length items)%nat.
Proof.
  induction items as [|it rest IH]; intros H.
  - inversion H.
  - simpl. destruct (decide (item_id it = itemId)) as [E|N].
    + exists O. split; [reflexivity|simpl; lia].
    + rewrite fmap_cons in H. apply elem_of_cons in H.
      destruct H as [H|H]; [congruence|].
      destruct (IH H) as (i & Hi & Hl). exists (S i).
      rewrite Hi. split; [reflexivity|simpl; lia].
Qed.

(** C4, the claim as stated, fails: on a delivered job card an item is
    added, an item is removed and the status is changed back to inspection,
    each request answered with success. *)
Lemma delivered_job_still_mutable :
  let db := jobWith delivered [paymentOf 1%positive (1062 # 5) full completed] in
  let added :=
    addJobItem 1%positive
      (mkAddJobItemBody part "Wiper blade" (Some 1) 350 None)
      9%positive 5%nat db in
  let removed := removeJobItem 1%positive 1%positive db in
  let reopened :=
    updateJobCard 1%positive (statusOnly inspection) 9%positive 5%nat db in
  status <$> jobCards db !! 1%positive = Some delivered
  /\ isSuccess (snd added) = true
  /\ (length ∘ jobItems) <$> jobCards (fst added) !! 1%positive = Some 2%nat
  /\ isSuccess (snd removed) = true
  /\ jobItems <$> jobCards (fst removed) !! 1%positive = Some []
  /\ isSuccess (snd reopened) = true
  /\ status <$> jobCards (fst reopened) !! 1%positive = Some inspection.
Proof. repeat split; vm_compute; reflexivity. Qed.

(** C4, amended. Terminal states are not enforced on these operations.
    For a job card whose status is delivered or cancelled: adding a valid
    item succeeds, appends the item and keeps the status; removing an
    existing item succeeds, removes one item and keeps the status; an
    explicit change to any other status except delivered succeeds and sets
    that status; only the change from cancelled to delivered is rejected,
    leaving the database unchanged. *)
Theorem terminal_states_not_enforced (db : DB) (id : Id) (jc : JobCard)
    (userId : UserId) (now : Date) :
  jobCards db !! id = Some jc ->
  status jc = delivered \/ status jc = cancelled ->
  (forall body q,
      ab_description body <> EmptyString ->
      ab_quantity body = Some q -> 1 <= q -> 0 <= ab_unitPrice body ->
      exists jc' it,
        addJobItem id body userId now db
        = (store id jc' db, Success "Job item added successfully" jc')
        /\ jobItems jc' = jobItems jc ++ [it]
        /\ status jc' = status jc)
  /\ (forall itemId,
        itemId ∈ item_id <$> jobItems jc ->
        exists jc',
          removeJobItem id itemId db
          = (store id jc' db, Success "Job item removed successfully" jc')
          /\ S (length (jobItems jc')) = length (jobItems jc)
          /\ status jc' = status jc)
  /\ (forall body s,
        ub_status body = Some s -> s <> status jc -> s <> delivered ->
        validateModified (truthyNumber (ub_odometerReading body)) = None ->
        exists jc',
          updateJobCard id body userId now db
          = (store id jc' db, Success "Job card updated successfully" jc')
          /\ status jc' = s)
  /\ (forall body,
        ub_status body = Some delivered -> status jc = cancelled ->
        (exists e, snd (updateJobCard id body userId now db) = Failure e)
        /\ fst (updateJobCard id body userId now db) = db).
Proof.
  intros L T. split; [|split; [|split]].
  - intros body q Hd Hq H1 Hp. unfold addJobItem. rewrite L, Hq.
    set (lineTotal := q * ab_unitPrice body).
    assert (Hl : 0 <= lineTotal)
      by (apply Qmult_le_0_compat; [lra | exact Hp]).
    set (it := mkJobItem _ _ _ _ _ _ _ _ _).
    assert (V : validItem it = true).
    { unfold validItem, it;
        cbn [item_description item_quantity item_unitPrice item_discount].
      apply String.eqb_neq in Hd. rewrite Hd.
      rewrite (Qle_bool_true _ _ H1), (Qle_bool_true _ _ Hp). simpl.
      apply Qle_bool_true. apply Math_min_nonneg; [apply Math_max_r_nonneg|].
      exact Hl. }
    rewrite V. cbn [negb].
    replace (bool_decide (status (set_jobItems (jobItems jc ++ [it]) jc) = inspection)
             || bool_decide (status (set_jobItems (jobItems jc ++ [it]) jc) = in_progress))
      with false.
    + eexists _, it. split; [reflexivity|]. split; reflexivity.
    + symmetry. apply orb_false_iff.
      change (status (set_jobItems (jobItems jc ++ [it]) jc)) with (status jc).
      split; apply bool_decide_eq_false_2; destruct T as [E|E]; rewrite E;
        discriminate.
  - intros itemId Hin. unfold removeJobItem. rewrite L.
    destruct (findIndex_Some _ _ Hin) as (i & Hi & Hlt). rewrite Hi.
    eexists. split; [reflexivity|]. split; [|reflexivity].
    cbn [jobItems calculateBilling set_billing set_jobItems].
    rewrite length_delete by (apply lookup_lt_is_Some_2; exact Hlt). lia.
  - intros body s Hs Hne Hnd Hv. unfold updateJobCard. rewrite L, Hs.
    destruct (decide (s <> status (applyFields body jc))) as [D|D];
      [|exfalso; apply D; exact Hne].
    destruct (decide (s = delivered)) as [E|_]; [contradiction|].
    rewrite Hv. eexists. split; reflexivity.
  - intros body Hs Hc.
    destruct (updateJobCard_gated db id jc body userId now L) as [_ R].
    apply R.
    + exact Hs.
    + rewrite Hc. discriminate.
    + left. rewrite Hc. discriminate.
Qed.

(** The theorem at a cancelled job card: it is reopened to in-progress. *)
Lemma terminal_states_not_enforced_witness :
  let db := jobWith cancelled [] in
  jobCards db !! 1%positive = Some (billedJob cancelled)
  /\ exists jc',
       updateJobCard 1%positive (statusOnly in_progress) 9%positive 5%nat db
       = (store 1%positive jc' db, Success "Job card updated successfully" jc')
       /\ status jc' = in_progress.
Proof.
  intros db.
  assert (L : jobCards db !! 1%positive = Some (billedJob cancelled))
    by (vm_compute; reflexivity).
  split; [exact L|].
  apply (proj1 (proj2 (proj2
           (terminal_states_not_enforced db 1%positive (billedJob cancelled)
              9%positive 5%nat L (or_intror eq_refl))))
           (statusOnly in_progress) in_progress);
    try reflexivity; discriminate.
Defined.

End JobCardFacts.

(* ===================================================================== *)
(** * Properties of the payment ledger *)
(* ===================================================================== *)

Module PaymentFacts.
Import Num PaymentJson PaymentController Scenarios.

Local Open Scope Q_scope.

Lemma find_append {A} (f : A -> bool) (l1 l2 : list A) :
  List.find f (l1 ++ l2)
  = match List.find f l1 with Some x => Some x | None => List.find f l2 end.
Proof.
  induction l1 as [|x l1 IH]; [reflexivity|].
  simpl. destruct (f x); [reflexivity|exact IH].
Qed.

Lemma findById_Some id ps p :
  findById id ps = Some p -> pay_id p = id /\ p ∈ ps.
Proof.
  unfold findById. intros H. apply find_some in H. destruct H as [Hin Hb].
  apply bool_decide_eq_true in Hb. split; [exact Hb|].
  apply list_elem_of_In. exact Hin.
Qed.

Lemma findById_map id ps p (q : Payment) :
  findById id ps = Some p -> pay_id q = id ->
  findById id (List.map (fun x => if decide (pay_id x = id) then q else x) ps)
  = Some q.
Proof.
  unfold findById. intros H Hq. induction ps as [|x rest IH]; [discriminate|].
  simpl in *. destruct (decide (pay_id x = id)) as [E|N].
  - rewrite (bool_decide_eq_true_2 _ Hq). reflexivity.
  - rewrite (bool_decide_eq_false_2 _ N) in *. apply IH. exact H.
Qed.

Lemma freshPaymentId_fresh ps p : p ∈ ps -> freshPaymentId ps <> pay_id p.
Proof.
  intros Hin E. unfold freshPaymentId in E.
  pose proof (is_fresh (list_to_set (pay_id <$> ps) : gset Id)) as F.
  apply F. rewrite E. apply elem_of_list_to_set. apply list_elem_of_fmap.
  exists p. split; [reflexivity|exact Hin].
Qed.

(** C6, the claim as stated, fails: the refund record is written first and
    stays when the update of the original payment is not acknowledged; the
    request fails, a refund record exists and the original is still
    completed. *)
Lemma refund_not_atomic :
  let db := jobWith delivered [paymentOf 1%positive (1062 # 5) full completed] in
  let r :=
    processRefund 1%positive (mkRefundBody 100 "Overcharged") 9%positive 5%nat
      (mkWriteAcks true false) db in
  snd r = Failure StoreError
  /\ pay_status <$> findById 1%positive (payments (fst r)) = Some completed
  /\ paymentType <$> payments (fst r) = [full; refund]
  /\ pay_status <$> payments (fst r) = [completed; completed].
Proof. repeat split; vm_compute; reflexivity. Qed.

(** C6, amended. A refund request against an original payment fails with
    the invalid-state error (and changes nothing) if the original is not
    completed, and with the out-of-range error (and changes nothing) if the
    amount exceeds the original amount.  Otherwise, for an amount that is
    not negative, it issues two writes in sequence, outside any
    transaction: when the first is refused nothing changes; when both are
    acknowledged a new completed payment of type refund exists and the
    original is refunded. *)
Theorem processRefund_outcomes (db : DB) (id : Id) (body : RefundBody)
    (userId : UserId) (now : Date) (acks : WriteAcks) (orig : Payment) :
  findById id (payments db) = Some orig ->
  let r := processRefund id body userId now acks db in
  (pay_status orig <> completed ->
     r = (db, Failure (badRequest "Can only refund completed payments" [])))
  /\ (pay_status orig = completed -> amount orig < rb_amount body ->
      r = (db, Failure
                 (badRequest "Refund amount cannot exceed original payment" [])))
  /\ (pay_status orig = completed ->
      0 <= rb_amount body -> rb_amount body <= amount orig ->
      (createAck acks = false -> r = (db, Failure StoreError))
      /\ (createAck acks = true -> saveAck acks = true ->
          exists created flipped,
            snd r = Success "Refund processed successfully" created
            /\ paymentType created = refund
            /\ pay_status created = completed
            /\ amount created = rb_amount body
            /\ pay_jobCard created = pay_jobCard orig
            /\ findById (pay_id created) (payments db) = None
            /\ findById (pay_id created) (payments (fst r)) = Some created
            /\ findById id (payments (fst r)) = Some flipped
            /\ pay_status flipped = refunded
            /\ amount flipped = amount orig
            /\ length (payments (fst r)) = S (length (payments db)))).
Proof.
  intros F r. subst r. unfold processRefund. rewrite F.
  split; [|split].
  - intros N. rewrite (bool_decide_eq_false_2 _ N). reflexivity.
  - intros C G. rewrite (bool_decide_eq_true_2 _ C). cbn [negb].
    rewrite (proj2 (JobCardFacts.gtb_true _ _) G). reflexivity.
  - intros C P Le. rewrite (bool_decide_eq_true_2 _ C). cbn [negb].
    rewrite (proj2 (JobCardFacts.gtb_false _ _) Le).
    rewrite (JobCardFacts.Qle_bool_true _ _ P). cbn [negb].
    split.
    + intros A. rewrite A. reflexivity.
    + intros A S. rewrite A, S. cbn [negb fst snd].
      destruct (findById_Some _ _ _ F) as [Eid Hin].
      pose proof (freshPaymentId_fresh _ _ Hin) as Fr. rewrite Eid in Fr.
      eexists _, _. split; [reflexivity|].
      cbn [paymentType pay_status amount pay_jobCard pay_id set_payments payments].
      do 4 (split; [reflexivity|]).
      split; [|split; [|split; [|split; [|split]]]].
      * destruct (findById (freshPaymentId (payments db)) (payments db))
          as [x|] eqn:X; [|reflexivity].
        destruct (findById_Some _ _ _ X) as [Ex Hx].
        exfalso. apply (freshPaymentId_fresh _ _ Hx). symmetry. exact Ex.
      * rewrite map_app. unfold findById. rewrite find_append.
        match goal with |- context [List.find ?f (List.map ?g ?l)] =>
          destruct (List.find f (List.map g l)) as [x|] eqn:X end.
        -- exfalso. apply find_some in X. destruct X as [Hx Hb].
           apply bool_decide_eq_true in Hb. apply in_map_iff in Hx.
           destruct Hx as (y & Ey & Hy).
           destruct (decide (pay_id y = id)) as [D|D].
           ++ subst x. cbn [pay_id] in Hb. rewrite Eid in Hb. congruence.
           ++ subst x. apply list_elem_of_In in Hy.
              apply (freshPaymentId_fresh _ _ Hy). symmetry. exact Hb.
        -- cbn [List.map List.find pay_id].
           destruct (decide (freshPaymentId (payments db) = id)); [contradiction|].
           cbn [pay_id]. rewrite bool_decide_eq_true_2 by reflexivity.
           reflexivity.
      * rewrite map_app.
        match goal with
        | |- context [List.map (fun p => if decide (pay_id p = id) then ?q else p)] =>
            pose proof (findById_map id (payments db) orig q F Eid) as M
        end.
        unfold findById in *. rewrite find_append, M. reflexivity.
      * reflexivity.
      * reflexivity.
      * rewrite length_map, length_app. simpl. lia.
Qed.

(** The theorem at the scenario of the specification: a refund of 300
    against a completed payment of 212.40 is rejected as out of range. *)
Lemma processRefund_outcomes_witness :
  let db := jobWith delivered [paymentOf 1%positive (1062 # 5) full completed] in
  findById 1%positive (payments db)
  = Some (paymentOf 1%positive (1062 # 5) full completed)
  /\ processRefund 1%positive (mkRefundBody 300 "Overcharged") 9%positive 5%nat
       (mkWriteAcks true true) db
     = (db, Failure
              (badRequest "Refund amount cannot exceed original payment" [])).
Proof.
  intros db.
  assert (F : findById 1%positive (payments db)
              = Some (paymentOf 1%positive (1062 # 5) full completed))
    by reflexivity.
  split; [exact F|].
  apply (proj1 (proj2 (processRefund_outcomes db 1%positive
                         (mkRefundBody 300 "Overcharged") 9%positive 5%nat
                         (mkWriteAcks true true) _ F))).
  - reflexivity.
  - reflexivity.
Defined.

(** Through the schema's [toJSON] a token never shows: only the empty
    string, which is falsy, would survive the [if] of the transform. *)
Lemma toJSON_hides_token (p : Payment) :
  (forall c, checkout p = Some c -> token c <> Some EmptyString) ->
  exposesToken (toJSON p) = false.
Proof.
  intros H.
  destruct p as [i n j c a t m st tid tdet co rb nt rd ca]. cbn in H.
  destruct co as [[tok ex]|].
  - destruct tok as [[|ch rest]|].
    + exfalso. apply (H _ eq_refl). reflexivity.
    + destruct tid, tdet, ex, rb, nt, rd; reflexivity.
    + destruct tid, tdet, ex, rb, nt, rd; reflexivity.
  - destruct tid, tdet, rb, nt, rd; reflexivity.
Qed.

(** Two hydrated payments that differ only in a (non-empty) token
    serialize alike. *)
Lemma toJSON_independent_of_token i n j c a t m st tid tdet ex rb nt rd ca
    (tok1 tok2 : string) :
  tok1 <> EmptyString -> tok2 <> EmptyString ->
  toJSON (mkPayment i n j c a t m st tid tdet
            (Some (mkCheckout (Some tok1) ex)) rb nt rd ca)
  = toJSON (mkPayment i n j c a t m st tid tdet
              (Some (mkCheckout (Some tok2) ex)) rb nt rd ca).
Proof.
  intros H1 H2.
  destruct tok1 as [|c1 r1]; [contradiction|].
  destruct tok2 as [|c2 r2]; [contradiction|].
  destruct tid, tdet, ex, rb, nt, rd; reflexivity.
Qed.

(** C10 at the failing input. Customer 7 has a pending payment with a
    hosted-checkout token.  Read alone ([getPayment], a hydrated document)
    it is serialized without the token; listed ([getPayments], a lean
    query) it is returned with the token, so two payments that differ only
    in the token give different responses. *)
Theorem getPayments_exposes_token :
  let db tok := mkDB ∅ [awaitingCheckout tok] ∅ [] in
  (exists v,
      snd (getPayment 3%positive 7%positive (db "tok_A"))
      = Success "Payment fetched successfully" v
      /\ exposesToken v = false)
  /\ (exists v,
        snd (getPayments 7%positive listMine (db "tok_A"))
        = Success "Payments fetched successfully" [v]
        /\ exposesToken v = true
        /\ PaymentJson.get "checkout" (toObject (awaitingCheckout "tok_A"))
           = Some (JObject [("token", JString "tok_A");
                            ("expiresAt", JDate 1800%nat)]))
  /\ snd (getPayment 3%positive 7%positive (db "tok_A"))
     = snd (getPayment 3%positive 7%positive (db "tok_B"))
  /\ snd (getPayments 7%positive listMine (db "tok_A"))
     <> snd (getPayments 7%positive listMine (db "tok_B")).
Proof.
  intros db. split; [|split; [|split]].
  - eexists. split; vm_compute; reflexivity.
  - eexists. split; [vm_compute; reflexivity|]. split; vm_compute; reflexivity.
  - vm_compute. reflexivity.
  - vm_compute. intros H. discriminate H.
Qed.

End PaymentFacts.

(* ===================================================================== *)
(** * Properties of the stock engine *)
(* ===================================================================== *)

Module StockFacts.
Import Num InventoryController StockOps Scenarios.

(** ** Sessions *)

Lemma inSession_failure {A} (body : Tx A) msg db e :
  snd (inSession body msg db) = Failure e -> fst (inSession body msg db) = db.
Proof.
  unfold inSession.
  destruct (body db db) as [a db'|e0 txn]; [discriminate|].
  now destruct (abortTransaction txn).
Qed.

Lemma inSession_kept {A} (J : DB -> DB -> Prop) (body : Tx A) msg db :
  keepsOn J body -> J db db ->
  fst (inSession body msg db) = db \/ J db (fst (inSession body msg db)).
Proof.
  intros K I. unfold inSession. pose proof (K db db I) as H.
  destruct (body db db) as [a db'|e txn]; [right; exact H|].
  left. now destruct (abortTransaction txn).
Qed.

Lemma Inv_inSession {A} (J : DB -> Prop) (body : Tx A) msg db :
  keeps J body -> J db -> J (fst (inSession body msg db)).
Proof.
  intros K I. destruct (inSession_kept (fun _ d => J d) body msg db K I)
    as [->|H]; assumption.
Qed.

Lemma keepsOn_ret {A} J (a : A) : keepsOn J (mret a).
Proof. intros committed db I. exact I. Qed.

Lemma keepsOn_throw {A} J e : keepsOn J (@throw A e).
Proof. intros committed db I. exact Logic.I. Qed.

Lemma keepsOn_abortAndThrow {A} J e : keepsOn J (@abortAndThrow A e).
Proof. intros committed db I. exact Logic.I. Qed.

Lemma keepsOn_bind {A B} J (m : Tx A) (f : A -> Tx B) :
  keepsOn J m -> (forall a, keepsOn J (f a)) -> keepsOn J (m ≫= f).
Proof.
  intros Km Kf committed db I. unfold mbind, Tx_bind.
  pose proof (Km committed db I) as H.
  destruct (m committed db) as [a db'|e txn]; [|exact Logic.I].
  apply Kf. exact H.
Qed.

Lemma keepsOn_forEach {A B} J (f : B -> A -> Tx B) (l : list A) :
  (forall acc x, x ∈ l -> keepsOn J (f acc x)) ->
  forall acc, keepsOn J (forEach f acc l).
Proof.
  induction l as [|x rest IH]; intros H acc.
  - apply keepsOn_ret.
  - cbn [forEach]. apply keepsOn_bind.
    + apply H. left.
    + intros acc'. apply IH. intros a y Hy. apply H. right. exact Hy.
Qed.

Lemma keepsOn_findById J id : keepsOn J (findById id).
Proof. intros committed db I. exact I. Qed.

(** ** Transaction numbers *)

Lemma sameDay_ext (a b : Date) (l : list InventoryTransaction) :
  PaymentController.dayOf a = PaymentController.dayOf b ->
  List.filter (sameDay a) l = List.filter (sameDay b) l.
Proof.
  intros E. apply filter_ext. intros t. unfold sameDay. rewrite E. reflexivity.
Qed.

(** On a numbered ledger the next number of any day is free. *)
Lemma numbered_fresh (now : Date) (ledger : list InventoryTransaction) :
  numbered ledger ->
  nextNumber now ledger ∉ (tx_transactionNumber <$> ledger).
Proof.
  intros N H. apply list_elem_of_fmap in H. destruct H as (t & E & Ht).
  unfold numbered in N. rewrite Forall_forall in N.
  destruct (N t Ht) as (Hd & Hk). unfold nextNumber in E.
  rewrite <- E in Hd, Hk. cbn [fst snd] in Hd, Hk.
  rewrite (sameDay_ext (tx_createdAt t) now ledger) in Hk by (symmetry; exact Hd).
  lia.
Qed.

(** An entry appended under the next number of the committed ledger keeps
    the view numbered. *)
Lemma numbered_append (now : Date) (entry : NewTransaction)
    (committed view : list InventoryTransaction) :
  numbered view -> (exists extra, view = committed ++ extra) ->
  numbered (view ++ [stored (nextNumber now committed) now entry]).
Proof.
  intros N (extra & ->). unfold numbered in *. rewrite Forall_forall in *.
  intros t Ht. apply elem_of_app in Ht. destruct Ht as [Ht|Ht].
  - destruct (N t Ht) as (Hd & Hk). split; [exact Hd|].
    rewrite List.filter_app, length_app. lia.
  - apply list_elem_of_singleton in Ht. subst t.
    cbn [stored tx_transactionNumber tx_createdAt nextNumber fst snd].
    split; [reflexivity|].
    rewrite !List.filter_app, !length_app.
    assert (E : List.filter (sameDay now)
                  [stored (nextNumber now committed) now entry]
                = [stored (nextNumber now committed) now entry]).
    { cbn [List.filter]. unfold sameDay. cbn [stored tx_createdAt].
      rewrite bool_decide_eq_true_2 by reflexivity. reflexivity. }
    unfold nextNumber in E |- *. rewrite E. cbn [length]. lia.
Qed.

Lemma keepsOn_save id sp' : keepsOn sessionLedger (save id sp').
Proof.
  intros committed db I. unfold save.
  destruct (currentStock sp' <? 0); [exact Logic.I|]. exact I.
Qed.

Lemma keepsOn_create now entry : keepsOn sessionLedger (create now entry).
Proof.
  intros committed db (N & X). unfold create.
  destruct (negb _); [exact Logic.I|]. destruct (negb _); [exact Logic.I|].
  destruct (bool_decide _); [exact Logic.I|].
  split; cbn [transactions set_transactions].
  - apply numbered_append; assumption.
  - destruct X as (extra & ->). exists (extra ++ [stored
      (nextNumber now (transactions committed)) now entry]).
    rewrite app_assoc. reflexivity.
Qed.

Ltac ledger :=
  repeat
    match goal with
    | |- keepsOn _ (mret _) => apply keepsOn_ret
    | |- keepsOn _ (throw _) => apply keepsOn_throw
    | |- keepsOn _ (abortAndThrow _) => apply keepsOn_abortAndThrow
    | |- keepsOn _ (findById _) => apply keepsOn_findById
    | |- keepsOn _ (save _ _) => apply keepsOn_save
    | |- keepsOn _ (create _ _) => apply keepsOn_create
    | |- keepsOn _ (forEach _ _ _) => apply keepsOn_forEach; intros
    | |- keepsOn _ (mbind _ _) => apply keepsOn_bind; [|intros]
    | |- keepsOn _ (saveStock _ _ _ _) => unfold saveStock
    | |- keepsOn _ (deductLine _ _ _ _ _) => unfold deductLine
    | |- keepsOn _ (returnLine _ _ _ _ _) => unfold returnLine
    | |- keepsOn _ (match ?x with _ => _ end) => destruct x
    end.

Lemma sessionLedger_start db : numbered (transactions db) -> sessionLedger db db.
Proof. intros N. split; [exact N|]. exists []. rewrite app_nil_r. reflexivity. Qed.

Lemma numbered_inSession {A} (body : Tx A) msg db :
  keepsOn sessionLedger body -> numbered (transactions db) ->
  numbered (transactions (fst (inSession body msg db))).
Proof.
  intros K N.
  destruct (inSession_kept sessionLedger body msg db K (sessionLedger_start db N))
    as [->|[H _]]; assumption.
Qed.

(** Every request keeps the ledger numbered. *)
Lemma numbered_runOp op db :
  numbered (transactions db) -> numbered (transactions (fst (runOp op db))).
Proof.
  intros N. destruct op; cbn [runOp fst].
  - unfold createSparePart.
    destruct (orDefaultValue (cb_minStock body) 5) as [mn|]; [|exact N].
    destruct (orDefaultValue (cb_maxStock body) 100) as [mx|]; [|exact N].
    destruct (negb _); [exact N|].
    destruct (0 <? default 0 (cb_currentStock body)); [|exact N].
    match goal with
    | |- context [create ?n ?e ?c ?d] =>
        pose proof (keepsOn_create n e c d) as H;
        destruct (create n e c d) as [u db2|e' txn]
    end.
    + apply H. apply sessionLedger_start. exact N.
    + exact N.
  - unfold addStock. destruct (_ || _); [exact N|].
    apply numbered_inSession; [|exact N]. ledger.
  - unfold deductStock. destruct (_ || _); [exact N|].
    apply numbered_inSession; [|exact N]. ledger.
  - unfold adjustStock. destruct (aj_newQuantity body) as [q|]; [|exact N].
    destruct (q <? 0); [exact N|].
    apply numbered_inSession; [|exact N]. ledger.
  - unfold deductForInvoice. destruct (parts body); [exact N|].
    apply numbered_inSession; [|exact N]. ledger.
  - unfold returnFromInvoice. destruct (rb_parts body); [exact N|].
    apply numbered_inSession; [|exact N]. ledger.
Qed.

Lemma numbered_runOps ops db :
  numbered (transactions db) -> numbered (transactions (runOps ops db)).
Proof.
  revert db. induction ops as [|op ops IH]; intros db N; [exact N|].
  cbn [runOps fold_left]. apply IH. apply numbered_runOp. exact N.
Qed.

Lemma numbered_emptyDB : numbered (transactions emptyDB).
Proof. constructor. Qed.

(** The ledger of every store reached from the empty one is numbered. *)
Lemma numbered_reachable ops : numbered (transactions (runOps ops emptyDB)).
Proof. apply numbered_runOps. exact numbered_emptyDB. Qed.

(** ** Every request keeps the stored items well formed *)

Lemma wf_findById_bind {A} id (k : option Inventory -> Tx A) :
  (forall found, (forall sp, found = Some sp -> pricesOk sp) ->
                 keepsOn (fun _ db => wellFormed db) (k found)) ->
  keepsOn (fun _ db => wellFormed db) (findById id ≫= k).
Proof.
  intros H committed db W. unfold mbind, Tx_bind, findById.
  apply H; [|exact W]. intros sp L. destruct (W _ _ L) as (_ & P). exact P.
Qed.

Lemma wellFormed_insert id sp' db :
  wellFormed db -> 0 <= currentStock sp' -> pricesOk sp' ->
  wellFormed (set_inventory (<[id := sp']> (inventory db)) db).
Proof.
  intros W Hn Hp i x Hx. cbn [inventory set_inventory] in Hx.
  destruct (decide (id = i)) as [<-|N].
  - rewrite lookup_insert_eq in Hx. inversion Hx; subst x.
    destruct Hp. auto.
  - rewrite lookup_insert_ne in Hx by exact N. eapply W; eauto.
Qed.

Lemma wf_save id sp' :
  pricesOk sp' -> keepsOn (fun _ db => wellFormed db) (save id sp').
Proof.
  intros Hp committed db W. unfold save.
  destruct (currentStock sp' <? 0) eqn:Neg; [exact Logic.I|].
  apply wellFormed_insert; [exact W|lia|exact Hp].
Qed.

Lemma wf_create now entry :
  keepsOn (fun _ db => wellFormed db) (create now entry).
Proof.
  intros committed db W. unfold create.
  destruct (negb _); [exact Logic.I|]. destruct (negb _); [exact Logic.I|].
  destruct (bool_decide _); [exact Logic.I|]. exact W.
Qed.

Ltac wf :=
  repeat
    match goal with
    | |- keepsOn _ (mret _) => apply keepsOn_ret
    | |- keepsOn _ (throw _) => apply keepsOn_throw
    | |- keepsOn _ (abortAndThrow _) => apply keepsOn_abortAndThrow
    | |- keepsOn _ (create _ _) => apply wf_create
    | Hp : forall sp, Some ?x = Some sp -> pricesOk sp
      |- keepsOn _ (save _ _) => apply wf_save; exact (Hp x eq_refl)
    | |- keepsOn _ (forEach _ _ _) => apply keepsOn_forEach; intros
    | |- keepsOn _ (mbind _ (findById _)) =>
        let found := fresh "found" in
        let Hp := fresh "Hp" in
        apply wf_findById_bind; intros found Hp; destruct found
    | |- keepsOn _ (mbind _ _) => apply keepsOn_bind; [|intros]
    | |- keepsOn _ (saveStock _ _ _ _) => unfold saveStock
    | |- keepsOn _ (deductLine _ _ _ _ _) => unfold deductLine
    | |- keepsOn _ (returnLine _ _ _ _ _) => unfold returnLine
    | |- keepsOn _ (match ?x with _ => _ end) => destruct x
    end.

Lemma fresh_inventory db : inventory db !! fresh (dom (inventory db)) = None.
Proof. apply not_elem_of_dom. apply is_fresh. Qed.

(** What [createSparePart] does once the values are cast and the schema
    rules are passed. *)
Lemma createSparePart_run body userId now db minStock' maxStock' :
  orDefaultValue (cb_minStock body) 5 = Some minStock' ->
  orDefaultValue (cb_maxStock body) 100 = Some maxStock' ->
  let stock := orDefault (cb_currentStock body) 0 in
  let sparePart :=
    mkInventory (cb_name body) stock minStock' maxStock' (cb_costPrice body)
      (cb_sellingPrice body) true
      (if 0 <? default 0 (cb_currentStock body) then Some now else None) None in
  let id := fresh (dom (inventory db)) in
  let db1 := set_inventory (<[id := sparePart]> (inventory db)) db in
  let entry :=
    mkNewTransaction id purchase stock 0 stock (Some (cb_costPrice body))
      (Some (inject_Z stock * cb_costPrice body)%Q) None userId
      (Some "Initial stock entry") in
  validInventory sparePart = true ->
  createSparePart body userId now db
  = if 0 <? stock then
      if bool_decide (nextNumber now (transactions db)
                      ∈ tx_transactionNumber <$> transactions db)
      then (db1, Failure (conflict "transactionNumber already exists"))
      else (moved id sparePart
              (stored (nextNumber now (transactions db)) now entry) db,
            Success "Spare part created successfully" id)
    else (db1, Success "Spare part created successfully" id).
Proof.
  intros Hmin Hmax stock sparePart id db1 entry V. unfold createSparePart.
  rewrite Hmin, Hmax. fold stock. fold sparePart. rewrite V. cbn [negb].
  fold id. fold db1.
  assert (E : default 0 (cb_currentStock body) = stock).
  { unfold stock, orDefault. destruct (cb_currentStock body) as [z|]; simpl;
      [|reflexivity]. destruct (z =? 0) eqn:Z; [lia|reflexivity]. }
  rewrite E. fold entry. destruct (0 <? stock) eqn:Pos; [|reflexivity].
  unfold validInventory, sparePart in V. cbn [costPrice sellingPrice] in V.
  apply andb_prop in V. destruct V as [V _].
  apply andb_prop in V. destruct V as [_ Vc].
  unfold create. cbn [entry nt_unitPrice nt_totalAmount nonNegative].
  rewrite Vc. cbn [negb].
  assert (T : Qle_bool 0 (inject_Z stock * cb_costPrice body) = true).
  { apply Qle_bool_iff. apply Qmult_le_0_compat.
    - change 0%Q with (inject_Z 0). rewrite <- Zle_Qle. lia.
    - apply Qle_bool_iff. exact Vc. }
  rewrite T. cbn [negb db1 transactions set_inventory].
  destruct (bool_decide _); reflexivity.
Qed.

Lemma wellFormed_createSparePart body userId now db :
  wellFormed db -> wellFormed (fst (createSparePart body userId now db)).
Proof.
  intros W.
  destruct (orDefaultValue (cb_minStock body) 5) as [mn|] eqn:Hmin;
    [|unfold createSparePart; rewrite Hmin; exact W].
  destruct (orDefaultValue (cb_maxStock body) 100) as [mx|] eqn:Hmax;
    [|unfold createSparePart; rewrite Hmin, Hmax; exact W].
  destruct (validInventory
              (mkInventory (cb_name body) (orDefault (cb_currentStock body) 0)
                 mn mx (cb_costPrice body) (cb_sellingPrice body) true
                 (if 0 <? default 0 (cb_currentStock body) then Some now
                  else None) None)) eqn:V.
  2:{ unfold createSparePart. rewrite Hmin, Hmax, V. exact W. }
  rewrite (createSparePart_run body userId now db mn mx Hmin Hmax V).
  set (sp := mkInventory _ _ _ _ _ _ _ _ _) in *.
  assert (Wf : wellFormed
                 (set_inventory
                    (<[fresh (dom (inventory db)) := sp]> (inventory db)) db)).
  { unfold validInventory in V.
    repeat (apply andb_prop in V; let V2 := fresh "V" in destruct V as [V V2]).
    apply wellFormed_insert; [exact W|lia|].
    split; apply Qle_bool_iff; assumption. }
  destruct (0 <? orDefault (cb_currentStock body) 0); [|exact Wf].
  destruct (bool_decide _); exact Wf.
Qed.

Lemma wellFormed_runOp op db : wellFormed db -> wellFormed (fst (runOp op db)).
Proof.
  intros W. destruct op; cbn [runOp fst].
  - apply wellFormed_createSparePart. exact W.
  - unfold addStock. destruct (_ || _); [exact W|].
    apply Inv_inSession; [|exact W]. unfold keeps. wf.
  - unfold deductStock. destruct (_ || _); [exact W|].
    apply Inv_inSession; [|exact W]. unfold keeps. wf.
  - unfold adjustStock. destruct (aj_newQuantity body) as [q|]; [|exact W].
    destruct (q <? 0); [exact W|].
    apply Inv_inSession; [|exact W]. unfold keeps. wf.
  - unfold deductForInvoice. destruct (parts body); [exact W|].
    apply Inv_inSession; [|exact W]. unfold keeps. wf.
  - unfold returnFromInvoice. destruct (rb_parts body); [exact W|].
    apply Inv_inSession; [|exact W]. unfold keeps. wf.
Qed.

Lemma wellFormed_runOps ops db : wellFormed db -> wellFormed (runOps ops db).
Proof.
  revert db. induction ops as [|op ops IH]; intros db W; [exact W|].
  cbn [runOps fold_left]. apply IH. apply wellFormed_runOp. exact W.
Qed.

Lemma wellFormed_emptyDB : wellFormed emptyDB.
Proof. intros id sp H. cbn in H. rewrite lookup_empty in H. discriminate. Qed.

Ltac session_cases :=
  unfold inSession;
  match goal with
  | |- context [match ?m with Done _ _ => _ | Thrown _ _ => _ end] =>
      destruct m as [? ?|? []]
  end;
  cbn [snd fst isFailure isSuccess negb].

(** A rejected request leaves the database as it was; for the creation of
    an item this holds on a numbered ledger, where the entry of the
    initial stock cannot be refused. *)
Lemma runOp_rejected op db :
  match op with
  | CreateSparePart _ _ _ => numbered (transactions db)
  | _ => True
  end ->
  snd (runOp op db) = true -> fst (runOp op db) = db.
Proof.
  intros N. destruct op; cbn [runOp fst snd].
  - destruct (orDefaultValue (cb_minStock body) 5) as [mn|] eqn:Hmin;
      [|unfold createSparePart; rewrite Hmin; reflexivity].
    destruct (orDefaultValue (cb_maxStock body) 100) as [mx|] eqn:Hmax;
      [|unfold createSparePart; rewrite Hmin, Hmax; reflexivity].
    destruct (validInventory
                (mkInventory (cb_name body) (orDefault (cb_currentStock body) 0)
                   mn mx (cb_costPrice body) (cb_sellingPrice body) true
                   (if 0 <? default 0 (cb_currentStock body) then Some now
                    else None) None)) eqn:V.
    + rewrite (createSparePart_run body userId now db mn mx Hmin Hmax V).
      rewrite (bool_decide_eq_false_2 _ (numbered_fresh now _ N)).
      destruct (0 <? orDefault (cb_currentStock body) 0);
        cbn [snd fst isFailure isSuccess negb]; discriminate.
    + unfold createSparePart. rewrite Hmin, Hmax, V. reflexivity.
  - unfold addStock. destruct (_ || _); [reflexivity|].
    session_cases; first [discriminate|reflexivity].
  - unfold deductStock. destruct (_ || _); [reflexivity|].
    session_cases; first [discriminate|reflexivity].
  - unfold adjustStock. destruct (aj_newQuantity body) as [q|]; [|reflexivity].
    destruct (q <? 0); [reflexivity|].
    session_cases; first [discriminate|reflexivity].
  - unfold deductForInvoice. destruct (parts body); [reflexivity|].
    session_cases; first [discriminate|reflexivity].
  - unfold returnFromInvoice. destruct (rb_parts body); [reflexivity|].
    session_cases; first [discriminate|reflexivity].
Qed.

(** ** One stock movement *)

Lemma save_create_run {A} id sp' now e (k : Tx A) committed db :
  (_ ← save id sp'; _ ← create now e; k) committed db
  = if currentStock sp' <? 0
    then Thrown (ValidationError "currentStock") TRANSACTION_IN_PROGRESS
    else if negb (nonNegative (nt_unitPrice e))
         then Thrown (ValidationError "unitPrice") TRANSACTION_IN_PROGRESS
    else if negb (nonNegative (nt_totalAmount e))
         then Thrown (ValidationError "totalAmount") TRANSACTION_IN_PROGRESS
    else if bool_decide (nextNumber now (transactions committed)
                         ∈ tx_transactionNumber <$> transactions db)
         then Thrown (conflict "transactionNumber already exists")
                TRANSACTION_IN_PROGRESS
    else k committed
           (moved id sp' (stored (nextNumber now (transactions committed)) now e)
              db).
Proof.
  unfold mbind, Tx_bind, save, create, moved.
  destruct (currentStock sp' <? 0); [reflexivity|].
  cbn [set_inventory transactions].
  destruct (negb (nonNegative (nt_unitPrice e))); [reflexivity|].
  destruct (negb (nonNegative (nt_totalAmount e))); [reflexivity|].
  destruct (bool_decide _); reflexivity.
Qed.

(** [saveStock] on a value that casts to the number [n]. *)
Lemma saveStock_run {A} id value n restocked sp (k : Z * Inventory -> Tx A)
    committed db :
  Js.castNumber value = Some n ->
  (saveStock id value restocked sp ≫= k) committed db
  = (_ ← save id (set_stock n restocked None sp);
     k (n, set_stock n restocked None sp)) committed db.
Proof.
  intros C. unfold saveStock. rewrite C. unfold mbind, Tx_bind, save.
  destruct (currentStock _ <? 0); reflexivity.
Qed.

Lemma entriesOf_app id l1 l2 :
  entriesOf id (l1 ++ l2) = entriesOf id l1 ++ entriesOf id l2.
Proof. unfold entriesOf. apply List.filter_app. Qed.

Lemma sumQuantity_app l1 l2 :
  sumQuantity (l1 ++ l2) = sumQuantity l1 + sumQuantity l2.
Proof.
  unfold sumQuantity. induction l1 as [|t l1 IH]; simpl; [reflexivity|].
  rewrite IH. lia.
Qed.

Lemma stockOf_moved_same id sp' e db :
  stockOf id (moved id sp' e db) = currentStock sp'.
Proof.
  unfold stockOf, moved. cbn [inventory set_transactions set_inventory].
  rewrite lookup_insert_eq. reflexivity.
Qed.

Lemma stockOf_moved_other id sp' e db p :
  id <> p -> stockOf p (moved id sp' e db) = stockOf p db.
Proof.
  intros N. unfold stockOf, moved. cbn [inventory set_transactions set_inventory].
  rewrite lookup_insert_ne by exact N. reflexivity.
Qed.

Lemma is_Some_moved id sp sp' e db p :
  inventory db !! id = Some sp ->
  (inventory (moved id sp' e db) !! p = None <-> inventory db !! p = None).
Proof.
  intros L. unfold moved. cbn [inventory set_transactions set_inventory].
  destruct (decide (id = p)) as [<-|N].
  - rewrite lookup_insert_eq, L. split; discriminate.
  - rewrite lookup_insert_ne by exact N. reflexivity.
Qed.

Lemma wellFormed_moved id sp sp' e db :
  wellFormed db -> inventory db !! id = Some sp ->
  0 <= currentStock sp' ->
  sellingPrice sp' = sellingPrice sp -> costPrice sp' = costPrice sp ->
  wellFormed (moved id sp' e db).
Proof.
  intros W L Hn Hs Hc i x Hx. unfold moved in Hx.
  cbn [inventory set_transactions set_inventory] in Hx.
  destruct (decide (id = i)) as [<-|N].
  - rewrite lookup_insert_eq in Hx. inversion Hx; subst x.
    destruct (W _ _ L) as (_ & P1 & P2). rewrite Hs, Hc. auto.
  - rewrite lookup_insert_ne in Hx by exact N. eapply W; eauto.
Qed.

Lemma price_checks_pass (q : Z) (price : Q) :
  0 <= q -> (0 <= price)%Q ->
  negb (nonNegative (Some price)) = false
  /\ negb (nonNegative (Some (inject_Z q * price)%Q)) = false.
Proof.
  intros Hq Hp. cbn [nonNegative]. split; apply negb_false_iff.
  - apply Qle_bool_iff. exact Hp.
  - apply Qle_bool_iff. apply Qmult_le_0_compat; [|exact Hp].
    change 0%Q with (inject_Z 0). rewrite <- Zle_Qle. exact Hq.
Qed.

(** ** The ledger invariants under requests with JSON numbers *)

Lemma Inv_moved db id sp sp' e :
  Inv db ->
  inventory db !! id = Some sp ->
  0 <= currentStock sp' ->
  sellingPrice sp' = sellingPrice sp -> costPrice sp' = costPrice sp ->
  tx_inventory e = id ->
  tx_previousStock e = currentStock sp ->
  tx_newStock e = currentStock sp' ->
  tx_quantity e = currentStock sp' - currentStock sp ->
  Inv (moved id sp' e db).
Proof.
  intros (W & B & O & C) L Hn Hs Hc Ei Ep En Eq.
  unfold Inv. split; [|split; [|split]].
  - eapply wellFormed_moved; eauto.
  - intros t Ht. unfold moved in Ht.
    cbn [transactions inventory set_transactions set_inventory] in Ht.
    apply elem_of_app in Ht. destruct Ht as [Ht|Ht].
    + apply B. exact Ht.
    + apply list_elem_of_singleton in Ht. subst t. lia.
  - intros t Ht. unfold moved in Ht |- *.
    cbn [transactions inventory set_transactions set_inventory] in Ht |- *.
    apply elem_of_app in Ht.
    destruct (decide (id = tx_inventory t)) as [<-|N].
    + rewrite lookup_insert_eq. eauto.
    + rewrite lookup_insert_ne by exact N. destruct Ht as [Ht|Ht].
      * apply O. exact Ht.
      * apply list_elem_of_singleton in Ht. subst t. congruence.
  - intros i x first rest Hx He. unfold moved in Hx, He.
    cbn [transactions inventory set_transactions set_inventory] in Hx, He.
    rewrite entriesOf_app in He.
    destruct (decide (id = i)) as [<-|N].
    + rewrite lookup_insert_eq in Hx. inversion Hx; subst x.
      assert (E1 : entriesOf id [e] = [e]).
      { unfold entriesOf. simpl. rewrite bool_decide_eq_true_2 by exact Ei.
        reflexivity. }
      rewrite E1 in He.
      destruct (entriesOf id (transactions db)) as [|f r] eqn:Old.
      * simpl in He. inversion He; subst first rest. simpl. lia.
      * simpl in He. inversion He; subst first rest.
        pose proof (C _ _ _ _ L Old) as Hc0.
        change (f :: r ++ [e]) with ((f :: r) ++ [e]).
        rewrite sumQuantity_app. simpl. simpl in Hc0. lia.
    + rewrite lookup_insert_ne in Hx by exact N.
      assert (E1 : entriesOf i [e] = []).
      { unfold entriesOf. simpl. rewrite bool_decide_eq_false_2 by congruence.
        reflexivity. }
      rewrite E1, app_nil_r in He. eapply C; eauto.
Qed.

(** The shape shared by every stock movement of the controller. *)
Lemma keeps_movement {A} id sp sp' now e (k : Tx A) committed db :
  Inv db ->
  inventory db !! id = Some sp ->
  sellingPrice sp' = sellingPrice sp -> costPrice sp' = costPrice sp ->
  nt_inventory e = id ->
  nt_previousStock e = currentStock sp ->
  nt_newStock e = currentStock sp' ->
  nt_quantity e = currentStock sp' - currentStock sp ->
  (forall db', Inv db' ->
     match k committed db' with Done _ db'' => Inv db'' | Thrown _ _ => True end) ->
  match (_ ← save id sp'; _ ← create now e; k) committed db with
  | Done _ db' => Inv db'
  | Thrown _ _ => True
  end.
Proof.
  intros I L Hs Hc Ei Ep En Eq Hk. rewrite save_create_run.
  destruct (currentStock sp' <? 0) eqn:Neg; [exact Logic.I|].
  destruct (negb _); [exact Logic.I|].
  destruct (negb _); [exact Logic.I|].
  destruct (bool_decide _); [exact Logic.I|].
  apply Hk. eapply Inv_moved; eauto. lia.
Qed.

Lemma keeps_deductLine body userId now acc line :
  keeps Inv (deductLine body userId now acc line).
Proof.
  intros committed db I. destruct acc as [results errors]. unfold deductLine.
  unfold mbind at 1. unfold Tx_bind at 1. unfold findById at 1.
  destruct (inventory db !! partId line) as [sp|] eqn:L; [|exact I].
  destruct (currentStock sp <? quantity line); [exact I|].
  eapply keeps_movement; eauto; try reflexivity.
  cbn. lia.
Qed.

Lemma keeps_returnLine body userId now results line n :
  rl_quantity line = Js.JNumber n ->
  keeps Inv (returnLine body userId now results line).
Proof.
  intros Q committed db I. unfold returnLine.
  unfold mbind at 1. unfold Tx_bind at 1. unfold findById at 1.
  destruct (inventory db !! rl_partId line) as [sp|] eqn:L; [|exact I].
  rewrite Q. cbn [Js.plus].
  rewrite (saveStock_run _ _ (currentStock sp + n)) by reflexivity.
  cbn [Js.castNumber].
  eapply keeps_movement; eauto; try reflexivity.
  cbn. lia.
Qed.

Lemma Inv_addStock id body userId now db n :
  as_quantity body = Js.JNumber n ->
  Inv db -> Inv (fst (addStock id body userId now db)).
Proof.
  intros Q I. unfold addStock. rewrite Q.
  destruct (_ || _); [exact I|].
  apply Inv_inSession; [|exact I]. clear db I. intros committed db I.
  unfold mbind at 1. unfold Tx_bind at 1. unfold findById at 1.
  destruct (inventory db !! id) as [sp|] eqn:L; [|exact Logic.I].
  cbn [Js.plus].
  rewrite (saveStock_run _ _ (currentStock sp + n)) by reflexivity.
  cbn [Js.castNumber].
  eapply keeps_movement; eauto; try reflexivity. cbn. lia.
Qed.

Lemma Inv_deductStock id body userId now db :
  Inv db -> Inv (fst (deductStock id body userId now db)).
Proof.
  intros I. unfold deductStock.
  destruct ((ds_quantity body =? 0) || (ds_quantity body <=? 0)); [exact I|].
  apply Inv_inSession; [|exact I]. clear db I. intros committed db I.
  unfold mbind at 1. unfold Tx_bind at 1. unfold findById at 1.
  destruct (inventory db !! id) as [sp|] eqn:L; [|exact Logic.I].
  destruct (currentStock sp <? ds_quantity body); [exact Logic.I|].
  eapply keeps_movement; eauto; try reflexivity. cbn. lia.
Qed.

Lemma Inv_adjustStock id body userId now db :
  Inv db -> Inv (fst (adjustStock id body userId now db)).
Proof.
  intros I. unfold adjustStock.
  destruct (aj_newQuantity body) as [q|]; [|exact I].
  destruct (q <? 0); [exact I|].
  apply Inv_inSession; [|exact I]. clear db I. intros committed db I.
  unfold mbind at 1. unfold Tx_bind at 1. unfold findById at 1.
  destruct (inventory db !! id) as [sp|] eqn:L; [|exact Logic.I].
  eapply keeps_movement; eauto; try reflexivity.
Qed.

Lemma Inv_deductForInvoice body userId now db :
  Inv db -> Inv (fst (deductForInvoice body userId now db)).
Proof.
  intros I. unfold deductForInvoice.
  destruct (parts body) as [|l ls] eqn:P; [exact I|].
  apply Inv_inSession; [|exact I]. unfold keeps.
  apply keepsOn_bind.
  - apply keepsOn_forEach. intros acc x _. apply keeps_deductLine.
  - intros [results errors]. destruct errors;
      [apply keepsOn_ret|apply keepsOn_abortAndThrow].
Qed.

Lemma Inv_returnFromInvoice body userId now db :
  Forall (fun l => exists n, rl_quantity l = Js.JNumber n) (rb_parts body) ->
  Inv db -> Inv (fst (returnFromInvoice body userId now db)).
Proof.
  intros Q I. unfold returnFromInvoice.
  destruct (rb_parts body) as [|l ls] eqn:P; [exact I|].
  apply Inv_inSession; [|exact I]. unfold keeps.
  apply keepsOn_forEach. intros acc x Hx.
  rewrite Forall_forall in Q. destruct (Q x Hx) as (n & Hn).
  eapply keeps_returnLine. exact Hn.
Qed.

Lemma entriesOf_none id (l : list InventoryTransaction) :
  (forall t, t ∈ l -> tx_inventory t <> id) -> entriesOf id l = [].
Proof.
  intros H. unfold entriesOf. induction l as [|t l IH]; [reflexivity|].
  simpl. rewrite bool_decide_eq_false_2 by (apply H; left).
  apply IH. intros x Hx. apply H. right. exact Hx.
Qed.

Lemma entriesOf_fresh db id :
  entriesOwned db -> inventory db !! id = None ->
  entriesOf id (transactions db) = [].
Proof.
  intros O N. apply entriesOf_none. intros t Ht E.
  destruct (O t Ht) as [x Hx]. rewrite E in Hx. congruence.
Qed.

Lemma Inv_inserted db sp :
  Inv db -> 0 <= currentStock sp -> pricesOk sp ->
  Inv (set_inventory (<[fresh (dom (inventory db)) := sp]> (inventory db)) db).
Proof.
  intros (W & B & O & C) Hn Hp. pose proof (fresh_inventory db) as F.
  set (id := fresh (dom (inventory db))) in *.
  pose proof (entriesOf_fresh db id O F) as Ef.
  unfold Inv. split; [|split; [exact B|split]].
  - apply wellFormed_insert; assumption.
  - intros t Ht.
    cbn [transactions set_transactions inventory set_inventory] in Ht |- *.
    destruct (decide (id = tx_inventory t)) as [<-|N].
    + rewrite lookup_insert_eq. eauto.
    + rewrite lookup_insert_ne by exact N. apply O. exact Ht.
  - intros i x first rest Hx He.
    cbn [transactions set_transactions inventory set_inventory] in Hx, He.
    destruct (decide (id = i)) as [<-|N].
    + rewrite Ef in He. discriminate.
    + rewrite lookup_insert_ne in Hx by exact N. eapply C; eauto.
Qed.

Lemma Inv_createSparePart body userId now db :
  Inv db -> Inv (fst (createSparePart body userId now db)).
Proof.
  intros I.
  destruct (orDefaultValue (cb_minStock body) 5) as [mn|] eqn:Hmin;
    [|unfold createSparePart; rewrite Hmin; exact I].
  destruct (orDefaultValue (cb_maxStock body) 100) as [mx|] eqn:Hmax;
    [|unfold createSparePart; rewrite Hmin, Hmax; exact I].
  destruct (validInventory
              (mkInventory (cb_name body) (orDefault (cb_currentStock body) 0)
                 mn mx (cb_costPrice body) (cb_sellingPrice body) true
                 (if 0 <? default 0 (cb_currentStock body) then Some now
                  else None) None)) eqn:V.
  2:{ unfold createSparePart. rewrite Hmin, Hmax, V. exact I. }
  rewrite (createSparePart_run body userId now db mn mx Hmin Hmax V).
  pose proof (fresh_inventory db) as F.
  set (id := fresh (dom (inventory db))) in *.
  set (stock := orDefault (cb_currentStock body) 0) in *.
  set (sp := mkInventory _ _ _ _ _ _ _ _ _) in *.
  unfold validInventory in V.
  repeat (apply andb_prop in V; let V2 := fresh "V" in destruct V as [V V2]).
  assert (Hn : 0 <= currentStock sp) by lia.
  assert (Hp : pricesOk sp) by (split; apply Qle_bool_iff; assumption).
  pose proof (Inv_inserted db sp I Hn Hp) as I1. fold id in I1.
  destruct (0 <? stock) eqn:Pos; cbn [fst]; [|exact I1].
  destruct (bool_decide _); cbn [fst]; [exact I1|].
  destruct I as (W & B & O & C).
  pose proof (entriesOf_fresh db id O F) as Ef.
  destruct I1 as (W1 & _ & O1 & C1).
  unfold Inv, moved. split; [exact W1|]. split; [|split].
  - intros t Ht. cbn [transactions set_transactions] in Ht.
    apply elem_of_app in Ht. destruct Ht as [Ht|Ht]; [apply B; exact Ht|].
    apply list_elem_of_singleton in Ht. subst t. cbn. lia.
  - intros t Ht.
    cbn [transactions set_transactions inventory set_inventory] in Ht |- *.
    apply elem_of_app in Ht. destruct Ht as [Ht|Ht]; [apply O1; exact Ht|].
    apply list_elem_of_singleton in Ht. subst t.
    cbn [stored tx_inventory nt_inventory]. rewrite lookup_insert_eq. eauto.
  - intros i x first rest Hx He.
    cbn [transactions set_transactions inventory set_inventory] in Hx, He.
    rewrite entriesOf_app in He.
    destruct (decide (id = i)) as [<-|N].
    + rewrite lookup_insert_eq in Hx. inversion Hx; subst x.
      rewrite Ef in He. unfold entriesOf in He. simpl in He.
      rewrite bool_decide_eq_true_2 in He by reflexivity.
      inversion He; subst first rest. cbn. lia.
    + assert (E1 : entriesOf i
                     [stored (nextNumber now (transactions db)) now
                        (mkNewTransaction id purchase stock 0 stock
                           (Some (cb_costPrice body))
                           (Some (inject_Z stock * cb_costPrice body)%Q)
                           None userId (Some "Initial stock entry"))] = []).
      { unfold entriesOf. simpl.
        rewrite bool_decide_eq_false_2 by exact N. reflexivity. }
      rewrite E1, app_nil_r in He. eapply C1; eauto.
Qed.

Lemma Inv_emptyDB : Inv emptyDB.
Proof.
  unfold Inv, emptyDB. split; [|split; [|split]].
  - intros id sp H. cbn in H. rewrite lookup_empty in H. discriminate.
  - intros t H. cbn in H. inversion H.
  - intros t H. cbn in H. inversion H.
  - intros id sp f r H. cbn in H. rewrite lookup_empty in H. discriminate.
Qed.

(** A request whose quantities are JSON numbers keeps the ledger
    invariants. *)
Lemma Inv_runOp op db : numeric op -> Inv db -> Inv (fst (runOp op db)).
Proof.
  intros Q I. destruct op; cbn [runOp fst numeric] in *.
  - apply Inv_createSparePart. exact I.
  - destruct Q as (n & Hn). eapply Inv_addStock; eauto.
  - apply Inv_deductStock. exact I.
  - apply Inv_adjustStock. exact I.
  - apply Inv_deductForInvoice. exact I.
  - apply Inv_returnFromInvoice; assumption.
Qed.

Lemma Inv_runOps ops db :
  Forall numeric ops -> Inv db -> Inv (runOps ops db).
Proof.
  revert db. induction ops as [|op ops IH]; intros db Q I; [exact I|].
  inversion Q; subst. cbn [runOps fold_left]. apply IH; [assumption|].
  apply Inv_runOp; assumption.
Qed.

(** ** The deduction loop, line by line *)

Lemma demand_nonneg p ls : validLines ls -> 0 <= demand p ls.
Proof.
  intros V. induction V as [|l ls Hl V IH]; simpl; [lia|].
  destruct (decide (partId l = p)); lia.
Qed.

Lemma numbers_moved id sp' e db :
  tx_transactionNumber <$> transactions (moved id sp' e db)
  = (tx_transactionNumber <$> transactions db) ++ [tx_transactionNumber e].
Proof.
  unfold moved. cbn [transactions set_transactions]. rewrite fmap_app.
  reflexivity.
Qed.

(** A line that cannot be served adds one error and changes nothing. *)
Lemma deductLine_failed body userId now results errors l committed db :
  lineFails db l ->
  exists err,
    deductLine body userId now (results, errors) l committed db
    = Done (results, errors ++ [err]) db
    /\ le_partId err = partId l.
Proof.
  intros F. unfold deductLine, lineFails, stockOf in *.
  unfold mbind at 1. unfold Tx_bind at 1. unfold findById at 1.
  destruct (inventory db !! partId l) as [sp|] eqn:L.
  - destruct F as [F|F]; [discriminate|].
    destruct (currentStock sp <? quantity l) eqn:Lt; [|lia].
    eexists. split; reflexivity.
  - eexists. split; reflexivity.
Qed.

(** A line that can be served is one movement, unless the number that the
    hook gives its ledger entry is taken. *)
Lemma deductLine_served body userId now results errors l committed db sp :
  wellFormed db -> inventory db !! partId l = Some sp ->
  1 <= quantity l -> quantity l <= currentStock sp ->
  exists sp' e r,
    deductLine body userId now (results, errors) l committed db
    = (if bool_decide (nextNumber now (transactions committed)
                       ∈ tx_transactionNumber <$> transactions db)
       then Thrown (conflict "transactionNumber already exists")
              TRANSACTION_IN_PROGRESS
       else Done (results ++ [r], errors)
              (moved (partId l) sp'
                 (stored (nextNumber now (transactions committed)) now e) db))
    /\ currentStock sp' = currentStock sp - quantity l
    /\ sellingPrice sp' = sellingPrice sp /\ costPrice sp' = costPrice sp
    /\ entryOfLine sale (partId l) (- quantity l) (jobCardId body)
         (invoiceNumber body)
         (stored (nextNumber now (transactions committed)) now e).
Proof.
  intros W L H1 Hq. unfold deductLine.
  unfold mbind at 1. unfold Tx_bind at 1. unfold findById at 1. rewrite L.
  destruct (currentStock sp <? quantity l) eqn:Lt; [lia|].
  rewrite save_create_run. cbn [currentStock set_stock].
  destruct (currentStock sp - quantity l <? 0) eqn:Neg; [lia|].
  destruct (W _ _ L) as (_ & Ps & _).
  cbn [nt_unitPrice nt_totalAmount sellingPrice set_stock].
  destruct (price_checks_pass (quantity l) (sellingPrice sp)) as [P1 P2];
    [lia|exact Ps|].
  rewrite P1, P2. eexists _, _, _. split; [reflexivity|].
  cbn. repeat split; lia.
Qed.

(** What a line can leave behind: an error and the view as it was, or a
    result and a view in which the number of the session is taken, having
    been free before. *)
Lemma deductLine_outcome body userId now results errors l committed db :
  match deductLine body userId now (results, errors) l committed db with
  | Done (results', errors') db' =>
      (results' = results /\ (exists err, errors' = errors ++ [err])
       /\ db' = db /\ lineFails db l)
      \/ ((exists r, results' = results ++ [r]) /\ errors' = errors
          /\ ~ lineFails db l
          /\ nextNumber now (transactions committed)
             ∈ (tx_transactionNumber <$> transactions db')
          /\ nextNumber now (transactions committed)
             ∉ (tx_transactionNumber <$> transactions db))
  | Thrown _ _ => True
  end.
Proof.
  unfold deductLine, lineFails, stockOf.
  unfold mbind at 1. unfold Tx_bind at 1. unfold findById at 1.
  destruct (inventory db !! partId l) as [sp|] eqn:L.
  - destruct (currentStock sp <? quantity l) eqn:Lt.
    + left. repeat split; eauto. right. lia.
    + rewrite save_create_run.
      destruct (_ <? 0); [exact Logic.I|].
      destruct (negb _); [exact Logic.I|].
      destruct (negb _); [exact Logic.I|].
      destruct (bool_decide _) eqn:B; [exact Logic.I|].
      apply bool_decide_eq_false in B.
      right. split; [eexists; reflexivity|]. split; [reflexivity|].
      split; [intros [F|F]; [discriminate|lia]|].
      split; [|exact B].
      rewrite numbers_moved. apply elem_of_app. right. left.
  - left. repeat split; eauto.
Qed.

(** A loop that ends without a throw has served at most one line, and
    none when the number of the session was taken at its start. *)
Lemma deduct_loop_done body userId now ls :
  forall committed db results errors results' errors' db',
    forEach (deductLine body userId now) (results, errors) ls committed db
    = Done (results', errors') db' ->
    exists rs es,
      results' = results ++ rs /\ errors' = errors ++ es
      /\ (length rs + length es = length ls)%nat
      /\ (length rs <= 1)%nat
      /\ (nextNumber now (transactions committed)
          ∈ (tx_transactionNumber <$> transactions db) -> rs = []).
Proof.
  induction ls as [|l ls IH];
    intros committed db results errors results' errors' db' H.
  - cbn in H. injection H as <- <- <-. exists [], [].
    rewrite !app_nil_r. repeat split; auto.
  - cbn [forEach] in H. unfold mbind at 1 in H. unfold Tx_bind at 1 in H.
    pose proof (deductLine_outcome body userId now results errors l committed db)
      as O.
    destruct (deductLine body userId now (results, errors) l committed db)
      as [[r1 e1] db1|e txn]; [|discriminate].
    destruct O as [(-> & (err & ->) & -> & _)|((r & ->) & -> & _ & In & Nin)].
    + destruct (IH _ _ _ _ _ _ _ H) as (rs & es & -> & -> & Len & L1 & T).
      exists rs, (err :: es). rewrite <- app_assoc. cbn [app length].
      repeat split; auto. lia.
    + destruct (IH _ _ _ _ _ _ _ H) as (rs & es & -> & -> & Len & L1 & T).
      rewrite (T In) in *. exists [r], es. rewrite app_nil_r.
      cbn [length] in *. repeat split; auto; try lia.
      intros Taken. contradiction.
Qed.

(** [deductForInvoice] in terms of its loop. *)
Lemma deductForInvoice_run (db : DB) (body : InvoiceBody) (userId : UserId)
    (now : Date) :
  parts body <> [] ->
  deductForInvoice body userId now db
  = match forEach (deductLine body userId now) ([], []) (parts body) db db with
    | Done (results, []) db' =>
        (db', Success "Stock deducted for invoice successfully" results)
    | Done _ _ =>
        (db, Failure (MongoTransactionError "Cannot call abortTransaction twice"))
    | Thrown e txn =>
        (db, Failure (default e (abortTransaction txn)))
    end.
Proof.
  intros Ne. unfold deductForInvoice.
  destruct (parts body) as [|l0 ls0] eqn:P; [contradiction|].
  unfold inSession. unfold mbind at 1. unfold Tx_bind at 1.
  destruct (forEach _ _ _ db db) as [[results errors] db'|e txn].
  - destruct errors; reflexivity.
  - destruct txn; reflexivity.
Qed.

(** A batch that is served has one line, and that line can be served on
    the database of the call. *)
Lemma deduct_loop_served body userId now ls db results db' :
  ls <> [] ->
  forEach (deductLine body userId now) ([], []) ls db db
  = Done (results, []) db' ->
  exists l, ls = [l] /\ ~ lineFails db l.
Proof.
  intros Ne H.
  destruct (deduct_loop_done _ _ _ _ _ _ _ _ _ _ _ H)
    as (rs & es & _ & Ee & Len & L1 & _).
  cbn [app] in Ee. subst es. cbn [length] in Len.
  destruct ls as [|l [|l2 ls]]; [contradiction| |cbn [length] in Len; lia].
  exists l. split; [reflexivity|]. intros F.
  destruct (deductLine_failed body userId now [] [] l db db F) as (err & E & _).
  cbn [forEach] in H. unfold mbind, Tx_bind in H. rewrite E in H.
  cbn in H. discriminate.
Qed.

(** Two lines that can both be served: the ledger entry of the second
    is given the number of the first, and the insert is refused. *)
Lemma deduct_loop_conflict body userId now l1 l2 rest db :
  validLines (l1 :: l2 :: rest) -> wellFormed db ->
  numbered (transactions db) ->
  (forall l, l ∈ l1 :: l2 :: rest -> is_Some (inventory db !! partId l)) ->
  (forall l, l ∈ l1 :: l2 :: rest ->
     demand (partId l) (l1 :: l2 :: rest) <= stockOf (partId l) db) ->
  forEach (deductLine body userId now) ([], []) (l1 :: l2 :: rest) db db
  = Thrown (conflict "transactionNumber already exists")
      TRANSACTION_IN_PROGRESS.
Proof.
  intros V W N Ex D.
  inversion V as [|? ? H1 V1]; subst. inversion V1 as [|? ? H2 V2]; subst.
  pose proof (demand_nonneg (partId l1) rest V2) as Dn1.
  pose proof (demand_nonneg (partId l2) rest V2) as Dn2.
  destruct (Ex l1 ltac:(left)) as [sp1 L1].
  destruct (Ex l2 ltac:(right; left)) as [sp2 L2].
  pose proof (D l1 ltac:(left)) as D1.
  pose proof (D l2 ltac:(right; left)) as D2.
  unfold stockOf in D1, D2. rewrite L1 in D1. rewrite L2 in D2.
  cbn [demand fold_right] in D1, D2.
  destruct (decide (partId l1 = partId l1)) as [_|X]; [|contradiction].
  destruct (decide (partId l2 = partId l2)) as [_|X]; [|contradiction].
  fold (demand (partId l1) rest) in D1. fold (demand (partId l2) rest) in D2.
  assert (Q1 : quantity l1 <= currentStock sp1)
    by (destruct (decide (partId l2 = partId l1)); lia).
  destruct (deductLine_served body userId now [] [] l1 db db sp1 W L1 H1 Q1)
    as (sp1' & e1 & r1 & E1 & Ec1 & Es1 & Eco1 & _).
  rewrite (bool_decide_eq_false_2 _ (numbered_fresh now _ N)) in E1.
  cbn [forEach]. unfold mbind at 1. unfold Tx_bind at 1. rewrite E1.
  set (db1 := moved (partId l1) sp1' _ db) in *.
  assert (W1 : wellFormed db1) by (eapply wellFormed_moved; eauto; lia).
  assert (T1 : nextNumber now (transactions db)
               ∈ tx_transactionNumber <$> transactions db1).
  { unfold db1. rewrite numbers_moved. apply elem_of_app. right. left. }
  assert (S2 : exists sp2', inventory db1 !! partId l2 = Some sp2'
                            /\ quantity l2 <= currentStock sp2').
  { unfold db1, moved. cbn [inventory set_transactions set_inventory].
    destruct (decide (partId l1 = partId l2)) as [E|Ne].
    - rewrite E, lookup_insert_eq. exists sp1'. split; [reflexivity|].
      rewrite E in L1. rewrite L1 in L2. injection L2 as <-.
      destruct (decide (partId l2 = partId l1)) as [_|X];
        [|symmetry in E; contradiction].
      destruct (decide (partId l1 = partId l2)) as [_|X]; [|contradiction].
      lia.
    - rewrite lookup_insert_ne by exact Ne. exists sp2. split; [exact L2|].
      destruct (decide (partId l1 = partId l2)) as [X|_]; [contradiction|].
      lia. }
  destruct S2 as (sp2' & L2' & Q2).
  destruct (deductLine_served body userId now ([] ++ [r1]) [] l2 db db1 sp2'
              W1 L2' H2 Q2) as (sp2'' & e2 & r2 & E2 & _).
  rewrite (bool_decide_eq_true_2 _ T1) in E2.
  cbn [forEach]. unfold mbind at 1. unfold Tx_bind at 1. rewrite E2.
  reflexivity.
Qed.

(** ** The return loop, line by line *)

Lemma existing_moved id sp sp' e db ls :
  inventory db !! id = Some sp ->
  existing (moved id sp' e db) ls = existing db ls.
Proof.
  intros L. unfold existing. induction ls as [|l ls IH]; [reflexivity|].
  cbn [List.filter]. rewrite IH.
  destruct (inventory db !! rl_partId l) as [x|] eqn:Lx.
  - destruct (inventory (moved id sp' e db) !! rl_partId l) as [y|] eqn:Ly.
    + rewrite !bool_decide_eq_true_2 by eauto. reflexivity.
    + apply (is_Some_moved _ _ _ _ _ _ L) in Ly. congruence.
  - pose proof (proj2 (is_Some_moved id sp sp' e db (rl_partId l) L) Lx) as Ly.
    rewrite Ly. reflexivity.
Qed.

(** A returned line whose part is missing is skipped. *)
Lemma returnLine_skipped body userId now results l committed db :
  inventory db !! rl_partId l = None ->
  returnLine body userId now results l committed db = Done results db.
Proof.
  intros L. unfold returnLine.
  unfold mbind at 1. unfold Tx_bind at 1. unfold findById at 1. rewrite L.
  reflexivity.
Qed.

(** A returned line whose part exists and whose quantity is a JSON number
    is one movement, unless the number that the hook gives its ledger
    entry is taken. *)
Lemma returnLine_served body userId now results l committed db sp q :
  wellFormed db -> inventory db !! rl_partId l = Some sp ->
  rl_quantity l = Js.JNumber q -> 1 <= q ->
  exists sp' e r,
    returnLine body userId now results l committed db
    = (if bool_decide (nextNumber now (transactions committed)
                       ∈ tx_transactionNumber <$> transactions db)
       then Thrown (conflict "transactionNumber already exists")
              TRANSACTION_IN_PROGRESS
       else Done (results ++ [r])
              (moved (rl_partId l) sp'
                 (stored (nextNumber now (transactions committed)) now e) db))
    /\ currentStock sp' = currentStock sp + q
    /\ sellingPrice sp' = sellingPrice sp /\ costPrice sp' = costPrice sp
    /\ entryOfLine return_ (rl_partId l) q (rb_jobCardId body)
         (rb_invoiceNumber body)
         (stored (nextNumber now (transactions committed)) now e).
Proof.
  intros W L Q H1. unfold returnLine.
  unfold mbind at 1. unfold Tx_bind at 1. unfold findById at 1. rewrite L.
  rewrite Q. cbn [Js.plus].
  rewrite (saveStock_run _ _ (currentStock sp + q)) by reflexivity.
  cbn [Js.castNumber].
  rewrite save_create_run. cbn [currentStock set_stock].
  destruct (W _ _ L) as (Pc & Ps & _).
  destruct (currentStock sp + q <? 0) eqn:Neg; [lia|].
  cbn [nt_unitPrice nt_totalAmount sellingPrice set_stock].
  destruct (price_checks_pass q (sellingPrice sp)) as [P1 P2];
    [lia|exact Ps|].
  rewrite P1, P2. eexists _, _, _. split; [reflexivity|].
  unfold entryOfLine. cbn. repeat split; try reflexivity; lia.
Qed.

(** The return loop on lines whose quantities are JSON numbers of at
    least 1: lines whose part is missing are skipped, the first line whose
    part exists is one movement, and a second one is refused on its
    transaction number. *)
Lemma return_loop body userId now ls :
  Forall (fun l => exists q, rl_quantity l = Js.JNumber q /\ 1 <= q) ls ->
  forall committed db results,
    wellFormed db ->
    let taken := nextNumber now (transactions committed)
                 ∈ (tx_transactionNumber <$> transactions db) in
    let run := forEach (returnLine body userId now) results ls committed db in
    (taken ->
       match existing db ls with
       | [] => run = Done results db
       | _ => run = Thrown (conflict "transactionNumber already exists")
                      TRANSACTION_IN_PROGRESS
       end)
    /\ (~ taken ->
        match existing db ls with
        | [] => run = Done results db
        | [l] =>
            exists sp sp' e r q,
              inventory db !! rl_partId l = Some sp
              /\ rl_quantity l = Js.JNumber q
              /\ run = Done (results ++ [r])
                         (moved (rl_partId l) sp'
                            (stored (nextNumber now (transactions committed))
                               now e) db)
              /\ currentStock sp' = currentStock sp + q
              /\ entryOfLine return_ (rl_partId l) q (rb_jobCardId body)
                   (rb_invoiceNumber body)
                   (stored (nextNumber now (transactions committed)) now e)
        | _ => run = Thrown (conflict "transactionNumber already exists")
                       TRANSACTION_IN_PROGRESS
        end).
Proof.
  intros V. induction V as [|l ls (q & Hq & H1) V IH];
    intros committed db results W taken run.
  - split; intros _; reflexivity.
  - assert (R : run
                = match returnLine body userId now results l committed db with
                  | Done a d =>
                      forEach (returnLine body userId now) a ls committed d
                  | Thrown e t => Thrown e t
                  end) by reflexivity.
    rewrite R. clear R run.
    destruct (inventory db !! rl_partId l) as [sp|] eqn:L.
    + assert (Eh : existing db (l :: ls) = l :: existing db ls).
      { unfold existing. cbn [List.filter]. rewrite L.
        rewrite bool_decide_eq_true_2 by eauto. reflexivity. }
      rewrite Eh.
      destruct (returnLine_served body userId now results l committed db sp q
                  W L Hq H1) as (sp' & e & r & E & Ec & Es & Eco & Ee).
      rewrite E. split.
      * intros T. rewrite (bool_decide_eq_true_2 _ T). reflexivity.
      * intros T. rewrite (bool_decide_eq_false_2 _ T).
        set (db1 := moved (rl_partId l) sp' _ db).
        assert (W1 : wellFormed db1).
        { destruct (W _ _ L) as (Pc & _).
          eapply wellFormed_moved; eauto; lia. }
        assert (T1 : nextNumber now (transactions committed)
                     ∈ tx_transactionNumber <$> transactions db1).
        { unfold db1. rewrite numbers_moved. apply elem_of_app. right. left. }
        destruct (IH committed db1 (results ++ [r]) W1) as [IT _].
        specialize (IT T1). unfold db1 in IT at 1.
        rewrite (existing_moved _ _ _ _ _ _ L) in IT.
        destruct (existing db ls) as [|l2 ex].
        -- exists sp, sp', e, r, q. rewrite IT. auto.
        -- exact IT.
    + assert (Eh : existing db (l :: ls) = existing db ls).
      { unfold existing. cbn [List.filter]. rewrite L.
        rewrite bool_decide_eq_false_2; [reflexivity|].
        intros [x Hx]. discriminate. }
      rewrite Eh, (returnLine_skipped _ _ _ _ _ _ _ L).
      apply IH. exact W.
Qed.

Lemma wellFormed_twoParts : wellFormed twoParts.
Proof.
  intros id sp H. unfold twoParts in H. cbn [inventory] in H.
  apply lookup_insert_Some in H. destruct H as [[_ <-]|[_ H]].
  - cbn. repeat split; [lia|discriminate|discriminate].
  - apply lookup_singleton_Some in H. destruct H as [_ <-].
    cbn. repeat split; [lia|discriminate|discriminate].
Qed.

Lemma numbered_twoParts : numbered (transactions twoParts).
Proof. constructor. Qed.

(** ** C2: batch deduction *)

(** Two lines that ask 3 each of part 1, which has 5 in stock: no line
    names a missing part or asks for more than the stock of its part, yet
    the batch is rejected (the second line is checked against the 2 left
    by the first) and nothing changes. *)
Example deductForInvoice_duplicate_lines_rejected :
  validLines (parts (invoice [mkPartLine 1%positive 3; mkPartLine 1%positive 3]))
  /\ Forall (fun l => exists sp, inventory twoParts !! partId l = Some sp
                                /\ quantity l <= currentStock sp)
            [mkPartLine 1%positive 3; mkPartLine 1%positive 3]
  /\ deductForInvoice
       (invoice [mkPartLine 1%positive 3; mkPartLine 1%positive 3])
       9%positive 3%nat twoParts
     = (twoParts,
        Failure (MongoTransactionError "Cannot call abortTransaction twice")).
Proof.
  split; [|split].
  - repeat constructor; cbn; lia.
  - repeat constructor; eexists; (split; [vm_compute; reflexivity|cbn; lia]).
  - vm_compute. reflexivity.
Qed.

(** On that batch the loop leaves one error, for the second line, checked
    against the 2 left by the first; the [try] block aborts the
    transaction and throws the 400 with the list, the [catch] block aborts
    again, and the error that leaves the handler is the driver's. *)
Example deductForInvoice_rejection_error :
  (exists results db',
     forEach (deductLine (invoice [mkPartLine 1%positive 3;
                                   mkPartLine 1%positive 3])
                9%positive 3%nat) ([], [])
       [mkPartLine 1%positive 3; mkPartLine 1%positive 3] twoParts twoParts
     = Done (results,
             [mkLineError 1%positive (Some "Oil filter")
                (Insufficient_stock 2 3)]) db')
  /\ snd (deductForInvoice
            (invoice [mkPartLine 1%positive 3; mkPartLine 1%positive 3])
            9%positive 3%nat twoParts)
     = Failure (MongoTransactionError "Cannot call abortTransaction twice").
Proof.
  split; [eexists _, _|]; vm_compute; reflexivity.
Qed.

(** C2.  For a validated batch of N lines on a store that is well formed
    and whose ledger is numbered: if some line names a missing part or
    asks for more than the current stock of its part, the call fails;
    whenever the call fails, no stock has changed and no ledger entry was
    written; a batch of one line that can be served succeeds, writes one
    sale entry referencing the job card and lowers the stock of the part
    by the quantity asked; a batch of two or more lines that can all be
    served (every part exists and the stock covers the total asked of it)
    is refused on the unique transaction number of the second ledger
    entry and changes nothing; so the call succeeds on one-line batches
    only. *)
Theorem deductForInvoice_all_or_nothing (db : DB) (body : InvoiceBody)
    (userId : UserId) (now : Date) :
  parts body <> [] -> validLines (parts body) -> wellFormed db ->
  numbered (transactions db) ->
  let r := deductForInvoice body userId now db in
  ((exists l, l ∈ parts body /\ lineFails db l) ->
     exists e, r = (db, Failure e))
  /\ (forall e, snd r = Failure e -> fst r = db)
  /\ (forall l sp,
        parts body = [l] -> inventory db !! partId l = Some sp ->
        quantity l <= currentStock sp ->
        exists result t,
          snd r = Success "Stock deducted for invoice successfully" [result]
          /\ transactions (fst r) = transactions db ++ [t]
          /\ entryOfLine sale (partId l) (- quantity l) (jobCardId body)
               (invoiceNumber body) t
          /\ stockOf (partId l) (fst r) = currentStock sp - quantity l
          /\ (forall p, p <> partId l ->
                inventory (fst r) !! p = inventory db !! p))
  /\ ((2 <= length (parts body))%nat ->
      (forall l, l ∈ parts body -> is_Some (inventory db !! partId l)) ->
      (forall l, l ∈ parts body ->
         demand (partId l) (parts body) <= stockOf (partId l) db) ->
      r = (db, Failure (conflict "transactionNumber already exists")))
  /\ (forall msg results, snd r = Success msg results ->
      exists l, parts body = [l] /\ ~ lineFails db l).
Proof.
  intros Ne V W N r. subst r.
  rewrite (deductForInvoice_run db body userId now Ne).
  assert (S : forall results db',
             forEach (deductLine body userId now) ([], []) (parts body) db db
             = Done (results, []) db' ->
             exists l, parts body = [l] /\ ~ lineFails db l).
  { intros results db' H. eapply deduct_loop_served; eauto. }
  split; [|split; [|split; [|split]]].
  - intros (l & Hl & Fl).
    destruct (forEach _ _ _ db db) as [[results errors] db'|e txn] eqn:R.
    + destruct errors as [|e0 errors]; [|eexists; reflexivity].
      destruct (S _ _ eq_refl) as (l0 & E & Nf). rewrite E in Hl.
      apply list_elem_of_singleton in Hl. subst l0. contradiction.
    + eexists. reflexivity.
  - intros e.
    destruct (forEach _ _ _ db db) as [[results errors] db'|e' txn];
      [|reflexivity].
    destruct errors; [discriminate|reflexivity].
  - intros l sp E L Q. rewrite E.
    inversion V as [|? ? H1 _]; [congruence|].
    assert (El : l = x) by congruence. subst x.
    destruct (deductLine_served body userId now [] [] l db db sp W L H1 Q)
      as (sp' & e & res & R & Ec & _ & _ & Ee).
    rewrite (bool_decide_eq_false_2 _ (numbered_fresh now _ N)) in R.
    cbn [forEach]. unfold mbind, Tx_bind. rewrite R. cbn [mret Tx_ret app].
    cbn [fst snd]. eexists _, _. split; [reflexivity|].
    split; [reflexivity|]. split; [exact Ee|]. split.
    + rewrite stockOf_moved_same. exact Ec.
    + intros p Np. unfold moved.
      cbn [inventory set_transactions set_inventory].
      apply lookup_insert_ne. congruence.
  - intros Len Ex D.
    destruct (parts body) as [|l1 [|l2 rest]] eqn:P;
      [contradiction|cbn [length] in Len; lia|].
    rewrite (deduct_loop_conflict body userId now l1 l2 rest db V W N Ex D).
    reflexivity.
  - intros msg results.
    destruct (forEach _ _ _ db db) as [[res errors] db'|e txn] eqn:R;
      [|discriminate].
    destruct errors; [|discriminate]. intros _. eapply S. reflexivity.
Qed.

(** The theorem at the two-part store (part 1 has 5 in stock, part 2 has
    10): a batch asking 3 of part 1 and 4 of part 2, within stock on both
    lines, is refused on the transaction number and the store is
    unchanged. *)
Lemma deductForInvoice_all_or_nothing_witness :
  parts (invoice [mkPartLine 1%positive 3; mkPartLine 2%positive 4]) <> []
  /\ validLines [mkPartLine 1%positive 3; mkPartLine 2%positive 4]
  /\ wellFormed twoParts /\ numbered (transactions twoParts)
  /\ deductForInvoice
       (invoice [mkPartLine 1%positive 3; mkPartLine 2%positive 4])
       9%positive 3%nat twoParts
     = (twoParts, Failure (conflict "transactionNumber already exists")).
Proof.
  assert (Ne : parts (invoice [mkPartLine 1%positive 3;
                               mkPartLine 2%positive 4]) <> [])
    by discriminate.
  assert (V : validLines [mkPartLine 1%positive 3; mkPartLine 2%positive 4])
    by (repeat constructor; cbn; lia).
  split; [exact Ne|]. split; [exact V|].
  split; [exact wellFormed_twoParts|]. split; [exact numbered_twoParts|].
  apply (proj1 (proj2 (proj2 (proj2
           (deductForInvoice_all_or_nothing twoParts
              (invoice [mkPartLine 1%positive 3; mkPartLine 2%positive 4])
              9%positive 3%nat Ne V wellFormed_twoParts numbered_twoParts))))).
  - cbn. lia.
  - intros l Hl. cbn [parts invoice] in Hl.
    apply elem_of_cons in Hl. destruct Hl as [->|Hl];
      [vm_compute; eauto|].
    apply list_elem_of_singleton in Hl. subst l. vm_compute. eauto.
  - intros l Hl. cbn [parts invoice] in Hl.
    apply elem_of_cons in Hl. destruct Hl as [->|Hl];
      [vm_compute; discriminate|].
    apply list_elem_of_singleton in Hl. subst l. vm_compute. discriminate.
Defined.

(** ** C9: batch return *)

(** C9, the claim as stated, fails: a return naming an item that does not
    exist does not fail; the line is skipped without a ledger entry and the
    call succeeds. *)
Lemma returnFromInvoice_missing_item_succeeds :
  inventory twoParts !! 7%positive = None
  /\ returnFromInvoice (creditNote [mkReturnLine 7%positive (Js.JNumber 1)])
       9%positive 4%nat twoParts
     = (twoParts, Success "Stock returned successfully" [])
  /\ (exists results db',
        returnFromInvoice
          (creditNote [mkReturnLine 1%positive (Js.JNumber 2);
                       mkReturnLine 7%positive (Js.JNumber 1)])
          9%positive 4%nat twoParts
        = (db', Success "Stock returned successfully" results)
        /\ length results = 1%nat
        /\ length (transactions db') = 1%nat
        /\ stockOf 1%positive db' = 7).
Proof.
  split; [vm_compute; reflexivity|]. split; [vm_compute; reflexivity|].
  eexists _, _. split; [vm_compute; reflexivity|].
  repeat split; vm_compute; reflexivity.
Qed.

(** A returned quantity that came as a string is concatenated, not added:
    on the oil filter with 5 in stock, the return of the quantity "2"
    leaves 52 in stock. *)
Example returnFromInvoice_string_quantity :
  stockOf 1%positive oilFilter = 5
  /\ exists results db',
       returnFromInvoice
         (creditNote [mkReturnLine 1%positive (Js.JString "2")])
         9%positive 4%nat oilFilter
       = (db', Success "Stock returned successfully" results)
       /\ stockOf 1%positive db' = 52.
Proof.
  split; [vm_compute; reflexivity|].
  eexists _, _. split; vm_compute; reflexivity.
Qed.

(** C9, amended.  For a list of returned lines whose quantities are JSON
    numbers of at least 1, on a store that is well formed and whose ledger
    is numbered: no stock level makes the call fail, and a failed call
    changes nothing; a line whose item does not exist is skipped, so a
    return naming no existing item succeeds and changes nothing; when one
    line names an existing item, the call succeeds, raises the stock of
    that item by the returned quantity and writes one return entry
    referencing the job card; when two or more lines name existing items,
    the call is refused on the unique transaction number of the second
    ledger entry. *)
Theorem returnFromInvoice_never_fails (db : DB) (body : ReturnBody)
    (userId : UserId) (now : Date) :
  rb_parts body <> [] ->
  Forall (fun l => exists q, rl_quantity l = Js.JNumber q /\ 1 <= q)
    (rb_parts body) ->
  wellFormed db -> numbered (transactions db) ->
  let r := returnFromInvoice body userId now db in
  (forall e, snd r = Failure e -> fst r = db)
  /\ (existing db (rb_parts body) = [] ->
      r = (db, Success "Stock returned successfully" []))
  /\ (forall l, existing db (rb_parts body) = [l] ->
      exists sp q result t,
        inventory db !! rl_partId l = Some sp
        /\ rl_quantity l = Js.JNumber q
        /\ snd r = Success "Stock returned successfully" [result]
        /\ transactions (fst r) = transactions db ++ [t]
        /\ entryOfLine return_ (rl_partId l) q (rb_jobCardId body)
             (rb_invoiceNumber body) t
        /\ stockOf (rl_partId l) (fst r) = currentStock sp + q
        /\ (forall p, p <> rl_partId l ->
              inventory (fst r) !! p = inventory db !! p))
  /\ ((2 <= length (existing db (rb_parts body)))%nat ->
      r = (db, Failure (conflict "transactionNumber already exists"))).
Proof.
  intros Ne V W N r. subst r.
  split.
  { intros e. unfold returnFromInvoice.
    destruct (rb_parts body); [reflexivity|]. apply inSession_failure. }
  destruct (return_loop body userId now (rb_parts body) V db db [] W)
    as [_ R].
  specialize (R (numbered_fresh now _ N)).
  unfold returnFromInvoice.
  destruct (rb_parts body) as [|l0 ls0] eqn:P; [contradiction|].
  unfold inSession.
  split; [|split].
  - intros E. rewrite E in R. rewrite R. reflexivity.
  - intros l E. rewrite E in R.
    destruct R as (sp & sp' & e & res & q & L & Q & R & Ec & Ee).
    rewrite R. cbn [fst snd app].
    exists sp, q, res, (stored (nextNumber now (transactions db)) now e).
    split; [exact L|]. split; [exact Q|]. split; [reflexivity|].
    split; [reflexivity|]. split; [exact Ee|]. split.
    + rewrite stockOf_moved_same. exact Ec.
    + intros p Np. unfold moved.
      cbn [inventory set_transactions set_inventory].
      apply lookup_insert_ne. congruence.
  - intros Len.
    destruct (existing db (l0 :: ls0)) as [|x [|y ex]];
      [cbn in Len; lia|cbn in Len; lia|].
    rewrite R. reflexivity.
Qed.

(** The theorem at a return of 2 units of part 1 and 1 unit of a missing
    item: the call succeeds and part 1 goes from 5 to 7. *)
Lemma returnFromInvoice_never_fails_witness :
  rb_parts (creditNote [mkReturnLine 1%positive (Js.JNumber 2);
                        mkReturnLine 7%positive (Js.JNumber 1)]) <> []
  /\ wellFormed twoParts /\ numbered (transactions twoParts)
  /\ stockOf 1%positive
       (fst (returnFromInvoice
               (creditNote [mkReturnLine 1%positive (Js.JNumber 2);
                            mkReturnLine 7%positive (Js.JNumber 1)])
               9%positive 4%nat twoParts))
     = 7.
Proof.
  assert (Ne : rb_parts (creditNote [mkReturnLine 1%positive (Js.JNumber 2);
                                     mkReturnLine 7%positive (Js.JNumber 1)])
               <> []) by discriminate.
  assert (V : Forall (fun l => exists q, rl_quantity l = Js.JNumber q /\ 1 <= q)
                (rb_parts (creditNote
                             [mkReturnLine 1%positive (Js.JNumber 2);
                              mkReturnLine 7%positive (Js.JNumber 1)]))).
  { repeat constructor; eexists; (split; [reflexivity|lia]). }
  split; [exact Ne|]. split; [exact wellFormed_twoParts|].
  split; [exact numbered_twoParts|].
  destruct (proj1 (proj2 (proj2
              (returnFromInvoice_never_fails twoParts _ 9%positive 4%nat Ne V
                 wellFormed_twoParts numbered_twoParts)))
              (mkReturnLine 1%positive (Js.JNumber 2)))
    as (sp & q & result & t & L & Q & _ & _ & _ & S & _).
  - vm_compute. reflexivity.
  - cbn [rl_partId rl_quantity] in S, Q, L. rewrite S.
    injection Q as <-. vm_compute in L. injection L as <-. reflexivity.
Defined.

(** ** C3: stock never negative *)

(** C3. After every sequence of stock operations (item creation, add,
    deduct, adjust, invoice deduction, invoice return) on an empty store no
    item has negative stock; a rejected operation leaves the database
    unchanged (for the creation of an item, on a ledger whose numbers
    are those the hook has given); deducting more than the available
    stock and adjusting to a negative target are rejected with an error
    and change nothing (the stock is not clamped); and a validated
    invoice deduction with a line above the available stock is rejected
    and changes nothing. *)
Theorem stock_never_negative :
  (forall ops id sp,
      inventory (runOps ops emptyDB) !! id = Some sp -> 0 <= currentStock sp)
  /\ (forall op db,
        match op with
        | CreateSparePart _ _ _ => numbered (transactions db)
        | _ => True
        end ->
        snd (runOp op db) = true -> fst (runOp op db) = db)
  /\ (forall db id sp body userId now,
        inventory db !! id = Some sp ->
        currentStock sp < ds_quantity body ->
        exists e, deductStock id body userId now db = (db, Failure e))
  /\ (forall db id body userId now q,
        aj_newQuantity body = Some q -> q < 0 ->
        exists e, adjustStock id body userId now db = (db, Failure e))
  /\ (forall db body userId now l sp,
        validLines (parts body) -> wellFormed db ->
        l ∈ parts body -> inventory db !! partId l = Some sp ->
        currentStock sp < quantity l ->
        exists e, deductForInvoice body userId now db = (db, Failure e)).
Proof.
  split; [|split; [|split; [|split]]].
  - intros ops id sp H.
    destruct (wellFormed_runOps ops emptyDB wellFormed_emptyDB _ _ H)
      as (P & _).
    exact P.
  - apply runOp_rejected.
  - intros db id sp body userId now L Lt. unfold deductStock.
    destruct ((ds_quantity body =? 0) || (ds_quantity body <=? 0));
      [eauto|].
    unfold inSession. unfold mbind at 1. unfold Tx_bind at 1.
    unfold findById at 1. rewrite L.
    destruct (currentStock sp <? ds_quantity body) eqn:C; [|lia].
    eexists. reflexivity.
  - intros db id body userId now q E Lt. unfold adjustStock. rewrite E.
    destruct (q <? 0) eqn:C; [|lia]. eexists. reflexivity.
  - intros db body userId now l sp V W Hl L Lt.
    assert (Ne : parts body <> []) by (intros E; rewrite E in Hl; inversion Hl).
    rewrite (deductForInvoice_run db body userId now Ne).
    destruct (forEach _ _ _ db db) as [[results errors] db'|e txn] eqn:R;
      [|eexists; reflexivity].
    destruct errors as [|e0 errors]; [|eexists; reflexivity].
    destruct (deduct_loop_served _ _ _ _ _ _ _ Ne R) as (l0 & E & Nf).
    rewrite E in Hl. apply list_elem_of_singleton in Hl. subst l0.
    exfalso. apply Nf. right. unfold stockOf. rewrite L. exact Lt.
Qed.

(** The theorem at part 1 of the two-part store (5 in stock): a manual
    deduction of 8 is rejected and the store is unchanged. *)
Lemma stock_never_negative_witness :
  inventory twoParts !! 1%positive
  = Some (mkInventory "Oil filter" 5 5 100 100 150 true None None)
  /\ exists e,
       deductStock 1%positive (mkDeductStockBody 8 None None) 9%positive 3%nat
         twoParts
       = (twoParts, Failure e).
Proof.
  assert (L : inventory twoParts !! 1%positive
              = Some (mkInventory "Oil filter" 5 5 100 100 150 true None None))
    by (vm_compute; reflexivity).
  split; [exact L|].
  apply (proj1 (proj2 (proj2 stock_never_negative)) twoParts 1%positive _
           (mkDeductStockBody 8 None None) 9%positive 3%nat L).
  cbn. lia.
Defined.

(** ** C7: ledger consistency *)

(** With quantities that are JSON numbers the ledger is consistent after
    every sequence of requests on an empty store: every entry satisfies
    newStock = previousStock + quantity, and the stock of every item with
    entries is the previousStock of its first entry plus the sum of the
    quantities of its entries. *)
Lemma ledger_consistent_on_numbers (ops : list StockOp) :
  Forall numeric ops ->
  entriesBalanced (runOps ops emptyDB) /\ ledgerConsistent (runOps ops emptyDB).
Proof.
  intros Q. destruct (Inv_runOps ops emptyDB Q Inv_emptyDB) as (_ & B & _ & C).
  split; assumption.
Qed.

(** On the day of the scenario the oil filter ends with 3 in stock, which
    is 0, the previous stock of its first entry, plus 5 + 3 - 2 - 2 - 1. *)
Example ledger_of_stockDay :
  Forall numeric stockDay
  /\ exists sp first rest,
       inventory (runOps stockDay emptyDB) !! 1%positive = Some sp
       /\ entriesOf 1%positive (transactions (runOps stockDay emptyDB))
          = first :: rest
       /\ tx_quantity <$> (first :: rest) = [5; 3; -2; -2; -1]
       /\ currentStock sp = 3
       /\ currentStock sp = tx_previousStock first + sumQuantity (first :: rest).
Proof.
  assert (Q : Forall numeric stockDay).
  { repeat constructor; cbn; eauto. }
  split; [exact Q|]. eexists _, _, _.
  split; [vm_compute; reflexivity|]. split; [vm_compute; reflexivity|].
  split; [vm_compute; reflexivity|]. split; [vm_compute; reflexivity|].
  apply (proj2 (ledger_consistent_on_numbers stockDay Q) 1%positive);
    vm_compute; reflexivity.
Qed.

(** C7 at the failing input.  The oil filter has 5 in stock and one
    ledger entry, that of its initial stock.  [addStock] with the quantity
    "3", a string that [isInt({ min: 1 })] accepts and the validator does
    not convert, succeeds: [previousStock + quantity] is the concatenation
    "53", the stored stock is 53, and the ledger entry written has
    quantity 3, previousStock 5 and newStock 53.  So newStock is not
    previousStock + quantity, and the stock of the item is not the
    previousStock of its first entry plus the sum of the quantities of its
    entries, which is 0 + 5 + 3 = 8. *)
Theorem ledger_entry_unbalanced :
  isIntMin1 (Js.JString "3")
  /\ stockOf 1%positive oilFilter = 5
  /\ exists db' result sp first second,
       addStock 1%positive (mkAddStockBody (Js.JString "3") None None)
         9%positive 2%nat oilFilter
       = (db', Success "Stock added successfully" result)
       /\ inventory db' !! 1%positive = Some sp
       /\ currentStock sp = 53
       /\ entriesOf 1%positive (transactions db') = [first; second]
       /\ tx_type second = purchase
       /\ tx_quantity second = 3
       /\ tx_previousStock second = 5
       /\ tx_newStock second = 53
       /\ tx_newStock second <> tx_previousStock second + tx_quantity second
       /\ tx_previousStock first + sumQuantity [first; second] = 8.
Proof.
  split; [vm_compute; discriminate|]. split; [vm_compute; reflexivity|].
  eexists _, _, _, _, _. split; [vm_compute; reflexivity|].
  split; [vm_compute; reflexivity|]. split; [reflexivity|].
  split; [vm_compute; reflexivity|].
  repeat split; try (vm_compute; reflexivity). vm_compute. discriminate.
Qed.

End StockFacts.

(* ===================================================================== *)
(** * Properties of the pagination helpers *)
(* ===================================================================== *)

Module HelpersFacts.
Import InventoryController Helpers.

Lemma Qceiling_div (a b : Z) :
  0 < b -> Qceiling (inject_Z a / inject_Z b) = - ((- a) / b).
Proof.
  intros Hb. unfold Qceiling, Qfloor, Qdiv, Qmult, Qinv, Qopp, inject_Z.
  destruct b as [|p|p]; try lia. cbn. f_equal. f_equal; lia.
Qed.

(** For a positive limit the page count is the least [n] with
    [n * limit >= total]. *)
Lemma Math_ceil_div_pos (total : nat) (limit : Z) :
  0 < limit ->
  exists n, Math_ceil_div total limit = Pages n
            /\ Z.of_nat total <= n * limit < Z.of_nat total + limit.
Proof.
  intros Hl. unfold Math_ceil_div.
  destruct (limit =? 0) eqn:E; [lia|].
  eexists. split; [reflexivity|]. rewrite Qceiling_div by exact Hl.
  pose proof (Z.div_mod (- Z.of_nat total) limit ltac:(lia)) as D.
  pose proof (Z.mod_pos_bound (- Z.of_nat total) limit Hl) as B.
  nia.
Qed.

Lemma page_honoured (p : Z) : 1 <= p -> Z.max 1 (orDefault (Some p) 1) = p.
Proof.
  intros Hp. unfold orDefault. destruct (p =? 0) eqn:E; lia.
Qed.

(** Pagination bounds.  With a maximum page size of at least 1, whatever
    the query holds, [parsePagination] returns a page of at least 1, a
    limit between 1 and the maximum and a non-negative skip equal to the
    size of the pages before; a page number or a limit inside these bounds
    is taken as given, and a missing, zero or negative page number is
    page 1. *)
Theorem parsePagination_bounds (config : PaginationConfig)
    (page limit : option Z) :
  1 <= maxPageSize config ->
  let pg := parsePagination config page limit in
  1 <= pg_page pg
  /\ 1 <= pg_limit pg <= maxPageSize config
  /\ 0 <= pg_skip pg
  /\ pg_skip pg = (pg_page pg - 1) * pg_limit pg
  /\ (forall p, page = Some p -> 1 <= p -> pg_page pg = p)
  /\ (forall n, limit = Some n -> 1 <= n <= maxPageSize config ->
        pg_limit pg = n)
  /\ (page = None \/ (exists p, page = Some p /\ p < 1) -> pg_page pg = 1).
Proof.
  intros Hm pg. subst pg. unfold parsePagination. cbn [pg_page pg_limit pg_skip].
  split; [lia|]. split; [lia|]. split; [nia|]. split; [reflexivity|].
  split; [|split].
  - intros p -> Hp. apply page_honoured. exact Hp.
  - intros n -> Hn. unfold orDefault. destruct (n =? 0) eqn:E; lia.
  - intros [->|(p & -> & Hp)]; unfold orDefault; [reflexivity|].
    destruct (p =? 0); lia.
Qed.

(** The theorem at page 3 of 25 per page, under the shipped configuration
    (default 10, maximum 100). *)
Lemma parsePagination_bounds_witness :
  1 <= maxPageSize (mkPaginationConfig 10 100)
  /\ parsePagination (mkPaginationConfig 10 100) (Some 3) (Some 25)
     = mkPagination 3 25 50.
Proof.
  split; [cbn; lia|].
  pose proof (parsePagination_bounds (mkPaginationConfig 10 100) (Some 3)
                (Some 25) ltac:(cbn; lia)) as H.
  cbv zeta in H. destruct H as (_ & _ & _ & Hs & Hp & Hl & _).
  specialize (Hp 3 eq_refl ltac:(lia)).
  specialize (Hl 25 eq_refl ltac:(cbn; lia)).
  rewrite Hp, Hl in Hs.
  destruct (parsePagination (mkPaginationConfig 10 100) (Some 3) (Some 25))
    as [pg lim sk].
  cbn [pg_page pg_limit pg_skip] in Hs, Hp, Hl. subst. reflexivity.
Defined.

Lemma parsed_bounds (config : PaginationConfig) (page limit : option Z) :
  1 <= maxPageSize config ->
  let pg := parsePagination config page limit in
  1 <= pg_page pg /\ 1 <= pg_limit pg <= maxPageSize config
  /\ pg_skip pg = (pg_page pg - 1) * pg_limit pg.
Proof.
  intros Hm. unfold parsePagination. cbn [pg_page pg_limit pg_skip].
  split; [lia|]. split; [lia|reflexivity].
Qed.

Lemma paginated_items {A} (config : PaginationConfig) (page limit : option Z)
    (matches : list A) :
  1 <= maxPageSize config ->
  let pg := parsePagination config page limit in
  fst (paginated config page limit matches)
  = Some (take (Z.to_nat (pg_limit pg))
            (drop (Z.to_nat (pg_skip pg)) matches)).
Proof.
  intros Hm pg.
  destruct (parsed_bounds config page limit Hm) as (Hp & Hl & Es).
  fold pg in Hp, Hl, Es. unfold paginated. fold pg. cbn [fst]. unfold skipLimit.
  destruct (pg_skip pg <? 0) eqn:E1; [nia|].
  destruct (pg_limit pg =? 0) eqn:E2; [lia|].
  rewrite Z.abs_eq by lia. reflexivity.
Qed.

Lemma chunks_join {A} (k n : nat) (l : list A) :
  mjoin ((fun p => take k (drop ((p - 1) * k) l)) <$> seq 1 n) = take (n * k) l.
Proof.
  induction n as [|n IH]; [reflexivity|].
  rewrite seq_S, fmap_app, join_app, IH. cbn [fmap list_fmap mjoin list_join].
  rewrite app_nil_r.
  replace ((1 + n - 1) * k)%nat with (n * k)%nat by lia.
  rewrite take_take_drop. f_equal. lia.
Qed.

End HelpersFacts.

(* ===================================================================== *)
(** * Properties of the job-card lifecycle, approval and assignment *)
(* ===================================================================== *)

Module LifecycleFacts.
Import Num JobCardModel PaymentModel JobCardController JobCardApproval.
Import Scenarios Cases.

Lemma step_refl jc : step jc jc.
Proof.
  split; [|auto]. split; [reflexivity|]. split; [reflexivity|].
  split; [reflexivity|]. split; reflexivity.
Qed.

Lemma step_trans a b c : step a b -> step b c -> step a c.
Proof.
  intros ((N1 & C1 & P1 & A1 & D1) & L1) ((N2 & C2 & P2 & A2 & D2) & L2).
  split; [|auto]. split; [congruence|]. split; [congruence|].
  split; [etrans; eauto|]. split.
  - intros S. rewrite A2; [auto|]. rewrite A1; auto.
  - intros S. rewrite D2; [auto|]. rewrite D1; auto.
Qed.

(** A change that leaves number, owner, status, history and timestamps
    alone. *)
Lemma step_same a b :
  jobNumber b = jobNumber a -> customer b = customer a ->
  status b = status a -> statusHistory b = statusHistory a ->
  actualCompletion b = actualCompletion a -> deliveredAt b = deliveredAt a ->
  step a b.
Proof.
  intros N C S H A D. split.
  - split; [exact N|]. split; [exact C|]. rewrite H. repeat split; auto.
  - unfold lifecycleOk. rewrite S, H, A, D. auto.
Qed.

Lemma step_updateStatus s u note now jc : step jc (updateStatus s u note now jc).
Proof.
  split.
  - split; [reflexivity|]. split; [reflexivity|]. split; [|split].
    + cbn. apply prefix_app_r. reflexivity.
    + intros [c Hc]. cbn. rewrite Hc.
      destruct (decide (s = ready)), (decide (s = delivered)); reflexivity.
    + intros [d Hd]. cbn. rewrite Hd.
      destruct (decide (s = delivered)); reflexivity.
  - intros _. unfold lifecycleOk. cbn. split; [|split].
    + rewrite fmap_app. cbn. apply last_snoc.
    + intros ->. destruct (actualCompletion jc); cbn; eauto.
    + intros ->. cbn. split.
      * destruct (deliveredAt jc); eauto.
      * destruct (actualCompletion jc); eauto.
Qed.

Lemma step_applyFields body jc : step jc (applyFields body jc).
Proof. apply step_same; reflexivity. Qed.

Lemma step_set_jobItems items jc : step jc (set_jobItems items jc).
Proof. apply step_same; reflexivity. Qed.

Lemma step_calculateBilling o jc : step jc (calculateBilling o jc).
Proof. apply step_same; reflexivity. Qed.

Lemma cardStep_stored db id jc jc' :
  jobCards db !! id = Some jc -> step jc jc' -> cardStep db (store id jc' db).
Proof. intros L S. right. eauto 6. Qed.

Lemma cardStep_updateJobCard id body userId now db :
  cardStep db (fst (updateJobCard id body userId now db)).
Proof.
  unfold updateJobCard. destruct (jobCards db !! id) as [found|] eqn:L;
    [|left; reflexivity].
  assert (P : forall jc, step found jc ->
            cardStep db
              (fst (match validateModified
                            (truthyNumber (ub_odometerReading body)) with
                    | Some e => (db, Failure e)
                    | None =>
                        (store id jc db,
                         Success "Job card updated successfully" jc)
                    end))).
  { intros jc S. destruct (validateModified _); [left; reflexivity|].
    apply (cardStep_stored _ _ _ _ L S). }
  pose proof (step_applyFields body found) as SA.
  destruct (ub_status body) as [s|]; [|apply P, SA].
  destruct (decide (s <> status (applyFields body found))); [|apply P, SA].
  assert (SU : step found
                 (updateStatus s userId ("Status changed to " +:+ statusName s)
                    now (applyFields body found)))
    by (eapply step_trans; [exact SA|apply step_updateStatus]).
  destruct (decide (s = delivered)); [|apply P, SU].
  destruct (deliveryGate id (applyFields body found) db);
    [left; reflexivity|apply P, SU].
Qed.

Lemma cardStep_updateAssignedJobCardStatus id body userId now db :
  cardStep db (fst (updateAssignedJobCardStatus id body userId now db)).
Proof.
  unfold updateAssignedJobCardStatus.
  destruct (jobCards db !! id) as [found|] eqn:L; [|left; reflexivity].
  destruct (ensureMechanicAssigned found userId); [left; reflexivity|].
  destruct (decide (mb_status body <> status found)); [|left; reflexivity].
  destruct (decide (mb_status body = delivered)).
  - destruct (deliveryGate id found db); [left; reflexivity|].
    apply (cardStep_stored _ _ _ _ L), step_updateStatus.
  - apply (cardStep_stored _ _ _ _ L), step_updateStatus.
Qed.

Lemma cardStep_addJobItem id body userId now db :
  cardStep db (fst (addJobItem id body userId now db)).
Proof.
  unfold addJobItem.
  destruct (jobCards db !! id) as [found|] eqn:L; [|left; reflexivity].
  destruct (ab_quantity body) as [q|]; [|left; reflexivity].
  cbv zeta. destruct (negb (validItem _)); [left; reflexivity|].
  destruct (_ || _).
  - apply (cardStep_stored _ _ _ _ L).
    eapply step_trans; [apply step_set_jobItems|apply step_updateStatus].
  - apply (cardStep_stored _ _ _ _ L), step_set_jobItems.
Qed.

Lemma cardStep_removeJobItem id itemId db :
  cardStep db (fst (removeJobItem id itemId db)).
Proof.
  unfold removeJobItem.
  destruct (jobCards db !! id) as [found|] eqn:L; [|left; reflexivity].
  destruct (findIndex itemId (jobItems found)); [|left; reflexivity].
  apply (cardStep_stored _ _ _ _ L).
  eapply step_trans; [apply step_set_jobItems|apply step_calculateBilling].
Qed.

Lemma cardStep_updateBilling id body db :
  cardStep db (fst (updateBilling id body db)).
Proof.
  unfold updateBilling.
  destruct (jobCards db !! id) as [found|] eqn:L; [|left; reflexivity].
  apply (cardStep_stored _ _ _ _ L).
  eapply step_trans; [|apply step_calculateBilling].
  apply step_same; reflexivity.
Qed.

Lemma cardStep_approveJobItems id itemIds userId now db :
  cardStep db (fst (approveJobItems id itemIds userId now db)).
Proof.
  unfold approveJobItems.
  destruct (jobCards db !! id) as [found|] eqn:L; [|left; reflexivity].
  destruct (_ && _); [|left; reflexivity].
  apply (cardStep_stored _ _ _ _ L). cbv zeta.
  assert (S : step found
                (calculateBilling false
                   (set_jobItems (approveItem itemIds now <$> jobItems found)
                      found)))
    by (eapply step_trans; [apply step_set_jobItems|apply step_calculateBilling]).
  destruct (List.filter _ _); [|exact S].
  eapply step_trans; [exact S|apply step_updateStatus].
Qed.

Lemma cardStep_assignMechanics users id ids db :
  cardStep db (fst (assignMechanics users id ids db)).
Proof.
  unfold assignMechanics.
  destruct (jobCards db !! id) as [found|] eqn:L; [|left; reflexivity].
  destruct (negb _); [left; reflexivity|].
  apply (cardStep_stored _ _ _ _ L). apply step_same; reflexivity.
Qed.

Lemma cardStep_runJobOp users op db : cardStep db (runJobOp users op db).
Proof.
  destruct op; cbn [runJobOp].
  - apply cardStep_updateJobCard.
  - apply cardStep_updateAssignedJobCardStatus.
  - apply cardStep_addJobItem.
  - apply cardStep_removeJobItem.
  - apply cardStep_updateBilling.
  - apply cardStep_approveJobItems.
  - apply cardStep_assignMechanics.
Qed.

Lemma cardStep_lookup db db' id jc' :
  cardStep db db' -> jobCards db' !! id = Some jc' ->
  exists jc, jobCards db !! id = Some jc /\ step jc jc'.
Proof.
  intros [->|(i & jc & new & L & S & ->)] H.
  - exists jc'. split; [exact H|apply step_refl].
  - unfold store in H. cbn in H. destruct (decide (i = id)) as [->|N].
    + rewrite lookup_insert_eq in H. injection H as <-. eauto.
    + rewrite lookup_insert_ne in H by exact N.
      exists jc'. split; [exact H|apply step_refl].
Qed.

Lemma runJobOps_lookup users ops db id jc' :
  jobCards (runJobOps users ops db) !! id = Some jc' ->
  exists jc, jobCards db !! id = Some jc /\ step jc jc'.
Proof.
  revert db. induction ops as [|op ops IH]; intros db H.
  - exists jc'. split; [exact H|apply step_refl].
  - cbn in H. apply IH in H. destruct H as (mid & Hm & S2).
    destruct (cardStep_lookup _ _ _ _ (cardStep_runJobOp users op db) Hm)
      as (jc & L & S1).
    exists jc. split; [exact L|]. eapply step_trans; eauto.
Qed.

(** Lifecycle invariant.  Over every sequence of requests to
    [updateJobCard], [updateAssignedJobCardStatus], [addJobItem],
    [removeJobItem], [updateBilling], [approveJobItems] and
    [assignMechanics], every job card in the database is a later stage of
    a card that was there before the requests (none of these handlers
    creates or deletes one); its number and owner are
    the same, its status history has only grown at the end, and a
    completion or delivery time that was set is still the same.  If the
    earlier card showed the status of its last history entry and had its
    completion time set when ready and both times set when delivered, so
    does the later one. *)
Theorem lifecycle_kept (users : gmap UserId User) (ops : list JobOp) (db : DB)
    (id : Id) (jc' : JobCard) :
  jobCards (runJobOps users ops db) !! id = Some jc' ->
  exists jc,
    jobCards db !! id = Some jc
    /\ evolved jc jc'
    /\ (lifecycleOk jc -> lifecycleOk jc').
Proof.
  intros H. destruct (runJobOps_lookup users ops db id jc' H) as (jc & L & E & K).
  eauto.
Qed.

(** The theorem over the job day of job card 1: the card ends [ready],
    still of customer 7, with its lifecycle in order. *)
Lemma lifecycle_kept_witness :
  exists jc',
    jobCards (runJobOps staff jobDay oneJob) !! 1%positive = Some jc'
    /\ status jc' = ready
    /\ customer jc' = 7%positive
    /\ lifecycleOk jc'.
Proof.
  destruct (jobCards (runJobOps staff jobDay oneJob) !! 1%positive)
    as [jc'|] eqn:E; [|vm_compute in E; discriminate].
  exists jc'. split; [reflexivity|].
  destruct (lifecycle_kept staff jobDay oneJob 1%positive jc' E)
    as (jc & L & Ev & K).
  assert (J : jc = BillingSpec.newJobCard 7%positive 0%nat).
  { vm_compute in L. injection L as <-. reflexivity. }
  subst jc. destruct Ev as (_ & C & _).
  split; [|split; [exact C|]].
  - vm_compute in E. injection E as <-. reflexivity.
  - apply K. split; [reflexivity|]. split; discriminate.
Defined.

End LifecycleFacts.

Module JobItemFacts.
Import Num JobCardModel PaymentModel JobCardController JobCardApproval.
Import Scenarios Cases.

Lemma filter_nil_iff {A} (f : A -> bool) (l : list A) :
  List.filter f l = [] <-> forall x, x ∈ l -> f x = false.
Proof.
  induction l as [|a l IH]; cbn.
  - split; [intros _ x Hx; inversion Hx|reflexivity].
  - destruct (f a) eqn:E.
    + split; [discriminate|]. intros H. specialize (H a ltac:(left)). congruence.
    + rewrite IH. split.
      * intros H x Hx. apply elem_of_cons in Hx. destruct Hx as [->|Hx]; auto.
      * intros H x Hx. apply H. right. exact Hx.
Qed.

Lemma totals_approveItem itemIds now (items : list JobItem) (acc : Q) :
  fold_left (fun sum item => (sum + item_total item)%Q)
    (approveItem itemIds now <$> items) acc
  = fold_left (fun sum item => (sum + item_total item)%Q) items acc.
Proof.
  revert acc. induction items as [|it items IH]; intros acc; [reflexivity|].
  cbn. rewrite IH. f_equal. unfold approveItem.
  destruct (bool_decide _); reflexivity.
Qed.

Lemma approvedFrom_approveItem itemIds now item :
  approvedFrom itemIds item (approveItem itemIds now item).
Proof.
  unfold approvedFrom, approveItem.
  destruct (bool_decide (item_id item ∈ itemIds)); cbn;
    rewrite ?orb_true_r, ?orb_false_r; repeat split.
Qed.

(** Customer approval.  A request on a job card that is not the caller's
    or is not awaiting approval is answered [not found] and changes
    nothing.  Otherwise it succeeds: every item keeps its id, type,
    description, quantity, prices and total, an item is approved
    afterwards exactly when it was approved before or is listed in the
    request, and the stored billing is the one computed over all the
    items, approved or not.  The status becomes [approved] exactly when
    every item was approved before or is listed; otherwise status and
    history stay as they were. *)
Theorem approveJobItems_effect (db : DB) (id : Id) (jc : JobCard)
    (itemIds : list Id) (userId : UserId) (now : Date) :
  jobCards db !! id = Some jc ->
  let r := approveJobItems id itemIds userId now db in
  (customer jc <> userId \/ status jc <> awaiting_approval ->
   r = (db, Failure (notFound "Job card not found or not awaiting approval")))
  /\ (customer jc = userId -> status jc = awaiting_approval ->
      exists jc',
        r = (store id jc' db, Success "Items approved successfully" jc')
        /\ Forall2 (approvedFrom itemIds) (jobItems jc) (jobItems jc')
        /\ billing jc' = billing (calculateBilling false jc)
        /\ (status jc' = approved
            <-> forall item, item ∈ jobItems jc ->
                  item_isApproved item = true \/ item_id item ∈ itemIds)
        /\ (status jc' <> approved ->
            status jc' = awaiting_approval
            /\ statusHistory jc' = statusHistory jc)).
Proof.
  intros L r. subst r. unfold approveJobItems. rewrite L. split.
  - intros [N|N].
    + rewrite (bool_decide_eq_false_2 _ N). reflexivity.
    + rewrite (bool_decide_eq_false_2 _ N), andb_false_r. reflexivity.
  - intros C S. rewrite (bool_decide_eq_true_2 _ C), (bool_decide_eq_true_2 _ S).
    cbn [andb]. cbv zeta.
    set (items' := approveItem itemIds now <$> jobItems jc).
    assert (F : Forall2 (approvedFrom itemIds) (jobItems jc) items').
    { subst items'. apply Forall2_fmap_r, Forall_Forall2_diag, Forall_forall.
      intros item _. apply approvedFrom_approveItem. }
    assert (B : billing (calculateBilling false (set_jobItems items' jc))
                = billing (calculateBilling false jc)).
    { unfold calculateBilling. cbn. subst items'.
      rewrite !totals_approveItem. reflexivity. }
    assert (P : List.filter (fun item => negb (item_isApproved item)) items' = []
                <-> forall item, item ∈ jobItems jc ->
                      item_isApproved item = true \/ item_id item ∈ itemIds).
    { rewrite filter_nil_iff. subst items'. split.
      - intros H item Hi.
        specialize (H (approveItem itemIds now item)
                      ltac:(apply list_elem_of_fmap; eauto)).
        destruct (approvedFrom_approveItem itemIds now item)
          as (_ & _ & _ & _ & _ & _ & _ & E).
        rewrite E in H. apply negb_false_iff, orb_true_iff in H.
        destruct H as [H|H]; [left; exact H|right].
        apply bool_decide_eq_true in H. exact H.
      - intros H x Hx. apply list_elem_of_fmap in Hx.
        destruct Hx as (item & -> & Hi).
        destruct (approvedFrom_approveItem itemIds now item)
          as (_ & _ & _ & _ & _ & _ & _ & E).
        rewrite E. apply negb_false_iff, orb_true_iff.
        destruct (H item Hi) as [A|A]; [left; exact A|right].
        apply bool_decide_eq_true. exact A. }
    change (jobItems (calculateBilling false (set_jobItems items' jc)))
      with items'.
    destruct (List.filter (fun item => negb (item_isApproved item)) items')
      as [|p ps] eqn:E.
    + eexists. split; [reflexivity|]. split; [exact F|]. split; [exact B|].
      split; [|intros N; contradiction N; reflexivity].
      split; [intros _; apply P; reflexivity|reflexivity].
    + eexists. split; [reflexivity|]. split; [exact F|]. split; [exact B|].
      change (status (calculateBilling false (set_jobItems items' jc)))
        with (status jc).
      rewrite S. split.
      * split; [discriminate|]. intros H. apply P in H. discriminate.
      * intros _. split; reflexivity.
Qed.

(** The theorem at the quoted job: the customer approves the brake pads,
    the only item still open, and the job card becomes [approved]. *)
Lemma approveJobItems_effect_witness :
  jobCards quoted !! 1%positive = Some quotedJob
  /\ exists jc',
       approveJobItems 1%positive [2%positive] 7%positive 3%nat quoted
       = (store 1%positive jc' quoted,
          Success "Items approved successfully" jc')
       /\ status jc' = approved.
Proof.
  assert (L : jobCards quoted !! 1%positive = Some quotedJob)
    by (vm_compute; reflexivity).
  split; [exact L|].
  destruct (proj2 (approveJobItems_effect quoted 1%positive quotedJob
                     [2%positive] 7%positive 3%nat L) eq_refl eq_refl)
    as (jc' & R & _ & _ & A & _).
  exists jc'. split; [exact R|]. apply A. intros item Hi.
  unfold quotedJob in Hi. cbn [jobItems] in Hi.
  rewrite !elem_of_cons in Hi. destruct Hi as [->|[->|Hi]].
  - left. reflexivity.
  - right. cbn. constructor.
  - inversion Hi.
Defined.

Lemma Math_min_spec a b : Math_min a b == Qmin a b.
Proof.
  unfold Math_min. destruct (Qle_bool a b) eqn:E.
  - apply Qle_bool_iff in E. symmetry. apply Q.min_l. exact E.
  - assert (b <= a)%Q.
    { destruct (Qlt_le_dec b a) as [H|H]; [apply Qlt_le_weak; exact H|].
      apply Qle_bool_iff in H. congruence. }
    symmetry. apply Q.min_r. assumption.
Qed.

Lemma freshItemId_fresh (items : list JobItem) :
  freshItemId items ∉ (item_id <$> items).
Proof.
  unfold freshItemId. intros H.
  apply (is_fresh (list_to_set (item_id <$> items) : gset Id)).
  apply elem_of_list_to_set. exact H.
Qed.

Lemma findIndex_last (items : list JobItem) (item : JobItem) :
  item_id item ∉ (item_id <$> items) ->
  findIndex (item_id item) (items ++ [item]) = Some (length items).
Proof.
  induction items as [|it items IH]; intros N; cbn.
  - destruct (decide (item_id item = item_id item)); [reflexivity|congruence].
  - destruct (decide (item_id it = item_id item)) as [E|E].
    + exfalso. apply N. rewrite <- E. cbn. left.
    + rewrite IH; [reflexivity|]. intros H. apply N. cbn. right. exact H.
Qed.

(** A successful [addJobItem] in terms of the pushed item. *)
Lemma addJobItem_success db id jc body userId now db1 msg jc1 :
  jobCards db !! id = Some jc ->
  addJobItem id body userId now db = (db1, Success msg jc1) ->
  exists item,
    jobItems jc1 = jobItems jc ++ [item]
    /\ item_id item = freshItemId (jobItems jc)
    /\ billing jc1 = billing jc
    /\ db1 = store id jc1 db.
Proof.
  intros L. unfold addJobItem. rewrite L.
  destruct (ab_quantity body) as [q|]; [|discriminate].
  cbv zeta. destruct (negb (validItem _)); [discriminate|].
  destruct (_ || _); intros H; injection H as <- _ <-;
    eexists; (split; [|split; [|split]]); reflexivity.
Qed.

(** Adding a job item.  For a stored job card and a request with a
    non-empty description, a quantity of at least 1 and a non-negative
    unit price, the item is appended under an id no other item of the card
    has, unapproved; the discount kept is the requested one (0 when
    missing) clamped between 0 and quantity x unit price, and the total is
    quantity x unit price minus that discount, never negative.  The stored
    billing is left as it was: the new item is not billed until billing is
    recomputed.  The status becomes [awaiting-approval] from [inspection]
    and [in-progress] and is unchanged otherwise. *)
Theorem addJobItem_effect (db : DB) (id : Id) (jc : JobCard)
    (body : AddJobItemBody) (userId : UserId) (now : Date) (q : Q) :
  jobCards db !! id = Some jc ->
  ab_quantity body = Some q -> (1 <= q)%Q -> (0 <= ab_unitPrice body)%Q ->
  ab_description body <> "" ->
  exists item jc',
    addJobItem id body userId now db
    = (store id jc' db, Success "Job item added successfully" jc')
    /\ jobItems jc' = jobItems jc ++ [item]
    /\ (item_id item ∉ (item_id <$> jobItems jc))
    /\ item_isApproved item = false
    /\ (item_discount item
        == Qmin (Qmax (default 0 (ab_discount body)) 0) (q * ab_unitPrice body))%Q
    /\ (item_total item == q * ab_unitPrice body - item_discount item)%Q
    /\ (0 <= item_total item)%Q
    /\ billing jc' = billing jc
    /\ status jc'
       = (if bool_decide (status jc = inspection)
             || bool_decide (status jc = in_progress)
          then awaiting_approval else status jc).
Proof.
  intros L Eq Hq Hp Hd. unfold addJobItem. rewrite L, Eq. cbv zeta.
  set (lineTotal := (q * ab_unitPrice body)%Q).
  set (safeDiscount :=
         Math_min (Math_max (default 0%Q (ab_discount body)) 0) lineTotal).
  set (total := Math_max 0 (lineTotal - safeDiscount)%Q).
  assert (Hl : (0 <= lineTotal)%Q).
  { subst lineTotal. apply Qmult_le_0_compat; [|exact Hp].
    eapply Qle_trans; [|exact Hq]. discriminate. }
  assert (Hs : (safeDiscount
                == Qmin (Qmax (default 0 (ab_discount body)) 0) lineTotal)%Q).
  { subst safeDiscount. rewrite Math_min_spec.
    apply Q.min_compat; [apply BillingFacts.Math_max_spec|reflexivity]. }
  assert (Hs0 : (0 <= safeDiscount)%Q).
  { rewrite Hs. apply Q.min_glb; [apply Q.le_max_r|exact Hl]. }
  assert (Hs1 : (safeDiscount <= lineTotal)%Q).
  { rewrite Hs. apply Q.le_min_r. }
  assert (Ht : (total == lineTotal - safeDiscount)%Q).
  { subst total. rewrite BillingFacts.Math_max_spec. apply Q.max_r.
    unfold Qminus. rewrite <- Qle_minus_iff. exact Hs1. }
  assert (V : validItem
                (mkJobItem (freshItemId (jobItems jc)) (ab_type body)
                   (ab_description body) q (ab_unitPrice body) safeDiscount
                   total false None) = true).
  { unfold validItem. cbn.
    apply andb_true_iff. split; [apply andb_true_iff; split;
                                 [apply andb_true_iff; split|]|].
    - apply negb_true_iff, String.eqb_neq. exact Hd.
    - apply Qle_bool_iff. exact Hq.
    - apply Qle_bool_iff. exact Hp.
    - apply Qle_bool_iff. exact Hs0. }
  rewrite V. cbn [negb].
  change (status (set_jobItems _ jc)) with (status jc).
  assert (T0 : (0 <= total)%Q).
  { rewrite Ht. unfold Qminus. rewrite <- Qle_minus_iff. exact Hs1. }
  destruct (bool_decide (status jc = inspection)
            || bool_decide (status jc = in_progress));
    eexists _, _; (split; [reflexivity|]); cbn;
    (split; [reflexivity|]); (split; [apply freshItemId_fresh|]);
    (split; [reflexivity|]); (split; [exact Hs|]); (split; [exact Ht|]);
    (split; [exact T0|]); split; reflexivity.
Qed.

(** The theorem at a line of 2 x 100 with a requested discount of 250:
    the discount kept is 200 and the total is 0. *)
Lemma addJobItem_effect_witness :
  jobCards oneJob !! 1%positive = Some (BillingSpec.newJobCard 7%positive 0%nat)
  /\ exists item jc',
       addJobItem 1%positive overDiscounted 9%positive 2%nat oneJob
       = (store 1%positive jc' oneJob,
          Success "Job item added successfully" jc')
       /\ jobItems jc' = [item]
       /\ (item_discount item == 200)%Q /\ (item_total item == 0)%Q.
Proof.
  assert (L : jobCards oneJob !! 1%positive = Some (BillingSpec.newJobCard 7%positive 0%nat))
    by (vm_compute; reflexivity).
  split; [exact L|].
  destruct (addJobItem_effect oneJob 1%positive (BillingSpec.newJobCard 7%positive 0%nat)
              overDiscounted 9%positive 2%nat 2%Q L eq_refl
              ltac:(vm_compute; discriminate) ltac:(vm_compute; discriminate)
              ltac:(discriminate))
    as (item & jc' & R & Ij & _ & _ & D & T & _).
  exists item, jc'. split; [exact R|]. split; [exact Ij|].
  assert (D' : (item_discount item == 200)%Q).
  { rewrite D. vm_compute. reflexivity. }
  split; [exact D'|]. rewrite T, D'. vm_compute. reflexivity.
Defined.

(** Adding an item and removing it again.  After a successful
    [addJobItem], removing the added item succeeds and leaves the job card
    with the items it had before, in the same order, and with the billing
    computed over those items. *)
Theorem add_then_remove (db db1 : DB) (id : Id) (jc jc1 : JobCard)
    (body : AddJobItemBody) (userId : UserId) (now : Date) (msg : string) :
  jobCards db !! id = Some jc ->
  addJobItem id body userId now db = (db1, Success msg jc1) ->
  exists item jc2,
    jobItems jc1 = jobItems jc ++ [item]
    /\ removeJobItem id (item_id item) db1
       = (store id jc2 db1, Success "Job item removed successfully" jc2)
    /\ jobItems jc2 = jobItems jc
    /\ billing jc2 = billing (calculateBilling false jc).
Proof.
  intros L A.
  destruct (addJobItem_success _ _ _ _ _ _ _ _ _ L A)
    as (item & Ej & Ei & Eb & ->).
  exists item. unfold removeJobItem.
  unfold store at 1. cbn [jobCards set_jobCards]. rewrite lookup_insert_eq.
  rewrite Ej, findIndex_last
    by (rewrite Ei; apply freshItemId_fresh).
  eexists. split; [reflexivity|]. split; [reflexivity|].
  cbn [jobItems calculateBilling set_jobItems set_billing].
  assert (D : delete (length (jobItems jc)) (jobItems jc ++ [item]) = jobItems jc).
  { rewrite delete_middle. apply app_nil_r. }
  split.
  - cbn. exact D.
  - unfold calculateBilling. cbn. rewrite D, Eb. reflexivity.
Qed.

(** The theorem at the fresh job card: the brake service is added and
    removed again, and no item is left. *)
Lemma add_then_remove_witness :
  let body := mkAddJobItemBody labour "Brake service" (Some 2%Q) 100%Q None in
  let db1 := fst (addJobItem 1%positive body 9%positive 2%nat oneJob) in
  exists item jc2,
    removeJobItem 1%positive (item_id item) db1
    = (store 1%positive jc2 db1, Success "Job item removed successfully" jc2)
    /\ jobItems jc2 = [].
Proof.
  intros body db1.
  destruct (snd (addJobItem 1%positive body 9%positive 2%nat oneJob))
    as [msg jc1|e] eqn:E; [|vm_compute in E; discriminate].
  assert (A : addJobItem 1%positive body 9%positive 2%nat oneJob
              = (db1, Success msg jc1))
    by (rewrite <- E; apply surjective_pairing).
  destruct (add_then_remove oneJob db1 1%positive (BillingSpec.newJobCard 7%positive 0%nat)
              jc1 body 9%positive 2%nat msg ltac:(vm_compute; reflexivity) A)
    as (item & jc2 & _ & R & I & _).
  exists item, jc2. split; [exact R|exact I].
Defined.

End JobItemFacts.

(* ===================================================================== *)
(** * Properties of mechanic assignment and of the job-card reads *)
(* ===================================================================== *)

Module AssignmentFacts.
Import Num JobCardModel PaymentModel JobCardController JobCardApproval
  JobCardReads.
Import Scenarios Cases.

Lemma dedup_acc (ids acc : list UserId) :
  NoDup acc ->
  exists kept,
    fold_left
      (fun set id => if bool_decide (id ∈ set) then set else set ++ [id])
      ids acc
    = acc ++ kept
    /\ NoDup (acc ++ kept)
    /\ kept `sublist_of` ids
    /\ (forall x, x ∈ acc ++ kept <-> x ∈ acc \/ x ∈ ids)
    /\ (NoDup (acc ++ ids) -> kept = ids).
Proof.
  revert acc. induction ids as [|id ids IH]; intros acc N.
  - exists []. rewrite app_nil_r. cbn. split; [reflexivity|].
    split; [exact N|]. split; [constructor|]. split; [|reflexivity].
    intros x. split; [auto|]. intros [H|H]; [exact H|inversion H].
  - cbn [fold_left]. destruct (bool_decide (id ∈ acc)) eqn:E.
    + apply bool_decide_eq_true in E.
      destruct (IH acc N) as (kept & R & Nk & S & M & Q).
      exists kept. split; [exact R|]. split; [exact Nk|].
      split; [apply sublist_cons; exact S|]. split.
      * intros x. rewrite M, elem_of_cons. split; [tauto|].
        intros [H|[->|H]]; auto.
      * intros D. apply NoDup_app in D. destruct D as (_ & D & _).
        exfalso. apply (D id E). left.
    + apply bool_decide_eq_false in E.
      assert (N' : NoDup (acc ++ [id])).
      { apply NoDup_app. split; [exact N|]. split; [|apply NoDup_singleton].
        intros x Hx Hi. apply list_elem_of_singleton in Hi. subst. exact (E Hx). }
      destruct (IH (acc ++ [id]) N') as (kept & R & Nk & S & M & Q).
      exists (id :: kept). rewrite R, <- app_assoc. cbn.
      split; [reflexivity|]. rewrite <- app_assoc in Nk, M. cbn in Nk, M.
      split; [exact Nk|]. split; [apply sublist_skip; exact S|]. split.
      * intros x. rewrite M, elem_of_app, list_elem_of_singleton, elem_of_cons.
        tauto.
      * intros D. f_equal. apply Q. rewrite <- app_assoc. exact D.
Qed.

Lemma toUniqueStringIds_set_aux (ids : list UserId) :
  NoDup (toUniqueStringIds ids)
  /\ forall x, x ∈ toUniqueStringIds ids <-> x ∈ ids.
Proof.
  unfold toUniqueStringIds.
  destruct (dedup_acc ids [] (NoDup_nil_2)) as (kept & -> & N & S & M & Q).
  cbn in *. split; [exact N|].
  intros x. rewrite M. split; [intros [H|H]; [inversion H|exact H]|auto].
Qed.

(** The ids kept from a request continue the ids already in the set:
    the set built from [acc] is [acc] followed by what the set built from
    nothing keeps, without the members of [acc]. *)
Lemma dedup_from (ids acc : list UserId) :
  fold_left
    (fun set id => if bool_decide (id ∈ set) then set else set ++ [id])
    ids acc
  = acc ++ List.filter (fun y => negb (bool_decide (y ∈ acc)))
             (toUniqueStringIds ids).
Proof.
  unfold toUniqueStringIds.
  induction ids as [|a l IH] using rev_ind.
  - cbn. rewrite app_nil_r. reflexivity.
  - rewrite !fold_left_app. cbn [fold_left]. rewrite IH.
    set (base := fold_left
                   (fun set id => if bool_decide (id ∈ set) then set
                                  else set ++ [id]) l []) in *.
    set (rest := List.filter (fun y => negb (bool_decide (y ∈ acc))) base).
    assert (M : a ∈ acc ++ rest <-> a ∈ acc \/ a ∈ base).
    { assert (F : a ∈ rest <-> a ∈ base /\ a ∉ acc).
      { unfold rest. rewrite !list_elem_of_In, filter_In.
        rewrite negb_true_iff, bool_decide_eq_false, list_elem_of_In.
        tauto. }
      rewrite elem_of_app, F. destruct (decide (a ∈ acc)); tauto. }
    destruct (decide (a ∈ base)) as [B|B].
    + rewrite (bool_decide_eq_true_2 (a ∈ base) B).
      rewrite (bool_decide_eq_true_2 (a ∈ acc ++ rest)) by (apply M; auto).
      reflexivity.
    + rewrite (bool_decide_eq_false_2 (a ∈ base) B).
      rewrite List.filter_app. cbn [List.filter].
      destruct (decide (a ∈ acc)) as [A|A].
      * rewrite (bool_decide_eq_true_2 (a ∈ acc ++ rest)) by (apply M; auto).
        rewrite (bool_decide_eq_true_2 (a ∈ acc) A). cbn.
        rewrite app_nil_r. reflexivity.
      * rewrite (bool_decide_eq_false_2 (a ∈ acc ++ rest)) by (rewrite M; tauto).
        rewrite (bool_decide_eq_false_2 (a ∈ acc) A). cbn.
        rewrite app_assoc. reflexivity.
Qed.

(** Deduplication of the requested ids.  [toUniqueStringIds] returns each
    requested id once, at the place of its first occurrence: the result
    has no duplicates and the same members as the request; it is a
    sublist of the request; of an empty request it is empty, and of a
    request [x :: ids] it is [x] followed by the result for [ids] without
    [x], so that every later repetition is the one dropped; it returns a
    duplicate-free request unchanged, and applying it twice is the same
    as applying it once. *)
Theorem toUniqueStringIds_set (ids : list UserId) :
  NoDup (toUniqueStringIds ids)
  /\ (forall x, x ∈ toUniqueStringIds ids <-> x ∈ ids)
  /\ toUniqueStringIds ids `sublist_of` ids
  /\ toUniqueStringIds [] = []
  /\ (forall x,
        toUniqueStringIds (x :: ids)
        = x :: List.filter (fun y => negb (bool_decide (y = x)))
                 (toUniqueStringIds ids))
  /\ (NoDup ids -> toUniqueStringIds ids = ids)
  /\ toUniqueStringIds (toUniqueStringIds ids) = toUniqueStringIds ids.
Proof.
  assert (G : forall l, NoDup (toUniqueStringIds l)
                        /\ (forall x, x ∈ toUniqueStringIds l <-> x ∈ l)
                        /\ toUniqueStringIds l `sublist_of` l
                        /\ (NoDup l -> toUniqueStringIds l = l)).
  { intros l. unfold toUniqueStringIds.
    destruct (dedup_acc l [] (NoDup_nil_2)) as (kept & -> & N & S & M & Q).
    cbn in *. split; [exact N|]. split; [|split; [exact S|exact Q]].
    intros x. rewrite M. split; [intros [H|H]; [inversion H|exact H]|auto]. }
  destruct (G ids) as (N & M & S & Q).
  split; [exact N|]. split; [exact M|]. split; [exact S|].
  split; [reflexivity|]. split.
  - intros x. unfold toUniqueStringIds at 1. cbn [fold_left].
    rewrite bool_decide_eq_false_2 by (intros H; inversion H).
    cbn [app]. rewrite (dedup_from ids [x]). cbn [app]. f_equal.
    apply filter_ext. intros y.
    destruct (decide (y = x)) as [->|D].
    + rewrite !bool_decide_eq_true_2; [reflexivity|reflexivity|left].
    + rewrite !bool_decide_eq_false_2; [reflexivity|exact D|].
      intros H. apply list_elem_of_singleton in H. exact (D H).
  - split; [exact Q|].
    apply (proj2 (proj2 (proj2 (G (toUniqueStringIds ids))))). exact N.
Qed.

Lemma elem_of_List_filter {A} (f : A -> bool) (l : list A) (x : A) :
  x ∈ List.filter f l <-> x ∈ l /\ f x = true.
Proof. rewrite !list_elem_of_In. apply filter_In. Qed.

Lemma filter_fmap_NoDup {A B} (f : A -> B) (g : A -> bool) (l : list A) :
  NoDup (f <$> l) -> NoDup (f <$> List.filter g l).
Proof.
  induction l as [|a l IH]; cbn; [auto|].
  intros N. apply NoDup_cons in N. destruct N as (Na & N).
  destruct (g a); cbn; [|auto]. apply NoDup_cons. split; [|auto].
  intros H. apply Na. apply list_elem_of_fmap in H.
  destruct H as (x & E & Hx). apply list_elem_of_fmap. exists x.
  split; [exact E|]. apply elem_of_List_filter in Hx. tauto.
Qed.

Lemma findMechanics_ids users uniqueIds :
  NoDup (fst <$> findMechanics users uniqueIds)
  /\ forall uid, uid ∈ fst <$> findMechanics users uniqueIds
                 <-> uid ∈ uniqueIds /\ activeMechanic users uid.
Proof.
  unfold findMechanics. split.
  - apply filter_fmap_NoDup, NoDup_fst_map_to_list.
  - intros uid. rewrite list_elem_of_fmap. split.
    + intros ([k u] & -> & H). apply elem_of_List_filter in H.
      destruct H as (H & C). apply elem_of_map_to_list in H.
      cbn in C. apply andb_true_iff in C. destruct C as (C & A).
      apply andb_true_iff in C. destruct C as (I & R).
      apply bool_decide_eq_true in I, R. cbn. split; [exact I|].
      exists u. auto.
    + intros (I & u & L & R & A). exists (uid, u). split; [reflexivity|].
      apply elem_of_List_filter. split.
      * apply elem_of_map_to_list. exact L.
      * cbn. rewrite (bool_decide_eq_true_2 _ I), (bool_decide_eq_true_2 _ R), A.
        reflexivity.
Qed.

Lemma findMechanics_complete users uniqueIds :
  NoDup uniqueIds ->
  (length (findMechanics users uniqueIds) = length uniqueIds
   <-> forall uid, uid ∈ uniqueIds -> activeMechanic users uid).
Proof.
  intros N. destruct (findMechanics_ids users uniqueIds) as (Nm & M).
  rewrite <- (length_fmap fst (findMechanics users uniqueIds)). split.
  - intros E uid Hu.
    assert (I : incl uniqueIds (fst <$> findMechanics users uniqueIds)).
    { apply NoDup_length_incl.
      - apply NoDup_ListNoDup. exact Nm.
      - rewrite E. reflexivity.
      - intros x Hx. apply list_elem_of_In. apply list_elem_of_In in Hx.
        apply M in Hx. tauto. }
    apply list_elem_of_In, I, list_elem_of_In, M in Hu. tauto.
  - intros H. apply Permutation_length, NoDup_Permutation; [exact Nm|exact N|].
    intros x. rewrite M. split; [tauto|]. intros Hx. split; [exact Hx|auto].
Qed.

(** Assigning mechanics.  On a stored job card the request succeeds
    exactly when every requested id is an active user in the mechanic
    role (repeated ids do not matter).  It then stores the requested ids
    once each, in request order, with one name per id, and changes
    nothing else of the job card; afterwards [ensureMechanicAssigned]
    lets through exactly the requested ids.  A request naming anyone else
    is answered 400 and changes nothing. *)
Theorem assignMechanics_effect (users : gmap UserId User) (db : DB) (id : Id)
    (jc : JobCard) (mechanicUserIds : list UserId) :
  jobCards db !! id = Some jc ->
  let r := assignMechanics users id mechanicUserIds db in
  ((forall uid, uid ∈ mechanicUserIds -> activeMechanic users uid) ->
   exists jc',
     r = (store id jc' db,
          Success "Mechanics assigned successfully"
            (assignedMechanicUserIds jc', assignedMechanics jc'))
     /\ assignedMechanicUserIds jc' = toUniqueStringIds mechanicUserIds
     /\ length (assignedMechanics jc') = length (assignedMechanicUserIds jc')
     /\ (forall uid, ensureMechanicAssigned jc' uid = None
                     <-> uid ∈ mechanicUserIds)
     /\ status jc' = status jc /\ statusHistory jc' = statusHistory jc
     /\ jobItems jc' = jobItems jc /\ billing jc' = billing jc
     /\ customer jc' = customer jc)
  /\ ((exists uid, uid ∈ mechanicUserIds /\ ~ activeMechanic users uid) ->
      r = (db, Failure
                 (badRequest
                    "One or more mechanicUserIds are invalid or not mechanics"
                    []))).
Proof.
  intros L r. subst r. unfold assignMechanics. rewrite L.
  destruct (toUniqueStringIds_set_aux mechanicUserIds) as (N & M).
  pose proof (findMechanics_complete users _ N) as C.
  split.
  - intros H.
    assert (E : length (findMechanics users (toUniqueStringIds mechanicUserIds))
                = length (toUniqueStringIds mechanicUserIds)).
    { apply C. intros uid Hu. apply H, M, Hu. }
    rewrite E, Nat.eqb_refl. cbn [negb].
    exists (mkJobCard (jobNumber jc) (customer jc) (odometerReading jc)
              (fuelLevel jc) (diagnostics jc)
              ((fun m => user_name (snd m))
                 <$> findMechanics users (toUniqueStringIds mechanicUserIds))
              (toUniqueStringIds mechanicUserIds) (jobItems jc) (status jc)
              (statusHistory jc) (estimatedCompletion jc)
              (actualCompletion jc) (deliveredAt jc) (billing jc) (notes jc)).
    split; [reflexivity|].
    cbn [assignedMechanicUserIds assignedMechanics status statusHistory
         jobItems billing customer].
    split; [reflexivity|]. split; [rewrite length_fmap; exact E|].
    split; [|repeat split].
    intros uid. unfold ensureMechanicAssigned.
    cbn [assignedMechanicUserIds]. rewrite <- M.
    destruct (bool_decide _) eqn:B.
    + apply bool_decide_eq_true in B. tauto.
    + apply bool_decide_eq_false in B. split; [discriminate|tauto].
  - intros (uid & Hu & Na).
    destruct (Nat.eqb_spec
                (length (findMechanics users (toUniqueStringIds mechanicUserIds)))
                (length (toUniqueStringIds mechanicUserIds))) as [E|E];
      [|reflexivity].
    exfalso. apply Na. apply (proj1 C E). apply M. exact Hu.
Qed.

(** The theorem at the staff: mechanic 5, named twice, is assigned once;
    a request naming mechanic 6, who is no longer active, is refused. *)
Lemma assignMechanics_effect_witness :
  jobCards oneJob !! 1%positive = Some (BillingSpec.newJobCard 7%positive 0%nat)
  /\ (exists jc',
        fst (assignMechanics staff 1%positive [5%positive; 5%positive] oneJob)
        = store 1%positive jc' oneJob
        /\ assignedMechanicUserIds jc' = [5%positive])
  /\ assignMechanics staff 1%positive [5%positive; 6%positive] oneJob
     = (oneJob,
        Failure
          (badRequest "One or more mechanicUserIds are invalid or not mechanics"
             [])).
Proof.
  assert (L : jobCards oneJob !! 1%positive = Some (BillingSpec.newJobCard 7%positive 0%nat))
    by (vm_compute; reflexivity).
  split; [exact L|]. split.
  - destruct (proj1 (assignMechanics_effect staff oneJob 1%positive _
                       [5%positive; 5%positive] L))
      as (jc' & R & I & _).
    + intros uid H. rewrite !elem_of_cons in H.
      destruct H as [->|[->|H]]; [| |inversion H];
        exists (mkUser "Asif" "03001234567" role_mechanic true);
        (split; [vm_compute; reflexivity|split; reflexivity]).
    + exists jc'. split; [rewrite R; reflexivity|]. rewrite I. reflexivity.
  - apply (proj2 (assignMechanics_effect staff oneJob 1%positive _
                    [5%positive; 6%positive] L)).
    exists 6%positive. split; [constructor; constructor|].
    intros (u & Hu & _ & Ha). vm_compute in Hu. injection Hu as <-.
    discriminate.
Defined.

End AssignmentFacts.

Module ReadFacts.
Import Num JobCardModel PaymentModel JobCardController JobCardApproval
  JobCardReads BillingSpec.

Local Open Scope Q_scope.

Lemma paymentSummary_fields (id : Id) (jc : JobCard) (db : DB) :
  paymentSummary id jc db
  = mkPaymentSummary (grandTotal (billing jc)) (totalPaid id (payments db))
      (Math_max 0 (round2 (grandTotal (billing jc) - totalPaid id (payments db))))
      (length (findCompleted id (payments db))).
Proof. reflexivity. Qed.

(** The payment summary of a job-card read.  The balance due shown is
    never negative and is a whole number of hundredths; it is within
    0.005 + EPSILON of the exact balance (grand total minus completed
    payments net of completed refunds) when that is not negative, and 0
    when it is.  A ready job card shown with balance 0 passes the delivery
    gate, and a job card shown with a balance of 0.02 or more does not. *)
Theorem paymentSummary_balance (id : Id) (jc : JobCard) (db : DB) :
  let shown := ps_balanceDue (paymentSummary id jc db) in
  let exact := balanceDue id db jc in
  0 <= shown
  /\ (exists k : Z, shown == k # 100)
  /\ (exact <= 0 -> shown == 0)
  /\ (0 <= exact ->
      exact - (1 # 200) < shown /\ shown <= exact + EPSILON + (1 # 200))
  /\ (status jc = ready -> shown == 0 -> deliveryGate id jc db = None)
  /\ (2 # 100 <= shown -> deliveryGate id jc db <> None).
Proof.
  intros shown exact. subst shown. rewrite paymentSummary_fields.
  cbn [ps_balanceDue].
  assert (X : grandTotal (billing jc) - totalPaid id (payments db) == exact).
  { subst exact. unfold balanceDue. rewrite JobCardFacts.totalPaid_net.
    reflexivity. }
  assert (Hs : Math_max 0
                 (round2 (grandTotal (billing jc) - totalPaid id (payments db)))
               == Qmax 0 (round2 exact)).
  { rewrite BillingFacts.Math_max_spec.
    apply Q.max_compat; [reflexivity|]. apply BillingFacts.round2_proper. exact X. }
  set (shown := Math_max 0 _) in *. clearbody shown.
  pose proof (BillingFacts.round2_lower exact) as Lo.
  pose proof (BillingFacts.round2_upper exact) as Up.
  pose proof (BillingFacts.round2_hundredths exact) as Hu.
  assert (Z0 : round2 0 == 0) by reflexivity.
  assert (Ep : EPSILON < 1 # 200) by reflexivity.
  destruct (Q.max_spec_le 0 (round2 exact)) as [[R E]|[R E]];
    rewrite E in Hs; clear E.
  - (* the rounded balance is not negative *)
    split; [rewrite Hs; exact R|].
    split; [eexists; etransitivity; [exact Hs|exact Hu]|].
    split; [|split; [|split]].
    + intros Neg. rewrite Hs. apply Qle_antisym; [|exact R].
      rewrite <- Z0. apply BillingFacts.round2_mono. exact Neg.
    + intros _. rewrite Hs. split; [exact Lo|exact Up].
    + intros S E. apply JobCardFacts.deliveryGate_open. split; [exact S|].
      fold exact. rewrite Hs in E. lra.
    + intros Big G. apply JobCardFacts.deliveryGate_open in G.
      destruct G as (_ & G). fold exact in G. rewrite Hs in Big. lra.
  - (* the rounded balance is negative: 0 is shown *)
    split; [rewrite Hs; apply Qle_refl|].
    split; [exists 0%Z; etransitivity; [exact Hs|reflexivity]|].
    split; [|split; [|split]].
    + intros _. exact Hs.
    + intros Pos. rewrite Hs. split; [lra|].
      assert (0 <= round2 exact)
        by (rewrite <- Z0; apply BillingFacts.round2_mono; exact Pos).
      lra.
    + intros S _. apply JobCardFacts.deliveryGate_open. split; [exact S|].
      fold exact. lra.
    + intros Big. rewrite Hs in Big. exfalso. lra.
Qed.

(** The reads keep to their caller.  A successful [getJobCard] or
    [getJobCardHistory] returns a stored job card whose customer is the
    caller, a successful [getAssignedJobCard] one that lists the caller
    among its assigned mechanics; a job card of somebody else is answered
    exactly like one that does not exist, and none of the reads changes
    the database. *)
Theorem reads_keep_to_caller (db : DB) (id : Id) (userId : UserId) :
  (forall db' msg jc s,
     getJobCard id userId db = (db', Success msg (jc, s)) ->
     db' = db /\ jobCards db !! id = Some jc /\ customer jc = userId
     /\ s = paymentSummary id jc db)
  /\ (forall db' msg number history,
        getJobCardHistory id userId db = (db', Success msg (number, history)) ->
        db' = db
        /\ exists jc, jobCards db !! id = Some jc /\ customer jc = userId
                      /\ number = jobNumber jc /\ history = statusHistory jc)
  /\ (forall db' msg jc s,
        getAssignedJobCard id userId db = (db', Success msg (jc, s)) ->
        db' = db /\ jobCards db !! id = Some jc
        /\ userId ∈ assignedMechanicUserIds jc)
  /\ (forall jc, jobCards db !! id = Some jc -> customer jc <> userId ->
        getJobCard id userId db = (db, Failure (notFound "Job card not found"))
        /\ getJobCardHistory id userId db
           = (db, Failure (notFound "Job card not found")))
  /\ (jobCards db !! id = None ->
        getJobCard id userId db = (db, Failure (notFound "Job card not found"))
        /\ getJobCardHistory id userId db
           = (db, Failure (notFound "Job card not found"))).
Proof.
  unfold getJobCard, getJobCardHistory, getAssignedJobCard,
    ensureMechanicAssigned.
  destruct (jobCards db !! id) as [found|] eqn:L.
  - split; [|split; [|split; [|split]]].
    + intros db' msg jc s. destruct (bool_decide (customer found = userId)) eqn:B;
        [|discriminate].
      intros H. injection H as <- _ <- <-. apply bool_decide_eq_true in B. auto.
    + intros db' msg number history.
      destruct (bool_decide (customer found = userId)) eqn:B; [|discriminate].
      intros H. injection H as <- _ <- <-. apply bool_decide_eq_true in B.
      split; [reflexivity|]. exists found. auto.
    + intros db' msg jc s.
      destruct (bool_decide (userId ∈ assignedMechanicUserIds found)) eqn:B;
        [|discriminate].
      intros H. injection H as <- _ <- <-. apply bool_decide_eq_true in B. auto.
    + intros jc E N. injection E as <-.
      rewrite (bool_decide_eq_false_2 _ N). auto.
    + discriminate.
  - split; [|split; [|split; [|split]]]; try discriminate. auto.
Qed.

Lemma round2_zero : round2 0 == 0.
Proof. reflexivity. Qed.

(** Billing never goes negative.  Whatever the items, the discount and
    the tax rate (negative values included), the stored tax amount and
    grand total are not negative; a discount that reaches the sum of the
    item totals brings both to 0; a negative discount counts as no
    discount, the three stored figures being those of the same job card
    with discount 0; and computing the billing a second time changes
    nothing. *)
Theorem billing_clamped (onlyApproved : bool) (jc : JobCard) :
  let b := billing (calculateBilling onlyApproved jc) in
  0 <= taxAmount b
  /\ 0 <= grandTotal b
  /\ (sumTotals (usedItems onlyApproved jc) <= discount (billing jc) ->
      taxAmount b == 0 /\ grandTotal b == 0)
  /\ (discount (billing jc) <= 0 ->
      let b0 := billing (calculateBilling onlyApproved (withDiscount 0 jc)) in
      subtotal b == subtotal b0
      /\ taxAmount b == taxAmount b0
      /\ grandTotal b == grandTotal b0)
  /\ calculateBilling onlyApproved (calculateBilling onlyApproved jc)
     = calculateBilling onlyApproved jc.
Proof.
  intros b.
  destruct (BillingFacts.calculateBilling_fields onlyApproved jc)
    as (Es & Et & Eg).
  fold b in Es, Et, Eg.
  assert (N : forall x, 0 <= round2 (Math_max 0 x)).
  { intros x. apply Qle_trans with (round2 0).
    - rewrite round2_zero. apply Qle_refl.
    - apply BillingFacts.round2_mono, BillingFacts.Math_max_nonneg. }
  split; [rewrite Et; apply N|]. split; [rewrite Eg; apply N|].
  split; [|split].
  - intros D.
    assert (A : afterDiscount onlyApproved jc == 0).
    { unfold afterDiscount. apply Q.max_l.
      assert (discount (billing jc) <= Qmax 0 (discount (billing jc)))
        by apply Q.le_max_r.
      lra. }
    assert (T : unroundedTax onlyApproved jc == 0)
      by (unfold unroundedTax; rewrite A; field).
    rewrite Et, Eg, A, T. split.
    + transitivity (round2 0); [|exact round2_zero].
      apply BillingFacts.round2_proper. rewrite BillingFacts.Math_max_spec.
      apply Q.max_l. apply Qle_refl.
    + transitivity (round2 0); [|exact round2_zero].
      apply BillingFacts.round2_proper. rewrite BillingFacts.Math_max_spec.
      apply Q.max_l. lra.
  - intros D b0.
    destruct (BillingFacts.calculateBilling_fields onlyApproved
                (withDiscount 0 jc)) as (Es0 & Et0 & Eg0).
    fold b0 in Es0, Et0, Eg0.
    change (usedItems onlyApproved (withDiscount 0 jc))
      with (usedItems onlyApproved jc) in Es0.
    assert (A : afterDiscount onlyApproved (withDiscount 0 jc)
                == afterDiscount onlyApproved jc).
    { unfold afterDiscount.
      change (usedItems onlyApproved (withDiscount 0 jc))
        with (usedItems onlyApproved jc).
      change (discount (billing (withDiscount 0 jc))) with 0.
      rewrite (Q.max_l 0 (discount (billing jc)) D).
      rewrite (Q.max_l 0 0) by apply Qle_refl. reflexivity. }
    assert (T : unroundedTax onlyApproved (withDiscount 0 jc)
                == unroundedTax onlyApproved jc).
    { unfold unroundedTax.
      change (taxRate (billing (withDiscount 0 jc)))
        with (taxRate (billing jc)).
      rewrite A. reflexivity. }
    rewrite Es, Et, Eg, Es0, Et0, Eg0, A, T. repeat split; reflexivity.
  - reflexivity.
Qed.

End ReadFacts.

(* ===================================================================== *)
(** * Properties of the payment ledger *)
(* ===================================================================== *)

Module LedgerFacts.
Import Num JobCardModel PaymentModel PaymentJson PaymentController
  JobCardController BillingSpec PaymentLedger Scenarios.
Import Cases.

Local Open Scope Q_scope.

Lemma sumQ_app (l1 l2 : list Q) : sumQ (l1 ++ l2) == sumQ l1 + sumQ l2.
Proof.
  unfold sumQ. induction l1 as [|a l1 IH]; cbn; [ring|]. rewrite IH. ring.
Qed.

(** The paid total of a job card is the sum of what each payment adds. *)
Lemma totalPaid_contributions (id : Id) (ps : list Payment) :
  totalPaid id ps == sumQ (contribution id <$> ps).
Proof.
  unfold totalPaid, PaymentModel.getJobCardPayments, findCompleted.
  cbn [fst snd].
  assert (G : forall acc,
    fold_left
      (fun sum p => if decide (paymentType p = refund) then sum - amount p
                    else sum + amount p)
      (List.filter
         (fun p => bool_decide (pay_jobCard p = id)
                   && bool_decide (pay_status p = completed)) ps) acc
    == acc + sumQ (contribution id <$> ps)).
  { induction ps as [|p ps IH]; intros acc; cbn.
    - unfold sumQ. cbn. ring.
    - unfold contribution at 1.
      destruct (bool_decide (pay_jobCard p = id)
                && bool_decide (pay_status p = completed)); cbn.
      + rewrite IH. unfold sumQ. cbn.
        destruct (decide (paymentType p = refund)); ring.
      + rewrite IH. unfold sumQ. cbn. ring. }
  rewrite G. ring.
Qed.

Lemma totalPaid_app (id : Id) (ps : list Payment) (p : Payment) :
  totalPaid id (ps ++ [p]) == totalPaid id ps + contribution id p.
Proof.
  rewrite !totalPaid_contributions, fmap_app, sumQ_app. unfold sumQ. cbn. ring.
Qed.

(** Replacing the one stored payment that has the id of [new]. *)
Lemma contributions_replaced (id : Id) (ps : list Payment) (old new : Payment) :
  NoDup (pay_id <$> ps) -> old ∈ ps -> pay_id new = pay_id old ->
  sumQ (contribution id
          <$> List.map
                (fun p => if decide (pay_id p = pay_id new) then new else p) ps)
  == sumQ (contribution id <$> ps) - contribution id old + contribution id new.
Proof.
  intros N I E. induction ps as [|p ps IH]; [inversion I|].
  cbn in N. apply NoDup_cons in N. destruct N as (Np & N).
  cbn [List.map fmap list_fmap]. unfold sumQ in *. cbn [fold_right].
  apply elem_of_cons in I. destruct I as [<-|I].
  - destruct (decide (pay_id old = pay_id new)) as [_|C]; [|congruence].
    assert (S : List.map
                  (fun p => if decide (pay_id p = pay_id new) then new else p) ps
                = ps).
    { clear IH N. induction ps as [|q ps IHp]; [reflexivity|]. cbn.
      destruct (decide (pay_id q = pay_id new)) as [C|C].
      - exfalso. apply Np. rewrite E in C. rewrite <- C. cbn. left.
      - f_equal. apply IHp. intros H. apply Np. cbn. right. exact H. }
    rewrite S. ring.
  - destruct (decide (pay_id p = pay_id new)) as [C|C].
    + exfalso. apply Np. rewrite C, E. apply list_elem_of_fmap. eauto.
    + change (list_fmap Payment Q (contribution id)) with
        (fmap (M := list) (contribution id)).
      rewrite (IH N I). ring.
Qed.

Lemma totalPaid_saved (id : Id) (db : DB) (old new : Payment) :
  NoDup (pay_id <$> payments db) -> old ∈ payments db ->
  pay_id new = pay_id old ->
  totalPaid id (payments (savePayment new db))
  == totalPaid id (payments db) - contribution id old + contribution id new.
Proof.
  intros N I E. rewrite !totalPaid_contributions. unfold savePayment.
  cbn [payments set_payments]. apply contributions_replaced; assumption.
Qed.



(** The balance test on doubles.  On a job billed 212.40 with 128.11
    paid, 212.40 - 128.11 is the double 84.28999999999999: a payment of
    84.29 is refused as exceeding the balance, and a payment of 84.28 is
    recorded. *)
Example createPayment_on_doubles :
  let db :=
    jobWith ready [paymentOf 2%positive (12811 # 100) advance completed] in
  let pay (a : Q) :=
    mkCreatePaymentBody 1%positive a partial upi None (Some "UPI-2") None None in
  createPayment (pay (8429 # 100)) 9%positive 5%nat db
  = (db, Failure (badRequest "Amount exceeds balance due" []))
  /\ exists p,
       createPayment (pay (8428 # 100)) 9%positive 5%nat db
       = (set_payments (payments db ++ [p]) db,
          Success "Payment recorded successfully" p).
Proof.
  split; [vm_compute; reflexivity|].
  eexists. vm_compute. reflexivity.
Qed.

(** Accounting of a refund.  When [processRefund] succeeds on a database
    whose payments have distinct ids, the refunded payment was completed
    and the refund does not exceed it; afterwards the paid total of its
    job card has dropped by what the original payment added and, on top
    of that, by the refunded amount (the original no longer counts and the
    refund record counts negatively), the paid totals of the other job
    cards are unchanged, and a further refund of the same payment is
    refused with [Can only refund completed payments]. *)
Theorem refund_accounting (db db' : DB) (id : Id) (body : RefundBody)
    (userId : UserId) (now : Date) (acks : WriteAcks) (msg : string)
    (r : Payment) :
  NoDup (pay_id <$> payments db) ->
  processRefund id body userId now acks db = (db', Success msg r) ->
  exists original,
    findById id (payments db) = Some original
    /\ pay_status original = completed
    /\ rb_amount body <= amount original
    /\ totalPaid (pay_jobCard original) (payments db')
       == totalPaid (pay_jobCard original) (payments db)
          - contribution (pay_jobCard original) original - rb_amount body
    /\ (contribution (pay_jobCard original) original
        == if decide (paymentType original = refund)
           then - amount original else amount original)
    /\ (forall j, j <> pay_jobCard original ->
          totalPaid j (payments db') == totalPaid j (payments db))
    /\ (forall body2 userId2 now2 acks2,
          processRefund id body2 userId2 now2 acks2 db'
          = (db', Failure (badRequest "Can only refund completed payments" []))).
Proof.
  intros N. unfold processRefund.
  destruct (findById id (payments db)) as [original|] eqn:F; [|discriminate].
  destruct (PaymentFacts.findById_Some _ _ _ F) as (Ei & Io).
  destruct (bool_decide (pay_status original = completed)) eqn:S;
    [|discriminate].
  apply bool_decide_eq_true in S. cbn [negb].
  destruct (gtb (rb_amount body) (amount original)) eqn:G; [discriminate|].
  apply JobCardFacts.gtb_false in G.
  destruct (Qle_bool 0 (rb_amount body)); [|discriminate]. cbn [negb].
  destruct (createAck acks); [|discriminate]. cbn [negb].
  destruct (saveAck acks); [|discriminate]. cbn [negb].
  set (details := mkRefundDetails _ _ _ _).
  set (refund' := mkPayment (freshPaymentId (payments db)) _ _ _ _ _ _ _ _ _ _
                    _ _ _ _).
  set (updated := mkPayment (pay_id original) _ _ _ _ _ _ refunded _ _ _ _ _ _ _).
  intros H. injection H as <- _ _.
  exists original. split; [reflexivity|]. split; [exact S|]. split; [exact G|].
  cbn [payments set_payments].
  assert (Fr : freshPaymentId (payments db) <> id).
  { rewrite <- Ei. apply PaymentFacts.freshPaymentId_fresh. exact Io. }
  assert (M : List.map
                (fun p => if decide (pay_id p = id) then updated else p)
                (payments db ++ [refund'])
              = List.map
                  (fun p => if decide (pay_id p = pay_id updated)
                            then updated else p)
                  (payments db) ++ [refund']).
  { rewrite map_app. cbn [List.map].
    destruct (decide (pay_id refund' = id)) as [C|_]; [contradiction|].
    f_equal. apply map_ext. intros a. cbn [pay_id updated].
    rewrite Ei. reflexivity. }
  assert (T : forall j,
            totalPaid j
              (List.map
                 (fun p => if decide (pay_id p = id) then updated else p)
                 (payments db ++ [refund']))
            == totalPaid j (payments db) - contribution j original
               + contribution j updated + contribution j refund').
  { intros j. rewrite M, totalPaid_app, !totalPaid_contributions.
    rewrite (contributions_replaced j _ original updated N Io eq_refl).
    reflexivity. }
  assert (Cu : forall j, contribution j updated = 0).
  { intros j. unfold contribution. cbn [pay_status updated].
    rewrite (bool_decide_eq_false_2 (refunded = completed)) by discriminate.
    rewrite andb_false_r. reflexivity. }
  split; [|split; [|split]].
  - rewrite T, Cu. unfold contribution at 2.
    cbn [pay_jobCard pay_status paymentType amount refund'].
    rewrite !bool_decide_eq_true_2 by reflexivity. cbn [andb].
    destruct (decide (refund = refund)); [|congruence]. ring.
  - unfold contribution.
    rewrite (bool_decide_eq_true_2 _ (eq_refl (pay_jobCard original))).
    rewrite (bool_decide_eq_true_2 _ S). cbn [andb].
    destruct (decide (paymentType original = refund)); reflexivity.
  - intros j Nj. rewrite T, Cu. unfold contribution.
    cbn [pay_jobCard refund'].
    rewrite !(bool_decide_eq_false_2 (pay_jobCard original = j)) by congruence.
    cbn [andb]. ring.
  - intros body2 userId2 now2 acks2.
    assert (F2 : findById id
                   (List.map
                      (fun p => if decide (pay_id p = id) then updated else p)
                      (payments db ++ [refund']))
                 = Some updated).
    { apply PaymentFacts.findById_map with (p := original); [|exact Ei].
      unfold findById in *. rewrite PaymentFacts.find_append, F. reflexivity. }
    rewrite F2. cbn [pay_status updated].
    rewrite (bool_decide_eq_false_2 (refunded = completed)) by discriminate.
    reflexivity.
Qed.

(** The theorem at a delivered job with one completed payment of 212.40,
    of which 100 is refunded: the paid total of the job card is -100
    afterwards. *)
Lemma refund_accounting_witness :
  let db := jobWith delivered [paymentOf 1%positive (1062 # 5) full completed] in
  let run :=
    processRefund 1%positive (mkRefundBody 100 "Overcharged") 9%positive 5%nat
      (mkWriteAcks true true) db in
  NoDup (pay_id <$> payments db)
  /\ exists msg r,
       run = (fst run, Success msg r)
       /\ totalPaid 1%positive (payments (fst run)) == - (100).
Proof.
  intros db run.
  assert (N : NoDup (pay_id <$> payments db)) by (cbn; apply NoDup_singleton).
  split; [exact N|].
  destruct (snd run) as [msg r|e] eqn:E; [|vm_compute in E; discriminate].
  assert (R : run = (fst run, Success msg r))
    by (rewrite <- E; apply surjective_pairing).
  exists msg, r. split; [exact R|].
  destruct (refund_accounting db (fst run) 1%positive _ _ _ _ msg r N R)
    as (original & F & _ & _ & T & _).
  vm_compute in F. injection F as <-.
  rewrite T. vm_compute. reflexivity.
Defined.

End LedgerFacts.

(* ===================================================================== *)
(** * Properties of the hosted checkout *)
(* ===================================================================== *)

Module CheckoutFacts.
Import Stdlib.Strings.Ascii.
Import Num PaymentModel PaymentController JobCardController BillingSpec
  PaymentLedger Checkout.
Import Scenarios Cases.

Lemma truthyString_Some (o : option string) (s : string) :
  truthyString o = Some s -> o = Some s /\ s <> "".
Proof.
  destruct o as [t|]; cbn; [|discriminate].
  destruct (String.eqb t "") eqn:E; [discriminate|].
  intros H. injection H as <-. split; [reflexivity|].
  apply String.eqb_neq. exact E.
Qed.

Lemma verify_success hmac secret body now db db' id st :
  verifyRazorpayPayment hmac secret body now db = (db', inl (id, st)) ->
  exists tok pid oid sig key p,
    vb_token body = Some tok /\ razorpay_payment_id body = Some pid
    /\ razorpay_order_id body = Some oid /\ razorpay_signature body = Some sig
    /\ secret = Some key /\ key <> ""
    /\ findByToken tok (payments db) = Some p
    /\ pay_status p = pending
    /\ (forall expiry : Date, checkout p ≫= expiresAt = Some expiry ->
          (now <= expiry)%nat)
    /\ transactionDetails p ≫= orderId = Some oid
    /\ hmac key (oid +:+ "|" +:+ pid) = sig
    /\ id = pay_id p /\ st = completed
    /\ db' = savePayment (verifiedFrom p pid oid sig) db.
Proof.
  unfold verifyRazorpayPayment.
  destruct (truthyString (vb_token body)) as [tok|] eqn:T; [|discriminate].
  destruct (truthyString (razorpay_payment_id body)) as [pid|] eqn:P;
    [|discriminate].
  destruct (truthyString (razorpay_order_id body)) as [oid|] eqn:O;
    [|discriminate].
  destruct (truthyString (razorpay_signature body)) as [sig|] eqn:S;
    [|discriminate].
  cbv zeta.
  destruct (findByToken tok (payments db)) as [p|] eqn:F; [|discriminate].
  destruct (bool_decide (pay_status p = pending)) eqn:St; [|discriminate].
  cbn [negb].
  destruct (match checkout p ≫= expiresAt with
            | Some expiry => bool_decide (expiry < now)%nat
            | None => false
            end) eqn:X; [discriminate|].
  destruct (truthyString (transactionDetails p ≫= orderId)) as [expected|] eqn:E;
    [|discriminate].
  destruct (String.eqb expected oid) eqn:Eo; [|discriminate]. cbn [negb].
  destruct (truthyString secret) as [key|] eqn:K; [|discriminate].
  destruct (String.eqb (hmac key (oid +:+ "|" +:+ pid)) sig) eqn:H;
    [|discriminate].
  cbn [negb]. intros R. injection R as <- <- <-.
  apply truthyString_Some in T, P, O, S, K, E.
  apply String.eqb_eq in Eo, H. apply bool_decide_eq_true in St.
  destruct T as (T & _), P as (P & _), O as (O & _), S as (S & _),
    K as (K & Kn), E as (E & _).
  exists tok, pid, oid, sig, key, p. subst expected.
  repeat (split; [first [assumption|reflexivity]|]).
  split; [intros expiry Hx; rewrite Hx in X;
          apply bool_decide_eq_false in X; lia|].
  repeat (split; [first [assumption|reflexivity]|]). reflexivity.
Qed.

(** Verification is sound.  A verification request that fails changes
    nothing.  One that succeeds carried all four fields; its token
    belongs to a stored payment that was still pending and whose checkout
    had not expired at the time of the request, the order id of the
    request is the one stored with that payment, the server has a key
    secret configured, and the signature of the request is the HMAC of
    [order id | payment id] under that secret. *)
Theorem verifyRazorpayPayment_sound (hmac : string -> string -> string)
    (secret : option string) (body : VerifyBody) (now : Date) (db db' : DB)
    (result : Id * PaymentStatus + GatewayError) :
  verifyRazorpayPayment hmac secret body now db = (db', result) ->
  match result with
  | inr _ => db' = db
  | inl (id, st) =>
      st = completed
      /\ exists tok pid oid sig key p,
           vb_token body = Some tok /\ razorpay_payment_id body = Some pid
           /\ razorpay_order_id body = Some oid
           /\ razorpay_signature body = Some sig
           /\ secret = Some key
           /\ findByToken tok (payments db) = Some p /\ pay_id p = id
           /\ pay_status p = pending
           /\ (forall expiry : Date, checkout p ≫= expiresAt = Some expiry ->
                 (now <= expiry)%nat)
           /\ transactionDetails p ≫= orderId = Some oid
           /\ hmac key (oid +:+ "|" +:+ pid) = sig
  end.
Proof.
  intros H. destruct result as [[id st]|e].
  - destruct (verify_success _ _ _ _ _ _ _ _ H)
      as (tok & pid & oid & sig & key & p & T & P & O & S & K & _ & F & St
          & X & E & Hm & -> & -> & _).
    split; [reflexivity|]. exists tok, pid, oid, sig, key, p.
    repeat (split; [assumption || reflexivity|]). exact Hm.
  - revert H. unfold verifyRazorpayPayment.
    repeat match goal with
           | |- context [match ?x with _ => _ end] =>
               destruct x eqn:?; try discriminate
           end;
      intros H; injection H as <- _; reflexivity.
Qed.

(** The theorem at a payment awaiting checkout under the token [tok]: a
    request signed under the configured secret succeeds, for a stored
    payment that was pending. *)
Lemma verifyRazorpayPayment_sound_witness :
  let db := jobWith ready [awaitingCheckout "tok"] in
  let run :=
    verifyRazorpayPayment keyed (Some "s3cret")
      (mkVerifyBody (Some "tok") (Some "pay_1") (Some "order_1")
         (Some (keyed "s3cret" "order_1|pay_1")))
      100%nat db in
  snd run = inl (3%positive, completed)
  /\ exists p, findByToken "tok" (payments db) = Some p
               /\ pay_status p = pending.
Proof.
  intros db run.
  assert (E : snd run = inl (3%positive, completed))
    by (vm_compute; reflexivity).
  split; [exact E|].
  assert (R : run = (fst run, inl (3%positive, completed)))
    by (rewrite <- E; apply surjective_pairing).
  destruct (verifyRazorpayPayment_sound _ _ _ _ _ _ _ R)
    as (_ & tok & pid & oid & sig & key & p & T & _ & _ & _ & _ & F & _ & S & _).
  injection T as <-. exists p. split; [exact F|exact S].
Defined.

Lemma savePayment_elem (new q : Payment) (db : DB) :
  q ∈ payments (savePayment new db) ->
  q = new \/ (q ∈ payments db /\ pay_id q <> pay_id new).
Proof.
  unfold savePayment. cbn [payments set_payments]. intros H.
  apply list_elem_of_In, in_map_iff in H. destruct H as (x & E & I).
  destruct (decide (pay_id x = pay_id new)) as [C|C].
  - left. congruence.
  - right. subst q. split; [apply list_elem_of_In; exact I|exact C].
Qed.

Lemma savePayment_ids (new : Payment) (db : DB) :
  pay_id <$> payments (savePayment new db) = pay_id <$> payments db.
Proof.
  unfold savePayment. cbn [payments set_payments].
  induction (payments db) as [|p ps IH]; [reflexivity|]. cbn.
  rewrite <- IH. f_equal. destruct (decide (pay_id p = pay_id new)); congruence.
Qed.

Lemma findById_unique (ps : list Payment) (p : Payment) :
  NoDup (pay_id <$> ps) -> p ∈ ps -> findById (pay_id p) ps = Some p.
Proof.
  unfold findById. induction ps as [|q ps IH]; intros N I; [inversion I|].
  cbn in N. apply NoDup_cons in N. destruct N as (Nq & N). cbn.
  apply elem_of_cons in I. destruct I as [<-|I].
  - rewrite bool_decide_eq_true_2 by reflexivity. reflexivity.
  - destruct (bool_decide (pay_id q = pay_id p)) eqn:B; [|auto].
    apply bool_decide_eq_true in B. exfalso. apply Nq. rewrite B.
    apply list_elem_of_fmap. eauto.
Qed.

Lemma findById_saved (new p : Payment) (db : DB) :
  findById (pay_id new) (payments db) = Some p ->
  findById (pay_id new) (payments (savePayment new db)) = Some new.
Proof.
  intros F. unfold savePayment. cbn [payments set_payments].
  apply PaymentFacts.findById_map with (p := p); [exact F|reflexivity].
Qed.

Lemma findByToken_Some (tok : string) (ps : list Payment) (p : Payment) :
  findByToken tok ps = Some p ->
  p ∈ ps /\ exists c, checkout p = Some c /\ token c = Some tok.
Proof.
  unfold findByToken. intros H. apply find_some in H. destruct H as (I & B).
  split; [apply list_elem_of_In; exact I|].
  destruct (checkout p) as [c|]; [|discriminate].
  apply bool_decide_eq_true in B. eauto.
Qed.

(** A verified payment is final.  When a verification succeeds on a
    database whose payments have distinct ids, the payment it names was
    pending and is now stored as completed, with the gateway's payment id
    as its transaction id and without checkout token; its amount, type,
    job card and customer are unchanged and no payment was added or
    removed.  The paid total of every job card has grown by what the
    completed payment adds to it, and no later verification request,
    whatever it carries, succeeds for that payment again. *)
Theorem verified_payment_is_final (hmac : string -> string -> string)
    (secret : option string) (body : VerifyBody) (now : Date) (db db' : DB)
    (id : Id) (st : PaymentStatus) :
  NoDup (pay_id <$> payments db) ->
  verifyRazorpayPayment hmac secret body now db = (db', inl (id, st)) ->
  exists p p',
    findById id (payments db) = Some p /\ pay_status p = pending
    /\ findById id (payments db') = Some p'
    /\ pay_status p' = completed /\ checkout p' = None
    /\ transactionId p' = razorpay_payment_id body
    /\ amount p' = amount p /\ paymentType p' = paymentType p
    /\ pay_jobCard p' = pay_jobCard p /\ pay_customer p' = pay_customer p
    /\ pay_id <$> payments db' = pay_id <$> payments db
    /\ (forall j, (totalPaid j (payments db')
                   == totalPaid j (payments db) + contribution j p')%Q)
    /\ (forall hmac2 secret2 body2 now2 db2 id2 st2,
          verifyRazorpayPayment hmac2 secret2 body2 now2 db'
          = (db2, inl (id2, st2)) -> id2 <> id).
Proof.
  intros N H.
  destruct (verify_success _ _ _ _ _ _ _ _ H)
    as (tok & pid & oid & sig & key & p & T & P & O & S & K & _ & F & St
        & X & E & Hm & -> & -> & ->).
  destruct (findByToken_Some _ _ _ F) as (I & _).
  pose proof (findById_unique _ _ N I) as Fi.
  exists p, (verifiedFrom p pid oid sig).
  split; [exact Fi|]. split; [exact St|].
  split; [apply (findById_saved (verifiedFrom p pid oid sig) p); exact Fi|].
  do 2 (split; [reflexivity|]). split; [symmetry; exact P|].
  do 4 (split; [reflexivity|]). split; [apply savePayment_ids|]. split.
  - intros j.
    rewrite (LedgerFacts.totalPaid_saved j db p (verifiedFrom p pid oid sig) N I
               eq_refl).
    assert (Z : contribution j p = 0%Q).
    { unfold contribution. rewrite St.
      rewrite (bool_decide_eq_false_2 (pending = completed)) by discriminate.
      rewrite andb_false_r. reflexivity. }
    rewrite Z. ring.
  - intros hmac2 secret2 body2 now2 db2 id2 st2 H2 C.
    destruct (verify_success _ _ _ _ _ _ _ _ H2)
      as (tok2 & _ & _ & _ & _ & q & _ & _ & _ & _ & _ & _ & F2 & _ & _ & _ & _
          & Eq & _).
    destruct (findByToken_Some _ _ _ F2) as (Iq & c & Hc & _).
    apply savePayment_elem in Iq. destruct Iq as [->|(_ & Nq)].
    + discriminate Hc.
    + apply Nq. cbn [pay_id verifiedFrom]. congruence.
Qed.

(** The theorem at the same request: the payment is stored as completed
    and its token is gone. *)
Lemma verified_payment_is_final_witness :
  let db := jobWith ready [awaitingCheckout "tok"] in
  let run :=
    verifyRazorpayPayment keyed (Some "s3cret")
      (mkVerifyBody (Some "tok") (Some "pay_1") (Some "order_1")
         (Some (keyed "s3cret" "order_1|pay_1")))
      100%nat db in
  NoDup (pay_id <$> payments db)
  /\ snd run = inl (3%positive, completed)
  /\ exists p', findById 3%positive (payments (fst run)) = Some p'
                /\ pay_status p' = completed /\ checkout p' = None.
Proof.
  intros db run.
  assert (N : NoDup (pay_id <$> payments db)) by (cbn; apply NoDup_singleton).
  assert (E : snd run = inl (3%positive, completed))
    by (vm_compute; reflexivity).
  split; [exact N|]. split; [exact E|].
  assert (R : run = (fst run, inl (3%positive, completed)))
    by (rewrite <- E; apply surjective_pairing).
  destruct (verified_payment_is_final _ _ _ _ _ _ _ _ N R)
    as (p & p' & _ & _ & F & S & C & _).
  exists p'. split; [exact F|]. split; [exact S|exact C].
Defined.

Lemma order_success client keyId origin tok id userId now db db1 data :
  createRazorpayOrderForPayment client keyId origin tok id userId now db
  = (db1, inl data) ->
  exists p jc,
    p ∈ payments db /\ pay_id p = id /\ pay_customer p = userId
    /\ pay_status p = pending
    /\ jobCards db !! pay_jobCard p = Some jc
    /\ (amount p
        <= grandTotal (billing jc) - totalPaid (pay_jobCard p) (payments db))%Q
    /\ 0 < od_amountPaise data
    /\ od_amountPaise data = Math_round (amount p * 100)%Q
    /\ od_expiresAt data = (now + CHECKOUT_TOKEN_TTL)%nat
    /\ od_checkoutUrl data
       = origin +:+ "/api/v1/payments/razorpay/checkout/" +:+ tok
    /\ db1 = savePayment (preparedFrom p (od_orderId data) tok
                            (od_expiresAt data)) db.
Proof.
  unfold createRazorpayOrderForPayment.
  destruct (List.find _ (payments db)) as [p|] eqn:F; [|discriminate].
  apply find_some in F. destruct F as (I & B).
  apply andb_true_iff in B. destruct B as (B1 & B2).
  apply bool_decide_eq_true in B1, B2.
  destruct (bool_decide (pay_status p = pending)) eqn:St; [|discriminate].
  apply bool_decide_eq_true in St. cbn [negb]. cbv zeta.
  destruct (jobCards db !! pay_jobCard p) as [jc|] eqn:L; [|discriminate].
  destruct (gtb _ _) eqn:G; [discriminate|]. apply JobCardFacts.gtb_false in G.
  destruct client as [create|]; [|discriminate].
  destruct (Math_round (amount p * 100) <=? 0) eqn:A; [discriminate|].
  destruct (create _ _) as [[order currency]|]; [|discriminate].
  intros H. injection H as <- <-.
  exists p, jc. cbn [od_amountPaise od_expiresAt od_checkoutUrl od_orderId].
  split; [apply list_elem_of_In; exact I|].
  repeat (split; [first [assumption|reflexivity|lia]|]). reflexivity.
Qed.

Lemma find_replaced (f : Payment -> bool) (ps : list Payment)
    (old new : Payment) :
  List.find f ps = None -> old ∈ ps -> pay_id new = pay_id old ->
  f new = true ->
  List.find f
    (List.map (fun p => if decide (pay_id p = pay_id new) then new else p) ps)
  = Some new.
Proof.
  intros N I E T. induction ps as [|p ps IH]; [inversion I|].
  cbn in N. destruct (f p) eqn:Fp; [discriminate|]. cbn.
  destruct (decide (pay_id p = pay_id new)) as [C|C].
  - rewrite T. reflexivity.
  - rewrite Fp. apply IH; [exact N|].
    apply elem_of_cons in I. destruct I as [<-|I]; [congruence|exact I].
Qed.

(** From the order to the completed payment.  Suppose an order is issued
    for a payment under a token no stored payment carries yet, on a
    database whose payments have distinct ids.  The checkout expires 1800
    clock units (30 minutes) after the request and the checkout link ends
    in the token.  A verification request that arrives no later than the
    expiry with that token, a payment id, the id of the issued order and
    the HMAC of [order id | payment id] under the configured secret (all
    of them non-empty) succeeds: the payment is stored as completed and
    its token is gone. *)
Theorem order_then_verify (hmac : string -> string -> string)
    (client : option (Z -> string -> option (string * string)))
    (keyId : option string) (origin tok key pid : string) (id : Id)
    (userId : UserId) (now now2 : Date) (db db1 : DB) (data : OrderData) :
  NoDup (pay_id <$> payments db) ->
  findByToken tok (payments db) = None ->
  tok <> "" -> key <> "" -> pid <> "" -> od_orderId data <> "" ->
  hmac key (od_orderId data +:+ "|" +:+ pid) <> "" ->
  createRazorpayOrderForPayment client keyId origin tok id userId now db
  = (db1, inl data) ->
  (now2 <= od_expiresAt data)%nat ->
  od_expiresAt data = (now + CHECKOUT_TOKEN_TTL)%nat
  /\ od_checkoutUrl data
     = origin +:+ "/api/v1/payments/razorpay/checkout/" +:+ tok
  /\ exists db2 p',
       verifyRazorpayPayment hmac (Some key)
         (mkVerifyBody (Some tok) (Some pid) (Some (od_orderId data))
            (Some (hmac key (od_orderId data +:+ "|" +:+ pid))))
         now2 db1
       = (db2, inl (id, completed))
       /\ findById id (payments db2) = Some p'
       /\ pay_status p' = completed /\ checkout p' = None
       /\ transactionId p' = Some pid.
Proof.
  intros N Fresh Ht Hk Hp Ho Hs H Hx.
  destruct (order_success _ _ _ _ _ _ _ _ _ _ H)
    as (p & jc & I & Ei & _ & St & _ & _ & _ & _ & Ex & Eu & ->).
  split; [exact Ex|]. split; [exact Eu|].
  set (prepared := preparedFrom p (od_orderId data) tok (od_expiresAt data)).
  assert (F : findByToken tok (payments (savePayment prepared db))
              = Some prepared).
  { unfold findByToken, savePayment. cbn [payments set_payments].
    apply find_replaced with (old := p); [exact Fresh|exact I|reflexivity|].
    cbn. apply bool_decide_eq_true_2. reflexivity. }
  assert (T : forall s, s <> "" -> truthyString (Some s) = Some s).
  { intros s Hn. cbn. apply String.eqb_neq in Hn. rewrite Hn. reflexivity. }
  unfold verifyRazorpayPayment.
  cbn [vb_token razorpay_payment_id razorpay_order_id razorpay_signature].
  rewrite !T by assumption. cbv zeta. rewrite F.
  cbn [pay_status prepared preparedFrom checkout transactionDetails mbind
       option_bind expiresAt orderId].
  rewrite St. rewrite bool_decide_eq_true_2 by reflexivity. cbn [negb].
  rewrite bool_decide_eq_false_2 by lia.
  rewrite T by assumption. rewrite String.eqb_refl. cbn [negb].
  rewrite String.eqb_refl. cbn [negb].
  subst id. eexists _, _. split; [reflexivity|].
  split.
  { match goal with
    | |- findById _ (payments (savePayment ?v _)) = _ =>
        apply (findById_saved v prepared)
    end.
    change (findById (pay_id prepared) (payments (savePayment prepared db))
            = Some prepared).
    apply (findById_saved prepared p).
    change (pay_id prepared) with (pay_id p).
    apply findById_unique; assumption. }
  repeat split; reflexivity.
Qed.

(** The theorem at a pending payment of 212.40 of customer 7: the order
    is issued at clock 10, the checkout expires at 1810, and the signed
    request at clock 100 completes the payment. *)
Lemma order_then_verify_witness :
  let db := jobWith ready [paymentOf 3%positive (1062 # 5) full pending] in
  let run :=
    createRazorpayOrderForPayment accepting (Some "rzp_key")
      "https://garage.example" "tok" 3%positive 7%positive 10%nat db in
  exists data,
    snd run = inl data
    /\ od_expiresAt data = 1810%nat
    /\ exists db2,
         verifyRazorpayPayment keyed (Some "s3cret")
           (mkVerifyBody (Some "tok") (Some "pay_1") (Some (od_orderId data))
              (Some (keyed "s3cret" (od_orderId data +:+ "|" +:+ "pay_1"))))
           100%nat (fst run)
         = (db2, inl (3%positive, completed)).
Proof.
  intros db run.
  destruct (snd run) as [data|e] eqn:E; [|vm_compute in E; discriminate].
  assert (R : run = (fst run, inl data))
    by (rewrite <- E; apply surjective_pairing).
  exists data. split; [reflexivity|].
  assert (O : od_orderId data = "order_1").
  { vm_compute in E. injection E as <-. reflexivity. }
  assert (X : od_expiresAt data = 1810%nat).
  { vm_compute in E. injection E as <-. reflexivity. }
  destruct (order_then_verify keyed accepting (Some "rzp_key")
              "https://garage.example" "tok" "s3cret" "pay_1" 3%positive
              7%positive 10%nat 100%nat db (fst run) data)
    as (_ & _ & db2 & p' & V & _).
  - cbn. apply NoDup_singleton.
  - reflexivity.
  - discriminate.
  - discriminate.
  - discriminate.
  - rewrite O. discriminate.
  - rewrite O. vm_compute. discriminate.
  - exact R.
  - rewrite X. lia.
  - split; [exact X|]. exists db2. exact V.
Defined.

Lemma append_cons (x : ascii) (a b : string) :
  String x a +:+ b = String x (a +:+ b).
Proof. reflexivity. Qed.

Lemma append_nil_l (b : string) : "" +:+ b = b.
Proof. reflexivity. Qed.

Lemma append_assoc (a b c : string) : (a +:+ b) +:+ c = a +:+ (b +:+ c).
Proof.
  induction a as [|x a IH]; [reflexivity|].
  rewrite !append_cons, IH. reflexivity.
Qed.

Lemma replaceAll_app (c : ascii) (r a b : string) :
  replaceAll c r (a +:+ b) = replaceAll c r a +:+ replaceAll c r b.
Proof.
  induction a as [|x a IH]; [reflexivity|].
  rewrite append_cons. cbn [replaceAll].
  destruct (Ascii.eqb x c); rewrite IH; [|reflexivity].
  symmetry. apply append_assoc.
Qed.

Lemma escapeHtml_app (a b : string) :
  escapeHtml (a +:+ b) = escapeHtml a +:+ escapeHtml b.
Proof. unfold escapeHtml. rewrite !replaceAll_app. reflexivity. Qed.

Lemma escapeHtml_cons (c : ascii) (s : string) :
  escapeHtml (String c s) = escapeHtml (String c "") +:+ escapeHtml s.
Proof. apply (escapeHtml_app (String c "") s). Qed.

(** What [escapeHtml] makes of one character. *)
Lemma escapeHtml_char (c : ascii) :
  escapeHtml (String c "")
  = if Ascii.eqb c "&" then "&amp;"
    else if Ascii.eqb c "<" then "&lt;"
    else if Ascii.eqb c ">" then "&gt;"
    else if Ascii.eqb c "034" then "&quot;"
    else if Ascii.eqb c "'" then "&#039;"
    else String c "".
Proof.
  unfold escapeHtml. cbn [replaceAll].
  destruct (Ascii.eqb_spec c "&") as [->|N1]; [reflexivity|].
  cbn [replaceAll].
  destruct (Ascii.eqb_spec c "<") as [->|N2]; [reflexivity|].
  cbn [replaceAll].
  destruct (Ascii.eqb_spec c ">") as [->|N3]; [reflexivity|].
  cbn [replaceAll].
  destruct (Ascii.eqb_spec c "034") as [->|N4]; [reflexivity|].
  cbn [replaceAll].
  destruct (Ascii.eqb_spec c "'") as [->|N5]; reflexivity.
Qed.

Lemma list_ascii_app (a b : string) :
  list_ascii_of_string (a +:+ b)
  = list_ascii_of_string a ++ list_ascii_of_string b.
Proof.
  induction a as [|x a IH]; [reflexivity|].
  rewrite append_cons. cbn [list_ascii_of_string app]. rewrite IH. reflexivity.
Qed.

(** Escaping for the checkout page.  Reading the five entities back
    returns the text that was escaped, so distinct texts have distinct
    escapes; the escaped text contains no [<], [>], double quote or single
    quote; and escaping a concatenation is concatenating the escapes. *)
Theorem escapeHtml_round_trip (s : string) :
  unescapeHtml (escapeHtml s) = s
  /\ (forall t, escapeHtml s = escapeHtml t -> s = t)
  /\ (forall c, c ∈ list_ascii_of_string (escapeHtml s) ->
        c <> "<"%char /\ c <> ">"%char /\ c <> "034"%char /\ c <> "'"%char)
  /\ (forall t, escapeHtml (s +:+ t) = escapeHtml s +:+ escapeHtml t).
Proof.
  assert (R : forall u, unescapeHtml (escapeHtml u) = u).
  { induction u as [|c u IH]; [reflexivity|].
    rewrite escapeHtml_cons, escapeHtml_char.
    destruct (Ascii.eqb_spec c "&") as [->|N1];
      [rewrite !append_cons, append_nil_l; cbn [unescapeHtml]; rewrite IH;
       reflexivity|].
    destruct (Ascii.eqb_spec c "<") as [->|N2];
      [rewrite !append_cons, append_nil_l; cbn [unescapeHtml]; rewrite IH;
       reflexivity|].
    destruct (Ascii.eqb_spec c ">") as [->|N3];
      [rewrite !append_cons, append_nil_l; cbn [unescapeHtml]; rewrite IH;
       reflexivity|].
    destruct (Ascii.eqb_spec c "034") as [->|N4];
      [rewrite !append_cons, append_nil_l; cbn [unescapeHtml]; rewrite IH;
       reflexivity|].
    destruct (Ascii.eqb_spec c "'") as [->|N5];
      [rewrite !append_cons, append_nil_l; cbn [unescapeHtml]; rewrite IH;
       reflexivity|].
    rewrite append_cons, append_nil_l. cbn [unescapeHtml]. rewrite IH.
    unfold decodeAt.
    apply Ascii.eqb_neq in N1. rewrite N1. reflexivity. }
  split; [apply R|]. split; [|split; [|apply escapeHtml_app]].
  - intros t E. rewrite <- (R s), <- (R t), E. reflexivity.
  - induction s as [|c s IH]; intros x Hx; [inversion Hx|].
    rewrite escapeHtml_cons, list_ascii_app, elem_of_app in Hx.
    destruct Hx as [Hx|Hx]; [|apply IH; exact Hx].
    rewrite escapeHtml_char in Hx.
    destruct (Ascii.eqb_spec c "&") as [->|N1];
      [cbn in Hx; set_unfold; intuition (subst; discriminate)|].
    destruct (Ascii.eqb_spec c "<") as [->|N2];
      [cbn in Hx; set_unfold; intuition (subst; discriminate)|].
    destruct (Ascii.eqb_spec c ">") as [->|N3];
      [cbn in Hx; set_unfold; intuition (subst; discriminate)|].
    destruct (Ascii.eqb_spec c "034") as [->|N4];
      [cbn in Hx; set_unfold; intuition (subst; discriminate)|].
    destruct (Ascii.eqb_spec c "'") as [->|N5];
      [cbn in Hx; set_unfold; intuition (subst; discriminate)|].
    cbn in Hx. apply list_elem_of_singleton in Hx. subst x. auto.
Qed.

End CheckoutFacts.

(* ===================================================================== *)
(** * Properties of the payment listings and summaries *)
(* ===================================================================== *)

Module CollectionFacts.
Import Num PaymentModel PaymentJson PaymentController JobCardController
  BillingSpec Helpers PaymentLedger.
Import Scenarios Cases.

#[local] Instance newerFirst_total : Total newerFirst.
Proof. intros a b. unfold newerFirst. lia. Qed.

#[local] Instance newerFirst_trans : Transitive newerFirst.
Proof. intros a b c. unfold newerFirst. lia. Qed.

Lemma sorted_window {A} (R : relation A) (skip limit : nat) (l : list A) :
  StronglySorted R l -> StronglySorted R (take limit (drop skip l)).
Proof.
  intros S. rewrite <- (take_drop skip l) in S.
  apply StronglySorted_app_1_r in S.
  rewrite <- (take_drop limit (drop skip l)) in S.
  apply StronglySorted_app_1_l in S. exact S.
Qed.

Lemma window_elem {A} (skip limit : nat) (l : list A) (x : A) :
  x ∈ take limit (drop skip l) -> x ∈ l.
Proof.
  intros H. eapply elem_of_sublist; [exact H|].
  etrans; [apply sublist_take|apply sublist_drop].
Qed.

Lemma fmap_mjoin {A B} (f : A -> B) (ls : list (list A)) :
  f <$> mjoin ls = mjoin (fmap f <$> ls).
Proof.
  induction ls as [|l ls IH]; [reflexivity|].
  change (f <$> (l ++ mjoin ls) = (f <$> l) ++ mjoin (fmap f <$> ls)).
  rewrite fmap_app, IH. reflexivity.
Qed.

(** A customer's listing.  [getPayments] changes nothing and returns at
    most [limit] payments, every one of them a stored payment of the
    caller that has the requested status and job card when the query
    names one, the newer before the older; payments of other customers
    are never returned. *)
Theorem getPayments_own (userId : UserId) (query : PaymentsQuery) (db : DB) :
  exists page,
    getPayments userId query db
    = (db, Success "Payments fetched successfully" (lean <$> page))
    /\ (length page <= q_limit query)%nat
    /\ StronglySorted newerFirst page
    /\ forall p, p ∈ page ->
         p ∈ payments db /\ pay_customer p = userId
         /\ (forall s, q_status query = Some s -> pay_status p = s)
         /\ (forall j, q_jobCardId query = Some j -> pay_jobCard p = j).
Proof.
  unfold getPayments. cbv zeta. eexists. split; [reflexivity|].
  split; [rewrite length_take; lia|]. split.
  - apply sorted_window, StronglySorted_merge_sort; apply _.
  - intros p Hp. apply window_elem in Hp.
    rewrite merge_sort_Permutation in Hp.
    apply AssignmentFacts.elem_of_List_filter in Hp. destruct Hp as (I & C).
    apply andb_true_iff in C. destruct C as (C & Cj).
    apply andb_true_iff in C. destruct C as (Cu & Cs).
    apply bool_decide_eq_true in Cu.
    split; [exact I|]. split; [exact Cu|]. split.
    + intros s E. rewrite E in Cs. apply bool_decide_eq_true in Cs. exact Cs.
    + intros j E. rewrite E in Cj. apply bool_decide_eq_true in Cj. exact Cj.
Qed.

Lemma getAllPayments_run (config : PaginationConfig) (query : AllPaymentsQuery)
    (db : DB) :
  1 <= maxPageSize config ->
  let pg := parsePagination config (aq_page query) (aq_limit query) in
  let sorted :=
    merge_sort newerFirst (List.filter (matchesAll query) (payments db)) in
  getAllPayments config query db
  = (db, Success "Payments fetched successfully"
           (lean <$> take (Z.to_nat (pg_limit pg))
                       (drop (Z.to_nat (pg_skip pg)) sorted),
            createPaginationMeta (length sorted) (pg_page pg) (pg_limit pg))).
Proof.
  intros Hm pg sorted. unfold getAllPayments. fold sorted.
  pose proof (HelpersFacts.paginated_items config (aq_page query)
                (aq_limit query) sorted Hm) as E.
  destruct (paginated config (aq_page query) (aq_limit query) sorted)
    as [items meta] eqn:P.
  cbn [fst] in E. subst items.
  assert (M : meta = createPaginationMeta (length sorted) (pg_page pg)
                       (pg_limit pg)).
  { unfold paginated in P. injection P as _ <-. reflexivity. }
  rewrite M. reflexivity.
Qed.

(** One page of the admin listing.  With a maximum page size of at least
    1, [getAllPayments] changes nothing and succeeds; it lists at most
    [limit] payments, each a stored payment matching every filter of the
    query, the newer before the older; the [total] of the metadata is the
    number of stored payments matching the filters, and [hasNextPage]
    holds exactly when matching payments remain after those of this
    page. *)
Theorem getAllPayments_page (config : PaginationConfig)
    (query : AllPaymentsQuery) (db : DB) :
  1 <= maxPageSize config ->
  let pg := parsePagination config (aq_page query) (aq_limit query) in
  let matching := List.filter (matchesAll query) (payments db) in
  exists page meta,
    getAllPayments config query db
    = (db, Success "Payments fetched successfully" (lean <$> page, meta))
    /\ (length page <= Z.to_nat (pg_limit pg))%nat
    /\ StronglySorted newerFirst page
    /\ (forall p, p ∈ page -> p ∈ payments db /\ matchesAll query p = true)
    /\ pm_total meta = length matching
    /\ (hasNextPage meta = true
        <-> (Z.to_nat (pg_skip pg) + length page < length matching)%nat).
Proof.
  intros Hm pg matching.
  rewrite (getAllPayments_run config query db Hm). fold pg. fold matching.
  destruct (HelpersFacts.parsed_bounds config (aq_page query) (aq_limit query)
              Hm) as (Hp & Hl & Es).
  fold pg in Hp, Hl, Es.
  assert (Len : length (merge_sort newerFirst matching) = length matching)
    by (apply Permutation_length, merge_sort_Permutation).
  eexists _, _. split; [reflexivity|].
  split; [rewrite length_take; lia|]. split; [|split; [|split]].
  - apply sorted_window, StronglySorted_merge_sort; apply _.
  - intros p Hp'. apply window_elem in Hp'.
    rewrite merge_sort_Permutation in Hp'.
    apply AssignmentFacts.elem_of_List_filter in Hp'. exact Hp'.
  - unfold createPaginationMeta. cbn [pm_total]. exact Len.
  - unfold createPaginationMeta. cbn [hasNextPage].
    rewrite length_take, length_drop, Len.
    destruct (HelpersFacts.Math_ceil_div_pos (length matching) (pg_limit pg)
                ltac:(lia)) as (n & -> & Hn).
    cbn [ltPages]. rewrite Z.ltb_lt. split; intros H; nia.
Qed.

(** The theorem at the cash desk, two per page: the first page of the
    completed payments reports three matches and a next page. *)
Lemma getAllPayments_page_witness :
  let config := mkPaginationConfig 10 100 in
  let query :=
    mkAllPaymentsQuery (Some 1) (Some 2) (Some completed) None None None None in
  1 <= maxPageSize config
  /\ exists page meta,
       getAllPayments config query cashDesk
       = (cashDesk, Success "Payments fetched successfully" (lean <$> page, meta))
       /\ pm_total meta = 3%nat /\ hasNextPage meta = true.
Proof.
  intros config query.
  assert (M : 1 <= maxPageSize config) by (cbn; lia).
  split; [exact M|].
  destruct (getAllPayments_page config query cashDesk M)
    as (page & meta & R & Len & _ & _ & T & H).
  exists page, meta. split; [exact R|]. split.
  - rewrite T. vm_compute. reflexivity.
  - apply H.
    change (length (List.filter (matchesAll query) (payments cashDesk)))
      with 3%nat.
    change (Z.to_nat (pg_skip (parsePagination config (aq_page query)
                                 (aq_limit query)))) with 0%nat.
    change (Z.to_nat (pg_limit (parsePagination config (aq_page query)
                                  (aq_limit query)))) with 2%nat in Len.
    lia.
Defined.

(** The pages of the admin listing.  With a maximum page size of at least
    1, and no two stored payments created at the same instant (so that
    the sort by creation time leaves no choice between the requests), the
    metadata of any page gives a page count [n] such that the pages 1 to
    [n] of the query, one after the other, list every stored payment
    matching the filters exactly once, the newer before the older, and
    every later page is empty. *)
Theorem getAllPayments_pages (config : PaginationConfig)
    (query : AllPaymentsQuery) (db : DB) :
  1 <= maxPageSize config ->
  NoDup (pay_createdAt <$> payments db) ->
  let pageOf (p : nat) :=
    listed (getAllPayments config (withPage (Z.of_nat p) query) db) in
  exists (n : nat) (all : list Payment),
    (forall p meta data,
       snd (getAllPayments config (withPage p query) db)
       = Success "Payments fetched successfully" (data, meta) ->
       totalPages meta = Pages (Z.of_nat n))
    /\ mjoin (pageOf <$> seq 1 n) = lean <$> all
    /\ all ≡ₚ List.filter (matchesAll query) (payments db)
    /\ StronglySorted newerFirst all
    /\ forall p, (n < p)%nat -> pageOf p = [].
Proof.
  intros Hm _ pageOf.
  set (sorted := merge_sort newerFirst
                   (List.filter (matchesAll query) (payments db))).
  destruct (HelpersFacts.parsed_bounds config None (aq_limit query) Hm)
    as (_ & Hl & _).
  set (lim := pg_limit (parsePagination config None (aq_limit query))) in *.
  assert (Lim : forall p, pg_limit (parsePagination config p (aq_limit query))
                          = lim) by reflexivity.
  assert (P : forall p, (1 <= p)%nat ->
            pageOf p = lean <$> take (Z.to_nat lim)
                                  (drop ((p - 1) * Z.to_nat lim) sorted)).
  { intros p Hp. subst pageOf. cbv beta. unfold listed.
    rewrite (getAllPayments_run config _ db Hm). cbn [snd fst].
    change (matchesAll (withPage (Z.of_nat p) query)) with (matchesAll query).
    fold sorted. cbn [aq_page aq_limit withPage]. rewrite Lim.
    unfold parsePagination. cbn [pg_skip].
    rewrite HelpersFacts.page_honoured by lia.
    change (Z.min (maxPageSize config)
              (Z.max 1 (InventoryController.orDefault (aq_limit query)
                          (defaultPageSize config)))) with lim.
    rewrite Z2Nat.inj_mul by lia.
    replace (Z.to_nat (Z.of_nat p - 1)) with (p - 1)%nat by lia.
    reflexivity. }
  destruct (HelpersFacts.Math_ceil_div_pos (length sorted) lim ltac:(lia))
    as (n & En & Hn).
  assert (0 <= n) by nia.
  exists (Z.to_nat n), sorted. split; [|split; [|split; [|split]]].
  - intros p meta data E.
    rewrite (getAllPayments_run config _ db Hm) in E. cbn [snd] in E.
    injection E as _ <-.
    change (Math_ceil_div (length sorted) lim = Pages (Z.of_nat (Z.to_nat n))).
    rewrite En. f_equal. lia.
  - transitivity (lean <$> take (Z.to_nat n * Z.to_nat lim) sorted);
      [|rewrite take_ge by nia; reflexivity].
    rewrite <- (HelpersFacts.chunks_join (Z.to_nat lim) (Z.to_nat n) sorted).
    rewrite fmap_mjoin, <- list_fmap_compose.
    apply (f_equal mjoin). apply list_eq_Forall2.
    apply Forall2_fmap, Forall_Forall2_diag, Forall_forall.
    intros p Hp. apply elem_of_seq in Hp. apply P. lia.
  - apply merge_sort_Permutation.
  - apply StronglySorted_merge_sort; apply _.
  - intros p Hp. rewrite P by lia. rewrite drop_ge by nia.
    rewrite take_nil. reflexivity.
Qed.

(** The theorem at the cash desk, two per page: the pages of the
    completed payments hold three payments in all. *)
Lemma getAllPayments_pages_witness :
  let config := mkPaginationConfig 10 100 in
  let query :=
    mkAllPaymentsQuery None (Some 2) (Some completed) None None None None in
  1 <= maxPageSize config
  /\ NoDup (pay_createdAt <$> payments cashDesk)
  /\ exists (n : nat) (all : list Payment),
       mjoin ((fun p => listed (getAllPayments config
                                  (withPage (Z.of_nat p) query) cashDesk))
                <$> seq 1 n)
       = lean <$> all
       /\ length all = 3%nat.
Proof.
  intros config query.
  assert (M : 1 <= maxPageSize config) by (cbn; lia).
  assert (N : NoDup (pay_createdAt <$> payments cashDesk))
    by (apply (bool_decide_unpack _); vm_compute; exact I).
  split; [exact M|]. split; [exact N|].
  destruct (getAllPayments_pages config query cashDesk M N)
    as (n & all & _ & J & P & _).
  exists n, all. split; [exact J|].
  rewrite (Permutation_length P). vm_compute. reflexivity.
Defined.

Lemma fold_left_Qplus {A} (f : A -> Q) (l : list A) (acc : Q) :
  (fold_left (fun sum x => sum + f x) l acc == acc + sumQ (f <$> l))%Q.
Proof.
  revert acc. unfold sumQ. induction l as [|x l IH]; intros acc; cbn.
  - ring.
  - rewrite IH. ring.
Qed.

Lemma fold_left_plus {A} (f : A -> nat) (l : list A) (acc : nat) :
  fold_left (fun sum x => (sum + f x)%nat) l acc
  = (acc + sum_list (f <$> l))%nat.
Proof.
  revert acc. induction l as [|x l IH]; intros acc; cbn; [lia|].
  rewrite IH. lia.
Qed.

Lemma addToGroup_total (p : Payment) (groups : list MethodTotal) :
  (sumQ (mt_total <$> addToGroup p groups)
   == sumQ (mt_total <$> groups) + signedAmount p)%Q.
Proof.
  unfold sumQ. induction groups as [|g groups IH]; cbn.
  - ring.
  - destruct (decide (mt_method g = paymentMethod p)); cbn; [ring|].
    rewrite IH. ring.
Qed.

Lemma addToGroup_count (p : Payment) (groups : list MethodTotal) :
  sum_list (mt_count <$> addToGroup p groups)
  = S (sum_list (mt_count <$> groups)).
Proof.
  induction groups as [|g groups IH]; cbn; [reflexivity|].
  destruct (decide (mt_method g = paymentMethod p)); cbn; [lia|].
  rewrite IH. lia.
Qed.

Lemma ofMethod_snoc (m : PaymentMethod) (seen : list Payment) (p : Payment) :
  ofMethod m (seen ++ [p])
  = ofMethod m seen ++ (if decide (paymentMethod p = m) then [p] else []).
Proof.
  unfold ofMethod. rewrite List.filter_app. cbn.
  destruct (decide (paymentMethod p = m)) as [E|E].
  - rewrite (bool_decide_eq_true_2 _ E). reflexivity.
  - rewrite (bool_decide_eq_false_2 _ E). reflexivity.
Qed.

Lemma addToGroup_methods (p : Payment) (groups : list MethodTotal) :
  forall m, m ∈ mt_method <$> addToGroup p groups
            <-> m ∈ mt_method <$> groups \/ m = paymentMethod p.
Proof.
  intros m. induction groups as [|g groups IH]; cbn.
  - rewrite list_elem_of_singleton. split; [auto|].
    intros [H|H]; [inversion H|exact H].
  - destruct (decide (mt_method g = paymentMethod p)) as [E|E]; cbn.
    + rewrite !elem_of_cons. split; [tauto|].
      intros [H|H]; [exact H|]. left. congruence.
    + rewrite !elem_of_cons, IH. tauto.
Qed.

Lemma addToGroup_cases (p : Payment) (groups : list MethodTotal) :
  ((paymentMethod p ∉ (mt_method <$> groups))
   /\ addToGroup p groups
      = groups ++ [mkMethodTotal (paymentMethod p) (0 + signedAmount p)%Q 1])
  \/ (exists g1 g g2,
        groups = g1 ++ g :: g2 /\ mt_method g = paymentMethod p
        /\ addToGroup p groups
           = g1 ++ mkMethodTotal (mt_method g) (mt_total g + signedAmount p)%Q
                     (S (mt_count g)) :: g2).
Proof.
  induction groups as [|g groups IH]; cbn.
  - left. split; [intros H; inversion H|reflexivity].
  - destruct (decide (mt_method g = paymentMethod p)) as [E|E].
    + right. exists [], g, groups. auto.
    + destruct IH as [(Ni & ->)|(g1 & h & g2 & -> & Eh & ->)].
      * left. split; [|reflexivity]. rewrite elem_of_cons. intros [H|H]; auto.
      * right. exists (g :: g1), h, g2. auto.
Qed.

Lemma summarises_add (p : Payment) (groups : list MethodTotal)
    (seen : list Payment) :
  summarises groups seen -> summarises (addToGroup p groups) (seen ++ [p]).
Proof.
  intros (N & G & C).
  assert (Old : forall g, g ∈ groups -> mt_method g <> paymentMethod p ->
            ofMethod (mt_method g) (seen ++ [p]) <> []
            /\ (mt_total g
                == sumQ (signedAmount <$> ofMethod (mt_method g) (seen ++ [p])))%Q
            /\ mt_count g = length (ofMethod (mt_method g) (seen ++ [p]))).
  { intros g Hg Ne. rewrite ofMethod_snoc.
    destruct (decide (paymentMethod p = mt_method g)); [congruence|].
    rewrite app_nil_r. apply G. exact Hg. }
  split; [|split].
  - destruct (addToGroup_cases p groups)
      as [(Ni & ->)|(g1 & g & g2 & -> & Eg & ->)].
    + rewrite fmap_app. apply NoDup_app. split; [exact N|].
      split; [|apply NoDup_singleton].
      intros m Hm Hs. cbn in Hs. apply list_elem_of_singleton in Hs.
      subst m. exact (Ni Hm).
    + rewrite fmap_app in *. cbn in *. exact N.
  - intros h Hh.
    destruct (addToGroup_cases p groups)
      as [(Ni & E)|(g1 & g & g2 & -> & Eg & E)]; rewrite E in Hh; clear E.
    + apply elem_of_app in Hh. destruct Hh as [Hh|Hh].
      * apply Old; [exact Hh|]. intros Eh. apply Ni. rewrite <- Eh.
        apply list_elem_of_fmap. eauto.
      * apply list_elem_of_singleton in Hh. subst h.
        cbn [mt_method mt_total mt_count]. rewrite ofMethod_snoc.
        destruct (decide (paymentMethod p = paymentMethod p)); [|congruence].
        assert (E : ofMethod (paymentMethod p) seen = []).
        { unfold ofMethod. apply JobItemFacts.filter_nil_iff. intros x Hx.
          apply bool_decide_eq_false. intros Ex. apply Ni. rewrite <- Ex.
          apply C. exact Hx. }
        rewrite E. cbn. split; [discriminate|]. split; [|reflexivity].
        unfold sumQ. cbn. ring.
    + rewrite fmap_app in N. cbn in N. apply NoDup_app in N.
      destruct N as (N1 & N12 & N2). apply NoDup_cons in N2.
      destruct N2 as (Ng & N2).
      apply elem_of_app in Hh. destruct Hh as [Hh|Hh].
      * apply Old; [apply elem_of_app; left; exact Hh|].
        intros Eh. apply (N12 (mt_method h)).
        -- apply list_elem_of_fmap. eauto.
        -- rewrite Eh, <- Eg. left.
      * apply elem_of_cons in Hh. destruct Hh as [->|Hh].
        -- cbn [mt_method mt_total mt_count]. rewrite ofMethod_snoc.
           destruct (decide (paymentMethod p = mt_method g)); [|congruence].
           destruct (G g) as (Gn & Gt & Gc);
             [apply elem_of_app; right; left|].
           split; [intros H; apply app_eq_nil in H; destruct H; discriminate|].
           split.
           ++ rewrite fmap_app, LedgerFacts.sumQ_app, Gt. unfold sumQ. cbn. ring.
           ++ rewrite length_app, Gc. cbn. lia.
        -- apply Old; [apply elem_of_app; right; right; exact Hh|].
           intros Eh. apply Ng. rewrite Eg, <- Eh.
           apply list_elem_of_fmap. eauto.
  - intros q Hq. rewrite addToGroup_methods. apply elem_of_app in Hq.
    destruct Hq as [Hq|Hq]; [left; apply C; exact Hq|].
    apply list_elem_of_singleton in Hq. subst q. right. reflexivity.
Qed.

Lemma groupByMethod_acc (ps seen : list Payment) (groups : list MethodTotal) :
  summarises groups seen ->
  summarises (fold_left (fun gs p => addToGroup p gs) ps groups) (seen ++ ps)
  /\ (sumQ (mt_total <$> fold_left (fun gs p => addToGroup p gs) ps groups)
      == sumQ (mt_total <$> groups) + sumQ (signedAmount <$> ps))%Q
  /\ sum_list (mt_count <$> fold_left (fun gs p => addToGroup p gs) ps groups)
     = (sum_list (mt_count <$> groups) + length ps)%nat.
Proof.
  revert seen groups. induction ps as [|p ps IH]; intros seen groups S.
  - cbn. rewrite app_nil_r. split; [exact S|]. split; [|lia].
    unfold sumQ. cbn. ring.
  - cbn [fold_left].
    destruct (IH (seen ++ [p]) (addToGroup p groups) (summarises_add _ _ _ S))
      as (S' & T & K).
    rewrite <- app_assoc in S'. split; [exact S'|]. split.
    + rewrite T, addToGroup_total. unfold sumQ. cbn. ring.
    + rewrite K, addToGroup_count. cbn. lia.
Qed.

Lemma getPaymentSummary_data (dateFrom dateTo : option Date) (db : DB) :
  exists data,
    getPaymentSummary dateFrom dateTo db
    = (db, Success "Payment summary fetched successfully" data)
    /\ summarises (byMethod data) (summarised dateFrom dateTo db)
    /\ (sd_totalCollection data
        == sumQ (signedAmount <$> summarised dateFrom dateTo db))%Q
    /\ totalTransactions data = length (summarised dateFrom dateTo db).
Proof.
  assert (S0 : summarises [] []).
  { split; [constructor|]. split; intros x Hx; inversion Hx. }
  destruct (groupByMethod_acc (summarised dateFrom dateTo db) [] [] S0)
    as (S & T & K).
  exists (mkPaymentSummaryData
            (groupByMethod (summarised dateFrom dateTo db))
            (fold_left (fun sum s => (sum + mt_total s)%Q)
               (groupByMethod (summarised dateFrom dateTo db)) 0%Q)
            (fold_left (fun sum s => (sum + mt_count s)%nat)
               (groupByMethod (summarised dateFrom dateTo db)) O)).
  split; [reflexivity|].
  cbn [byMethod sd_totalCollection totalTransactions].
  split; [exact S|]. split.
  - unfold groupByMethod. rewrite fold_left_Qplus, T. unfold sumQ. cbn. ring.
  - unfold groupByMethod. rewrite (fold_left_plus mt_count), K. cbn. lia.
Qed.

(** The payment summary adds up.  [getPaymentSummary] changes nothing.
    Over the completed payments created in the requested range, it
    returns one group per payment method that occurs among them, holding
    the number of those payments and their total with refunds counted
    negatively; the overall total is the sum of the signed amounts of all
    the payments counted and the number of transactions is their
    number. *)
Theorem getPaymentSummary_totals (dateFrom dateTo : option Date) (db : DB) :
  let counted := summarised dateFrom dateTo db in
  exists data,
    getPaymentSummary dateFrom dateTo db
    = (db, Success "Payment summary fetched successfully" data)
    /\ summarises (byMethod data) counted
    /\ (sd_totalCollection data == sumQ (signedAmount <$> counted))%Q
    /\ totalTransactions data = length counted.
Proof.
  intros counted. apply getPaymentSummary_data.
Qed.

Lemma sumQ_perm (l1 l2 : list Q) : l1 ≡ₚ l2 -> (sumQ l1 == sumQ l2)%Q.
Proof.
  unfold sumQ. induction 1 as [|x l1 l2 P IH|x y l|l1 l2 l3 P1 IH1 P2 IH2]; cbn.
  - reflexivity.
  - rewrite IH. reflexivity.
  - ring.
  - rewrite IH1. exact IH2.
Qed.

(** The collection of the day agrees with the summary.  When a date
    range holds exactly the instants of the day of the clock, the total
    and the count that [getTodayCollection] returns are the overall total
    and the number of transactions of [getPaymentSummary] over that
    range. *)
Theorem today_agrees_with_summary (now dateFrom dateTo : Date) (db : DB) :
  (forall d : Date, (dateFrom <= d <= dateTo)%nat <-> dayOf d = dayOf now) ->
  exists today summary,
    getTodayCollection now db
    = (db, Success "Today's collection fetched successfully" today)
    /\ getPaymentSummary (Some dateFrom) (Some dateTo) db
       = (db, Success "Payment summary fetched successfully" summary)
    /\ (tc_totalCollection today == sd_totalCollection summary)%Q
    /\ tc_count today = totalTransactions summary.
Proof.
  intros R.
  destruct (getPaymentSummary_data (Some dateFrom) (Some dateTo) db)
    as (summary & Es & _ & Ts & Ks).
  unfold getTodayCollection. cbv zeta.
  eexists _, summary. split; [reflexivity|]. split; [exact Es|].
  cbn [tc_totalCollection tc_count].
  assert (F : List.filter
                (fun p => bool_decide (dayOf (pay_createdAt p) = dayOf now)
                          && bool_decide (pay_status p = completed))
                (payments db)
              = summarised (Some dateFrom) (Some dateTo) db).
  { unfold summarised. apply filter_ext. intros p. unfold inRange.
    rewrite andb_comm. f_equal.
    destruct (bool_decide (dayOf (pay_createdAt p) = dayOf now)) eqn:B.
    - apply bool_decide_eq_true in B. apply R in B.
      rewrite !bool_decide_eq_true_2 by lia. reflexivity.
    - apply bool_decide_eq_false in B. symmetry. apply andb_false_iff.
      destruct (decide (dateFrom <= pay_createdAt p)%nat) as [L|L].
      + right. apply bool_decide_eq_false_2. intros U. apply B, R. lia.
      + left. apply bool_decide_eq_false_2. exact L. }
  rewrite F. split.
  - rewrite Ts.
    transitivity
      (sumQ (signedAmount
               <$> merge_sort newerFirst
                     (summarised (Some dateFrom) (Some dateTo) db))).
    + set (l := merge_sort _ _).
      assert (G : forall acc,
                (fold_left
                   (fun sum p =>
                      if decide (paymentType p = refund) then sum - amount p
                      else sum + amount p) l acc
                 == acc + sumQ (signedAmount <$> l))%Q).
      { induction l as [|p l IH]; intros acc; unfold sumQ in *; cbn.
        - ring.
        - rewrite IH. unfold signedAmount.
          destruct (decide (paymentType p = refund)); ring. }
      rewrite G. ring.
    + apply sumQ_perm, fmap_Permutation, merge_sort_Permutation.
  - rewrite Ks. apply Permutation_length, merge_sort_Permutation.
Qed.

(** The theorem at the cash desk on its first day: the range from 0 to
    the last clock value of the day gives the totals of the day. *)
Lemma today_agrees_with_summary_witness :
  (forall d : Date, (0 <= d <= endOfFirstDay)%nat <-> dayOf d = dayOf 5%nat)
  /\ exists today summary,
       getTodayCollection 5%nat cashDesk
       = (cashDesk, Success "Today's collection fetched successfully" today)
       /\ getPaymentSummary (Some 0%nat) (Some endOfFirstDay) cashDesk
          = (cashDesk, Success "Payment summary fetched successfully" summary)
       /\ (tc_totalCollection today == sd_totalCollection summary)%Q
       /\ tc_count today = totalTransactions summary.
Proof.
  assert (D : forall d : Date,
             (0 <= d <= endOfFirstDay)%nat <-> dayOf d = dayOf 5%nat).
  { intros d. change (dayOf 5%nat) with 0%nat. unfold dayOf, endOfFirstDay.
    split.
    - intros [_ H]. rewrite N.div_small by lia. reflexivity.
    - intros H.
      assert (Z : (N.of_nat d / 86400 = 0)%N) by lia.
      apply N.div_small_iff in Z; lia. }
  split; [exact D|].
  exact (today_agrees_with_summary 5%nat 0%nat endOfFirstDay cashDesk D).
Defined.

End CollectionFacts.

(* ===================================================================== *)
(** * Properties of invoices against the stock *)
(* ===================================================================== *)

Module InvoiceFacts.
Import Num InventoryController StockOps Scenarios.

(** A cancelled invoice restores the stock.  [deductForInvoice] succeeds
    on one-line batches only; when it succeeds on a validated batch, on a
    store that is well formed and whose ledger is numbered,
    [returnFromInvoice] of the same part and quantity (as a JSON number)
    against the same job card succeeds on the resulting store, and
    afterwards the stock of every part is what it was before the
    deduction; the ledger has grown by one sale entry followed by one
    return entry, each referencing the job card. *)
Theorem cancelled_invoice_restores_stock (db db1 : DB) (body : InvoiceBody)
    (userId : UserId) (now now' : Date) (msg : string)
    (results : list StockResult) :
  validLines (parts body) -> wellFormed db -> numbered (transactions db) ->
  deductForInvoice body userId now db = (db1, Success msg results) ->
  exists l db2 returned sold back,
    parts body = [l]
    /\ returnFromInvoice (returnOf body) userId now' db1
       = (db2, Success "Stock returned successfully" [returned])
    /\ (forall p, stockOf p db2 = stockOf p db)
    /\ transactions db2 = transactions db ++ [sold; back]
    /\ entryOfLine sale (partId l) (- quantity l) (jobCardId body)
         (invoiceNumber body) sold
    /\ entryOfLine return_ (partId l) (quantity l) (jobCardId body)
         (invoiceNumber body) back.
Proof.
  intros V W N D.
  assert (Ne : parts body <> []).
  { intros E. unfold deductForInvoice in D. rewrite E in D. discriminate. }
  rewrite (StockFacts.deductForInvoice_run db body userId now Ne) in D.
  destruct (forEach _ _ _ db db) as [[res errors] dbx|e txn] eqn:R;
    [|discriminate].
  destruct errors; [|discriminate]. injection D as <- _ _.
  destruct (StockFacts.deduct_loop_served _ _ _ _ _ _ _ Ne R) as (l & E & Nf).
  rewrite E in R, V. inversion V as [|? ? H1 _]; subst.
  unfold lineFails, stockOf in Nf.
  destruct (inventory db !! partId l) as [sp|] eqn:L; [|tauto].
  assert (Hq : quantity l <= currentStock sp) by (apply Z.le_ngt; tauto).
  destruct (StockFacts.deductLine_served body userId now [] [] l db db sp W L
              H1 Hq) as (sp' & e & r & E1 & Ec & Es & Eco & Ee).
  rewrite (bool_decide_eq_false_2 _ (StockFacts.numbered_fresh now _ N)) in E1.
  cbn [forEach] in R. unfold mbind, Tx_bind in R. rewrite E1 in R.
  cbn [mret Tx_ret] in R. injection R as _ <-.
  set (sold := stored (nextNumber now (transactions db)) now e) in *.
  set (db1 := moved (partId l) sp' sold db) in *.
  destruct (W _ _ L) as (Pc & _).
  assert (W1 : wellFormed db1)
    by (eapply StockFacts.wellFormed_moved; eauto; lia).
  assert (N1 : numbered (transactions db1)).
  { unfold db1, moved, sold. cbn [transactions set_transactions].
    apply StockFacts.numbered_append; [exact N|]. exists [].
    rewrite app_nil_r. reflexivity. }
  assert (L1 : inventory db1 !! partId l = Some sp').
  { unfold db1, moved. cbn [inventory set_transactions set_inventory].
    apply lookup_insert_eq. }
  set (line := mkReturnLine (partId l) (Js.JNumber (quantity l))).
  destruct (StockFacts.returnLine_served (returnOf body) userId now' [] line
              db1 db1 sp' (quantity l) W1 L1 eq_refl H1)
    as (sp'' & e' & r' & E2 & Ec2 & _ & _ & Ee2).
  rewrite (bool_decide_eq_false_2 _ (StockFacts.numbered_fresh now' _ N1))
    in E2.
  exists l,
    (moved (rl_partId line) sp''
       (stored (nextNumber now' (transactions db1)) now' e') db1),
    r', sold, (stored (nextNumber now' (transactions db1)) now' e').
  split; [exact E|]. split.
  - assert (P : rb_parts (returnOf body) = [line])
      by (unfold returnOf; rewrite E; reflexivity).
    unfold returnFromInvoice. rewrite P.
    unfold inSession. cbn [forEach]. unfold mbind, Tx_bind.
    rewrite E2. cbn [mret Tx_ret app]. reflexivity.
  - split; [|split; [|split]].
    + intros p. destruct (decide (partId l = p)) as [<-|Np].
      * cbn [rl_partId line]. rewrite StockFacts.stockOf_moved_same.
        unfold stockOf. rewrite L. lia.
      * cbn [rl_partId line]. unfold db1.
        rewrite !StockFacts.stockOf_moved_other by exact Np. reflexivity.
    + unfold db1, moved. cbn [transactions set_transactions].
      rewrite <- app_assoc. reflexivity.
    + exact Ee.
    + exact Ee2.
Qed.

(** The theorem at the two-part store: 3 of part 1 are sold on an invoice
    and returned; part 1 is back at 5. *)
Lemma cancelled_invoice_restores_stock_witness :
  let body := invoice [mkPartLine 1%positive 3] in
  let run := deductForInvoice body 9%positive 3%nat twoParts in
  validLines (parts body) /\ wellFormed twoParts
  /\ numbered (transactions twoParts)
  /\ exists db2 returned,
       returnFromInvoice (returnOf body) 9%positive 4%nat (fst run)
       = (db2, Success "Stock returned successfully" [returned])
       /\ stockOf 1%positive db2 = 5 /\ stockOf 2%positive db2 = 10.
Proof.
  intros body run.
  assert (V : validLines (parts body))
    by (repeat constructor; cbn; lia).
  pose proof StockFacts.wellFormed_twoParts as W.
  pose proof StockFacts.numbered_twoParts as N.
  split; [exact V|]. split; [exact W|]. split; [exact N|].
  destruct (snd run) as [msg results|e] eqn:E; [|vm_compute in E; discriminate].
  assert (R : run = (fst run, Success msg results))
    by (rewrite <- E; apply surjective_pairing).
  destruct (cancelled_invoice_restores_stock twoParts (fst run) body 9%positive
              3%nat 4%nat msg results V W N R)
    as (l & db2 & returned & _ & _ & _ & Rt & S & _).
  exists db2, returned. split; [exact Rt|].
  rewrite !S. split; reflexivity.
Defined.

End InvoiceFacts.

(* ===================================================================== *)
(** * Properties of the catalogue, the low-stock report and the dashboard *)
(* ===================================================================== *)

Module CatalogueFacts.
Import Num InventoryController StockOps InventoryModel Catalogue Scenarios.

#[local] Instance lessStockFirst_total : Total lessStockFirst.
Proof. intros a b. unfold lessStockFirst. lia. Qed.

#[local] Instance lessStockFirst_trans : Transitive lessStockFirst.
Proof. intros a b c. unfold lessStockFirst. lia. Qed.

Lemma filter_perm {A} (f : A -> bool) (l1 l2 : list A) :
  l1 ≡ₚ l2 -> List.filter f l1 ≡ₚ List.filter f l2.
Proof.
  induction 1 as [|x l1 l2 P IH|x y l|l1 l2 l3 P1 IH1 P2 IH2]; cbn.
  - reflexivity.
  - destruct (f x); [constructor|]; exact IH.
  - destruct (f x), (f y); try reflexivity. apply perm_swap.
  - etransitivity; eassumption.
Qed.

Lemma filter_all {A} (f : A -> bool) (l : list A) :
  Forall (fun x => f x = true) l -> List.filter f l = l.
Proof.
  induction 1 as [|x l Hx F IH]; [reflexivity|].
  cbn. rewrite Hx, IH. reflexivity.
Qed.

(** A list sorted by stock, none negative, is its out-of-stock items
    followed by the others. *)
Lemma sorted_split (l : list (Id * Inventory)) :
  StronglySorted lessStockFirst l ->
  (forall e, e ∈ l -> 0 <= currentStock (snd e)) ->
  List.filter (fun i => currentStock (snd i) =? 0) l
  ++ List.filter (fun i => 0 <? currentStock (snd i)) l = l.
Proof.
  induction 1 as [|x l S IH F]; intros N; [reflexivity|].
  assert (Nl : forall e, e ∈ l -> 0 <= currentStock (snd e))
    by (intros e He; apply N; constructor; exact He).
  pose proof (N x ltac:(constructor)) as Nx.
  cbn [List.filter].
  destruct (currentStock (snd x) =? 0) eqn:Z.
  - destruct (0 <? currentStock (snd x)) eqn:P; [lia|].
    cbn. rewrite (IH Nl). reflexivity.
  - destruct (0 <? currentStock (snd x)) eqn:P; [|lia].
    assert (E : List.filter (fun i => currentStock (snd i) =? 0) l = []).
    { apply JobItemFacts.filter_nil_iff. intros y Hy.
      rewrite Forall_forall in F. specialize (F y Hy).
      unfold lessStockFirst in F. lia. }
    rewrite E. cbn. f_equal. apply filter_all.
    rewrite Forall_forall in *. intros y Hy. specialize (F y Hy).
    unfold lessStockFirst in F. lia.
Qed.

Lemma low_filter_ext (db : DB) :
  List.filter
    (fun entry : Id * Inventory =>
       isActive (snd entry)
       && (currentStock (snd entry) <=? minStock (snd entry)))
    (items db)
  = InventoryModel.getLowStockItems db.
Proof.
  unfold InventoryModel.getLowStockItems. apply filter_ext.
  intros e. apply andb_comm.
Qed.

Lemma elem_of_items (db : DB) (id : Id) (sp : Inventory) :
  (id, sp) ∈ items db <-> inventory db !! id = Some sp.
Proof. unfold items. apply elem_of_map_to_list. Qed.

Lemma elem_of_low (db : DB) (e : Id * Inventory) :
  e ∈ InventoryModel.getLowStockItems db
  <-> inventory db !! fst e = Some (snd e) /\ isActive (snd e) = true
      /\ currentStock (snd e) <= minStock (snd e).
Proof.
  unfold InventoryModel.getLowStockItems.
  rewrite AssignmentFacts.elem_of_List_filter, andb_true_iff, Z.leb_le.
  destruct e as [id sp]. rewrite elem_of_items. cbn. tauto.
Qed.

(** The low-stock report.  On a well-formed store [getLowStockItems]
    changes nothing; the out-of-stock items followed by the low-stock
    items are the active items at or below their minimum stock, each
    once, least stock first: the items the model's static of the same
    name finds.  Every out-of-stock item has no stock and every
    low-stock item has some. *)
Theorem low_stock_report (db : DB) :
  wellFormed db ->
  exists out low,
    Catalogue.getLowStockItems db
    = (db, Success "Low stock items fetched successfully"
             (mkLowStockData out low))
    /\ out ++ low ≡ₚ InventoryModel.getLowStockItems db
    /\ NoDup (fst <$> out ++ low)
    /\ StronglySorted lessStockFirst (out ++ low)
    /\ (forall e, e ∈ out -> currentStock (snd e) = 0)
    /\ (forall e, e ∈ low -> 0 < currentStock (snd e))
    /\ (forall id sp,
          (id, sp) ∈ out ++ low
          <-> inventory db !! id = Some sp /\ isActive sp = true
              /\ currentStock sp <= minStock sp).
Proof.
  intros W. unfold Catalogue.getLowStockItems. rewrite low_filter_ext.
  set (sorted := merge_sort lessStockFirst (InventoryModel.getLowStockItems db)).
  assert (P : sorted ≡ₚ InventoryModel.getLowStockItems db)
    by apply merge_sort_Permutation.
  assert (S : StronglySorted lessStockFirst sorted)
    by (apply StronglySorted_merge_sort; apply _).
  assert (N : forall e, e ∈ sorted -> 0 <= currentStock (snd e)).
  { intros e He. rewrite P in He. apply elem_of_low in He.
    destruct He as (L & _). destruct (W _ _ L) as (H & _). exact H. }
  pose proof (sorted_split sorted S N) as E.
  eexists _, _. split; [reflexivity|]. rewrite E.
  split; [exact P|]. split; [|split; [exact S|split; [|split]]].
  - rewrite P. unfold InventoryModel.getLowStockItems.
    apply AssignmentFacts.filter_fmap_NoDup. apply NoDup_fst_map_to_list.
  - intros e He. apply AssignmentFacts.elem_of_List_filter in He. lia.
  - intros e He. apply AssignmentFacts.elem_of_List_filter in He. lia.
  - intros id sp. rewrite P. apply (elem_of_low db (id, sp)).
Qed.

Lemma filter_filter {A} (f g : A -> bool) (l : list A) :
  List.filter f (List.filter g l) = List.filter (fun x => g x && f x) l.
Proof.
  induction l as [|x l IH]; [reflexivity|]. cbn.
  destruct (g x); cbn; [destruct (f x)|]; rewrite IH; reflexivity.
Qed.

(** Two disjoint selections among the selected items are no more than
    they. *)
Lemma disjoint_counts {A} (f g h : A -> bool) (l : list A) :
  (forall x, f x = true -> h x = true /\ g x = false) ->
  (forall x, g x = true -> h x = true) ->
  (length (List.filter f l) + length (List.filter g l)
   <= length (List.filter h l))%nat.
Proof.
  intros Hf Hg. induction l as [|x l IH]; [reflexivity|]. cbn.
  destruct (f x) eqn:F.
  - destruct (Hf x F) as (-> & ->). cbn. lia.
  - destruct (g x) eqn:G.
    + rewrite (Hg x G). cbn. lia.
    + destruct (h x); cbn; lia.
Qed.

Lemma value_fold (l : list Inventory) (acc : StockValue) :
  let v := fold_left addToValue l acc in
  totalStock v = totalStock acc + foldr Z.add 0 (currentStock <$> l)
  /\ totalItems v = (totalItems acc + length l)%nat
  /\ (totalCostValue v
      == totalCostValue acc
         + BillingSpec.sumQ ((fun sp => inject_Z (currentStock sp) * costPrice sp) <$> l))%Q
  /\ (totalSellingValue v
      == totalSellingValue acc
         + BillingSpec.sumQ ((fun sp => inject_Z (currentStock sp) * sellingPrice sp)
                   <$> l))%Q.
Proof.
  revert acc. unfold BillingSpec.sumQ. induction l as [|sp l IH]; intros acc; cbn.
  - repeat split; try lia; ring.
  - destruct (IH (addToValue acc sp)) as (S & N & C & P). cbn in S, N, C, P.
    split; [rewrite S; lia|]. split; [rewrite N; lia|].
    split; [rewrite C; ring|rewrite P; ring].
Qed.

(** The dashboard agrees with the low-stock report.  When no stored item
    has a negative minimum stock, the out-of-stock and low-stock counts of
    the dashboard are the lengths of the two lists of the low-stock
    report; the number of parts is the number of items of the stock value;
    and the two counts together never exceed the number of parts. *)
Theorem dashboard_agrees_with_report (db : DB) :
  minStockValid db ->
  let stats := dashboardStats db in
  exists out low,
    snd (Catalogue.getLowStockItems db)
    = Success "Low stock items fetched successfully" (mkLowStockData out low)
    /\ outOfStockCount stats = length out
    /\ lowStockCount stats = length low
    /\ totalParts stats = totalItems (getTotalStockValue db)
    /\ (lowStockCount stats + outOfStockCount stats <= totalParts stats)%nat.
Proof.
  intros M stats. subst stats. unfold Catalogue.getLowStockItems, dashboardStats.
  cbn [snd outOfStockCount lowStockCount totalParts].
  eexists _, _. split; [reflexivity|]. unfold countDocuments.
  split; [|split; [|split]].
  - rewrite (Permutation_length
               (filter_perm _ _ _ (merge_sort_Permutation _ _))).
    rewrite filter_filter. f_equal. apply filter_ext_in.
    intros [id sp] I. apply list_elem_of_In, elem_of_items in I.
    pose proof (M _ _ I). cbn [snd].
    destruct (isActive sp); [cbn|reflexivity].
    destruct (currentStock sp =? 0) eqn:Z;
      [|symmetry; apply andb_false_r].
    rewrite andb_true_r. symmetry. apply Z.leb_le. lia.
  - rewrite (Permutation_length
               (filter_perm _ _ _ (merge_sort_Permutation _ _))).
    rewrite filter_filter. f_equal. apply filter_ext.
    intros [id sp]. cbn [snd]. rewrite andb_assoc. reflexivity.
  - unfold getTotalStockValue.
    destruct (value_fold
                (snd <$> List.filter (fun entry => isActive (snd entry))
                           (items db)) (mkStockValue 0 0 0 0))
      as (_ & N & _).
    rewrite N. cbn [totalItems]. rewrite length_fmap. reflexivity.
  - apply (disjoint_counts
             (fun entry : Id * Inventory =>
                isActive (snd entry)
                && ((currentStock (snd entry) <=? minStock (snd entry))
                    && (0 <? currentStock (snd entry))))
             (fun entry => isActive (snd entry)
                           && (currentStock (snd entry) =? 0))
             (fun entry => isActive (snd entry))).
    + intros [id sp]. cbn [snd]. rewrite !andb_true_iff.
      intros (-> & _ & P). split; [reflexivity|]. cbn. lia.
    + intros [id sp]. cbn [snd]. rewrite andb_true_iff. tauto.
Qed.

(** The theorem at the two-part store: part 1 is at its minimum of 5,
    part 2 is above its minimum; one part is low and none is out of
    stock. *)
Lemma dashboard_agrees_with_report_witness :
  minStockValid twoParts
  /\ lowStockCount (dashboardStats twoParts) = 1%nat
  /\ outOfStockCount (dashboardStats twoParts) = 0%nat
  /\ totalParts (dashboardStats twoParts) = 2%nat.
Proof.
  assert (M : minStockValid twoParts).
  { intros id sp L. unfold twoParts in L. cbn [inventory] in L.
    apply lookup_insert_Some in L. destruct L as [(_ & <-)|(_ & L)]; [cbn; lia|].
    apply lookup_singleton_Some in L. destruct L as (_ & <-). cbn. lia. }
  split; [exact M|].
  destruct (dashboard_agrees_with_report twoParts M)
    as (out & low & R & O & L & T & _).
  vm_compute in R. injection R as <- <-.
  rewrite O, L. split; [reflexivity|]. split; [reflexivity|].
  vm_compute. reflexivity.
Defined.

Lemma items_replaced (db db' : DB) (id : Id) (sp sp' : Inventory) :
  inventory db !! id = Some sp ->
  inventory db' = <[id := sp']> (inventory db) ->
  exists rest, items db ≡ₚ (id, sp) :: rest /\ items db' ≡ₚ (id, sp') :: rest.
Proof.
  intros L E. exists (map_to_list (delete id (inventory db))). split.
  - symmetry. apply map_to_list_delete. exact L.
  - unfold items. rewrite E, <- insert_delete_eq.
    apply map_to_list_insert. apply lookup_delete_eq.
Qed.

Lemma sumZ_perm (l1 l2 : list Z) :
  l1 ≡ₚ l2 -> foldr Z.add 0 l1 = foldr Z.add 0 l2.
Proof.
  induction 1 as [|x l1 l2 P IH|x y l|l1 l2 l3 P1 IH1 P2 IH2]; cbn; lia.
Qed.

(** The stock value of a collection is the value of one of its items
    plus the value of the others. *)
Lemma value_split (l rest : list (Id * Inventory)) (id : Id) (sp : Inventory) :
  l ≡ₚ (id, sp) :: rest ->
  let active (l : list (Id * Inventory)) :=
    snd <$> List.filter (fun entry => isActive (snd entry)) l in
  let v := fold_left addToValue (active l) (mkStockValue 0 0 0 0) in
  let r := fold_left addToValue (active rest) (mkStockValue 0 0 0 0) in
  totalStock v = totalStock r + totalStock (valueOf sp)
  /\ totalItems v = (totalItems r + totalItems (valueOf sp))%nat
  /\ (totalCostValue v == totalCostValue r + totalCostValue (valueOf sp))%Q
  /\ (totalSellingValue v
      == totalSellingValue r + totalSellingValue (valueOf sp))%Q.
Proof.
  intros P active v r. subst v r.
  destruct (value_fold (active l) (mkStockValue 0 0 0 0)) as (S1 & N1 & C1 & P1).
  destruct (value_fold (active rest) (mkStockValue 0 0 0 0))
    as (S2 & N2 & C2 & P2).
  cbv zeta in *. rewrite S1, N1, C1, P1, S2, N2, C2, P2. clear S1 N1 C1 P1 S2 N2 C2 P2.
  assert (A : active l ≡ₚ active ((id, sp) :: rest)).
  { subst active. cbv beta. apply fmap_Permutation, filter_perm. exact P. }
  rewrite (sumZ_perm _ _ (fmap_Permutation currentStock _ _ A)).
  rewrite (Permutation_length A).
  rewrite (CollectionFacts.sumQ_perm _ _ (fmap_Permutation _ _ _ A)).
  rewrite (CollectionFacts.sumQ_perm _ _
             (fmap_Permutation
                (fun sp => inject_Z (currentStock sp) * sellingPrice sp)%Q
                _ _ A)).
  subst active. cbn [List.filter snd]. unfold valueOf, BillingSpec.sumQ.
  destruct (isActive sp); cbn.
  - split; [lia|]. split; [lia|]. split; ring.
  - split; [lia|]. split; [lia|]. split; ring.
Qed.

(** Replacing one stored item changes the stock value by the difference
    of the values of the two items. *)
Lemma value_replaced (db db' : DB) (id : Id) (sp sp' : Inventory) :
  inventory db !! id = Some sp ->
  inventory db' = <[id := sp']> (inventory db) ->
  totalStock (getTotalStockValue db')
  = totalStock (getTotalStockValue db) - totalStock (valueOf sp)
    + totalStock (valueOf sp')
  /\ (totalItems (getTotalStockValue db') + totalItems (valueOf sp)
      = totalItems (getTotalStockValue db) + totalItems (valueOf sp'))%nat
  /\ (totalCostValue (getTotalStockValue db')
      == totalCostValue (getTotalStockValue db) - totalCostValue (valueOf sp)
         + totalCostValue (valueOf sp'))%Q
  /\ (totalSellingValue (getTotalStockValue db')
      == totalSellingValue (getTotalStockValue db)
         - totalSellingValue (valueOf sp) + totalSellingValue (valueOf sp'))%Q.
Proof.
  intros L E. destruct (items_replaced db db' id sp sp' L E) as (rest & P & P').
  destruct (value_split _ _ _ _ P) as (S & N & C & V).
  destruct (value_split _ _ _ _ P') as (S' & N' & C' & V').
  unfold getTotalStockValue. cbv zeta in *.
  rewrite S, N, C, V, S', N', C', V'.
  split; [lia|]. split; [lia|]. split; ring.
Qed.

Lemma totalParts_totalItems (db : DB) :
  totalParts (dashboardStats db) = totalItems (getTotalStockValue db).
Proof.
  unfold dashboardStats, countDocuments, getTotalStockValue. cbn [totalParts].
  destruct (value_fold
              (snd <$> List.filter (fun entry => isActive (snd entry))
                         (items db)) (mkStockValue 0 0 0 0))
    as (_ & N & _).
  rewrite N. cbn [totalItems]. rewrite length_fmap. reflexivity.
Qed.

Lemma addStock_success id body userId now db sp db' msg r :
  inventory db !! id = Some sp ->
  addStock id body userId now db = (db', Success msg r) ->
  Js.castNumber (Js.plus (currentStock sp) (as_quantity body))
  = Some (sr_newStock r)
  /\ inventory db'
     = <[id := set_stock (sr_newStock r) (Some now) None sp]> (inventory db).
Proof.
  intros L. unfold addStock.
  destruct (_ || _); [discriminate|].
  unfold inSession. unfold mbind at 1. unfold Tx_bind at 1.
  unfold findById at 1. rewrite L.
  destruct (Js.castNumber (Js.plus (currentStock sp) (as_quantity body)))
    as [n|] eqn:C.
  2:{ unfold saveStock. rewrite C. unfold mbind, Tx_bind, throw. discriminate. }
  rewrite (StockFacts.saveStock_run _ _ n) by exact C.
  destruct (Js.castNumber (as_quantity body)) as [q|].
  2:{ unfold mbind, Tx_bind, save, throw.
      destruct (_ <? 0); discriminate. }
  rewrite StockFacts.save_create_run.
  destruct (_ <? 0); [discriminate|].
  destruct (negb _); [discriminate|].
  destruct (negb _); [discriminate|].
  destruct (bool_decide _); [discriminate|].
  intros H. injection H as <- _ <-.
  split; reflexivity.
Qed.

(** Soft delete.  Deleting a stored part succeeds and only clears its
    [isActive] flag: the part stays stored with the stock it had, no
    stock level changes and the ledger is untouched, so the invariant of
    the stock engine is kept.  The part no longer shows in the low-stock
    report.  The stock handlers do not look at the flag: on a store that
    is well formed and whose ledger is numbered, a restock of the deleted
    part by a quantity that is a JSON number still succeeds and raises
    its stock by that quantity. *)
Theorem soft_delete (db : DB) (id : Id) (sp : Inventory) :
  inventory db !! id = Some sp ->
  exists sp' db',
    deleteSparePart id db
    = (db', Success "Spare part deleted successfully" tt)
    /\ inventory db' = <[id := sp']> (inventory db)
    /\ isActive sp' = false /\ currentStock sp' = currentStock sp
    /\ transactions db' = transactions db
    /\ (forall p, stockOf p db' = stockOf p db)
    /\ (Inv db -> Inv db')
    /\ (forall out low,
          snd (Catalogue.getLowStockItems db')
          = Success "Low stock items fetched successfully"
              (mkLowStockData out low) ->
          forall e, e ∈ out ++ low -> fst e <> id)
    /\ (wellFormed db -> numbered (transactions db) ->
        forall q notes userId now, 0 < q ->
          exists db2 r,
            addStock id (mkAddStockBody (Js.JNumber q) None notes) userId now
              db'
            = (db2, Success "Stock added successfully" r)
            /\ sr_newStock r = currentStock sp + q
            /\ stockOf id db2 = currentStock sp + q).
Proof.
  intros L. unfold deleteSparePart. rewrite L.
  set (sp' := mkInventory (name sp) (currentStock sp) (minStock sp)
                (maxStock sp) (costPrice sp) (sellingPrice sp) false
                (lastRestocked sp) (lastUsed sp)).
  set (db' := set_inventory (<[id := sp']> (inventory db)) db).
  assert (Li : inventory db' = <[id := sp']> (inventory db)) by reflexivity.
  assert (Lt : transactions db' = transactions db) by reflexivity.
  assert (St : forall p, stockOf p db' = stockOf p db).
  { intros p. unfold stockOf. rewrite Li.
    destruct (decide (id = p)) as [<-|N].
    - rewrite lookup_insert_eq, L. reflexivity.
    - rewrite lookup_insert_ne by exact N. reflexivity. }
  assert (Wf : wellFormed db -> wellFormed db').
  { intros W i x Hx. rewrite Li in Hx.
    destruct (decide (id = i)) as [<-|N].
    - rewrite lookup_insert_eq in Hx. injection Hx as <-. exact (W _ _ L).
    - rewrite lookup_insert_ne in Hx by exact N. exact (W _ _ Hx). }
  exists sp', db'. split; [reflexivity|]. split; [exact Li|].
  split; [reflexivity|]. split; [reflexivity|]. split; [exact Lt|].
  split; [exact St|]. split; [|split].
  - intros (W & B & O & C). split; [exact (Wf W)|]. split; [|split].
    + intros t Ht. rewrite Lt in Ht. exact (B t Ht).
    + intros t Ht. rewrite Lt in Ht. rewrite Li.
      destruct (decide (id = tx_inventory t)) as [<-|N].
      * rewrite lookup_insert_eq. eauto.
      * rewrite lookup_insert_ne by exact N. exact (O t Ht).
    + intros i x first rest Hx He. rewrite Lt in He. rewrite Li in Hx.
      destruct (decide (id = i)) as [<-|N].
      * rewrite lookup_insert_eq in Hx. injection Hx as <-.
        exact (C _ _ _ _ L He).
      * rewrite lookup_insert_ne in Hx by exact N. exact (C _ _ _ _ Hx He).
  - intros out low R e He Ee. unfold Catalogue.getLowStockItems in R.
    cbn [snd] in R. injection R as <- <-.
    assert (I : e ∈ items db' /\ isActive (snd e) = true).
    { apply elem_of_app in He.
      destruct He as [He|He];
        apply AssignmentFacts.elem_of_List_filter in He;
        destruct He as (He & _);
        rewrite merge_sort_Permutation in He;
        apply AssignmentFacts.elem_of_List_filter in He;
        destruct He as (He & A); apply andb_true_iff in A; tauto. }
    destruct I as (I & A). destruct e as [i x]. cbn in Ee, A. subst i.
    apply elem_of_items in I. rewrite Li, lookup_insert_eq in I.
    injection I as <-. discriminate.
  - intros W N q notes userId now Hq. unfold addStock.
    cbn [as_quantity as_unitPrice as_notes Js.truthy Js.lez Js.toNumber].
    destruct (negb (negb (q =? 0)) || (q <=? 0)) eqn:Q.
    { apply orb_true_iff in Q. destruct Q as [Q|Q]; [|lia].
      rewrite negb_involutive in Q. lia. }
    unfold inSession. unfold mbind at 1. unfold Tx_bind at 1.
    unfold findById at 1. rewrite Li, lookup_insert_eq.
    cbn [Js.plus].
    rewrite (StockFacts.saveStock_run _ _ (currentStock sp' + q))
      by reflexivity.
    cbn [Js.castNumber].
    rewrite StockFacts.save_create_run.
    destruct (W _ _ L) as (Hs & _ & Hc).
    cbn [currentStock set_stock sp'].
    destruct (currentStock sp + q <? 0) eqn:Neg; [lia|].
    cbn [nt_unitPrice nt_totalAmount orCostPrice costPrice set_stock].
    change (costPrice sp') with (costPrice sp).
    destruct (StockFacts.price_checks_pass q (costPrice sp)) as [P1 P2];
      [lia|exact Hc|].
    rewrite P1, P2.
    rewrite (bool_decide_eq_false_2 _ (StockFacts.numbered_fresh now _ N)).
    eexists _, _. split; [reflexivity|].
    split; [reflexivity|]. apply StockFacts.stockOf_moved_same.
Qed.

(** The theorem at part 1 of the two-part store, which is at its
    minimum: after the delete it is stored with its 5 in stock and is
    inactive. *)
Lemma soft_delete_witness :
  inventory twoParts !! 1%positive
  = Some (mkInventory "Oil filter" 5 5 100 100 150 true None None)
  /\ stockOf 1%positive (fst (deleteSparePart 1%positive twoParts)) = 5
  /\ exists sp',
       inventory (fst (deleteSparePart 1%positive twoParts)) !! 1%positive
       = Some sp'
       /\ isActive sp' = false.
Proof.
  assert (L : inventory twoParts !! 1%positive
              = Some (mkInventory "Oil filter" 5 5 100 100 150 true None None))
    by (vm_compute; reflexivity).
  split; [exact L|].
  destruct (soft_delete twoParts 1%positive _ L)
    as (sp' & db' & R & Li & A & _ & _ & St & _).
  rewrite R. cbn [fst]. split.
  - rewrite St. vm_compute. reflexivity.
  - exists sp'. split; [|exact A]. rewrite Li. apply lookup_insert_eq.
Defined.

(** The dashboard follows the stock.  For a stored, active part: after a
    successful [addStock] the stock units of the dashboard have grown by
    what the stock of the part has grown by, from the previous to the new
    stock that the handler reports (the added quantity, when it came as a
    JSON number), the stock value by that growth at the cost price of the
    part and the selling value by that growth at its selling price, and
    the number of parts is the same; after its delete the
    number of parts has dropped by one, the stock units by the stock of
    the part and the stock value by that stock at the cost price. *)
Theorem dashboard_follows_stock (db : DB) (id : Id) (sp : Inventory) :
  inventory db !! id = Some sp -> isActive sp = true ->
  (forall body userId now db' msg r,
      addStock id body userId now db = (db', Success msg r) ->
      let added := sr_newStock r - currentStock sp in
      totalStockUnits (dashboardStats db')
      = totalStockUnits (dashboardStats db) + added
      /\ (totalStockValue (dashboardStats db')
          == totalStockValue (dashboardStats db)
             + inject_Z added * costPrice sp)%Q
      /\ (ds_totalSellingValue (dashboardStats db')
          == ds_totalSellingValue (dashboardStats db)
             + inject_Z added * sellingPrice sp)%Q
      /\ totalParts (dashboardStats db') = totalParts (dashboardStats db)
      /\ (forall q, as_quantity body = Js.JNumber q -> added = q))
  /\ (let db' := fst (deleteSparePart id db) in
      (totalParts (dashboardStats db') + 1 = totalParts (dashboardStats db))%nat
      /\ totalStockUnits (dashboardStats db')
         = totalStockUnits (dashboardStats db) - currentStock sp
      /\ (totalStockValue (dashboardStats db')
          == totalStockValue (dashboardStats db)
             - inject_Z (currentStock sp) * costPrice sp)%Q).
Proof.
  intros L A. split.
  - intros body userId now db' msg r H added.
    destruct (addStock_success _ _ _ _ _ _ _ _ _ L H) as (Cn & E).
    destruct (value_replaced db db' id sp _ L E) as (S & N & C & V).
    rewrite !totalParts_totalItems.
    unfold dashboardStats.
    cbn [totalStockUnits totalStockValue ds_totalSellingValue].
    unfold valueOf in S, N, C, V. cbn [isActive set_stock] in S, N, C, V.
    rewrite A in S, N, C, V. cbn in S, N, C, V.
    split; [subst added; lia|]. split; [|split; [|split; [lia|]]].
    + rewrite C. subst added. unfold Zminus.
      rewrite inject_Z_plus, inject_Z_opp. ring.
    + rewrite V. subst added. unfold Zminus.
      rewrite inject_Z_plus, inject_Z_opp. ring.
    + intros q Hq. rewrite Hq in Cn. cbn in Cn. injection Cn as Cn.
      subst added. lia.
  - cbv zeta. unfold deleteSparePart. rewrite L. cbn [fst].
    set (db' := set_inventory _ db).
    destruct (value_replaced db db' id sp _ L eq_refl) as (S & N & C & _).
    rewrite !totalParts_totalItems.
    unfold dashboardStats. cbn [totalStockUnits totalStockValue].
    unfold valueOf in S, N, C. cbn [isActive] in S, N, C.
    rewrite A in S, N, C. cbn in S, N, C.
    split; [lia|]. split; [lia|]. rewrite C. ring.
Qed.

(** The theorem at part 1 of the two-part store (5 in stock at cost 100):
    after its delete the dashboard counts one part and 10 units. *)
Lemma dashboard_follows_stock_witness :
  inventory twoParts !! 1%positive
  = Some (mkInventory "Oil filter" 5 5 100 100 150 true None None)
  /\ totalParts (dashboardStats twoParts) = 2%nat
  /\ totalParts (dashboardStats (fst (deleteSparePart 1%positive twoParts)))
     = 1%nat
  /\ totalStockUnits
       (dashboardStats (fst (deleteSparePart 1%positive twoParts)))
     = 10.
Proof.
  assert (L : inventory twoParts !! 1%positive
              = Some (mkInventory "Oil filter" 5 5 100 100 150 true None None))
    by (vm_compute; reflexivity).
  split; [exact L|].
  assert (T : totalParts (dashboardStats twoParts) = 2%nat)
    by (vm_compute; reflexivity).
  split; [exact T|].
  destruct (proj2 (dashboard_follows_stock twoParts 1%positive _ L eq_refl))
    as (N & S & _).
  split; [lia|]. rewrite S. vm_compute. reflexivity.
Defined.

(** The theorem at the two-part store: part 1, at its minimum of 5, is
    the one low-stock item and nothing is out of stock. *)
Lemma low_stock_report_witness :
  wellFormed twoParts
  /\ exists low,
       Catalogue.getLowStockItems twoParts
       = (twoParts, Success "Low stock items fetched successfully"
                      (mkLowStockData [] low))
       /\ fst <$> low = [1%positive].
Proof.
  pose proof StockFacts.wellFormed_twoParts as W.
  split; [exact W|].
  destruct (low_stock_report twoParts W) as (out & low & R & _).
  assert (E : snd (Catalogue.getLowStockItems twoParts)
              = Success "Low stock items fetched successfully"
                  (mkLowStockData out low)) by (rewrite R; reflexivity).
  vm_compute in E. injection E as <- <-.
  eexists. split; [exact R|]. reflexivity.
Defined.

End CatalogueFacts.

(* ===================================================================== *)
(** * Properties of the admin update of a payment *)
(* ===================================================================== *)

Module AdminPaymentFacts.
Import Num PaymentModel PaymentController JobCardController PaymentLedger
  Checkout.
Import Scenarios Cases.

Lemma replace_absent (p : Payment) (ps : list Payment) :
  (pay_id p ∉ (pay_id <$> ps)) ->
  List.map (fun q => if decide (pay_id q = pay_id p) then p else q) ps = ps.
Proof.
  induction ps as [|r ps IH]; intros Np; [reflexivity|]. cbn.
  destruct (decide (pay_id r = pay_id p)) as [C|C].
  - exfalso. apply Np. rewrite <- C. cbn. left.
  - f_equal. apply IH. intros H. apply Np. cbn. right. exact H.
Qed.

Lemma replace_same (p : Payment) (ps : list Payment) :
  NoDup (pay_id <$> ps) -> p ∈ ps ->
  List.map (fun q => if decide (pay_id q = pay_id p) then p else q) ps = ps.
Proof.
  induction ps as [|q ps IH]; intros N I; [reflexivity|].
  cbn in N. apply NoDup_cons in N. destruct N as (Nq & N). cbn.
  apply elem_of_cons in I. destruct I as [<-|I].
  - destruct (decide (pay_id p = pay_id p)) as [_|C]; [|contradiction].
    f_equal. apply replace_absent. exact Nq.
  - destruct (decide (pay_id q = pay_id p)) as [C|C].
    + exfalso. apply Nq. rewrite C. apply list_elem_of_fmap. eauto.
    + f_equal. apply IH; assumption.
Qed.

(** Saving a stored payment unchanged leaves the database as it was. *)
Lemma savePayment_same (p : Payment) (db : DB) :
  NoDup (pay_id <$> payments db) -> p ∈ payments db -> savePayment p db = db.
Proof.
  intros N I. unfold savePayment. rewrite (replace_same p _ N I).
  destruct db. reflexivity.
Qed.

(** Updating a payment.  On a database whose payments have distinct ids,
    [updatePayment] answers 404 for an unknown id and changes nothing.
    For a stored payment it succeeds whatever the body holds: the status
    becomes the requested one, if any, without any check of the balance;
    the transaction id and the notes are replaced when given non-empty;
    the id, amount, type, method, job card, customer and checkout of the
    payment are kept and no other payment is touched, added or removed.
    The paid total of every job card changes by the difference between
    what the payment added before and adds now, and a body without a
    status, a transaction id or notes changes nothing. *)
Theorem updatePayment_effect (db : DB) (id : Id) (body : UpdatePaymentBody) :
  NoDup (pay_id <$> payments db) ->
  (findById id (payments db) = None ->
   updatePayment id body db = (db, Failure (notFound "Payment not found")))
  /\ (forall p, findById id (payments db) = Some p ->
      exists p' db',
        updatePayment id body db
        = (db', Success "Payment updated successfully" p')
        /\ findById id (payments db') = Some p'
        /\ pay_id <$> payments db' = pay_id <$> payments db
        /\ (forall q, q ∈ payments db' -> q = p' \/ q ∈ payments db)
        /\ pay_id p' = id /\ amount p' = amount p
        /\ paymentType p' = paymentType p
        /\ paymentMethod p' = paymentMethod p
        /\ pay_jobCard p' = pay_jobCard p /\ pay_customer p' = pay_customer p
        /\ checkout p' = checkout p
        /\ pay_status p' = default (pay_status p) (up_status body)
        /\ (forall t, truthyString (up_transactionId body) = Some t ->
              transactionId p' = Some t)
        /\ (forall n, truthyString (up_notes body) = Some n ->
              pay_notes p' = Some n)
        /\ (forall j, (totalPaid j (payments db')
                       == totalPaid j (payments db) - contribution j p
                          + contribution j p')%Q)
        /\ (up_status body = None ->
            truthyString (up_transactionId body) = None ->
            truthyString (up_notes body) = None ->
            p' = p /\ db' = db)).
Proof.
  intros N. unfold updatePayment. split.
  - intros F. rewrite F. reflexivity.
  - intros p F. rewrite F.
    destruct (PaymentFacts.findById_Some _ _ _ F) as (Ei & Ip).
    set (p' := mkPayment _ _ _ _ _ _ _ _ _ _ _ _ _ _ _).
    assert (Eid : pay_id p' = pay_id p) by reflexivity.
    exists p', (savePayment p' db). split; [reflexivity|].
    split.
    { rewrite <- Ei, <- Eid. apply (CheckoutFacts.findById_saved p' p).
      rewrite Eid, Ei. exact F. }
    split; [apply CheckoutFacts.savePayment_ids|].
    split.
    { intros q Hq. apply CheckoutFacts.savePayment_elem in Hq. tauto. }
    split; [rewrite Eid; exact Ei|].
    do 7 (split; [reflexivity|]).
    split.
    { intros t Ht. subst p'. cbn [transactionId]. rewrite Ht. reflexivity. }
    split.
    { intros n Hn. subst p'. cbn [pay_notes]. rewrite Hn. reflexivity. }
    split.
    { intros j. apply LedgerFacts.totalPaid_saved; assumption. }
    intros Hs Ht Hn.
    assert (E : p' = p).
    { subst p'. rewrite Hs, Ht, Hn. destruct p. reflexivity. }
    split; [exact E|]. rewrite E. apply savePayment_same; assumption.
Qed.

(** The theorem at the payment awaiting checkout: the admin marks it
    completed, and its 212.40 count toward the paid total of job card 1
    without any verification by the gateway. *)
Lemma updatePayment_effect_witness :
  let db := jobWith ready [awaitingCheckout "tok"] in
  NoDup (pay_id <$> payments db)
  /\ exists p' db',
       updatePayment 3%positive (mkUpdatePaymentBody (Some completed) None None)
         db
       = (db', Success "Payment updated successfully" p')
       /\ pay_status p' = completed
       /\ (totalPaid 1%positive (payments db') == 1062 # 5)%Q.
Proof.
  intros db.
  assert (N : NoDup (pay_id <$> payments db)) by (cbn; apply NoDup_singleton).
  split; [exact N|].
  destruct (proj2 (updatePayment_effect db 3%positive
                     (mkUpdatePaymentBody (Some completed) None None) N)
              (awaitingCheckout "tok") eq_refl)
    as (p' & db' & R & _ & _ & _ & _ & A & T & _ & J & _ & _ & S & _ & _ & P & _).
  exists p', db'. split; [exact R|]. split; [exact S|].
  rewrite (P 1%positive). unfold contribution.
  rewrite J, S, T, A. vm_compute. reflexivity.
Defined.

End AdminPaymentFacts.
